(** * NumPy datetime strings: ISO 8601 parsing and formatting

    A shallow embedding of [numpy/core/src/multiarray/datetime_strings.c]:
    [parse_iso_8601_datetime], [get_datetime_iso_8601_strlen] and
    [make_iso_8601_datetime], followed by the properties of the
    specification that concern them. *)

From Stdlib Require Import ZArith List String Ascii Bool Lia.
From stdpp Require Import base list.
Import ListNotations.
Open Scope Z_scope.

(** ** Characters and machine integers *)

(** A C string is the list of the bytes before its terminator; reading the
    cell just behind the last byte yields the terminator 0. *)
Definition cstr (s : string) : list Z :=
  map (fun a => Z.of_nat (nat_of_ascii a)) (list_ascii_of_string s).

Local Notation "'c_NUL'" := 0 (only parsing).
Local Notation "'c_space'" := 32 (only parsing).
Local Notation "'c_plus'" := 43 (only parsing).
Local Notation "'c_dash'" := 45 (only parsing).
Local Notation "'c_dot'" := 46 (only parsing).
Local Notation "'c_0'" := 48 (only parsing).
Local Notation "'c_colon'" := 58 (only parsing).
Local Notation "'c_N'" := 78 (only parsing).
Local Notation "'c_T'" := 84 (only parsing).
Local Notation "'c_Z'" := 90 (only parsing).
Local Notation "'c_a'" := 97 (only parsing).
Local Notation "'c_d'" := 100 (only parsing).
Local Notation "'c_n'" := 110 (only parsing).
Local Notation "'c_o'" := 111 (only parsing).
Local Notation "'c_t'" := 116 (only parsing).
Local Notation "'c_w'" := 119 (only parsing).
Local Notation "'c_y'" := 121 (only parsing).

(** <ctype.h> in the "C" locale. *)
Definition isspace (c : Z) : bool := (c =? 32) || ((9 <=? c) && (c <=? 13)).
Definition isdigit (c : Z) : bool := (48 <=? c) && (c <=? 57).
Definition tolower (c : Z) : Z := if (65 <=? c) && (c <=? 90) then c + 32 else c.

(** The cursor length of both scanners is declared [char *substr, sublen;]:
    [sublen] is a plain [char], taken as the signed 8-bit type it is on the
    usual ABIs.  Every value assigned to it keeps its low eight bits. *)
Definition to_char (z : Z) : Z := (z + 128) mod 256 - 128.

(** [npy_int64] arithmetic, two's complement. *)
Definition to_int64 (z : Z) : Z := (z + 2 ^ 63) mod 2 ^ 64 - 2 ^ 63.

Definition NPY_MIN_INT64 : Z := - 2 ^ 63.
Definition NPY_DATETIME_NAT : Z := NPY_MIN_INT64.

(** ** The data model *)

(** [NPY_DATETIMEUNIT], declared in ndarraytypes.h.  A unit argument of
    [-1] ("unknown" for the parser, "auto-detect" for the formatter) is
    [None] of [option NPY_DATETIMEUNIT]. *)
Inductive NPY_DATETIMEUNIT : Set :=
  | NPY_FR_Y | NPY_FR_M | NPY_FR_W | NPY_FR_D
  | NPY_FR_h | NPY_FR_m | NPY_FR_s
  | NPY_FR_ms | NPY_FR_us | NPY_FR_ns | NPY_FR_ps | NPY_FR_fs | NPY_FR_as
  | NPY_FR_GENERIC.

(** The enumerators' integer values, which the code compares with [<], [>]
    and [>=]. *)
Definition unit_code (u : NPY_DATETIMEUNIT) : Z :=
  match u with
  | NPY_FR_Y => 0 | NPY_FR_M => 1 | NPY_FR_W => 2 | NPY_FR_D => 3
  | NPY_FR_h => 4 | NPY_FR_m => 5 | NPY_FR_s => 6
  | NPY_FR_ms => 7 | NPY_FR_us => 8 | NPY_FR_ns => 9 | NPY_FR_ps => 10
  | NPY_FR_fs => 11 | NPY_FR_as => 12
  | NPY_FR_GENERIC => 13
  end.

Definition unit_eqb (u v : NPY_DATETIMEUNIT) : bool := unit_code u =? unit_code v.

(** [NPY_CASTING]; the scanners only hand it on to the casting predicate. *)
Inductive NPY_CASTING : Set :=
  | NPY_NO_CASTING | NPY_EQUIV_CASTING | NPY_SAFE_CASTING
  | NPY_SAME_KIND_CASTING | NPY_UNSAFE_CASTING.

(** [npy_datetimestruct]: an [npy_int64] year and [npy_int32] fields. *)
Record npy_datetimestruct : Set := mk_dts {
  year : Z; month : Z; day : Z;
  hour : Z; min : Z; sec : Z;
  us : Z; ps : Z; as_ : Z
}.

(** The fields of [struct tm] that the code reads or writes. *)
Record tm : Set := mk_tm {
  tm_sec : Z; tm_min : Z; tm_hour : Z;
  tm_mday : Z; tm_mon : Z; tm_year : Z; tm_isdst : Z
}.

(** What the file calls and does not define: the C library's clock and
    time-zone functions, and the calendar and casting helpers of
    _datetime.h. *)
Record Host : Type := mk_host {
  (** [time(&rawtime)] *)
  time : Z;
  (** [localtime_r] / [localtime_s]; [None] when the call fails *)
  localtime_r : Z -> option tm;
  (** [gmtime_r] / [gmtime_s]; [None] when the call fails *)
  gmtime_r : Z -> option tm;
  (** [mktime], [-1] on failure *)
  mktime : tm -> Z;
  can_cast_datetime64_units :
    NPY_DATETIMEUNIT -> NPY_DATETIMEUNIT -> NPY_CASTING -> bool;
  add_minutes_to_datetimestruct : npy_datetimestruct -> Z -> npy_datetimestruct;
  get_datetimestruct_days : npy_datetimestruct -> Z;
  (** [convert_datetime_to_datetimestruct] at metadata [(base, num)];
      [None] when it returns [-1] *)
  convert_datetime_to_datetimestruct :
    NPY_DATETIMEUNIT -> Z -> Z -> npy_datetimestruct -> option npy_datetimestruct
}.

(** Modelled from the spec: the leap-year test [is_leapyear] of the calendar
    library (_datetime.h), the Gregorian rule. *)
Definition is_leapyear (y : Z) : bool :=
  (Z.land y 3 =? 0) && (negb (y mod 100 =? 0) || (y mod 400 =? 0)).

(** Modelled from the spec: the days-per-month table
    [_days_per_month_table] of the calendar library, indexed by leap flag and
    by month - 1. *)
Definition _days_per_month_table (leap : bool) (i : Z) : Z :=
  nth (Z.to_nat i)
      (if leap then [31; 29; 31; 30; 31; 30; 31; 31; 30; 31; 30; 31]
       else [31; 28; 31; 30; 31; 30; 31; 31; 30; 31; 30; 31]) 0.

(** ** The parser *)

Inductive field : Set :=
  | Month | Day | Hours | Minutes | Seconds
  | TimezoneHours | TimezoneMinutes.

(** The ways [parse_iso_8601_datetime] returns [-1], by the exception it
    sets. *)
Inductive parse_failure : Set :=
  (** "Cannot create a NumPy datetime other than NaT with generic units" *)
  | GenericUnits
  (** "Special value 'today' can only be converted ... with 'D' or larger
      units" *)
  | TodayUnits
  (** an [OSError] from localtime, mktime or gmtime *)
  | ClockFailure
  (** "Error parsing datetime string ... at position %d" *)
  | ParseErrorAt (position : Z)
  (** "... out of range in datetime string" *)
  | OutOfRange (f : field)
  (** "Cannot parse ... as unit ... using casting rule ..." *)
  | CannotCast (detected requested : NPY_DATETIMEUNIT) (rule : NPY_CASTING)
  (** [convert_datetime_to_datetimestruct] failed *)
  | ConvertFailure.

(** The out-parameters after a return of [0].  [out_local] is [None] when
    the call never assigned [*out_local]. *)
Record parsed : Set := mk_parsed {
  out : npy_datetimestruct;
  out_local : option bool;
  out_bestunit : NPY_DATETIMEUNIT;
  out_special : bool
}.

Inductive parse_result : Set :=
  | Parsed (p : parsed)
  | Failed (e : parse_failure).

(** The locals of the general path: the struct being filled, whether
    [*out_local] has been assigned, [year_leap], and the cursor
    [(substr, sublen)] with the offset [substr - str]. *)
Record scanner : Set := mk_scanner {
  dts : npy_datetimestruct;
  local : option bool;
  year_leap : bool;
  substr : list Z;
  sublen : Z;
  offset : Z
}.

(** Where control goes after a stage: on to the next statement, or to one
    of the labels. *)
Inductive flow : Set :=
  | Next (s : scanner)
  | goto_finish (s : scanner) (bestunit : NPY_DATETIMEUNIT)
  | goto_parse_timezone (s : scanner) (bestunit : NPY_DATETIMEUNIT)
  | goto_parse_error (s : scanner)
  | goto_error (e : parse_failure).

Definition and_then (f g : scanner -> flow) (s : scanner) : flow :=
  match f s with
  | Next s' => g s'
  | other => other
  end.

Notation "f >>> g" := (and_then f g) (at level 61, left associativity).

(** [substr[k]] *)
Definition peek (s : scanner) (k : nat) : Z := nth k (substr s) c_NUL.

(** [substr += n; sublen -= n;] *)
Definition advance (n : nat) (s : scanner) : scanner :=
  mk_scanner (dts s) (local s) (year_leap s)
             (drop n (substr s)) (to_char (sublen s - Z.of_nat n))
             (offset s + Z.of_nat n).

Definition set_dts (d : npy_datetimestruct) (s : scanner) : scanner :=
  mk_scanner d (local s) (year_leap s) (substr s) (sublen s) (offset s).

Definition set_local (b : bool) (s : scanner) : scanner :=
  mk_scanner (dts s) (Some b) (year_leap s) (substr s) (sublen s) (offset s).

Definition set_year_leap (b : bool) (s : scanner) : scanner :=
  mk_scanner (dts s) (local s) b (substr s) (sublen s) (offset s).

Definition with_year (d : npy_datetimestruct) (v : Z) : npy_datetimestruct :=
  mk_dts v (month d) (day d) (hour d) (min d) (sec d) (us d) (ps d) (as_ d).
Definition with_month (d : npy_datetimestruct) (v : Z) : npy_datetimestruct :=
  mk_dts (year d) v (day d) (hour d) (min d) (sec d) (us d) (ps d) (as_ d).
Definition with_day (d : npy_datetimestruct) (v : Z) : npy_datetimestruct :=
  mk_dts (year d) (month d) v (hour d) (min d) (sec d) (us d) (ps d) (as_ d).
Definition with_hour (d : npy_datetimestruct) (v : Z) : npy_datetimestruct :=
  mk_dts (year d) (month d) (day d) v (min d) (sec d) (us d) (ps d) (as_ d).
Definition with_min (d : npy_datetimestruct) (v : Z) : npy_datetimestruct :=
  mk_dts (year d) (month d) (day d) (hour d) v (sec d) (us d) (ps d) (as_ d).
Definition with_sec (d : npy_datetimestruct) (v : Z) : npy_datetimestruct :=
  mk_dts (year d) (month d) (day d) (hour d) (min d) v (us d) (ps d) (as_ d).
Definition with_us (d : npy_datetimestruct) (v : Z) : npy_datetimestruct :=
  mk_dts (year d) (month d) (day d) (hour d) (min d) (sec d) v (ps d) (as_ d).
Definition with_ps (d : npy_datetimestruct) (v : Z) : npy_datetimestruct :=
  mk_dts (year d) (month d) (day d) (hour d) (min d) (sec d) (us d) v (as_ d).
Definition with_as (d : npy_datetimestruct) (v : Z) : npy_datetimestruct :=
  mk_dts (year d) (month d) (day d) (hour d) (min d) (sec d) (us d) (ps d) v.

(** [sublen >= 2 && isdigit(substr[0]) && isdigit(substr[1])] *)
Definition two_digits (s : scanner) : bool :=
  (2 <=? sublen s) && isdigit (peek s 0) && isdigit (peek s 1).

(** [10 * (substr[0] - '0') + (substr[1] - '0')] *)
Definition two_digit_value (s : scanner) : Z :=
  10 * (peek s 0 - c_0) + (peek s 1 - c_0).

(** [while (sublen > 0 && isspace( *substr)) { ++substr; --sublen; }]
    The loop ends at the terminator at the latest, so the bytes left bound
    its iterations. *)
Fixpoint skip_whitespace_loop (n : nat) (s : scanner) : scanner :=
  match n with
  | O => s
  | S n' =>
      if (0 <? sublen s) && isspace (peek s 0)
      then skip_whitespace_loop n' (advance 1 s)
      else s
  end.

Definition skip_whitespace (s : scanner) : scanner :=
  skip_whitespace_loop (length (substr s)) s.

(** Skip leading whitespace, step over a leading ['-'], and refuse an
    exhausted input. *)
Definition parse_sign (s : scanner) : flow :=
  let s := skip_whitespace s in
  let s := if peek s 0 =? c_dash then advance 1 s else s in
  if sublen s =? 0 then goto_parse_error s else Next s.

(** [while (sublen > 0 && isdigit( *substr))
       { out->year = 10 * out->year + ( *substr - '0'); ... }] *)
Fixpoint year_loop (n : nat) (s : scanner) : scanner :=
  match n with
  | O => s
  | S n' =>
      if (0 <? sublen s) && isdigit (peek s 0)
      then year_loop n'
             (advance 1
                (set_dts (with_year (dts s)
                            (to_int64 (10 * year (dts s) + (peek s 0 - c_0)))) s))
      else s
  end.

(** PARSE THE YEAR.  [str0] is [str[0]], the first byte of the whole
    input: the sign test reads it, not the byte the cursor stepped over. *)
Definition parse_year (str0 : Z) (s : scanner) : flow :=
  let s := set_dts (with_year (dts s) 0) s in
  let s := year_loop (length (substr s)) s in
  let s := if str0 =? c_dash
           then set_dts (with_year (dts s) (to_int64 (- year (dts s)))) s
           else s in
  let s := set_year_leap (is_leapyear (year (dts s))) s in
  if sublen s =? 0 then goto_finish (set_local false s) NPY_FR_Y
  else if peek s 0 =? c_dash then
    let s := advance 1 s in
    if sublen s =? 0 then goto_parse_error s else Next s
  else goto_parse_error s.

(** PARSE THE MONTH (2 digits) *)
Definition parse_month (s : scanner) : flow :=
  if two_digits s then
    let s1 := set_dts (with_month (dts s) (two_digit_value s)) s in
    if (month (dts s1) <? 1) || (12 <? month (dts s1))
    then goto_error (OutOfRange Month)
    else
      let s2 := advance 2 s1 in
      if sublen s2 =? 0 then goto_finish (set_local false s2) NPY_FR_M
      else if peek s2 0 =? c_dash then
        let s3 := advance 1 s2 in
        if sublen s3 =? 0 then goto_parse_error s3 else Next s3
      else goto_parse_error s2
  else goto_parse_error s.

(** PARSE THE DAY (2 digits) *)
Definition parse_day (s : scanner) : flow :=
  if two_digits s then
    let s1 := set_dts (with_day (dts s) (two_digit_value s)) s in
    if (day (dts s1) <? 1) ||
       (_days_per_month_table (year_leap s1) (month (dts s1) - 1) <? day (dts s1))
    then goto_error (OutOfRange Day)
    else
      let s2 := advance 2 s1 in
      if sublen s2 =? 0 then goto_finish (set_local false s2) NPY_FR_D
      else if negb (peek s2 0 =? c_T) && negb (peek s2 0 =? c_space)
      then goto_parse_error s2
      else Next (advance 1 s2)
  else goto_parse_error s.

(** PARSE THE HOURS (2 digits) *)
Definition parse_hour (s : scanner) : flow :=
  if two_digits s then
    let s1 := set_dts (with_hour (dts s) (two_digit_value s)) s in
    if (hour (dts s1) <? 0) || (24 <=? hour (dts s1))
    then goto_error (OutOfRange Hours)
    else
      let s2 := advance 2 s1 in
      if (0 <? sublen s2) && (peek s2 0 =? c_colon) then
        let s3 := advance 1 s2 in
        if sublen s3 =? 0 then goto_parse_error s3 else Next s3
      else goto_parse_timezone s2 NPY_FR_h
  else goto_parse_error s.

(** PARSE THE MINUTES (2 digits).  The lower bound is tested on
    [out->hour], as in the source. *)
Definition parse_minute (s : scanner) : flow :=
  if two_digits s then
    let s1 := set_dts (with_min (dts s) (two_digit_value s)) s in
    if (hour (dts s1) <? 0) || (60 <=? min (dts s1))
    then goto_error (OutOfRange Minutes)
    else
      let s2 := advance 2 s1 in
      if (0 <? sublen s2) && (peek s2 0 =? c_colon) then
        let s3 := advance 1 s2 in
        if sublen s3 =? 0 then goto_parse_error s3 else Next s3
      else goto_parse_timezone s2 NPY_FR_m
  else goto_parse_error s.

(** PARSE THE SECONDS (2 digits) *)
Definition parse_second (s : scanner) : flow :=
  if two_digits s then
    let s1 := set_dts (with_sec (dts s) (two_digit_value s)) s in
    if (sec (dts s1) <? 0) || (60 <=? sec (dts s1))
    then goto_error (OutOfRange Seconds)
    else
      let s2 := advance 2 s1 in
      if (0 <? sublen s2) && (peek s2 0 =? c_dot) then Next (advance 1 s2)
      else goto_parse_timezone s2 NPY_FR_s
  else goto_parse_error s.

(** One of the three loops [for (i = 0; i < 6; ++i)] over a six-digit
    group: [get]/[set] select [us], [ps] or [as]; the result carries
    [numdigits]. *)
Fixpoint digit_group (get : npy_datetimestruct -> Z)
    (set : npy_datetimestruct -> Z -> npy_datetimestruct)
    (i : nat) (numdigits : Z) (s : scanner) : scanner * Z :=
  match i with
  | O => (s, numdigits)
  | S i' =>
      let s1 := set_dts (set (dts s) (get (dts s) * 10)) s in
      if (0 <? sublen s1) && isdigit (peek s1 0)
      then digit_group get set i' (numdigits + 1)
             (advance 1 (set_dts (set (dts s1) (get (dts s1) + (peek s1 0 - c_0))) s1))
      else digit_group get set i' numdigits s1
  end.

(** [sublen == 0 || !isdigit( *substr)] *)
Definition group_ends (s : scanner) : bool :=
  (sublen s =? 0) || negb (isdigit (peek s 0)).

(** PARSE THE MICROSECONDS (0 to 6 digits) *)
Definition parse_microseconds (s : scanner) : flow :=
  let '(s1, numdigits) := digit_group us with_us 6 0 s in
  if group_ends s1
  then goto_parse_timezone s1 (if 3 <? numdigits then NPY_FR_us else NPY_FR_ms)
  else Next s1.

(** PARSE THE PICOSECONDS (0 to 6 digits) *)
Definition parse_picoseconds (s : scanner) : flow :=
  let '(s1, numdigits) := digit_group ps with_ps 6 0 s in
  if group_ends s1
  then goto_parse_timezone s1 (if 3 <? numdigits then NPY_FR_ps else NPY_FR_ns)
  else Next s1.

(** PARSE THE ATTOSECONDS (0 to 6 digits); control then falls into
    [parse_timezone]. *)
Definition parse_attoseconds (s : scanner) : flow :=
  let '(s1, numdigits) := digit_group as_ with_as 6 0 s in
  goto_parse_timezone s1 (if 3 <? numdigits then NPY_FR_as else NPY_FR_fs).

(** The fields in the order of the source, from the sign to the label
    [parse_timezone]. *)
Definition scan_fields (str0 : Z) : scanner -> flow :=
  parse_sign >>> parse_year str0 >>> parse_month >>> parse_day >>>
  parse_hour >>> parse_minute >>> parse_second >>>
  parse_microseconds >>> parse_picoseconds >>> parse_attoseconds.

Section Parser.

Variable host : Host.
(** The [unit] argument ([None] for [-1]) and the casting rule. *)
Variable unit : option NPY_DATETIMEUNIT.
Variable casting : NPY_CASTING.

(** The label [parse_timezone], down to the comment "Skip trailing
    whitespace": [Next] is the fall-through to that comment.  [bestunit]
    was assigned before the jump. *)
Definition parse_timezone (bestunit : NPY_DATETIMEUNIT) (s : scanner) : flow :=
  if sublen s =? 0 then
    (* no time zone: the fields are local time *)
    let d := dts s in
    if (1900 <? year d) && (year d <? 10000) then
      let tm_ := mk_tm (sec d) (min d) (hour d) (day d)
                       (month d - 1) (year d - 1900) (-1) in
      let rawtime := mktime host tm_ in
      if rawtime =? -1 then goto_error ClockFailure
      else
        match gmtime_r host rawtime with
        | None => goto_error ClockFailure
        | Some tm_ =>
            let d' := mk_dts (tm_year tm_ + 1900) (tm_mon tm_ + 1) (tm_mday tm_)
                             (tm_hour tm_) (tm_min tm_) (tm_sec tm_)
                             (us d) (ps d) (as_ d) in
            goto_finish (set_local true (set_dts d' s)) bestunit
        end
    else goto_finish (set_local true s) bestunit
  else if peek s 0 =? c_Z then
    (* UTC specifier *)
    let s := set_local false s in
    if sublen s =? 1 then goto_finish s bestunit
    else Next (advance 1 s)
  else if (peek s 0 =? c_dash) || (peek s 0 =? c_plus) then
    (* time zone offset *)
    let s := set_local false s in
    let offset_neg := peek s 0 =? c_dash in
    let s := advance 1 s in
    if two_digits s then
      let offset_hour := two_digit_value s in
      let s := advance 2 s in
      if 24 <=? offset_hour then goto_error (OutOfRange TimezoneHours)
      else
        let apply (offset_minute : Z) (s : scanner) : flow :=
          let offset_hour := if offset_neg then - offset_hour else offset_hour in
          let offset_minute := if offset_neg then - offset_minute else offset_minute in
          Next (set_dts (add_minutes_to_datetimestruct host (dts s)
                           (-60 * offset_hour - offset_minute)) s) in
        if 0 <? sublen s then
          let s := if peek s 0 =? c_colon then advance 1 s else s in
          if two_digits s then
            let offset_minute := two_digit_value s in
            let s := advance 2 s in
            if 60 <=? offset_minute then goto_error (OutOfRange TimezoneMinutes)
            else apply offset_minute s
          else goto_parse_error s
        else apply 0 s
    else goto_parse_error s
  else Next s.

(** "Skip trailing whitespace", then [if (sublen != 0) goto parse_error];
    control then reaches the label [finish]. *)
Definition skip_trailing_whitespace (bestunit : NPY_DATETIMEUNIT) (s : scanner) : flow :=
  let s := skip_whitespace s in
  if sublen s =? 0 then goto_finish s bestunit else goto_parse_error s.

(** The casting rule is checked:
    [unit != -1 && !can_cast_datetime64_units(bestunit, unit, casting)] *)
Definition cannot_cast (bestunit : NPY_DATETIMEUNIT) : option parse_failure :=
  match unit with
  | Some u =>
      if can_cast_datetime64_units host bestunit u casting then None
      else Some (CannotCast bestunit u casting)
  | None => None
  end.

Definition check_casting (bestunit : NPY_DATETIMEUNIT) (p : parsed) : parse_result :=
  match cannot_cast bestunit with
  | Some e => Failed e
  | None => Parsed p
  end.

(** The label [finish]. *)
Definition finish (s : scanner) (bestunit : NPY_DATETIMEUNIT) : parse_result :=
  check_casting bestunit (mk_parsed (dts s) (local s) bestunit false).

(** The labels [parse_error] and [error], and the return through
    [finish]. *)
Definition leave (f : flow) : parse_result :=
  match f with
  | goto_finish s bestunit => finish s bestunit
  | goto_error e => Failed e
  | goto_parse_error s | Next s | goto_parse_timezone s _ =>
      Failed (ParseErrorAt (offset s))
  end.

(** Control at a label: [parse_timezone] runs its block and the
    whitespace loop below it. *)
Definition at_label (f : flow) : flow :=
  match f with
  | goto_parse_timezone s bestunit =>
      (parse_timezone bestunit >>> skip_trailing_whitespace bestunit) s
  | other => other
  end.

(** [memset(out, 0, ...); out->month = 1; out->day = 1;] *)
Definition initial_dts : npy_datetimestruct := mk_dts 0 1 1 0 0 0 0 0 0.

(** The scanner as the general path starts it: [substr = str],
    [sublen = len] (narrowed to [char]). *)
Definition start (str : list Z) : scanner :=
  mk_scanner initial_dts None false str (to_char (Z.of_nat (length str))) 0.

(** [len == |w| && tolower(str[0]) == w[0] && ...] *)
Definition is_word (w : list Z) (str : list Z) : bool :=
  (Z.of_nat (length str) =? Z.of_nat (length w)) &&
  forallb (fun k => tolower (nth k str c_NUL) =? nth k w c_NUL) (seq 0 (length w)).

(** The general path: everything below "Anything else isn't a special
    value". *)
Definition parse_general (str : list Z) : parse_result :=
  leave (at_label (scan_fields (nth 0%nat str c_NUL) (start str))).

Definition parse_iso_8601_datetime (str : list Z) : parse_result :=
  let len := Z.of_nat (length str) in
  if (len <=? 0) || is_word [c_n; c_a; c_t] str then
    (* the empty string and case variants of "NaT" *)
    Parsed (mk_parsed (with_year initial_dts NPY_DATETIME_NAT)
                      (Some false) NPY_FR_GENERIC true)
  else if match unit with Some u => unit_eqb u NPY_FR_GENERIC | None => false end then
    Failed GenericUnits
  else if is_word [c_t; c_o; c_d; c_a; c_y] str then
    (* 'today' only works for units of days or larger *)
    if match unit with Some u => unit_code NPY_FR_D <? unit_code u | None => false end
    then Failed TodayUnits
    else
      match localtime_r host (time host) with
      | None => Failed ClockFailure
      | Some tm_ =>
          let d := mk_dts (tm_year tm_ + 1900) (tm_mon tm_ + 1) (tm_mday tm_)
                          0 0 0 0 0 0 in
          check_casting NPY_FR_D (mk_parsed d (Some false) NPY_FR_D true)
      end
  else if is_word [c_n; c_o; c_w] str then
    let rawtime := time host in
    match cannot_cast NPY_FR_s with
    | Some e => Failed e
    | None =>
        match convert_datetime_to_datetimestruct host NPY_FR_s 1 rawtime initial_dts with
        | None => Failed ConvertFailure
        | Some d => Parsed (mk_parsed d (Some false) NPY_FR_s true)
        end
    end
  else parse_general str.

End Parser.

Definition parse_text (host : Host) (unit : option NPY_DATETIMEUNIT)
    (casting : NPY_CASTING) (text : string) : parse_result :=
  parse_iso_8601_datetime host unit casting (cstr text).

(** ** The length calculator *)

(** Modelled from the spec: the macro [NPY_DATETIME_MAX_ISO8601_STRLEN] of
    the header, "a fixed maximum covering the widest possible year + full
    attosecond precision + offset". *)
Definition NPY_DATETIME_MAX_ISO8601_STRLEN : Z := 21 + 3 * 5 + 1 + 3 * 6 + 6 + 1.

(** The [switch] over [base]: every case falls through into the next
    coarser one, so each length is the one below it plus its own field. *)
Definition fields_strlen (base : NPY_DATETIMEUNIT) : Z :=
  let case_Y := 21 in           (* 64-bit year *)
  let case_M := 3 + case_Y in   (* "-##" *)
  let case_D := 3 + case_M in   (* "-##", also case NPY_FR_W *)
  let case_h := 3 + case_D in   (* "T##" *)
  let case_m := 3 + case_h in   (* ":##" *)
  let case_s := 3 + case_m in   (* ":##" *)
  let case_ms := 4 + case_s in  (* ".###" *)
  let case_us := 3 + case_ms in
  let case_ns := 3 + case_us in
  let case_ps := 3 + case_ns in
  let case_fs := 3 + case_ps in
  let case_as := 3 + case_fs in
  match base with
  | NPY_FR_as => case_as | NPY_FR_fs => case_fs | NPY_FR_ps => case_ps
  | NPY_FR_ns => case_ns | NPY_FR_us => case_us | NPY_FR_ms => case_ms
  | NPY_FR_s => case_s | NPY_FR_m => case_m | NPY_FR_h => case_h
  | NPY_FR_D | NPY_FR_W => case_D
  | NPY_FR_M => case_M
  | NPY_FR_Y => case_Y
  | NPY_FR_GENERIC => 0
  end.

Definition get_datetime_iso_8601_strlen (local : bool)
    (base : option NPY_DATETIMEUNIT) : Z :=
  match base with
  | None => NPY_DATETIME_MAX_ISO8601_STRLEN
  | Some NPY_FR_GENERIC => 4
  | Some base =>
      let len := fields_strlen base in
      let len := if unit_code NPY_FR_h <=? unit_code base
                 then (if local then len + 5 else len + 1)
                 else len in
      len + 1 (* NULL terminator *)
  end.

(** ** The formatter *)

Inductive format_result : Set :=
  | Formatted
  (** "The string provided for NumPy ISO datetime formatting was too
      short" *)
  | StringTooShort
  (** [localtime_r] failed *)
  | LocaltimeFailure.

(** The output cursor: the caller's buffer, the index [substr - outstr] and
    the [char]-typed [sublen]. *)
Record writer : Set := mk_writer {
  buf : list Z;
  at_ : nat;
  room : Z
}.

Inductive wflow : Set :=
  | Continue (w : writer)
  | goto_add_time_zone (w : writer)
  | goto_string_too_short (w : writer)
  | return_0 (w : writer).

Definition then_write (f g : writer -> wflow) (w : writer) : wflow :=
  match f w with
  | Continue w' => g w'
  | other => other
  end.

Notation "f >-> g" := (then_write f g) (at level 61, left associativity).

(** A value stored into a [char] cell of the buffer, as the byte it is. *)
Definition to_byte (z : Z) : Z := z mod 256.

(** [substr[k] = c] *)
Definition poke (k : nat) (c : Z) (w : writer) : writer :=
  mk_writer (<[(at_ w + k)%nat := to_byte c]> (buf w)) (at_ w) (room w).

(** [substr += n; sublen -= n;] *)
Definition forward (n : nat) (w : writer) : writer :=
  mk_writer (buf w) (at_ w + n) (to_char (room w - Z.of_nat n)).

(** The pattern of every field:
    [substr[k] = c; if (sublen <= k+1) goto string_too_short;] for each
    character in turn, then [substr += n; sublen -= n;]. *)
Fixpoint emit_from (k : nat) (cs : list Z) (w : writer) : wflow :=
  match cs with
  | [] => Continue (forward k w)
  | c :: cs' =>
      let w' := poke k c w in
      if room w' <=? Z.of_nat k + 1 then goto_string_too_short w'
      else emit_from (S k) cs' w'
  end.

Definition emit : list Z -> writer -> wflow := emit_from 0.

(** Decimal digits of a non-negative number, most significant first; the
    bit length bounds the number of divisions by ten. *)
Fixpoint decimal_digits (fuel : nat) (n : Z) : list Z :=
  match fuel with
  | O => [c_0 + n]
  | S fuel' =>
      if n <? 10 then [c_0 + n]
      else decimal_digits fuel' (n / 10) ++ [c_0 + n mod 10]
  end.

Definition decimal (n : Z) : list Z := decimal_digits (Z.to_nat (Z.log2 n)) n.

(** The text of [printf("%04lld", y)]: zero padding to four columns, the
    sign counted among them. *)
Definition printf_04d (y : Z) : list Z :=
  let ds := decimal (Z.abs y) in
  let sign := if y <? 0 then [c_dash] else [] in
  sign ++ replicate (4 - length sign - length ds) c_0 ++ ds.

(** Writing [text] through [snprintf(substr, sublen, ...)]: the size
    argument is [sublen] converted to [size_t], so a negative [sublen] is a
    huge bound; at most size - 1 characters and a terminator are stored. *)
Fixpoint store_at (i : nat) (cs : list Z) (buf : list Z) : list Z :=
  match cs with
  | [] => buf
  | c :: cs' => store_at (S i) cs' (<[i := c]> buf)
  end.

Definition snprintf (text : list Z) (w : writer) : writer :=
  let stored :=
    if room w <? 0 then text ++ [c_NUL]
    else if room w =? 0 then []
    else take (Z.to_nat (room w) - 1) text ++ [c_NUL] in
  mk_writer (store_at (at_ w) stored (buf w)) (at_ w) (room w).

(** [( *substr = '\0'; return 0;)] *)
Definition terminate (w : writer) : wflow := return_0 (poke 0 c_NUL w).

(** [int] arithmetic for [timezone_offset]. *)
Definition to_int (z : Z) : Z := (z + 2 ^ 31) mod 2 ^ 32 - 2 ^ 31.

Section Formatter.

Variable host : Host.

(** YEAR *)
Definition write_year (d : npy_datetimestruct) (base : NPY_DATETIMEUNIT)
    (w : writer) : wflow :=
  let text := printf_04d (year d) in
  let tmplen := Z.of_nat (length text) in
  let w := snprintf text w in
  if (tmplen <? 0) || (room w <=? tmplen) then goto_string_too_short w
  else
    let w := forward (length text) w in
    if unit_eqb base NPY_FR_Y then terminate w else Continue w.

(** A field of the date: its characters, then
    "Stop if the unit is ...". *)
Definition write_date_field (cs : list Z) (stop : bool) : writer -> wflow :=
  emit cs >-> (fun w => if stop then terminate w else Continue w).

(** A field of the time of day: its characters, then
    [goto add_time_zone] if the unit is this field's. *)
Definition write_time_field (cs : list Z) (stop : bool) : writer -> wflow :=
  emit cs >-> (fun w => if stop then goto_add_time_zone w else Continue w).

(** [(char)(v / div % 10 + '0')], with C's truncating division *)
Definition digit_char (v div : Z) : Z := Z.rem (Z.quot v div) 10 + c_0.

(** The fields from YEAR to ATTOSECOND; after the last one control falls
    into [add_time_zone]. *)
Definition write_fields (d : npy_datetimestruct) (base : NPY_DATETIMEUNIT)
    : writer -> wflow :=
  write_year d base >->
  write_date_field [c_dash; Z.quot (month d) 10 + c_0; Z.rem (month d) 10 + c_0]
                   (unit_eqb base NPY_FR_M) >->
  write_date_field [c_dash; Z.quot (day d) 10 + c_0; Z.rem (day d) 10 + c_0]
                   (unit_eqb base NPY_FR_D) >->
  write_time_field [c_T; Z.quot (hour d) 10 + c_0; Z.rem (hour d) 10 + c_0]
                   (unit_eqb base NPY_FR_h) >->
  write_time_field [c_colon; Z.quot (min d) 10 + c_0; Z.rem (min d) 10 + c_0]
                   (unit_eqb base NPY_FR_m) >->
  write_time_field [c_colon; Z.quot (sec d) 10 + c_0; Z.rem (sec d) 10 + c_0]
                   (unit_eqb base NPY_FR_s) >->
  write_time_field [c_dot; digit_char (us d) 100000; digit_char (us d) 10000;
                    digit_char (us d) 1000]
                   (unit_eqb base NPY_FR_ms) >->
  write_time_field [digit_char (us d) 100; digit_char (us d) 10;
                    Z.rem (us d) 10 + c_0]
                   (unit_eqb base NPY_FR_us) >->
  write_time_field [digit_char (ps d) 100000; digit_char (ps d) 10000;
                    digit_char (ps d) 1000]
                   (unit_eqb base NPY_FR_ns) >->
  write_time_field [digit_char (ps d) 100; digit_char (ps d) 10;
                    Z.rem (ps d) 10 + c_0]
                   (unit_eqb base NPY_FR_ps) >->
  write_time_field [digit_char (as_ d) 100000; digit_char (as_ d) 10000;
                    digit_char (as_ d) 1000]
                   (unit_eqb base NPY_FR_fs) >->
  write_time_field [digit_char (as_ d) 100; digit_char (as_ d) 10;
                    Z.rem (as_ d) 10 + c_0]
                   true.

(** The label [add_time_zone], to the final [return 0]. *)
Definition add_time_zone (local : bool) (timezone_offset : Z) : writer -> wflow :=
  (if local then
     let sign := if timezone_offset <? 0 then c_dash else c_plus in
     let timezone_offset :=
       if timezone_offset <? 0 then to_int (- timezone_offset)
       else timezone_offset in
     emit [sign] >->
     emit [digit_char timezone_offset (10 * 60);
           digit_char timezone_offset 60;
           Z.rem (Z.quot (Z.rem timezone_offset 60) 10) 10 + c_0;
           Z.rem (Z.rem timezone_offset 60) 10 + c_0]
   else emit [c_Z]) >-> terminate.

(** "Automatically detect a good unit", and weeks printed as days. *)
Definition detect_base (d : npy_datetimestruct) (local : bool)
    (base : option NPY_DATETIMEUNIT) : NPY_DATETIMEUNIT :=
  match base with
  | None =>
      if negb (Z.rem (as_ d) 1000 =? 0) then NPY_FR_as
      else if negb (as_ d =? 0) then NPY_FR_fs
      else if negb (Z.rem (ps d) 1000 =? 0) then NPY_FR_ps
      else if negb (ps d =? 0) then NPY_FR_ns
      else if negb (Z.rem (us d) 1000 =? 0) then NPY_FR_us
      else if negb (us d =? 0) then NPY_FR_ms
      else if negb (sec d =? 0) then NPY_FR_s
      else if local || negb (min d =? 0) || negb (hour d =? 0) then NPY_FR_m
      else NPY_FR_D
  | Some NPY_FR_W => NPY_FR_D
  | Some base => base
  end.

(** The label [string_too_short]: "Put a NULL terminator on anyway". *)
Definition string_too_short (outlen : Z) (buf : list Z) : format_result * list Z :=
  (StringTooShort,
   if 0 <? outlen then <[Z.to_nat (outlen - 1) := c_NUL]> buf else buf).

Definition make_iso_8601_datetime (d : npy_datetimestruct) (outstr : list Z)
    (outlen : Z) (local : bool) (base : option NPY_DATETIMEUNIT)
    (tzoffset : Z) : format_result * list Z :=
  (* Handle NaT, and treat a datetime with generic units as NaT *)
  if (year d =? NPY_DATETIME_NAT) ||
     match base with Some b => unit_eqb b NPY_FR_GENERIC | None => false end
  then
    if outlen <? 4 then string_too_short outlen outstr
    else
      (Formatted,
       <[0%nat := c_NUL]> (<[0%nat := c_T]> (<[0%nat := c_a]> (<[0%nat := c_N]> outstr))))
  else
    (* Only do local time within a reasonable year range *)
    let local :=
      if ((year d <=? 1900) || (10000 <=? year d)) && (tzoffset =? -1)
      then false else local in
    let base := detect_base d local base in
    (* Printed dates have no time zone *)
    let local := if unit_code base <? unit_code NPY_FR_h then false else local in
    let converted : option (npy_datetimestruct * Z) :=
      if local && (tzoffset =? -1) then
        (* Use the C API to convert from UTC to local time *)
        let rawtime := get_datetimestruct_days host d * 24 * 60 * 60
                       + hour d * 60 * 60 + min d * 60 in
        match localtime_r host rawtime with
        | None => None
        | Some tm_ =>
            let dts_local :=
              mk_dts (tm_year tm_ + 1900) (tm_mon tm_ + 1) (tm_mday tm_)
                     (tm_hour tm_) (tm_min tm_) (sec d) (us d) (ps d) (as_ d) in
            let rawtime := Z.quot rawtime 60 in
            let localrawtime :=
              get_datetimestruct_days host dts_local * 24 * 60
              + hour dts_local * 60 + min dts_local in
            Some (dts_local, to_int (localrawtime - rawtime))
        end
      else if local then
        (* Use the manually provided tzoffset *)
        Some (add_minutes_to_datetimestruct host d tzoffset, tzoffset)
      else Some (d, 0) in
    match converted with
    | None => (LocaltimeFailure, outstr)
    | Some (d, timezone_offset) =>
        let w := mk_writer outstr 0 (to_char outlen) in
        let final :=
          match write_fields d base w with
          | goto_add_time_zone w' | Continue w' =>
              add_time_zone local timezone_offset w'
          | other => other
          end in
        match final with
        | return_0 w' => (Formatted, buf w')
        | goto_string_too_short w' | Continue w' | goto_add_time_zone w' =>
            string_too_short outlen (buf w')
        end
    end.

End Formatter.

(** The text a buffer holds, read as a C string. *)
Fixpoint c_string (buf : list Z) : list Z :=
  match buf with
  | [] => []
  | c :: rest => if c =? c_NUL then [] else c :: c_string rest
  end.

(** A host for the examples: a clock stopped at 2011-06-01 12:00:00 in a
    zone at UTC, the casting rule of "safe" casts, which lets a unit become
    a finer one only, and stubs for the calendar helpers (shifting by
    minutes leaves the struct as it is). *)
Definition example_host : Host :=
  mk_host 1306929600
          (fun _ => Some (mk_tm 0 0 12 1 5 111 0))
          (fun _ => Some (mk_tm 0 0 12 1 5 111 0))
          (fun _ => 1306929600)
          (fun src dst _ => unit_code src <=? unit_code dst)
          (fun d _ => d)
          (fun _ => 15126)
          (fun _ _ _ d => Some d).

(** * The vocabulary of the properties *)

(** [scan_fields] with the sign and the year split off. *)
Definition after_year : scanner -> flow :=
  parse_month >>> (parse_day >>> (parse_hour >>> (parse_minute >>> (parse_second >>>
  (parse_microseconds >>> (parse_picoseconds >>> parse_attoseconds)))))).

(** Nothing but whitespace. *)
Definition all_space (l : list Z) : Prop := Forall (fun c => isspace c = true) l.

(** The calendar fields agree with each other: the ranges of section 3 of
    the specification, the day bounded by the length of its month in its
    year. *)
Definition consistent (d : npy_datetimestruct) : Prop :=
  1 <= month d <= 12 /\
  1 <= day d <= _days_per_month_table (is_leapyear (year d)) (month d - 1) /\
  0 <= hour d <= 23 /\ 0 <= min d <= 59 /\ 0 <= sec d <= 59.

(** [stage P f Q]: started where [P] holds, [f] goes on only to where [Q]
    holds, and jumps to [finish] or [parse_timezone] only with consistent
    fields. *)
Definition stage (P : scanner -> Prop) (f : scanner -> flow)
    (Q : scanner -> Prop) : Prop :=
  forall s, P s ->
    match f s with
    | Next s' => Q s'
    | goto_finish s' _ | goto_parse_timezone s' _ => consistent (dts s')
    | goto_parse_error _ | goto_error _ => True
    end.

(** Month and day still at their initial 1, no time of day yet. *)
Definition fresh (s : scanner) : Prop :=
  month (dts s) = 1 /\ day (dts s) = 1 /\
  hour (dts s) = 0 /\ min (dts s) = 0 /\ sec (dts s) = 0.

(** [year_leap] is the leap flag of the year parsed. *)
Definition leap_known (s : scanner) : Prop :=
  year_leap s = is_leapyear (year (dts s)).

(** The scanner behind the year, behind the month, and from the day on. *)
Definition year_done (s : scanner) : Prop := fresh s /\ leap_known s.

Definition month_done (s : scanner) : Prop :=
  1 <= month (dts s) <= 12 /\ day (dts s) = 1 /\
  hour (dts s) = 0 /\ min (dts s) = 0 /\ sec (dts s) = 0 /\ leap_known s.

Definition fields_consistent (s : scanner) : Prop := consistent (dts s).

(** Two structs with the same calendar date and time of day. *)
Definition same_clock (d d' : npy_datetimestruct) : Prop :=
  year d = year d' /\ month d = month d' /\ day d = day d' /\
  hour d = hour d' /\ min d = min d' /\ sec d = sec d'.

(** The counter agrees with the bytes left.  It does on a whole input of
    at most 127 bytes, and the stages keep it so. *)
Definition steady (s : scanner) : Prop :=
  sublen s = Z.of_nat (length (substr s)) /\ sublen s <= 127.

(** The scanner [s] on an input that goes on with the bytes [x]. *)
Definition ext (x : list Z) (s : scanner) : scanner :=
  mk_scanner (dts s) (local s) (year_leap s) (substr s ++ x)
             (sublen s + Z.of_nat (length x)) (offset s).

(** A byte that ends every field: whitespace or the terminator. *)
Definition blank (c : Z) : Prop := c = 0 \/ isspace c = true.

(** The stages for the two-digit fields share their shape: two digits, a
    range test on the updated struct, then what may follow the field. *)
Definition two_digit_field
    (update : npy_datetimestruct -> Z -> npy_datetimestruct)
    (bad : scanner -> bool) (e : parse_failure) (follow : scanner -> flow)
    (s : scanner) : flow :=
  if two_digits s then
    let s1 := set_dts (update (dts s) (two_digit_value s)) s in
    if bad s1 then goto_error e else follow (advance 2 s1)
  else goto_parse_error s.

(** After the year or the month: the end of the input, or a ['-'] with
    something behind it. *)
Definition date_separator (u : NPY_DATETIMEUNIT) (s : scanner) : flow :=
  if sublen s =? 0 then goto_finish (set_local false s) u
  else if peek s 0 =? c_dash then
    let s3 := advance 1 s in
    if sublen s3 =? 0 then goto_parse_error s3 else Next s3
  else goto_parse_error s.

(** After the day: the end of the input, or ['T'] or a space. *)
Definition after_day (s : scanner) : flow :=
  if sublen s =? 0 then goto_finish (set_local false s) NPY_FR_D
  else if negb (peek s 0 =? c_T) && negb (peek s 0 =? c_space)
  then goto_parse_error s
  else Next (advance 1 s).

(** After the hour or the minute: a [':'] with something behind it, or
    the time zone. *)
Definition time_separator (u : NPY_DATETIMEUNIT) (s : scanner) : flow :=
  if (0 <? sublen s) && (peek s 0 =? c_colon) then
    let s3 := advance 1 s in
    if sublen s3 =? 0 then goto_parse_error s3 else Next s3
  else goto_parse_timezone s u.

(** After the second: a ['.'], or the time zone. *)
Definition after_second (s : scanner) : flow :=
  if (0 <? sublen s) && (peek s 0 =? c_dot) then Next (advance 1 s)
  else goto_parse_timezone s NPY_FR_s.

(** The number of digits at the head of a string. *)
Fixpoint leading_digits (l : list Z) : nat :=
  match l with
  | c :: rest => if isdigit c then S (leading_digits rest) else O
  | [] => O
  end.

(** The unit a group of digits stands for: group 0 holds the microseconds,
    1 the picoseconds, 2 the attoseconds; more than three digits in the
    group select the finer unit of its pair. *)
Definition group_unit (group : nat) (count : Z) : NPY_DATETIMEUNIT :=
  match group with
  | 0%nat => if 3 <? count then NPY_FR_us else NPY_FR_ms
  | 1%nat => if 3 <? count then NPY_FR_ps else NPY_FR_ns
  | _ => if 3 <? count then NPY_FR_as else NPY_FR_fs
  end.

(** The three groups behind the decimal point. *)
Definition parse_fraction : scanner -> flow :=
  parse_microseconds >>> parse_picoseconds >>> parse_attoseconds.

(** The scan from the sign to the decimal point. *)
Definition through_second (str0 : Z) : scanner -> flow :=
  parse_sign >>> parse_year str0 >>> parse_month >>> parse_day >>>
  parse_hour >>> parse_minute >>> parse_second.

(** The values an [npy_int64] can hold. *)
Definition int64_range (z : Z) : Prop := - 2 ^ 63 <= z < 2 ^ 63.

(** The number a string of decimal digits denotes. *)
Definition numeral_value (digits : list Z) : Z :=
  fold_left (fun acc c => 10 * acc + (c - c_0)) digits 0.

(** The writer inside a buffer of [n] bytes that started as [buf0]: the
    cursor and the room left add up to [n], there is room for a terminator,
    and nothing at or behind index [n] has been touched. *)
Definition within (n : Z) (buf0 : list Z) (w : writer) : Prop :=
  Z.of_nat (at_ w) + room w = n /\ 1 <= room w /\ n <= 127 /\
  drop (Z.to_nat n) (buf w) = drop (Z.to_nat n) buf0 /\
  length (buf w) = length buf0.

(** The host's functions return values of their C types: the year of a
    shifted struct is an [npy_int64] like the year it was given, and so is
    a [tm_year] (an [int]) plus 1900. *)
Definition host_in_range (host : Host) : Prop :=
  (forall d minutes,
     int64_range (year d) ->
     int64_range (year (add_minutes_to_datetimestruct host d minutes))) /\
  (forall t tm_, localtime_r host t = Some tm_ -> int64_range (tm_year tm_ + 1900)).


(** [f] does not notice that the input goes on with [x]: where it goes on
    or jumps to [parse_timezone] it does the same on the extended input, and
    it jumps to [finish] only with a date unit. *)
Definition tolerant (x : list Z) (f : scanner -> flow) : Prop :=
  forall s, steady (ext x s) ->
    match f s with
    | Next s' =>
        f (ext x s) = Next (ext x s') /\ steady (ext x s') /\
        substr s' `suffix_of` substr s
    | goto_parse_timezone s' b =>
        f (ext x s) = goto_parse_timezone (ext x s') b /\ steady (ext x s') /\
        substr s' `suffix_of` substr s
    | goto_finish _ b => unit_code b < unit_code NPY_FR_h
    | goto_parse_error _ | goto_error _ => True
    end.

(** A buffer that agrees with [buf0] from index [n] on and has its
    length. *)
Definition framed (n : Z) (buf0 buf : list Z) : Prop :=
  drop (Z.to_nat n) buf = drop (Z.to_nat n) buf0 /\ length buf = length buf0.

(** Where a stage of the formatter may leave the writer: inside the buffer
    when it goes on, with a terminator under the cursor when it returns, and
    with the bytes from [n] on untouched in any case. *)
Definition safe_flow (n : Z) (buf0 : list Z) (f : wflow) : Prop :=
  match f with
  | Continue w | goto_add_time_zone w => within n buf0 w
  | return_0 w => within n buf0 w /\ buf w !! at_ w = Some 0
  | goto_string_too_short w => framed n buf0 (buf w)
  end.

(** What a call leaves behind: the buffer written only below [outlen], and a
    terminator among its first [outlen] bytes unless the call ended on a
    failure of [localtime]. *)
Definition left_behind (outstr : list Z) (outlen : Z) (r : format_result * list Z) : Prop :=
  framed outlen outstr (snd r) /\
  (fst r = LocaltimeFailure -> snd r = outstr) /\
  (fst r <> LocaltimeFailure -> 0 < outlen ->
   exists k, (k < Z.to_nat outlen)%nat /\ snd r !! k = Some 0).

(** The cursor is at byte [offset s] of the input [str], and the counter
    agrees with what is left of it. *)
Definition tracks (str : list Z) (s : scanner) : Prop :=
  steady s /\ 0 <= offset s <= Z.of_nat (length str) /\
  substr s = drop (Z.to_nat (offset s)) str.

(** [f] keeps the cursor on the input, wherever control goes, and sets no
    parse error of its own behind the label [error]. *)
Definition keeps (str : list Z) (f : scanner -> flow) : Prop :=
  forall s, tracks str s ->
    match f s with
    | Next s' | goto_finish s' _ | goto_parse_timezone s' _ | goto_parse_error s' =>
        tracks str s'
    | goto_error e => forall position, e <> ParseErrorAt position
    end.

(** The two decimal digits of a number below 100, and the three of a number
    below 1000. *)
Definition two_digit_text (v : Z) : list Z := [c_0 + v / 10; c_0 + v mod 10].

Definition three_digit_text (v : Z) : list Z :=
  [c_0 + v / 100; c_0 + (v / 10) mod 10; c_0 + v mod 10].

(** The ISO 8601 text of a value in UTC, down to the unit [base]: the year
    in at least four columns, then each finer field with its separator, and
    a ['Z'] behind a time of day. *)
Definition iso_text (d : npy_datetimestruct) (base : NPY_DATETIMEUNIT) : list Z :=
  let down_to (u : NPY_DATETIMEUNIT) (cs : list Z) :=
    if unit_code u <=? unit_code base then cs else [] in
  printf_04d (year d) ++
  down_to NPY_FR_M (c_dash :: two_digit_text (month d)) ++
  down_to NPY_FR_D (c_dash :: two_digit_text (day d)) ++
  down_to NPY_FR_h (c_T :: two_digit_text (hour d)) ++
  down_to NPY_FR_m (c_colon :: two_digit_text (min d)) ++
  down_to NPY_FR_s (c_colon :: two_digit_text (sec d)) ++
  down_to NPY_FR_ms (c_dot :: three_digit_text (us d / 1000)) ++
  down_to NPY_FR_us (three_digit_text (us d mod 1000)) ++
  down_to NPY_FR_ns (three_digit_text (ps d / 1000)) ++
  down_to NPY_FR_ps (three_digit_text (ps d mod 1000)) ++
  down_to NPY_FR_fs (three_digit_text (as_ d / 1000)) ++
  down_to NPY_FR_as (three_digit_text (as_ d mod 1000)) ++
  down_to NPY_FR_h [c_Z].

(** The same text with [zone] behind a time of day: what is written for
    the fields [d] when [add_time_zone] appends [zone]. *)
Definition stamp_text (d : npy_datetimestruct) (base : NPY_DATETIMEUNIT)
    (zone : list Z) : list Z :=
  let down_to (u : NPY_DATETIMEUNIT) (cs : list Z) :=
    if unit_code u <=? unit_code base then cs else [] in
  printf_04d (year d) ++
  down_to NPY_FR_M (c_dash :: two_digit_text (month d)) ++
  down_to NPY_FR_D (c_dash :: two_digit_text (day d)) ++
  down_to NPY_FR_h (c_T :: two_digit_text (hour d)) ++
  down_to NPY_FR_m (c_colon :: two_digit_text (min d)) ++
  down_to NPY_FR_s (c_colon :: two_digit_text (sec d)) ++
  down_to NPY_FR_ms (c_dot :: three_digit_text (us d / 1000)) ++
  down_to NPY_FR_us (three_digit_text (us d mod 1000)) ++
  down_to NPY_FR_ns (three_digit_text (ps d / 1000)) ++
  down_to NPY_FR_ps (three_digit_text (ps d mod 1000)) ++
  down_to NPY_FR_fs (three_digit_text (as_ d / 1000)) ++
  down_to NPY_FR_as (three_digit_text (as_ d mod 1000)) ++
  down_to NPY_FR_h zone.

(** An offset of so many minutes from UTC as a sign, two digits of hours
    and two of minutes. *)
Definition offset_text (timezone_offset : Z) : list Z :=
  (if timezone_offset <? 0 then c_dash else c_plus) ::
  two_digit_text (Z.abs timezone_offset / 60) ++
  two_digit_text (Z.abs timezone_offset mod 60).

(** A value the formatter prints digit for digit: the calendar fields in
    their ranges, each group of the fraction below 10^6, and a year that is an
    [npy_int64] other than not-a-time. *)
Definition printable (d : npy_datetimestruct) : Prop :=
  consistent d /\
  0 <= us d < 1000000 /\ 0 <= ps d < 1000000 /\ 0 <= as_ d < 1000000 /\
  int64_range (year d) /\ year d <> NPY_DATETIME_NAT.

(** The writer has put the text [t] at the head of the buffer [outstr] of
    capacity [n] and stands behind it; the byte under the cursor may have
    been used, the ones behind it have not. *)
Definition holds (outstr : list Z) (n : Z) (t : list Z) (w : writer) : Prop :=
  at_ w = length t /\
  take (length t) (buf w) = t /\
  drop (length t + 1) (buf w) = drop (length t + 1) outstr /\
  length (buf w) = length outstr /\
  Z.of_nat (length t) + room w = n.

(** The value with everything finer than [base] cleared. *)
Definition truncate_to (base : NPY_DATETIMEUNIT) (d : npy_datetimestruct)
    : npy_datetimestruct :=
  let keep (u : NPY_DATETIMEUNIT) (v cleared : Z) :=
    if unit_code u <=? unit_code base then v else cleared in
  let group (fine coarse : NPY_DATETIMEUNIT) (v : Z) :=
    keep fine v (keep coarse (v / 1000 * 1000) 0) in
  mk_dts (year d) (keep NPY_FR_M (month d) 1) (keep NPY_FR_D (day d) 1)
         (keep NPY_FR_h (hour d) 0) (keep NPY_FR_m (min d) 0) (keep NPY_FR_s (sec d) 0)
         (group NPY_FR_us NPY_FR_ms (us d)) (group NPY_FR_ps NPY_FR_ns (ps d))
         (group NPY_FR_as NPY_FR_fs (as_ d)).

(** The scanner on the text [rest] that is left of an input the counter
    can hold. *)
Definition on_text (d : npy_datetimestruct) (l : option bool) (leap : bool)
    (rest : list Z) (off : Z) : scanner :=
  mk_scanner d l leap rest (Z.of_nat (length rest)) off.

(** The date and the time of day down to the seconds, as printed, with no
    time zone behind them. *)
Definition clock_text (d : npy_datetimestruct) : list Z :=
  printf_04d (year d) ++
  c_dash :: two_digit_text (month d) ++
  c_dash :: two_digit_text (day d) ++
  c_T :: two_digit_text (hour d) ++
  c_colon :: two_digit_text (min d) ++
  c_colon :: two_digit_text (sec d).

(** The text of a date as the formatter prints it. *)
Definition date_text (d : npy_datetimestruct) : list Z :=
  printf_04d (year d) ++
  c_dash :: two_digit_text (month d) ++
  c_dash :: two_digit_text (day d).

(** No time of day has been stored. *)
Definition timeless (d : npy_datetimestruct) : Prop :=
  hour d = 0 /\ min d = 0 /\ sec d = 0 /\ us d = 0 /\ ps d = 0 /\ as_ d = 0.

(** Where the scan of a date may end: at [finish] with a date unit, not
    local and without a time of day, or at [parse_timezone] with a unit of
    the time of day. *)
Definition date_or_time (f : flow) : Prop :=
  match f with
  | goto_finish s b =>
      timeless (dts s) /\ local s = Some false /\ unit_code b < unit_code NPY_FR_h
  | goto_parse_timezone _ b => unit_code NPY_FR_h <= unit_code b
  | Next _ | goto_parse_error _ | goto_error _ => True
  end.

(** A stage of the date: it stores no time of day. *)
Definition date_stage (f : scanner -> flow) : Prop :=
  forall s, timeless (dts s) ->
    date_or_time (f s) /\
    match f s with Next s' => timeless (dts s') | _ => True end.

(** A stage of the time of day: it never jumps to [finish]. *)
Definition time_stage (f : scanner -> flow) : Prop :=
  forall s, match f s with
            | goto_finish _ _ => False
            | goto_parse_timezone _ b => unit_code NPY_FR_h <= unit_code b
            | _ => True
            end.

(** The scanner [s] with its cursor [k] bytes further into the input. *)
Definition moved (k : Z) (s : scanner) : scanner :=
  mk_scanner (dts s) (local s) (year_leap s) (substr s) (sublen s) (offset s + k).

Definition moved_flow (k : Z) (f : flow) : flow :=
  match f with
  | Next s => Next (moved k s)
  | goto_finish s b => goto_finish (moved k s) b
  | goto_parse_timezone s b => goto_parse_timezone (moved k s) b
  | goto_parse_error s => goto_parse_error (moved k s)
  | goto_error e => goto_error e
  end.

(** The result with the position of a parse error [k] bytes further on. *)
Definition moved_result (k : Z) (r : parse_result) : parse_result :=
  match r with
  | Failed (ParseErrorAt position) => Failed (ParseErrorAt (position + k))
  | other => other
  end.

(** [f] does not depend on where in the input the cursor is. *)
Definition anywhere (f : scanner -> flow) : Prop :=
  forall k s, f (moved k s) = moved_flow k (f s).

(** What the time zone block makes of the scanned fields [d]: [d] itself
    (behind a ['Z'] or whitespace, and for a local time outside the years
    1901 to 9999), [d] moved by the minutes of an offset of less than a day,
    or the fields [gmtime] returns for the [mktime] of [d] with the fraction
    of [d]. *)
Definition zone_converted (host : Host) (d d' : npy_datetimestruct) : Prop :=
  d' = d \/
  (exists minutes, -1440 < minutes < 1440 /\
     d' = add_minutes_to_datetimestruct host d minutes) \/
  (1900 < year d < 10000 /\
   exists tm_,
     gmtime_r host (mktime host (mk_tm (sec d) (min d) (hour d) (day d)
                                       (month d - 1) (year d - 1900) (-1))) = Some tm_ /\
     d' = mk_dts (tm_year tm_ + 1900) (tm_mon tm_ + 1) (tm_mday tm_)
                 (tm_hour tm_) (tm_min tm_) (tm_sec tm_) (us d) (ps d) (as_ d)).

(** * Properties *)

(** ** Special values *)

Lemma is_word_lower (w str : list Z) :
  map tolower str = w -> is_word w str = true.
Proof.
  intros <-. unfold is_word. rewrite length_map, Z.eqb_refl. simpl.
  apply forallb_forall. intros k Hk. apply in_seq in Hk.
  apply Z.eqb_eq.
  rewrite <- (map_nth tolower str 0 k) at 1.
  apply nth_indep. rewrite length_map. lia.
Qed.

(** C6. The empty string and every case variant of "NaT" parse to
    not-a-time: year [NPY_DATETIME_NAT], generic best unit, not local,
    special; for every requested unit and casting rule and whatever the
    host's casting predicate answers. *)
Theorem parse_nat_always_succeeds (host : Host) (unit : option NPY_DATETIMEUNIT)
    (casting : NPY_CASTING) (str : list Z) :
  str = [] \/ map tolower str = cstr "nat" ->
  parse_iso_8601_datetime host unit casting str =
    Parsed (mk_parsed (mk_dts NPY_DATETIME_NAT 1 1 0 0 0 0 0 0)
                      (Some false) NPY_FR_GENERIC true).
Proof.
  intros [-> | Hnat].
  - reflexivity.
  - unfold parse_iso_8601_datetime.
    rewrite (is_word_lower [c_n; c_a; c_t] str Hnat), orb_true_r. reflexivity.
Qed.

Lemma parse_nat_always_succeeds_witness :
  parse_text example_host (Some NPY_FR_s) NPY_NO_CASTING "nAt" =
    Parsed (mk_parsed (mk_dts NPY_DATETIME_NAT 1 1 0 0 0 0 0 0)
                      (Some false) NPY_FR_GENERIC true).
Proof.
  apply (parse_nat_always_succeeds example_host (Some NPY_FR_s) NPY_NO_CASTING
           (cstr "nAt")).
  right. reflexivity.
Defined.

Lemma is_word_length (w str : list Z) :
  length str <> length w -> is_word w str = false.
Proof.
  intros H. unfold is_word.
  destruct (Z.eqb_spec (Z.of_nat (length str)) (Z.of_nat (length w))); [lia | reflexivity].
Qed.

(** C8, as the code has it.  For a case variant of "today" the parser
    fails exactly when a unit is requested that is generic, finer than
    days, or refused by the casting predicate for a cast from days, or when
    the host's [localtime] fails.  When it succeeds the result is the host's
    local date with every time field zero, best unit [D], not local,
    special. *)
Theorem parse_today_outcome (host : Host) (unit : option NPY_DATETIMEUNIT)
    (casting : NPY_CASTING) (str : list Z) :
  map tolower str = cstr "today" ->
  ((exists e, parse_iso_8601_datetime host unit casting str = Failed e) <->
     ((exists u, unit = Some u /\
         (u = NPY_FR_GENERIC \/ unit_code NPY_FR_D < unit_code u \/
          can_cast_datetime64_units host NPY_FR_D u casting = false)) \/
      localtime_r host (time host) = None)) /\
  (forall p, parse_iso_8601_datetime host unit casting str = Parsed p ->
     exists tm_, localtime_r host (time host) = Some tm_ /\
       p = mk_parsed (mk_dts (tm_year tm_ + 1900) (tm_mon tm_ + 1) (tm_mday tm_)
                             0 0 0 0 0 0)
                     (Some false) NPY_FR_D true).
Proof.
  intros Hword.
  assert (Hlen : length str = 5%nat).
  { rewrite <- (length_map tolower), Hword. reflexivity. }
  unfold parse_iso_8601_datetime.
  rewrite (is_word_length [c_n; c_a; c_t]) by (rewrite Hlen; discriminate).
  rewrite (is_word_lower [c_t; c_o; c_d; c_a; c_y] str Hword).
  replace (Z.of_nat (length str) <=? 0) with false by (rewrite Hlen; reflexivity).
  cbn [orb]. unfold check_casting, cannot_cast.
  destruct unit as [u |].
  - destruct (unit_eqb u NPY_FR_GENERIC) eqn:Hgen.
    { split; [| discriminate].
      split; [| eauto]. intros _. left. exists u. split; [reflexivity |].
      left. destruct u; try discriminate. reflexivity. }
    destruct (unit_code NPY_FR_D <? unit_code u) eqn:Hfine.
    { split; [| discriminate].
      split; [| eauto]. intros _. left. exists u. split; [reflexivity |].
      right. left. lia. }
    destruct (localtime_r host (time host)) as [tm_ |] eqn:Hclock.
    + destruct (can_cast_datetime64_units host NPY_FR_D u casting) eqn:Hcast.
      * split.
        -- split; [intros [e He]; discriminate |].
           intros [(u' & Hu & Hwhy) | Hnone]; [| discriminate].
           injection Hu as <-.
           destruct Hwhy as [-> | [Hlt | Hno]]; [discriminate | lia | congruence].
        -- intros p Hp. injection Hp as <-. eauto.
      * split; [| discriminate].
        split; [| eauto]. intros _. left. exists u. auto.
    + split; [| discriminate]. split; eauto.
  - destruct (localtime_r host (time host)) as [tm_ |] eqn:Hclock.
    + split.
      * split; [intros [e He]; discriminate |].
        intros [(u' & Hu & _) | Hnone]; discriminate.
      * intros p Hp. injection Hp as <-. eauto.
    + split; [| discriminate]. split; eauto.
Qed.

Lemma parse_today_outcome_witness :
  exists tm_, localtime_r example_host (time example_host) = Some tm_ /\
    mk_parsed (mk_dts 2011 6 1 0 0 0 0 0 0) (Some false) NPY_FR_D true =
    mk_parsed (mk_dts (tm_year tm_ + 1900) (tm_mon tm_ + 1) (tm_mday tm_)
                      0 0 0 0 0 0)
              (Some false) NPY_FR_D true.
Proof.
  apply (proj2 (parse_today_outcome example_host (Some NPY_FR_D) NPY_SAFE_CASTING
                  (cstr "Today") eq_refl)).
  reflexivity.
Defined.

(** C8, as stated, fails: with years requested, which are coarser than
    days, "today" is still refused, by the casting predicate. *)
Lemma today_refused_for_coarser_unit :
  parse_text example_host (Some NPY_FR_Y) NPY_SAFE_CASTING "today" =
    Failed (CannotCast NPY_FR_D NPY_FR_Y NPY_SAFE_CASTING) /\
  (unit_code NPY_FR_D <? unit_code NPY_FR_Y) = false.
Proof. split; reflexivity. Qed.

(** C9. Weeks collapse to days: both units need the same buffer length,
    for either locality, and on every input the formatter does for unit [W]
    exactly what it does for unit [D]. *)
Theorem week_formats_as_day (host : Host) (d : npy_datetimestruct)
    (outstr : list Z) (outlen : Z) (local : bool) (tzoffset : Z) :
  get_datetime_iso_8601_strlen false (Some NPY_FR_D) =
    get_datetime_iso_8601_strlen false (Some NPY_FR_W) /\
  get_datetime_iso_8601_strlen local (Some NPY_FR_D) =
    get_datetime_iso_8601_strlen local (Some NPY_FR_W) /\
  make_iso_8601_datetime host d outstr outlen local (Some NPY_FR_W) tzoffset =
    make_iso_8601_datetime host d outstr outlen local (Some NPY_FR_D) tzoffset.
Proof.
  split; [reflexivity |]. split; [destruct local; reflexivity |].
  unfold make_iso_8601_datetime. reflexivity.
Qed.

(** ** Not-a-time in the formatter *)

(** C1, as the code has it.  On the NaT path with room for four bytes the
    formatter returns success, but its four stores all go to [outstr[0]]:
    the buffer is left with a terminator in its first cell and nothing else
    changed, so it holds the empty string and not "NaT". *)
Theorem nat_is_written_as_empty_string (host : Host) (d : npy_datetimestruct)
    (outstr : list Z) (outlen : Z) (local : bool)
    (base : option NPY_DATETIMEUNIT) (tzoffset : Z) :
  year d = NPY_DATETIME_NAT \/ base = Some NPY_FR_GENERIC ->
  4 <= outlen ->
  make_iso_8601_datetime host d outstr outlen local base tzoffset =
    (Formatted, <[0%nat := 0]> outstr) /\
  c_string (<[0%nat := 0]> outstr) = [] /\
  c_string (<[0%nat := 0]> outstr) <> cstr "NaT".
Proof.
  intros Hnat Hroom.
  assert (Hempty : c_string (<[0%nat := 0]> outstr) = []).
  { destruct outstr; reflexivity. }
  split; [| split; [exact Hempty | rewrite Hempty; discriminate]].
  unfold make_iso_8601_datetime.
  replace ((year d =? NPY_DATETIME_NAT) ||
           match base with Some b => unit_eqb b NPY_FR_GENERIC | None => false end)
    with true.
  - destruct (Z.ltb_spec outlen 4); [lia |].
    f_equal. destruct outstr; reflexivity.
  - destruct Hnat as [-> | ->]; [reflexivity | apply eq_sym, orb_true_r].
Qed.

Lemma nat_is_written_as_empty_string_witness :
  make_iso_8601_datetime example_host (mk_dts NPY_DATETIME_NAT 1 1 0 0 0 0 0 0)
      [120; 120; 120; 120] 4 false (Some NPY_FR_D) (-1) =
    (Formatted, [0; 120; 120; 120]) /\
  c_string [0; 120; 120; 120] = [] /\
  c_string [0; 120; 120; 120] <> cstr "NaT".
Proof.
  apply (nat_is_written_as_empty_string example_host
           (mk_dts NPY_DATETIME_NAT 1 1 0 0 0 0 0 0)
           [120; 120; 120; 120] 4 false (Some NPY_FR_D) (-1)).
  - left. reflexivity.
  - lia.
Defined.

(** ** The sign of the year *)

(** C4, as the code has it.  The year is negated when [str[0]] is ['-'],
    not when the cursor stepped over a ['-'] after the leading whitespace:
    " -0100" parses to the year 100, "-0100" to the year -100. *)
Theorem sign_after_whitespace_is_lost (host : Host) (casting : NPY_CASTING) :
  parse_text host None casting " -0100" =
    Parsed (mk_parsed (mk_dts 100 1 1 0 0 0 0 0 0) (Some false) NPY_FR_Y false) /\
  parse_text host None casting "-0100" =
    Parsed (mk_parsed (mk_dts (-100) 1 1 0 0 0 0 0 0) (Some false) NPY_FR_Y false).
Proof. split; vm_compute; reflexivity. Qed.

(** ** Cursor arithmetic *)

Lemma to_char_id (z : Z) : -128 <= z <= 127 -> to_char z = z.
Proof. intros H. unfold to_char. rewrite Z.mod_small; lia. Qed.

Lemma to_char_range (z : Z) : -128 <= to_char z <= 127.
Proof. unfold to_char. pose proof (Z.mod_pos_bound (z + 128) 256). lia. Qed.

Lemma to_char_le (z : Z) : 0 <= z -> to_char z <= z.
Proof.
  intros H. unfold to_char.
  pose proof (Z.mod_le (z + 128) 256). lia.
Qed.

Lemma isspace_cases (c : Z) :
  isspace c = true -> c = 32 \/ 9 <= c <= 13.
Proof. unfold isspace. lia. Qed.

Lemma isdigit_cases (c : Z) : isdigit c = true -> 48 <= c <= 57.
Proof. unfold isdigit. lia. Qed.

Lemma isspace_tolower (c : Z) : isspace c = true -> tolower c = c.
Proof.
  intros H. apply isspace_cases in H. unfold tolower.
  destruct (Z.leb_spec 65 c); [lia | reflexivity].
Qed.

Lemma and_then_assoc (f g h : scanner -> flow) (s : scanner) :
  ((f >>> g) >>> h) s = (f >>> (g >>> h)) s.
Proof. unfold and_then. destruct (f s); reflexivity. Qed.

Lemma and_then_Next (f g : scanner -> flow) (s s' : scanner) :
  f s = Next s' -> (f >>> g) s = g s'.
Proof. intros H. unfold and_then. rewrite H. reflexivity. Qed.

Lemma and_then_parse_error (f g : scanner -> flow) (s s' : scanner) :
  f s = goto_parse_error s' -> (f >>> g) s = goto_parse_error s'.
Proof. intros H. unfold and_then. rewrite H. reflexivity. Qed.

Lemma and_then_error (f g : scanner -> flow) (s : scanner) (e : parse_failure) :
  f s = goto_error e -> (f >>> g) s = goto_error e.
Proof. intros H. unfold and_then. rewrite H. reflexivity. Qed.

Lemma and_then_finish (f g : scanner -> flow) (s s' : scanner) (b : NPY_DATETIMEUNIT) :
  f s = goto_finish s' b -> (f >>> g) s = goto_finish s' b.
Proof. intros H. unfold and_then. rewrite H. reflexivity. Qed.

Lemma and_then_timezone (f g : scanner -> flow) (s s' : scanner) (b : NPY_DATETIMEUNIT) :
  f s = goto_parse_timezone s' b -> (f >>> g) s = goto_parse_timezone s' b.
Proof. intros H. unfold and_then. rewrite H. reflexivity. Qed.

Lemma scan_fields_nested (str0 : Z) (s : scanner) :
  scan_fields str0 s = (parse_sign >>> (parse_year str0 >>> after_year)) s.
Proof.
  unfold scan_fields, after_year.
  repeat rewrite and_then_assoc.
  reflexivity.
Qed.

(** ** Whitespace-only input *)

Lemma all_space_peek (s : scanner) :
  all_space (substr s) -> (peek s 0 =? c_dash) = false.
Proof.
  unfold peek. destruct (substr s) as [| c rest]; [reflexivity |].
  intros H. inversion H as [| ? ? Hc _]. apply isspace_cases in Hc.
  simpl. lia.
Qed.

(** On a cursor that has only whitespace ahead, the whitespace loop either
    does not run (counter not positive) or runs the counter down to zero. *)
Lemma skip_whitespace_loop_all_space (n : nat) (s : scanner) :
  all_space (substr s) ->
  sublen s <= 127 ->
  sublen s <= Z.of_nat (length (substr s)) ->
  (length (substr s) <= n)%nat ->
  let s' := skip_whitespace_loop n s in
  all_space (substr s') /\
  (sublen s <= 0 -> s' = s) /\
  (0 < sublen s -> sublen s' = 0 /\ offset s' = offset s + sublen s).
Proof.
  revert s. induction n as [| n IH]; intros s Hall Hmax Hlen Hn; simpl.
  - split; [exact Hall |]. split; [reflexivity |]. lia.
  - destruct (Z.ltb_spec 0 (sublen s)) as [Hpos | Hneg]; simpl.
    + destruct (substr s) as [| c rest] eqn:Hsub; [simpl in Hlen; lia |].
      inversion Hall as [| ? ? Hc Hrest]; subst.
      unfold peek. rewrite Hsub. simpl. rewrite Hc.
      set (s1 := advance 1 s).
      assert (Hs1 : substr s1 = rest) by (unfold s1; simpl; rewrite Hsub; reflexivity).
      assert (Hl1 : sublen s1 = sublen s - 1).
      { unfold s1. simpl. apply to_char_id. lia. }
      destruct (IH s1) as (Ha & Hb & Hc').
      * rewrite Hs1. exact Hrest.
      * lia.
      * rewrite Hs1, Hl1. simpl in Hlen. lia.
      * rewrite Hs1. simpl in Hn. lia.
      * split; [exact Ha |]. split; [lia |]. intros _.
        destruct (Z.eq_dec (sublen s) 1) as [Hone | Hmore].
        -- rewrite Hb by lia. rewrite Hl1. unfold s1. simpl. lia.
        -- destruct Hc' as [Hz Ho]; [lia |].
           rewrite Hz, Ho, Hl1. unfold s1. simpl. lia.
    + split; [exact Hall |]. split; [reflexivity | lia].
Qed.

Lemma is_word_space (w : list Z) (l c : Z) (str : list Z) :
  isspace c = true -> isspace l = false ->
  is_word (l :: w) (c :: str) = false.
Proof.
  intros Hc Hl. unfold is_word. apply andb_false_intro2.
  cbn [length seq forallb nth]. rewrite (isspace_tolower c Hc).
  destruct (Z.eqb_spec c l) as [-> | _]; [congruence | reflexivity].
Qed.

Lemma year_loop_idle (n : nat) (s : scanner) :
  sublen s <= 0 -> year_loop n s = s.
Proof.
  intros H. destruct n; simpl; [reflexivity |].
  destruct (Z.ltb_spec 0 (sublen s)); [lia | reflexivity].
Qed.

(** With a negative counter the year loop does not run, and a cursor that
    is not on a ['-'] is a parse error where it stands. *)
Lemma parse_year_idle (str0 : Z) (s : scanner) :
  sublen s < 0 -> str0 <> c_dash -> peek s 0 <> c_dash ->
  exists s', parse_year str0 s = goto_parse_error s' /\ offset s' = offset s.
Proof.
  intros Hneg Hstr0 Hpeek. unfold parse_year. cbv zeta.
  rewrite year_loop_idle by (simpl; lia).
  destruct (Z.eqb_spec str0 45) as [| _]; [contradiction |].
  cbn [set_year_leap set_dts sublen dts].
  destruct (Z.eqb_spec (sublen s) 0) as [| _]; [lia |].
  unfold peek in *. cbn [substr set_year_leap set_dts].
  destruct (Z.eqb_spec (nth 0 (substr s) 0) 45) as [| _]; [contradiction |].
  eexists. split; reflexivity.
Qed.

(** C10, as the code has it.  A non-empty string of whitespace only is
    never read as the NaT of the empty string.  With any requested unit but
    the generic one the parser fails with a positioned parse error; the
    position is the length of the string when the [char] counter can hold
    it.  With the generic unit requested the call fails before the scan,
    with the error reserved for generic units. *)
Theorem whitespace_only_is_rejected (host : Host) (unit : option NPY_DATETIMEUNIT)
    (casting : NPY_CASTING) (str : list Z) :
  str <> [] -> all_space str ->
  (unit <> Some NPY_FR_GENERIC ->
   exists position,
     parse_iso_8601_datetime host unit casting str = Failed (ParseErrorAt position) /\
     (Z.of_nat (length str) <= 127 -> position = Z.of_nat (length str))) /\
  (unit = Some NPY_FR_GENERIC ->
   parse_iso_8601_datetime host unit casting str = Failed GenericUnits).
Proof.
  intros Hne Hall.
  destruct str as [| c str']; [congruence |].
  inversion Hall as [| ? ? Hc Hrest]; subst.
  unfold parse_iso_8601_datetime.
  replace (Z.of_nat (length (c :: str')) <=? 0) with false
    by (symmetry; apply Z.leb_gt; simpl length; lia).
  rewrite !is_word_space by (exact Hc || reflexivity).
  cbn [orb]. split.
  - intros Hunit.
    replace (match unit with Some u => unit_eqb u NPY_FR_GENERIC | None => false end)
      with false
      by (destruct unit as [[] |]; try reflexivity; congruence).
    unfold parse_general. rewrite scan_fields_nested.
    set (str := c :: str') in *.
    pose proof (to_char_range (Z.of_nat (length str))) as Hrange.
    pose proof (to_char_le (Z.of_nat (length str)) ltac:(lia)) as Hle.
    assert (Hskip := skip_whitespace_loop_all_space (length str) (start str) Hall
                       ltac:(cbn [sublen start]; lia)
                       ltac:(cbn [sublen substr start]; lia)
                       ltac:(cbn [substr start]; lia)).
    cbv zeta in Hskip. destruct Hskip as (Hall' & Hstay & Hrun).
    change (skip_whitespace_loop (length str) (start str))
      with (skip_whitespace (start str)) in Hall', Hstay, Hrun.
    assert (Hsign : parse_sign (start str) =
              if sublen (skip_whitespace (start str)) =? 0
              then goto_parse_error (skip_whitespace (start str))
              else Next (skip_whitespace (start str))).
    { unfold parse_sign. rewrite (all_space_peek _ Hall'). reflexivity. }
    destruct (Z.ltb_spec 0 (sublen (start str))) as [Hpos | Hneg].
    + destruct (Hrun Hpos) as [Hzero Hoff].
      rewrite Hzero in Hsign. cbn [Z.eqb] in Hsign.
      rewrite (and_then_parse_error _ _ _ _ Hsign). cbn [at_label leave].
      eexists. split; [reflexivity |].
      intros Hshort. rewrite Hoff. cbn [sublen offset start]. rewrite to_char_id; lia.
    + rewrite (Hstay Hneg) in Hsign.
      destruct (Z.eqb_spec (sublen (start str)) 0) as [Hzero | Hnz].
      * rewrite (and_then_parse_error _ _ _ _ Hsign). cbn [at_label leave].
        eexists. split; [reflexivity |].
        intros Hshort. cbn [sublen start] in Hzero.
        rewrite to_char_id in Hzero by lia. subst str. simpl length in Hzero. lia.
      * rewrite (and_then_Next _ _ _ _ Hsign).
        destruct (parse_year_idle (nth 0 str 0) (start str)) as (s' & Hyear & Hoff).
        { lia. }
        { apply isspace_cases in Hc. simpl. lia. }
        { apply isspace_cases in Hc. unfold peek. simpl. lia. }
        rewrite (and_then_parse_error _ _ _ _ Hyear). cbn [at_label leave].
        exists 0. rewrite Hoff. split; [reflexivity |].
        intros Hshort. cbn [sublen start] in Hneg, Hnz.
        rewrite to_char_id in Hneg by lia. subst str. simpl length in Hneg. lia.
  - intros ->. reflexivity.
Qed.

Lemma whitespace_only_is_rejected_witness :
  exists position,
    parse_text example_host None NPY_SAFE_CASTING "   " = Failed (ParseErrorAt position) /\
    (3 <= 127 -> position = 3).
Proof.
  apply (whitespace_only_is_rejected example_host None NPY_SAFE_CASTING (cstr "   ")).
  - discriminate.
  - repeat constructor.
  - discriminate.
Defined.

(** C10, as stated, fails: with the generic unit requested a blank string
    is refused for its unit, not with a positioned parse error. *)
Lemma blank_with_generic_unit_is_not_a_parse_error :
  parse_text example_host (Some NPY_FR_GENERIC) NPY_SAFE_CASTING " " =
    Failed GenericUnits /\
  forall position,
    parse_text example_host (Some NPY_FR_GENERIC) NPY_SAFE_CASTING " " <>
      Failed (ParseErrorAt position).
Proof. split; [reflexivity | discriminate]. Qed.

(** ** Range checks of the scanned fields *)

Lemma stage_and_then (P Q R : scanner -> Prop) (f g : scanner -> flow) :
  stage P f Q -> stage Q g R -> stage P (f >>> g) R.
Proof.
  intros Hf Hg s HP. specialize (Hf s HP). unfold and_then.
  destruct (f s); try exact Hf. apply Hg. exact Hf.
Qed.

Lemma skip_whitespace_loop_dts (n : nat) (s : scanner) :
  dts (skip_whitespace_loop n s) = dts s /\
  local (skip_whitespace_loop n s) = local s.
Proof.
  revert s. induction n as [| n IH]; intros s; simpl; [auto |].
  destruct ((0 <? sublen s) && isspace (peek s 0)); [| auto].
  destruct (IH (advance 1 s)) as [-> ->]. auto.
Qed.

Lemma year_loop_fresh (n : nat) (s : scanner) :
  fresh s -> fresh (year_loop n s).
Proof.
  revert s. induction n as [| n IH]; intros s H; simpl; [exact H |].
  destruct ((0 <? sublen s) && isdigit (peek s 0)); [| exact H].
  apply IH. exact H.
Qed.

Lemma two_digit_value_range (s : scanner) :
  two_digits s = true -> 0 <= two_digit_value s <= 99.
Proof.
  unfold two_digits, two_digit_value. intros H.
  apply andb_prop in H as [H H1]. apply andb_prop in H as [_ H0].
  apply isdigit_cases in H0, H1. lia.
Qed.

Lemma days_per_month_at_least_28 (leap : bool) (m : Z) :
  1 <= m <= 12 -> 28 <= _days_per_month_table leap (m - 1).
Proof.
  intros H.
  assert (Hm : m = 1 \/ m = 2 \/ m = 3 \/ m = 4 \/ m = 5 \/ m = 6 \/ m = 7 \/
               m = 8 \/ m = 9 \/ m = 10 \/ m = 11 \/ m = 12) by lia.
  destruct leap;
    repeat (destruct Hm as [-> | Hm]; [vm_compute; discriminate |]);
    subst; vm_compute; discriminate.
Qed.

Lemma stage_parse_sign : stage fresh parse_sign fresh.
Proof.
  intros s H. unfold parse_sign. cbv zeta.
  set (s1 := skip_whitespace s).
  assert (H1 : fresh s1).
  { unfold fresh, s1, skip_whitespace.
    rewrite (proj1 (skip_whitespace_loop_dts _ s)). exact H. }
  destruct (peek s1 0 =? 45);
    match goal with |- context [sublen ?x =? 0] => destruct (sublen x =? 0) end;
    try exact I; exact H1.
Qed.

Lemma stage_parse_year (str0 : Z) : stage fresh (parse_year str0) year_done.
Proof.
  intros s H. unfold parse_year. cbv zeta.
  set (s1 := year_loop _ _).
  assert (H1 : fresh s1) by (apply year_loop_fresh; exact H).
  set (s2 := if str0 =? 45 then _ else s1).
  assert (H2 : fresh s2) by (unfold s2; destruct (str0 =? 45); exact H1).
  set (s3 := set_year_leap _ s2).
  assert (H3 : year_done s3) by (split; [exact H2 | reflexivity]).
  destruct (sublen s3 =? 0).
  - destruct H2 as (Hm & Hd & Hh & Hmin & Hs).
    unfold consistent. cbn [set_local dts s3 set_year_leap].
    rewrite Hm, Hd, Hh, Hmin, Hs.
    repeat split; try lia. destruct (is_leapyear (year (dts s2))); vm_compute; discriminate.
  - destruct (peek s3 0 =? 45); [| exact I].
    destruct (sublen (advance 1 s3) =? 0); [exact I | exact H3].
Qed.

Lemma stage_parse_month : stage year_done parse_month month_done.
Proof.
  intros s [(Hm & Hd & Hh & Hmin & Hs) Hleap]. unfold parse_month.
  destruct (two_digits s) eqn:Htwo; [| exact I].
  pose proof (two_digit_value_range s Htwo) as Hv. cbv zeta.
  cbn [set_dts dts with_month month].
  destruct (Z.ltb_spec (two_digit_value s) 1); [exact I |].
  destruct (Z.ltb_spec 12 (two_digit_value s)); [exact I |]. cbn [orb].
  assert (Hdone : month_done (set_dts (with_month (dts s) (two_digit_value s)) s)).
  { unfold month_done, leap_known. cbn. repeat split; try lia; assumption. }
  match goal with |- context [sublen ?x =? 0] => destruct (sublen x =? 0) end.
  - unfold consistent. cbn. rewrite Hd, Hh, Hmin, Hs.
    pose proof (days_per_month_at_least_28 (is_leapyear (year (dts s)))
                  (two_digit_value s) ltac:(lia)).
    repeat split; lia.
  - match goal with |- context [peek ?x 0 =? 45] => destruct (peek x 0 =? 45) end;
      [| exact I].
    match goal with |- context [sublen ?x =? 0] => destruct (sublen x =? 0) end;
      [exact I | exact Hdone].
Qed.

Lemma stage_parse_day : stage month_done parse_day fields_consistent.
Proof.
  intros s (Hm & Hd & Hh & Hmin & Hs & Hleap). unfold parse_day.
  destruct (two_digits s) eqn:Htwo; [| exact I].
  pose proof (two_digit_value_range s Htwo) as Hv. cbv zeta.
  cbn [set_dts dts with_day day month year_leap].
  destruct (Z.ltb_spec (two_digit_value s) 1); [exact I |].
  destruct (Z.ltb_spec (_days_per_month_table (year_leap s) (month (dts s) - 1))
              (two_digit_value s)); [exact I |]. cbn [orb].
  assert (Hdone : consistent (with_day (dts s) (two_digit_value s))).
  { unfold consistent. cbn. rewrite <- Hleap, Hh, Hmin, Hs. repeat split; lia. }
  match goal with |- context [sublen ?x =? 0] => destruct (sublen x =? 0) end;
    [exact Hdone |].
  match goal with |- context [negb ?a && negb ?b] => destruct (negb a && negb b) end;
    [exact I | exact Hdone].
Qed.

Lemma stage_parse_hour : stage fields_consistent parse_hour fields_consistent.
Proof.
  intros s (Hm & Hd & Hh & Hmin & Hs). unfold parse_hour.
  destruct (two_digits s) eqn:Htwo; [| exact I].
  pose proof (two_digit_value_range s Htwo) as Hv. cbv zeta.
  cbn [set_dts dts with_hour hour].
  destruct (Z.ltb_spec (two_digit_value s) 0); [exact I |].
  destruct (Z.leb_spec 24 (two_digit_value s)); [exact I |]. cbn [orb].
  assert (Hdone : consistent (with_hour (dts s) (two_digit_value s))).
  { unfold consistent. cbn. repeat split; lia. }
  match goal with |- context [?a && ?b] => destruct (a && b) end; [| exact Hdone].
  match goal with |- context [sublen ?x =? 0] => destruct (sublen x =? 0) end;
    [exact I | exact Hdone].
Qed.

Lemma stage_parse_minute : stage fields_consistent parse_minute fields_consistent.
Proof.
  intros s (Hm & Hd & Hh & Hmin & Hs). unfold parse_minute.
  destruct (two_digits s) eqn:Htwo; [| exact I].
  pose proof (two_digit_value_range s Htwo) as Hv. cbv zeta.
  cbn [set_dts dts with_min min hour].
  destruct (Z.ltb_spec (hour (dts s)) 0); [exact I |].
  destruct (Z.leb_spec 60 (two_digit_value s)); [exact I |]. cbn [orb].
  assert (Hdone : consistent (with_min (dts s) (two_digit_value s))).
  { unfold consistent. cbn. repeat split; lia. }
  match goal with |- context [?a && ?b] => destruct (a && b) end; [| exact Hdone].
  match goal with |- context [sublen ?x =? 0] => destruct (sublen x =? 0) end;
    [exact I | exact Hdone].
Qed.

Lemma stage_parse_second : stage fields_consistent parse_second fields_consistent.
Proof.
  intros s (Hm & Hd & Hh & Hmin & Hs). unfold parse_second.
  destruct (two_digits s) eqn:Htwo; [| exact I].
  pose proof (two_digit_value_range s Htwo) as Hv. cbv zeta.
  cbn [set_dts dts with_sec sec].
  destruct (Z.ltb_spec (two_digit_value s) 0); [exact I |].
  destruct (Z.leb_spec 60 (two_digit_value s)); [exact I |]. cbn [orb].
  assert (Hdone : consistent (with_sec (dts s) (two_digit_value s))).
  { unfold consistent. cbn. repeat split; lia. }
  match goal with |- context [?a && ?b] => destruct (a && b) end; exact Hdone.
Qed.

Lemma same_clock_consistent (d d' : npy_datetimestruct) :
  same_clock d d' -> consistent d' -> consistent d.
Proof.
  intros (Hy & Hm & Hd & Hh & Hmin & Hs). unfold consistent.
  rewrite Hy, Hm, Hd, Hh, Hmin, Hs. auto.
Qed.

Lemma digit_group_same_clock
    (get : npy_datetimestruct -> Z)
    (set : npy_datetimestruct -> Z -> npy_datetimestruct)
    (i : nat) (numdigits : Z) (s : scanner) :
  (forall d v, same_clock (set d v) d) ->
  same_clock (dts (fst (digit_group get set i numdigits s))) (dts s).
Proof.
  intros Hset. revert numdigits s.
  induction i as [| i IH]; intros numdigits s; simpl.
  - repeat split.
  - match goal with |- context [if ?c then _ else _] => destruct c end.
    + destruct (IH (numdigits + 1)
                  (advance 1
                     (set_dts (set (set (dts s) (get (dts s) * 10))
                                 (get (set (dts s) (get (dts s) * 10)) +
                                  (peek (set_dts (set (dts s) (get (dts s) * 10)) s) 0 - 48)))
                        (set_dts (set (dts s) (get (dts s) * 10)) s))))
        as (Hy & Hm & Hd & Hh & Hmin & Hs).
      destruct (Hset (set (dts s) (get (dts s) * 10))
                  (get (set (dts s) (get (dts s) * 10)) +
                   (peek (set_dts (set (dts s) (get (dts s) * 10)) s) 0 - 48)))
        as (Hy1 & Hm1 & Hd1 & Hh1 & Hmin1 & Hs1).
      destruct (Hset (dts s) (get (dts s) * 10)) as (Hy2 & Hm2 & Hd2 & Hh2 & Hmin2 & Hs2).
      cbn [dts advance set_dts] in *.
      unfold same_clock. repeat split; congruence.
    + destruct (IH numdigits (set_dts (set (dts s) (get (dts s) * 10)) s))
        as (Hy & Hm & Hd & Hh & Hmin & Hs).
      destruct (Hset (dts s) (get (dts s) * 10)) as (Hy2 & Hm2 & Hd2 & Hh2 & Hmin2 & Hs2).
      cbn [dts set_dts] in *.
      unfold same_clock. repeat split; congruence.
Qed.

Lemma stage_parse_microseconds :
  stage fields_consistent parse_microseconds fields_consistent.
Proof.
  intros s H. unfold parse_microseconds.
  pose proof (digit_group_same_clock us with_us 6 0 s
                ltac:(intros; repeat split)) as Hsame.
  destruct (digit_group us with_us 6 0 s) as [s1 numdigits].
  apply same_clock_consistent in Hsame; [| exact H].
  destruct (group_ends s1); exact Hsame.
Qed.

Lemma stage_parse_picoseconds :
  stage fields_consistent parse_picoseconds fields_consistent.
Proof.
  intros s H. unfold parse_picoseconds.
  pose proof (digit_group_same_clock ps with_ps 6 0 s
                ltac:(intros; repeat split)) as Hsame.
  destruct (digit_group ps with_ps 6 0 s) as [s1 numdigits].
  apply same_clock_consistent in Hsame; [| exact H].
  destruct (group_ends s1); exact Hsame.
Qed.

Lemma stage_parse_attoseconds :
  stage fields_consistent parse_attoseconds fields_consistent.
Proof.
  intros s H. unfold parse_attoseconds.
  pose proof (digit_group_same_clock as_ with_as 6 0 s
                ltac:(intros; repeat split)) as Hsame.
  destruct (digit_group as_ with_as 6 0 s) as [s1 numdigits].
  apply same_clock_consistent in Hsame; [| exact H].
  exact Hsame.
Qed.

Lemma stage_scan_fields (str0 : Z) :
  stage fresh (scan_fields str0) fields_consistent.
Proof.
  unfold scan_fields.
  eapply stage_and_then; [| exact stage_parse_attoseconds].
  eapply stage_and_then; [| exact stage_parse_picoseconds].
  eapply stage_and_then; [| exact stage_parse_microseconds].
  eapply stage_and_then; [| exact stage_parse_second].
  eapply stage_and_then; [| exact stage_parse_minute].
  eapply stage_and_then; [| exact stage_parse_hour].
  eapply stage_and_then; [| exact stage_parse_day].
  eapply stage_and_then; [| exact stage_parse_month].
  eapply stage_and_then; [| exact (stage_parse_year str0)].
  apply stage_parse_sign.
Qed.

(** The scan always ends at a label: the last stage jumps. *)
Lemma scan_fields_ends (str0 : Z) (s s' : scanner) :
  scan_fields str0 s <> Next s'.
Proof.
  unfold scan_fields. unfold and_then at 1.
  destruct ((parse_sign >>> parse_year str0 >>> parse_month >>> parse_day >>>
             parse_hour >>> parse_minute >>> parse_second >>>
             parse_microseconds >>> parse_picoseconds) s); try discriminate.
  unfold parse_attoseconds.
  destruct (digit_group as_ with_as 6 0 s0). discriminate.
Qed.

(** C7, as the code has it.  Each two-digit field is range-checked where it
    is scanned, but [sublen] is a [char], so of the length of a long input
    only the low eight bits count and a field behind them is never scanned.
    A date and time with the hour 25, padded with spaces to 266 bytes, is
    scanned for 266 - 256 = 10 bytes: the scan ends behind the day and the
    text parses as the date, in days, although C7 says that a field outside
    its range makes the parse fail.  The same text without the padding is
    refused for its hours.  The two examples of C7 are as it says:
    "2010-02-29" is refused for its day, "2000-02-29" is accepted. *)
Theorem out_of_range_hour_behind_the_counter (host : Host) (casting : NPY_CASTING) :
  length (cstr "2016-01-01T25:00:00Z" ++ List.repeat c_space 246) = 266%nat /\
  parse_iso_8601_datetime host None casting
      (cstr "2016-01-01T25:00:00Z" ++ List.repeat c_space 246) =
    Parsed (mk_parsed (mk_dts 2016 1 1 0 0 0 0 0 0) (Some false) NPY_FR_D false) /\
  parse_text host None casting "2016-01-01T25:00:00Z" = Failed (OutOfRange Hours) /\
  parse_text host None casting "2010-02-29" = Failed (OutOfRange Day) /\
  parse_text host None casting "2000-02-29" =
    Parsed (mk_parsed (mk_dts 2000 2 29 0 0 0 0 0 0) (Some false) NPY_FR_D false).
Proof. repeat split; vm_compute; reflexivity. Qed.

(** ** The cursor on inputs the counter can hold *)

Lemma steady_start (str : list Z) :
  Z.of_nat (length str) <= 127 -> steady (start str).
Proof.
  intros H. unfold steady, start. cbn [sublen substr].
  rewrite to_char_id by lia. lia.
Qed.


Lemma steady_ext (x : list Z) (s : scanner) : steady (ext x s) -> steady s.
Proof.
  unfold steady, ext. cbn [sublen substr]. rewrite length_app. lia.
Qed.

Lemma steady_advance (n : nat) (s : scanner) :
  steady s -> (n <= length (substr s))%nat -> steady (advance n s).
Proof.
  intros [Hlen Hmax] Hn. unfold steady, advance. cbn [sublen substr].
  rewrite length_drop, to_char_id by lia. lia.
Qed.

Lemma advance_ext (n : nat) (x : list Z) (s : scanner) :
  steady (ext x s) -> (n <= length (substr s))%nat ->
  advance n (ext x s) = ext x (advance n s).
Proof.
  intros [Hlen Hmax] Hn. unfold advance, ext in *. cbn [dts local year_leap substr sublen offset] in *.
  rewrite length_app in Hlen.
  f_equal.
  - apply drop_app_le. lia.
  - rewrite !to_char_id by lia. lia.
Qed.

Lemma peek_ext (x : list Z) (s : scanner) (k : nat) :
  (k < length (substr s))%nat -> peek (ext x s) k = peek s k.
Proof. intros H. unfold peek, ext. cbn [substr]. apply app_nth1. exact H. Qed.

Lemma peek_ext_blank (x : list Z) (s : scanner) (k : nat) :
  all_space x -> (length (substr s) <= k)%nat -> blank (peek (ext x s) k).
Proof.
  intros Hx Hk. unfold peek, ext. cbn [substr].
  rewrite app_nth2 by lia.
  destruct (nth_in_or_default (k - length (substr s)) x 0) as [Hin | ->].
  - right. unfold all_space in Hx. rewrite Forall_forall in Hx.
    apply Hx. apply list_elem_of_In. exact Hin.
  - left. reflexivity.
Qed.

Lemma blank_not_digit (c : Z) : blank c -> isdigit c = false.
Proof.
  intros [-> | H]; [reflexivity |]. apply isspace_cases in H.
  unfold isdigit. lia.
Qed.

Lemma blank_not (c k : Z) :
  blank c -> k <> 0 -> isspace k = false -> (c =? k) = false.
Proof.
  intros [-> | H] Hk Hs; [lia |].
  destruct (Z.eqb_spec c k) as [-> | _]; [congruence | reflexivity].
Qed.

Section Extension.

Variable x : list Z.
Hypothesis x_space : all_space x.

Lemma nonempty_of_sublen (s : scanner) :
  steady s -> sublen s <> 0 -> (0 < length (substr s))%nat.
Proof. intros [Hlen _] H. lia. Qed.

(** A guard [sublen > 0 && p( *substr)] whose [p] refuses blanks does not
    see the extension. *)
Lemma guard_ext (p : Z -> bool) (s : scanner) :
  (forall c, blank c -> p c = false) ->
  steady (ext x s) ->
  (0 <? sublen (ext x s)) && p (peek (ext x s) 0) = (0 <? sublen s) && p (peek s 0).
Proof.
  intros Hp Hst. pose proof (steady_ext _ _ Hst) as [Hlen _].
  destruct (Z.ltb_spec 0 (sublen s)) as [Hpos | Hzero].
  - rewrite peek_ext by lia.
    cbn [ext sublen]. destruct (Z.ltb_spec 0 (sublen s + Z.of_nat (length x))); [reflexivity | lia].
  - rewrite (Hp (peek (ext x s) 0)) by (apply peek_ext_blank; [exact x_space | lia]).
    apply andb_false_r.
Qed.

Lemma two_digits_ext (s : scanner) :
  steady (ext x s) -> two_digits s = true ->
  two_digits (ext x s) = true /\ two_digit_value (ext x s) = two_digit_value s /\
  (2 <= length (substr s))%nat.
Proof.
  intros Hst H. pose proof (steady_ext _ _ Hst) as [Hlen _].
  unfold two_digits in *. apply andb_prop in H as [H H1]. apply andb_prop in H as [H2 H0].
  apply Z.leb_le in H2.
  unfold two_digit_value. rewrite !peek_ext by lia. rewrite H0, H1.
  split; [| split; [reflexivity | lia]].
  cbn [ext sublen].
  destruct (Z.leb_spec 2 (sublen s + Z.of_nat (length x))); [reflexivity | lia].
Qed.

Lemma sublen_ext_nonzero (s : scanner) :
  steady (ext x s) -> (sublen s =? 0) = false -> (sublen (ext x s) =? 0) = false.
Proof.
  intros Hst H. pose proof (steady_ext _ _ Hst) as [Hlen _].
  apply Z.eqb_neq in H. apply Z.eqb_neq. cbn [ext sublen]. lia.
Qed.

End Extension.

(** ** Input that goes on with whitespace *)

Lemma parse_month_shape (s : scanner) :
  parse_month s =
    two_digit_field with_month
      (fun s1 => (month (dts s1) <? 1) || (12 <? month (dts s1)))
      (OutOfRange Month) (date_separator NPY_FR_M) s.
Proof. reflexivity. Qed.

Lemma parse_day_shape (s : scanner) :
  parse_day s =
    two_digit_field with_day
      (fun s1 => (day (dts s1) <? 1) ||
                 (_days_per_month_table (year_leap s1) (month (dts s1) - 1) <? day (dts s1)))
      (OutOfRange Day) after_day s.
Proof. reflexivity. Qed.

Lemma parse_hour_shape (s : scanner) :
  parse_hour s =
    two_digit_field with_hour
      (fun s1 => (hour (dts s1) <? 0) || (24 <=? hour (dts s1)))
      (OutOfRange Hours) (time_separator NPY_FR_h) s.
Proof. reflexivity. Qed.

Lemma parse_minute_shape (s : scanner) :
  parse_minute s =
    two_digit_field with_min
      (fun s1 => (hour (dts s1) <? 0) || (60 <=? min (dts s1)))
      (OutOfRange Minutes) (time_separator NPY_FR_m) s.
Proof. reflexivity. Qed.

Lemma parse_second_shape (s : scanner) :
  parse_second s =
    two_digit_field with_sec
      (fun s1 => (sec (dts s1) <? 0) || (60 <=? sec (dts s1)))
      (OutOfRange Seconds) after_second s.
Proof. reflexivity. Qed.

Section Tolerance.

Variable x : list Z.
Hypothesis x_space : all_space x.

Lemma tolerant_and_then (f g : scanner -> flow) :
  tolerant x f -> tolerant x g -> tolerant x (f >>> g).
Proof.
  intros Hf Hg s Hst. specialize (Hf s Hst). unfold and_then.
  destruct (f s) as [s1 | s1 b | s1 b | s1 | e]; try exact Hf.
  - destruct Hf as (-> & Hst1 & Hsuf1). specialize (Hg s1 Hst1).
    destruct (g s1) as [s2 | s2 b | s2 b | s2 | e]; try exact Hg.
    + destruct Hg as (-> & Hst2 & Hsuf2).
      split; [reflexivity |]. split; [exact Hst2 |].
      etrans; [exact Hsuf2 | exact Hsuf1].
    + destruct Hg as (-> & Hst2 & Hsuf2).
      split; [reflexivity |]. split; [exact Hst2 |].
      etrans; [exact Hsuf2 | exact Hsuf1].
  - destruct Hf as (-> & Hst1 & Hsuf1). auto.
Qed.

Lemma steady_ext_advance (n : nat) (s : scanner) :
  steady (ext x s) -> (n <= length (substr s))%nat -> steady (ext x (advance n s)).
Proof.
  intros Hst Hn. rewrite <- advance_ext by assumption.
  apply steady_advance; [exact Hst |].
  cbn [ext substr]. rewrite length_app. lia.
Qed.

Lemma suffix_advance (n : nat) (s : scanner) :
  substr (advance n s) `suffix_of` substr s.
Proof. cbn [advance substr]. apply suffix_drop. Qed.

(** One step over a byte that is there. *)
Lemma step_ext (s : scanner) :
  steady (ext x s) -> (sublen s =? 0) = false ->
  advance 1 (ext x s) = ext x (advance 1 s) /\
  steady (ext x (advance 1 s)) /\
  peek (ext x s) 0 = peek s 0.
Proof.
  intros Hst Hnz. pose proof (steady_ext _ _ Hst) as Hs.
  apply Z.eqb_neq in Hnz. pose proof (nonempty_of_sublen s Hs Hnz).
  split; [apply advance_ext; [exact Hst | lia] |].
  split; [apply steady_ext_advance; [exact Hst | lia] |].
  apply peek_ext. lia.
Qed.

Lemma tolerant_two_digit_field update bad e follow :
  (forall s, bad (ext x s) = bad s) ->
  tolerant x follow -> tolerant x (two_digit_field update bad e follow).
Proof.
  intros Hbad Hfollow s Hst. unfold two_digit_field.
  destruct (two_digits s) eqn:Htwo; [| exact I].
  destruct (two_digits_ext x s Hst Htwo) as (-> & -> & Hlen2).
  cbv zeta.
  change (set_dts (update (dts (ext x s)) (two_digit_value s)) (ext x s))
    with (ext x (set_dts (update (dts s) (two_digit_value s)) s)).
  rewrite Hbad.
  set (s1 := set_dts (update (dts s) (two_digit_value s)) s).
  destruct (bad s1); [exact I |].
  rewrite (advance_ext 2 x s1) by (exact Hst || exact Hlen2).
  assert (Hst2 : steady (ext x (advance 2 s1))).
  { apply steady_ext_advance; [exact Hst | exact Hlen2]. }
  specialize (Hfollow (advance 2 s1) Hst2).
  destruct (follow (advance 2 s1)) as [s' | s' b | s' b | s' | e']; try exact Hfollow.
  - destruct Hfollow as (-> & Hst' & Hsuf). split; [reflexivity |].
    split; [exact Hst' |]. etrans; [exact Hsuf | apply (suffix_advance 2 s1)].
  - destruct Hfollow as (-> & Hst' & Hsuf). split; [reflexivity |].
    split; [exact Hst' |]. etrans; [exact Hsuf | apply (suffix_advance 2 s1)].
Qed.

Lemma tolerant_date_separator (u : NPY_DATETIMEUNIT) :
  unit_code u < unit_code NPY_FR_h -> tolerant x (date_separator u).
Proof.
  intros Hu s Hst. unfold date_separator.
  destruct (sublen s =? 0) eqn:Hnz; [exact Hu |].
  destruct (step_ext s Hst Hnz) as (Hadv & Hst1 & Hpeek).
  rewrite (sublen_ext_nonzero x s Hst Hnz), Hpeek.
  destruct (peek s 0 =? 45); [| exact I]. cbv zeta.
  destruct (sublen (advance 1 s) =? 0) eqn:Hnz1; [exact I |].
  rewrite Hadv, (sublen_ext_nonzero x _ Hst1 Hnz1).
  split; [reflexivity |]. split; [exact Hst1 | apply suffix_advance].
Qed.

Lemma tolerant_after_day : tolerant x after_day.
Proof.
  intros s Hst. unfold after_day.
  destruct (sublen s =? 0) eqn:Hnz; [reflexivity |].
  destruct (step_ext s Hst Hnz) as (Hadv & Hst1 & Hpeek).
  rewrite (sublen_ext_nonzero x s Hst Hnz), Hpeek.
  destruct (negb (peek s 0 =? 84) && negb (peek s 0 =? 32)); [exact I |].
  rewrite Hadv.
  split; [reflexivity |]. split; [exact Hst1 | apply suffix_advance].
Qed.

Lemma tolerant_time_separator (u : NPY_DATETIMEUNIT) : tolerant x (time_separator u).
Proof.
  intros s Hst. unfold time_separator.
  rewrite (guard_ext x x_space (fun c => c =? 58) s) by
    (exact Hst || (intros c Hc; apply blank_not; [exact Hc | discriminate | reflexivity])).
  destruct ((0 <? sublen s) && (peek s 0 =? 58)) eqn:Hguard.
  - apply andb_prop in Hguard as [Hpos _]. apply Z.ltb_lt in Hpos.
    assert (Hnz : (sublen s =? 0) = false) by (apply Z.eqb_neq; lia).
    destruct (step_ext s Hst Hnz) as (Hadv & Hst1 & Hpeek). cbv zeta.
    destruct (sublen (advance 1 s) =? 0) eqn:Hnz1; [exact I |].
    rewrite Hadv, (sublen_ext_nonzero x _ Hst1 Hnz1).
    split; [reflexivity |]. split; [exact Hst1 | apply suffix_advance].
  - split; [reflexivity |]. split; [exact Hst | reflexivity].
Qed.

Lemma tolerant_after_second : tolerant x after_second.
Proof.
  intros s Hst. unfold after_second.
  rewrite (guard_ext x x_space (fun c => c =? 46) s) by
    (exact Hst || (intros c Hc; apply blank_not; [exact Hc | discriminate | reflexivity])).
  destruct ((0 <? sublen s) && (peek s 0 =? 46)) eqn:Hguard.
  - apply andb_prop in Hguard as [Hpos _]. apply Z.ltb_lt in Hpos.
    assert (Hnz : (sublen s =? 0) = false) by (apply Z.eqb_neq; lia).
    destruct (step_ext s Hst Hnz) as (Hadv & Hst1 & Hpeek).
    rewrite Hadv.
    split; [reflexivity |]. split; [exact Hst1 | apply suffix_advance].
  - split; [reflexivity |]. split; [exact Hst | reflexivity].
Qed.

Lemma tolerant_parse_month : tolerant x parse_month.
Proof.
  intros s. rewrite !parse_month_shape. revert s.
  apply tolerant_two_digit_field; [reflexivity |].
  apply tolerant_date_separator. reflexivity.
Qed.

Lemma tolerant_parse_day : tolerant x parse_day.
Proof.
  intros s. rewrite !parse_day_shape. revert s.
  apply tolerant_two_digit_field; [reflexivity | apply tolerant_after_day].
Qed.

Lemma tolerant_parse_hour : tolerant x parse_hour.
Proof.
  intros s. rewrite !parse_hour_shape. revert s.
  apply tolerant_two_digit_field; [reflexivity | apply tolerant_time_separator].
Qed.

Lemma tolerant_parse_minute : tolerant x parse_minute.
Proof.
  intros s. rewrite !parse_minute_shape. revert s.
  apply tolerant_two_digit_field; [reflexivity | apply tolerant_time_separator].
Qed.

Lemma tolerant_parse_second : tolerant x parse_second.
Proof.
  intros s. rewrite !parse_second_shape. revert s.
  apply tolerant_two_digit_field; [reflexivity | apply tolerant_after_second].
Qed.

(** The loops: whitespace ahead of the year, the digits of the year, a
    group of six digits. *)
Lemma skip_whitespace_loop_ext (n m : nat) (s : scanner) :
  steady (ext x s) -> (length (substr s) <= n)%nat ->
  sublen (skip_whitespace_loop n s) <> 0 ->
  skip_whitespace_loop (n + m) (ext x s) = ext x (skip_whitespace_loop n s) /\
  steady (ext x (skip_whitespace_loop n s)) /\
  substr (skip_whitespace_loop n s) `suffix_of` substr s.
Proof.
  revert s. induction n as [| n IH]; intros s Hst Hn Hnz.
  - pose proof (steady_ext _ _ Hst) as [Hlen _]. simpl in Hnz. lia.
  - pose proof (steady_ext _ _ Hst) as [Hlen _].
    cbn [skip_whitespace_loop Nat.add] in *.
    destruct (Z.ltb_spec 0 (sublen s)) as [Hpos | Hzero].
    + assert (Hnz0 : (sublen s =? 0) = false) by (apply Z.eqb_neq; lia).
      destruct (step_ext s Hst Hnz0) as (Hadv & Hst1 & Hpeek).
      rewrite Hpeek.
      replace (0 <? sublen (ext x s)) with true
        by (symmetry; apply Z.ltb_lt; cbn [ext sublen]; lia).
      cbn [andb] in *.
      destruct (isspace (peek s 0)).
      * rewrite Hadv.
        destruct (IH (advance 1 s) Hst1) as (-> & Hst' & Hsuf).
        { cbn [advance substr]. rewrite length_drop. lia. }
        { exact Hnz. }
        split; [reflexivity |]. split; [exact Hst' |].
        etrans; [exact Hsuf | apply suffix_advance].
      * split; [reflexivity |]. split; [exact Hst | reflexivity].
    + cbn [andb] in Hnz. lia.
Qed.

Lemma year_loop_ext (n m : nat) (s : scanner) :
  steady (ext x s) -> (length (substr s) <= n)%nat ->
  year_loop (n + m) (ext x s) = ext x (year_loop n s) /\
  steady (ext x (year_loop n s)) /\
  substr (year_loop n s) `suffix_of` substr s.
Proof.
  revert s. induction n as [| n IH]; intros s Hst Hn.
  - cbn [year_loop Nat.add]. split; [| split; [exact Hst | reflexivity]].
    destruct m as [| m]; [reflexivity |]. cbn [year_loop].
    rewrite (blank_not_digit (peek (ext x s) 0))
      by (apply peek_ext_blank; [exact x_space | lia]).
    rewrite andb_false_r. reflexivity.
  - cbn [year_loop Nat.add].
    rewrite (guard_ext x x_space isdigit s blank_not_digit Hst).
    destruct ((0 <? sublen s) && isdigit (peek s 0)) eqn:Hguard.
    + apply andb_prop in Hguard as [Hpos _]. apply Z.ltb_lt in Hpos.
      assert (Hnz0 : (sublen s =? 0) = false) by (apply Z.eqb_neq; lia).
      destruct (step_ext s Hst Hnz0) as (Hadv & Hst1 & Hpeek).
      rewrite Hpeek.
      set (d := with_year (dts s) (to_int64 (10 * year (dts s) + (peek s 0 - 48)))).
      change (set_dts (with_year (dts (ext x s))
                         (to_int64 (10 * year (dts (ext x s)) + (peek s 0 - 48))))
                (ext x s))
        with (ext x (set_dts d s)).
      pose proof (steady_ext _ _ Hst) as [Hlen _].
      rewrite (advance_ext 1 x (set_dts d s)) by (exact Hst || (cbn [set_dts substr]; lia)).
      destruct (IH (advance 1 (set_dts d s))) as (-> & Hst' & Hsuf).
      { apply (steady_ext_advance 1 (set_dts d s)); [exact Hst |].
        cbn [set_dts substr]. lia. }
      { cbn [advance set_dts substr]. rewrite length_drop. lia. }
      split; [reflexivity |]. split; [exact Hst' |].
      etrans; [exact Hsuf | apply (suffix_advance 1 (set_dts d s))].
    + split; [reflexivity |]. split; [exact Hst | reflexivity].
Qed.



Lemma skip_whitespace_loop_steady (n : nat) (s : scanner) :
  steady s -> steady (skip_whitespace_loop n s).
Proof.
  revert s. induction n as [| n IH]; intros s Hst; cbn [skip_whitespace_loop];
    [exact Hst |].
  destruct ((0 <? sublen s) && isspace (peek s 0)) eqn:Hguard; [| exact Hst].
  apply andb_prop in Hguard as [Hpos _]. apply Z.ltb_lt in Hpos.
  apply IH. apply steady_advance; [exact Hst |]. destruct Hst. lia.
Qed.

Lemma tolerant_parse_sign : tolerant x parse_sign.
Proof.
  intros s Hst. unfold parse_sign. cbv zeta.
  set (s1 := skip_whitespace s).
  assert (Hs1 : steady s1).
  { apply skip_whitespace_loop_steady. exact (steady_ext _ _ Hst). }
  destruct (Z.eqb_spec (sublen s1) 0) as [Hz | Hnz].
  { (* nothing but whitespace: a parse error *)
    destruct Hs1 as [Hlen _].
    assert (Hnil : substr s1 = []) by (destruct (substr s1); [reflexivity | simpl in Hlen; lia]).
    unfold peek. rewrite Hnil. cbn [nth Z.eqb]. rewrite Hz. exact I. }
  destruct (skip_whitespace_loop_ext (length (substr s)) (length x) s Hst (le_n _) Hnz)
    as (Hskip & Hst1 & Hsuf1).
  assert (Hskip' : skip_whitespace (ext x s) = ext x s1).
  { unfold skip_whitespace. cbn [ext substr]. rewrite length_app. exact Hskip. }
  rewrite Hskip'.
  change (steady (ext x s1)) in Hst1.
  change (substr s1 `suffix_of` substr s) in Hsuf1.
  assert (Hnz0 : (sublen s1 =? 0) = false) by (apply Z.eqb_neq; exact Hnz).
  destruct (step_ext s1 Hst1 Hnz0) as (Hadv & Hst2 & Hpeek).
  rewrite Hpeek.
  destruct (peek s1 0 =? 45).
  - rewrite Hadv.
    destruct (sublen (advance 1 s1) =? 0) eqn:Hnz1; [exact I |].
    rewrite (sublen_ext_nonzero x _ Hst2 Hnz1).
    split; [reflexivity |]. split; [exact Hst2 |].
    etrans; [apply suffix_advance | exact Hsuf1].
  - rewrite Hnz0, (sublen_ext_nonzero x _ Hst1 Hnz0).
    split; [reflexivity |]. split; [exact Hst1 | exact Hsuf1].
Qed.

Lemma tolerant_parse_year (str0 : Z) : tolerant x (parse_year str0).
Proof.
  intros s Hst.
  pose (s1 := set_dts (with_year (dts s) 0) s).
  pose (s2 := year_loop (length (substr s1)) s1).
  pose (s3 := if str0 =? 45
              then set_dts (with_year (dts s2) (to_int64 (- year (dts s2)))) s2
              else s2).
  pose (s4 := set_year_leap (is_leapyear (year (dts s3))) s3).
  assert (Hs : parse_year str0 s = date_separator NPY_FR_Y s4) by reflexivity.
  destruct (year_loop_ext (length (substr s1)) (length x) s1 Hst (le_n _))
    as (Hloop & Hst2 & Hsuf2).
  fold s2 in Hloop, Hst2, Hsuf2.
  assert (He : parse_year str0 (ext x s) = date_separator NPY_FR_Y (ext x s4)).
  { unfold parse_year. cbv zeta.
    change (set_dts (with_year (dts (ext x s)) 0) (ext x s)) with (ext x s1).
    replace (length (substr (ext x s1))) with (length (substr s1) + length x)%nat
      by (cbn [ext substr]; rewrite length_app; reflexivity).
    rewrite Hloop. unfold s4, s3. destruct (str0 =? 45); reflexivity. }
  rewrite Hs, He.
  assert (Hst4 : steady (ext x s4)).
  { unfold s4, s3. destruct (str0 =? 45); exact Hst2. }
  pose proof (tolerant_date_separator NPY_FR_Y ltac:(reflexivity) s4 Hst4) as Hsep.
  assert (Hsuf4 : substr s4 `suffix_of` substr s).
  { unfold s4, s3. destruct (str0 =? 45); exact Hsuf2. }
  destruct (date_separator NPY_FR_Y s4) as [s' | s' b | s' b | s' | e]; try exact Hsep.
  - destruct Hsep as (-> & Hst' & Hsuf). split; [reflexivity |].
    split; [exact Hst' |]. etrans; [exact Hsuf | exact Hsuf4].
  - destruct Hsep as (-> & Hst' & Hsuf). split; [reflexivity |].
    split; [exact Hst' |]. etrans; [exact Hsuf | exact Hsuf4].
Qed.




(** The scan up to the decimal point. *)
Lemma tolerant_through_second (str0 : Z) :
  tolerant x (parse_sign >>> parse_year str0 >>> parse_month >>> parse_day >>>
            parse_hour >>> parse_minute >>> parse_second).
Proof.
  apply tolerant_and_then; [| exact tolerant_parse_second].
  apply tolerant_and_then; [| exact tolerant_parse_minute].
  apply tolerant_and_then; [| exact tolerant_parse_hour].
  apply tolerant_and_then; [| exact tolerant_parse_day].
  apply tolerant_and_then; [| exact tolerant_parse_month].
  apply tolerant_and_then; [| exact (tolerant_parse_year str0)].
  exact tolerant_parse_sign.
Qed.


End Tolerance.

(** ** The time zone and what may follow it *)


Section Zone.

Variable host : Host.
Variable x : list Z.
Hypothesis x_space : all_space x.







End Zone.

(** ** A trailing space *)


(** A call that returns a non-special result went down the general
    path. *)
Lemma general_path (host : Host) (unit : option NPY_DATETIMEUNIT)
    (casting : NPY_CASTING) (str : list Z) (p : parsed) :
  parse_iso_8601_datetime host unit casting str = Parsed p ->
  out_special p = false ->
  parse_general host unit casting str = Parsed p /\ str <> [] /\
  match unit with Some u => unit_eqb u NPY_FR_GENERIC | None => false end = false.
Proof.
  unfold parse_iso_8601_datetime. intros H Hspecial.
  destruct ((Z.of_nat (length str) <=? 0) || is_word [c_n; c_a; c_t] str) eqn:Hnat.
  { injection H as <-. discriminate. }
  apply orb_false_elim in Hnat as [Hlen _].
  assert (Hne : str <> []) by (intros ->; discriminate).
  destruct (match unit with Some u => unit_eqb u NPY_FR_GENERIC | None => false end);
    [discriminate |].
  destruct (is_word [c_t; c_o; c_d; c_a; c_y] str).
  { destruct (match unit with Some u => unit_code NPY_FR_D <? unit_code u | None => false end);
      [discriminate |].
    destruct (localtime_r host (time host)); [| discriminate].
    unfold check_casting in H. destruct (cannot_cast host unit casting NPY_FR_D);
      [discriminate |].
    injection H as <-. discriminate. }
  destruct (is_word [c_n; c_o; c_w] str).
  { destruct (cannot_cast host unit casting NPY_FR_s); [discriminate |].
    destruct (convert_datetime_to_datetimestruct host NPY_FR_s 1 (time host) initial_dts);
      [| discriminate].
    injection H as <-. discriminate. }
  auto.
Qed.





(** The other two conditions of [trailing_space_after_zone] are needed as
    well.  A time of day without a zone is local time; behind a space
    [*out_local] is not assigned (and a year after 1900 would not be
    converted by the host).  An offset of hours only is complete at the end of the input
    and wants its minutes before a space. *)
Example local_time_with_trailing_space :
  parse_text example_host None NPY_SAFE_CASTING "1800-01-01T00:00" =
    Parsed (mk_parsed (mk_dts 1800 1 1 0 0 0 0 0 0) (Some true) NPY_FR_m false) /\
  parse_text example_host None NPY_SAFE_CASTING "1800-01-01T00:00 " =
    Parsed (mk_parsed (mk_dts 1800 1 1 0 0 0 0 0 0) None NPY_FR_m false).
Proof. split; vm_compute; reflexivity. Qed.

Example hours_offset_with_trailing_space :
  parse_text example_host None NPY_SAFE_CASTING "2016-01-01T00+05" =
    Parsed (mk_parsed (mk_dts 2016 1 1 0 0 0 0 0 0) (Some false) NPY_FR_h false) /\
  parse_text example_host None NPY_SAFE_CASTING "2016-01-01T00+05 " =
    Failed (ParseErrorAt 16).
Proof. split; vm_compute; reflexivity. Qed.

(** ** Fractional seconds *)

Lemma leading_digits_drop (k : nat) (l : list Z) :
  (k <= leading_digits l)%nat ->
  leading_digits (drop k l) = (leading_digits l - k)%nat.
Proof.
  revert l. induction k as [| k IH]; intros l Hk.
  - rewrite drop_0. lia.
  - destruct l as [| c rest]; [simpl in Hk; lia |].
    cbn [leading_digits] in *. destruct (isdigit c); [| lia].
    cbn [drop]. rewrite IH by lia. lia.
Qed.

(** A six-digit loop reads the digits that are there, six at most. *)
Lemma digit_group_reads
    (get : npy_datetimestruct -> Z)
    (set : npy_datetimestruct -> Z -> npy_datetimestruct)
    (i : nat) (numdigits : Z) (s : scanner) :
  steady s ->
  let k := Nat.min i (leading_digits (substr s)) in
  substr (fst (digit_group get set i numdigits s)) = drop k (substr s) /\
  snd (digit_group get set i numdigits s) = numdigits + Z.of_nat k /\
  steady (fst (digit_group get set i numdigits s)).
Proof.
  revert numdigits s. induction i as [| i IH]; intros numdigits s Hst.
  - cbn. rewrite Z.add_0_r. auto.
  - cbn [digit_group]. cbv zeta.
    set (s1 := set_dts (set (dts s) (get (dts s) * 10)) s).
    assert (Hst1 : steady s1) by exact Hst.
    assert (Hsub1 : substr s1 = substr s) by reflexivity.
    pose proof Hst as [Hlen Hmax].
    destruct (substr s) as [| c rest] eqn:Hsub.
    + replace (0 <? sublen s1) with false
        by (symmetry; apply Z.ltb_ge; change (sublen s1) with (sublen s); simpl in Hlen; lia).
      cbn [andb]. destruct (IH numdigits s1 Hst1) as (H1 & H2 & H3).
      rewrite Hsub1 in H1, H2. cbn [leading_digits] in *.
      rewrite Nat.min_0_r in *. rewrite drop_nil in H1. auto.
    + replace (0 <? sublen s1) with true
        by (symmetry; apply Z.ltb_lt; change (sublen s1) with (sublen s); simpl in Hlen; lia).
      unfold peek. rewrite Hsub1. cbn [nth andb leading_digits].
      destruct (isdigit c) eqn:Hc.
      * set (s2 := advance 1 (set_dts _ s1)).
        assert (Hst2 : steady s2).
        { apply steady_advance; [exact Hst |].
          cbn [set_dts substr]. rewrite Hsub1. simpl. lia. }
        destruct (IH (numdigits + 1) s2 Hst2) as (H1 & H2 & H3).
        assert (Hsub2 : substr s2 = rest).
        { unfold s2. cbn [advance set_dts substr]. rewrite Hsub1. reflexivity. }
        rewrite Hsub2 in H1, H2.
        rewrite <- Nat.succ_min_distr. cbn [drop].
        split; [exact H1 |]. split; [lia | exact H3].
      * destruct (IH numdigits s1 Hst1) as (H1 & H2 & H3).
        rewrite Hsub1 in H1, H2. cbn [leading_digits] in *.
        rewrite Hc, Nat.min_0_r in *. rewrite drop_0 in *. auto.
Qed.

Lemma group_ends_leading_digits (s : scanner) :
  steady s -> group_ends s = (leading_digits (substr s) =? 0)%nat.
Proof.
  intros [Hlen _]. unfold group_ends, peek.
  destruct (substr s) as [| c rest]; cbn [length nth leading_digits] in *.
  - rewrite Hlen. reflexivity.
  - replace (sublen s =? 0) with false by (symmetry; apply Z.eqb_neq; lia).
    destruct (isdigit c); reflexivity.
Qed.

Lemma digit_group_six
    (get : npy_datetimestruct -> Z)
    (set : npy_datetimestruct -> Z -> npy_datetimestruct) (s : scanner) :
  steady s ->
  let n := leading_digits (substr s) in
  let r := digit_group get set 6 0 s in
  steady (fst r) /\
  substr (fst r) = drop (Nat.min 6 n) (substr s) /\
  snd r = Z.of_nat (Nat.min 6 n) /\
  leading_digits (substr (fst r)) = (n - 6)%nat /\
  group_ends (fst r) = (n <=? 6)%nat.
Proof.
  intros Hst n r.
  destruct (digit_group_reads get set 6 0 s Hst) as (Hsub & Hnum & Hst').
  fold n in Hsub, Hnum. fold r in Hsub, Hnum, Hst'.
  assert (Hlead : leading_digits (substr (fst r)) = (n - 6)%nat).
  { rewrite Hsub, leading_digits_drop by (fold n; lia). fold n. lia. }
  split; [exact Hst' |]. split; [exact Hsub |]. split; [lia |]. split; [exact Hlead |].
  rewrite (group_ends_leading_digits _ Hst'), Hlead.
  destruct (Nat.leb_spec n 6), (Nat.eqb_spec (n - 6) 0); (reflexivity || lia).
Qed.

Lemma parse_fraction_reads (s : scanner) (g c : nat) :
  steady s ->
  leading_digits (substr s) = (6 * g + c)%nat ->
  (g <= 2)%nat -> (1 <= c <= 6)%nat ->
  exists s',
    parse_fraction s = goto_parse_timezone s' (group_unit g (Z.of_nat c)) /\
    substr s' = drop (6 * g + c) (substr s).
Proof.
  intros Hst Hn Hg Hc. unfold parse_fraction, and_then.
  (* the microseconds *)
  destruct (digit_group_six us with_us s Hst) as (Hst1 & Hsub1 & Hnum1 & Hlead1 & Hend1).
  unfold parse_microseconds at 1.
  destruct (digit_group us with_us 6 0 s) as [s1 n1]. cbn [fst snd] in *.
  rewrite Hend1, Hnum1, Hn.
  destruct g as [| g].
  { replace (6 * 0 + c <=? 6)%nat with true by (symmetry; apply Nat.leb_le; lia).
    replace (Nat.min 6 (6 * 0 + c)) with c by lia.
    exists s1. split; [reflexivity |].
    rewrite Hsub1, Hn. f_equal. lia. }
  replace (6 * S g + c <=? 6)%nat with false by (symmetry; apply Nat.leb_gt; lia).
  (* the picoseconds *)
  destruct (digit_group_six ps with_ps s1 Hst1) as (Hst2 & Hsub2 & Hnum2 & Hlead2 & Hend2).
  unfold parse_picoseconds at 1.
  destruct (digit_group ps with_ps 6 0 s1) as [s2 n2]. cbn [fst snd] in *.
  rewrite Hend2, Hnum2, Hlead1, Hn.
  assert (Hdrop2 : substr s2 = drop (Nat.min 6 (6 * S g + c - 6) + 6) (substr s)).
  { rewrite Hsub2, Hlead1, Hsub1, drop_drop, Hn. f_equal. lia. }
  destruct g as [| g].
  { replace (6 * 1 + c - 6 <=? 6)%nat with true by (symmetry; apply Nat.leb_le; lia).
    replace (Nat.min 6 (6 * 1 + c - 6)) with c by lia.
    exists s2. split; [reflexivity |].
    rewrite Hdrop2. f_equal. lia. }
  replace (6 * S (S g) + c - 6 <=? 6)%nat with false by (symmetry; apply Nat.leb_gt; lia).
  (* the attoseconds *)
  destruct (digit_group_six as_ with_as s2 Hst2) as (Hst3 & Hsub3 & Hnum3 & Hlead3 & Hend3).
  unfold parse_attoseconds.
  destruct (digit_group as_ with_as 6 0 s2) as [s3 n3]. cbn [fst snd] in *.
  rewrite Hnum3, Hlead2, Hlead1, Hn.
  assert (g = 0%nat) by lia. subst g.
  replace (Nat.min 6 (6 * 2 + c - 6 - 6)) with c by lia.
  exists s3. split; [reflexivity |].
  rewrite Hsub3, Hlead2, Hlead1, Hdrop2, drop_drop, Hn. f_equal. lia.
Qed.

Section BestUnit.

Variable host : Host.
Variable unit : option NPY_DATETIMEUNIT.
Variable casting : NPY_CASTING.

(** The unit assigned before the jump to [parse_timezone] is the unit
    reported. *)
Lemma at_label_bestunit (s : scanner) (bestunit : NPY_DATETIMEUNIT) (p : parsed) :
  leave host unit casting (at_label host (goto_parse_timezone s bestunit)) = Parsed p ->
  out_bestunit p = bestunit.
Proof.
  cbn [at_label]. unfold and_then.
  assert (Hfinish : forall s' b, b = bestunit ->
            leave host unit casting (goto_finish s' b) = Parsed p ->
            out_bestunit p = bestunit).
  { intros s' b -> H. cbn [leave] in H. unfold finish, check_casting in H.
    destruct (cannot_cast host unit casting bestunit); [discriminate |].
    injection H as <-. reflexivity. }
  assert (Htz : forall s' b, parse_timezone host bestunit s = goto_finish s' b ->
                             b = bestunit).
  { unfold parse_timezone. intros s' b.
    repeat match goal with
           | |- context [if ?c then _ else _] => destruct c
           | |- context [match gmtime_r ?h ?t with _ => _ end] => destruct (gmtime_r h t)
           end; cbv zeta; intros H; try discriminate; injection H as _ <-; reflexivity. }
  destruct (parse_timezone host bestunit s) as [s1 | s1 b1 | s1 b1 | s1 | e] eqn:Hz;
    try (cbn [leave]; discriminate).
  - unfold skip_trailing_whitespace. cbv zeta.
    destruct (sublen (skip_whitespace s1) =? 0); [| cbn [leave]; discriminate].
    apply Hfinish. reflexivity.
  - apply Hfinish. exact (Htz s1 b1 eq_refl).
Qed.

End BestUnit.

Lemma steady_ext_nil (s : scanner) : steady s -> steady (ext [] s).
Proof.
  unfold steady, ext. cbn [sublen substr length]. rewrite app_nil_r. lia.
Qed.

Lemma through_second_steady (str0 : Z) (s s' : scanner) :
  steady s -> through_second str0 s = Next s' -> steady s'.
Proof.
  intros Hst H.
  pose proof (tolerant_through_second [] ltac:(constructor) str0 s (steady_ext_nil s Hst))
    as Htol.
  fold (through_second str0) in Htol. rewrite H in Htol.
  destruct Htol as (_ & Hst' & _). exact (steady_ext _ _ Hst').
Qed.

Lemma and_then_Next3 (f g h k : scanner -> flow) (s s' : scanner) :
  f s = Next s' -> (f >>> g >>> h >>> k) s = (g >>> h >>> k) s'.
Proof. intros H. unfold and_then. rewrite H. reflexivity. Qed.

Lemma scan_fields_fraction (str0 : Z) (s s' : scanner) :
  through_second str0 s = Next s' -> scan_fields str0 s = parse_fraction s'.
Proof.
  intros H.
  exact (and_then_Next3 (through_second str0) parse_microseconds parse_picoseconds
           parse_attoseconds s s' H).
Qed.

(** The digit rule where the counter can hold the input.  Behind the
    decimal point the number of digits in the last group that holds any
    selects the best unit: in a string of at most 127 bytes with 6 g + c
    digits there (g < 3 full groups before the last, 1 <= c <= 6 digits in
    it), the scan reaches [parse_timezone] just behind the digits with the
    unit of group g, the finer of its pair when c > 3 (1-3 digits
    milliseconds and 4-6 microseconds, then nanoseconds and picoseconds,
    femtoseconds and attoseconds), and that unit is the best unit of every
    successful parse.  "2016-01-01T12:30:45.123456789012Z" parses with best
    unit picoseconds and is not local. *)
Theorem fraction_digits_select_bestunit :
  (forall (host : Host) (unit : option NPY_DATETIMEUNIT) (casting : NPY_CASTING)
          (str : list Z) (s : scanner) (g c : nat),
     Z.of_nat (length str) <= 127 ->
     through_second (nth 0%nat str 0) (start str) = Next s ->
     leading_digits (substr s) = (6 * g + c)%nat ->
     (g <= 2)%nat -> (1 <= c <= 6)%nat ->
     (exists s',
        scan_fields (nth 0%nat str 0) (start str) =
          goto_parse_timezone s' (group_unit g (Z.of_nat c)) /\
        substr s' = drop (6 * g + c) (substr s)) /\
     (forall p, parse_iso_8601_datetime host unit casting str = Parsed p ->
                out_special p = false ->
                out_bestunit p = group_unit g (Z.of_nat c))) /\
  (forall (host : Host) (casting : NPY_CASTING),
     parse_text host None casting "2016-01-01T12:30:45.123456789012Z" =
       Parsed (mk_parsed (mk_dts 2016 1 1 12 30 45 123456 789012 0)
                         (Some false) NPY_FR_ps false)).
Proof.
  split.
  - intros host unit casting str s g c Hshort Hscan Hn Hg Hc.
    pose proof (through_second_steady _ _ _ (steady_start str Hshort) Hscan) as Hst.
    destruct (parse_fraction_reads s g c Hst Hn Hg Hc) as (s' & Hfrac & Hsub).
    assert (Hfields : scan_fields (nth 0%nat str 0) (start str) =
                      goto_parse_timezone s' (group_unit g (Z.of_nat c))).
    { rewrite <- Hfrac. exact (scan_fields_fraction _ _ _ Hscan). }
    split; [exists s'; split; [exact Hfields | exact Hsub] |].
    intros p Hp Hspecial.
    destruct (general_path host unit casting str p Hp Hspecial) as (Hgen & _ & _).
    unfold parse_general in Hgen. rewrite Hfields in Hgen.
    exact (at_label_bestunit host unit casting s' _ p Hgen).
  - intros host casting. vm_compute. reflexivity.
Qed.

Lemma fraction_digits_select_bestunit_witness :
  (exists s',
     scan_fields (nth 0%nat (cstr "2016-01-01T12:30:45.1234Z") 0)
       (start (cstr "2016-01-01T12:30:45.1234Z")) =
       goto_parse_timezone s' NPY_FR_us /\
     substr s' = cstr "Z") /\
  (forall p,
     parse_iso_8601_datetime example_host None NPY_SAFE_CASTING
       (cstr "2016-01-01T12:30:45.1234Z") = Parsed p ->
     out_special p = false -> out_bestunit p = NPY_FR_us).
Proof.
  apply (proj1 fraction_digits_select_bestunit example_host None NPY_SAFE_CASTING
           (cstr "2016-01-01T12:30:45.1234Z")
           (mk_scanner (mk_dts 2016 1 1 12 30 45 0 0 0) None true (cstr "1234Z") 5 20)
           0%nat 4%nat).
  - vm_compute. discriminate.
  - vm_compute. reflexivity.
  - reflexivity.
  - lia.
  - lia.
Defined.

(** ** The buffer length *)

(** The digits printed for a number are its decimal numeral. *)
Lemma decimal_digits_sound (fuel : nat) (n : Z) :
  0 <= n < 10 * 8 ^ Z.of_nat fuel ->
  Forall (fun c => isdigit c = true) (decimal_digits fuel n) /\
  numeral_value (decimal_digits fuel n) = n.
Proof.
  revert n. induction fuel as [| fuel IH]; intros n Hn; cbn [decimal_digits].
  - change (8 ^ Z.of_nat 0) with 1 in Hn.
    split; [repeat constructor; unfold isdigit; lia | unfold numeral_value; simpl; lia].
  - destruct (Z.ltb_spec n 10) as [Hsmall | Hbig].
    + split; [repeat constructor; unfold isdigit; lia | unfold numeral_value; simpl; lia].
    + assert (Hdiv : 0 <= n / 10 < 10 * 8 ^ Z.of_nat fuel).
      { split; [apply Z.div_pos; lia |].
        apply Z.div_lt_upper_bound; [lia |].
        replace (Z.of_nat (S fuel)) with (Z.of_nat fuel + 1) in Hn by lia.
        rewrite Z.pow_add_r, Z.pow_1_r in Hn by lia.
        pose proof (Z.pow_pos_nonneg 8 (Z.of_nat fuel) ltac:(lia) ltac:(lia)). lia. }
      destruct (IH (n / 10) Hdiv) as [Hall Hval].
      pose proof (Z.mod_pos_bound n 10 ltac:(lia)) as Hmod.
      split.
      * apply Forall_app. split; [exact Hall |].
        repeat constructor. unfold isdigit. lia.
      * unfold numeral_value in *. rewrite fold_left_app, Hval. simpl.
        pose proof (Z.div_mod n 10 ltac:(lia)). lia.
Qed.

Lemma decimal_sound (n : Z) :
  0 <= n ->
  Forall (fun c => isdigit c = true) (decimal n) /\ numeral_value (decimal n) = n.
Proof.
  intros Hn. apply decimal_digits_sound.
  destruct (Z.eq_dec n 0) as [-> | Hpos]; [simpl; lia |].
  pose proof (Z.log2_spec n ltac:(lia)) as [_ Hlog].
  pose proof (Z.log2_nonneg n) as Hnn.
  rewrite Z2Nat.id by exact Hnn.
  replace (Z.succ (Z.log2 n)) with (Z.log2 n + 1) in Hlog by lia.
  rewrite Z.pow_add_r, Z.pow_1_r in Hlog by lia.
  assert (2 ^ Z.log2 n <= 8 ^ Z.log2 n) by (apply Z.pow_le_mono_l; lia).
  lia.
Qed.

Lemma length_decimal_digits (fuel k : nat) (n : Z) :
  (1 <= k)%nat -> 0 <= n < 10 ^ Z.of_nat k ->
  (1 <= length (decimal_digits fuel n) <= k)%nat.
Proof.
  revert k n. induction fuel as [| fuel IH]; intros k n Hk Hn; cbn [decimal_digits].
  - simpl. lia.
  - destruct (Z.ltb_spec n 10) as [Hsmall | Hbig]; [simpl; lia |].
    rewrite length_app. cbn [length].
    destruct k as [| [| k]]; [lia | simpl in Hn; lia |].
    assert (Hdiv : 0 <= n / 10 < 10 ^ Z.of_nat (S k)).
    { split; [apply Z.div_pos; lia |].
      apply Z.div_lt_upper_bound; [lia |].
      replace (Z.of_nat (S (S k))) with (Z.of_nat (S k) + 1) in Hn by lia.
      rewrite Z.pow_add_r, Z.pow_1_r in Hn by lia. lia. }
    specialize (IH (S k) (n / 10) ltac:(lia) Hdiv). lia.
Qed.

(** The year printed with "%04lld" has 4 to 20 characters. *)
Lemma length_printf_04d (y : Z) :
  int64_range y -> (4 <= length (printf_04d y) <= 20)%nat.
Proof.
  intros Hy. unfold printf_04d, decimal.
  assert (Habs : 0 <= Z.abs y < 10 ^ Z.of_nat 19).
  { unfold int64_range in Hy. change (10 ^ Z.of_nat 19) with 10000000000000000000.
    change (2 ^ 63) with 9223372036854775808 in Hy. lia. }
  pose proof (length_decimal_digits (Z.to_nat (Z.log2 (Z.abs y))) 19 (Z.abs y)
                ltac:(lia) Habs) as Hlen.
  destruct (y <? 0); cbn [length app]; rewrite length_app, length_replicate;
    cbn [length]; lia.
Qed.

Lemma within_poke (n : Z) (buf0 : list Z) (k : nat) (c : Z) (w : writer) :
  within n buf0 w -> Z.of_nat k < room w -> within n buf0 (poke k c w).
Proof.
  intros (Hsum & Hroom & Hn & Hdrop & Hlen) Hk. unfold within, poke.
  cbn [at_ room buf]. rewrite length_insert, drop_insert_lt by lia. auto.
Qed.

Lemma within_forward (n : Z) (buf0 : list Z) (k : nat) (w : writer) :
  within n buf0 w -> Z.of_nat k < room w ->
  within n buf0 (forward k w) /\ room (forward k w) = room w - Z.of_nat k.
Proof.
  intros (Hsum & Hroom & Hn & Hdrop & Hlen) Hk. unfold within, forward.
  cbn [at_ room buf]. rewrite to_char_id by lia. repeat split; try assumption; lia.
Qed.

Lemma emit_from_fits (n : Z) (buf0 : list Z) (cs : list Z) (k : nat) (w : writer) :
  within n buf0 w -> Z.of_nat (k + length cs) < room w ->
  exists w', emit_from k cs w = Continue w' /\ within n buf0 w' /\
             room w' = room w - Z.of_nat (k + length cs).
Proof.
  revert k w. induction cs as [| c cs IH]; intros k w Hw Hfit; cbn [emit_from length] in *.
  - rewrite Nat.add_0_r in *.
    destruct (within_forward n buf0 k w Hw Hfit) as [Hw' Hroom'].
    exists (forward k w). auto.
  - assert (Hw1 : within n buf0 (poke k c w)) by (apply within_poke; [exact Hw | lia]).
    change (room (poke k c w)) with (room w).
    destruct (Z.leb_spec (room w) (Z.of_nat k + 1)); [lia |].
    destruct (IH (S k) (poke k c w) Hw1) as (w' & -> & Hw' & Hroom').
    { change (room (poke k c w)) with (room w). lia. }
    exists w'. split; [reflexivity |]. split; [exact Hw' |].
    rewrite Hroom'. change (room (poke k c w)) with (room w). lia.
Qed.

Lemma emit_fits (n : Z) (buf0 : list Z) (cs : list Z) (w : writer) :
  within n buf0 w -> Z.of_nat (length cs) < room w ->
  exists w', emit cs w = Continue w' /\ within n buf0 w' /\
             room w' = room w - Z.of_nat (length cs).
Proof. intros Hw Hfit. exact (emit_from_fits n buf0 cs 0 w Hw Hfit). Qed.

Lemma store_at_frame (cs : list Z) (i n : nat) (l : list Z) :
  (i + length cs <= n)%nat ->
  drop n (store_at i cs l) = drop n l /\ length (store_at i cs l) = length l.
Proof.
  revert i l. induction cs as [| c cs IH]; intros i l Hn; cbn [store_at length] in *.
  - auto.
  - destruct (IH (S i) (<[i := c]> l) ltac:(lia)) as [-> ->].
    rewrite length_insert, drop_insert_lt by lia. auto.
Qed.

Section Sufficiency.

Variable host : Host.
Variable n : Z.
Variable buf0 : list Z.

Lemma write_year_fits (d : npy_datetimestruct) (base : NPY_DATETIMEUNIT) (w : writer) :
  within n buf0 w -> int64_range (year d) -> 21 < room w ->
  exists w', within n buf0 w' /\ room w - 20 <= room w' /\
    write_year d base w =
      if unit_eqb base NPY_FR_Y then return_0 (poke 0 0 w') else Continue w'.
Proof.
  intros Hw Hy Hroom. pose proof (length_printf_04d (year d) Hy) as Htext.
  unfold write_year. cbv zeta.
  set (text := printf_04d (year d)) in *.
  set (w1 := snprintf text w).
  assert (Hw1 : within n buf0 w1).
  { destruct Hw as (Hsum & Hr & Hn & Hdrop & Hlen).
    unfold within, w1, snprintf. cbn [at_ room buf].
    destruct (Z.ltb_spec (room w) 0); [lia |].
    destruct (Z.eqb_spec (room w) 0); [lia |].
    rewrite take_ge by lia.
    destruct (store_at_frame (text ++ [0]) (at_ w) (Z.to_nat n) (buf w)) as [-> ->].
    { rewrite length_app. cbn [length]. lia. }
    auto. }
  change (room w1) with (room w).
  replace (Z.of_nat (length text) <? 0) with false by (symmetry; apply Z.ltb_ge; lia).
  destruct (Z.leb_spec (room w) (Z.of_nat (length text))); [lia |]. cbn [orb].
  destruct (within_forward n buf0 (length text) w1 Hw1) as [Hw2 Hroom2].
  { change (room w1) with (room w). lia. }
  exists (forward (length text) w1). split; [exact Hw2 |].
  split; [rewrite Hroom2; change (room w1) with (room w); lia |].
  reflexivity.
Qed.

Lemma write_date_field_fits (cs : list Z) (stop : bool) (w : writer) :
  within n buf0 w -> Z.of_nat (length cs) < room w ->
  exists w', within n buf0 w' /\ room w' = room w - Z.of_nat (length cs) /\
    write_date_field cs stop w = if stop then return_0 (poke 0 0 w') else Continue w'.
Proof.
  intros Hw Hfit. destruct (emit_fits n buf0 cs w Hw Hfit) as (w' & He & Hw' & Hroom').
  exists w'. split; [exact Hw' |]. split; [exact Hroom' |].
  unfold write_date_field, then_write. rewrite He. reflexivity.
Qed.

Lemma write_time_field_fits (cs : list Z) (stop : bool) (w : writer) :
  within n buf0 w -> Z.of_nat (length cs) < room w ->
  exists w', within n buf0 w' /\ room w' = room w - Z.of_nat (length cs) /\
    write_time_field cs stop w = if stop then goto_add_time_zone w' else Continue w'.
Proof.
  intros Hw Hfit. destruct (emit_fits n buf0 cs w Hw Hfit) as (w' & He & Hw' & Hroom').
  exists w'. split; [exact Hw' |]. split; [exact Hroom' |].
  unfold write_time_field, then_write. rewrite He. reflexivity.
Qed.

Lemma add_time_zone_fits (local : bool) (timezone_offset : Z) (w : writer) :
  within n buf0 w -> (if local then 5 else 1) < room w ->
  exists w', within n buf0 w' /\
    add_time_zone local timezone_offset w = return_0 w'.
Proof.
  intros Hw Hfit. unfold add_time_zone, then_write, terminate.
  destruct local.
  - cbv zeta.
    match goal with |- context [emit [?c] w] =>
      destruct (emit_fits n buf0 [c] w Hw) as (w1 & -> & Hw1 & Hroom1);
        [cbn [length]; lia |]
    end.
    match goal with |- context [emit ?cs w1] =>
      destruct (emit_fits n buf0 cs w1 Hw1) as (w2 & -> & Hw2 & Hroom2);
        [cbn [length] in *; lia |]
    end.
    exists (poke 0 0 w2). split; [| reflexivity].
    apply within_poke; [exact Hw2 |]. cbn [length] in *. lia.
  - destruct (emit_fits n buf0 [90] w Hw) as (w1 & -> & Hw1 & Hroom1);
      [cbn [length]; lia |].
    exists (poke 0 0 w1). split; [| reflexivity].
    apply within_poke; [exact Hw1 |]. cbn [length] in *. lia.
Qed.

Ltac stage_done :=
  cbv [unit_eqb unit_code Z.eqb Pos.eqb]; cbv beta iota.

Ltac field_fits :=
  lazymatch goal with
  | Hw : within n buf0 ?w |- context [write_date_field ?cs ?stop ?w] =>
      let w' := fresh "w" in
      let Hw' := fresh "Hw" in
      let Hr := fresh "Hr" in
      destruct (write_date_field_fits cs stop w Hw) as (w' & Hw' & Hr & ->);
      [cbn [length]; lia | cbn [length] in Hr; clear Hw; stage_done]
  | Hw : within n buf0 ?w |- context [write_time_field ?cs ?stop ?w] =>
      let w' := fresh "w" in
      let Hw' := fresh "Hw" in
      let Hr := fresh "Hr" in
      destruct (write_time_field_fits cs stop w Hw) as (w' & Hw' & Hr & ->);
      [cbn [length]; lia | cbn [length] in Hr; clear Hw; stage_done]
  end.

Ltac closing local timezone_offset :=
  lazymatch goal with
  | Hw : within n buf0 ?w |- context [return_0 (poke 0 0 ?w)] =>
      exists (poke 0 0 w); split;
      [apply within_poke; [exact Hw | destruct Hw as (_ & ? & _); lia] | reflexivity]
  | Hw : within n buf0 ?w |- context [add_time_zone local timezone_offset ?w] =>
      let w' := fresh "w" in
      let Hw' := fresh "Hw" in
      destruct (add_time_zone_fits local timezone_offset w Hw) as (w' & Hw' & ->);
      [lia | exists w'; split; [exact Hw' | reflexivity]]
  end.

(** All the fields down to [base], the time zone and the terminator fit
    into the length computed for [base]. *)
Lemma fields_and_zone_fit (d : npy_datetimestruct) (base : NPY_DATETIMEUNIT)
    (local : bool) (timezone_offset : Z) (w : writer) :
  within n buf0 w -> int64_range (year d) ->
  base <> NPY_FR_W -> base <> NPY_FR_GENERIC ->
  fields_strlen base +
    (if unit_code NPY_FR_h <=? unit_code base then (if local then 5 else 1) else 0) + 1
    <= room w ->
  exists w', within n buf0 w' /\
    match write_fields d base w with
    | goto_add_time_zone w' | Continue w' => add_time_zone local timezone_offset w'
    | other => other
    end = return_0 w'.
Proof.
  intros Hw Hy HW HG Hroom.
  unfold write_fields, then_write.
  destruct (write_year_fits d base w Hw Hy) as (w1 & Hw1 & Hr1 & ->).
  { clear - Hroom HG.
    destruct base; try contradiction;
      cbv [fields_strlen unit_code Z.leb Z.compare Pos.compare Pos.compare_cont] in Hroom;
      destruct local; lia. }
  clear Hw.
  assert (Hzone : 1 <= (if local then 5 else 1)) by (destruct local; lia).
  set (zone := if local then 5 else 1) in *.
  destruct base; try contradiction;
    cbv [fields_strlen unit_code Z.leb Z.compare Pos.compare Pos.compare_cont] in Hroom;
    stage_done; repeat field_fits; closing local timezone_offset.
Qed.

End Sufficiency.

Lemma strlen_bounds (local : bool) (base : NPY_DATETIMEUNIT) :
  4 <= get_datetime_iso_8601_strlen local (Some base) <= 61.
Proof. destruct base, local; vm_compute; split; discriminate. Qed.

(** C2. The length computed for a locality flag and a unit is enough for
    the formatter called with the same flag and unit: for every struct whose
    year is an [npy_int64] and whatever the fixed offset and the host's
    answers, the call with [outlen] that length does not end in "string too
    short", and it leaves every byte at and behind index [outlen] of the
    buffer as it was, so at most [outlen] bytes are written, terminator
    included. *)
Theorem required_length_suffices (host : Host) (d : npy_datetimestruct)
    (outstr : list Z) (local : bool) (base : NPY_DATETIMEUNIT) (tzoffset : Z) :
  int64_range (year d) -> host_in_range host ->
  let outlen := get_datetime_iso_8601_strlen local (Some base) in
  let r := make_iso_8601_datetime host d outstr outlen local (Some base) tzoffset in
  fst r <> StringTooShort /\
  drop (Z.to_nat outlen) (snd r) = drop (Z.to_nat outlen) outstr /\
  length (snd r) = length outstr.
Proof.
  intros Hy [Hadd Hlocaltime] outlen r. subst r.
  pose proof (strlen_bounds local base) as Hbounds. fold outlen in Hbounds.
  unfold make_iso_8601_datetime.
  destruct ((year d =? NPY_DATETIME_NAT) || unit_eqb base NPY_FR_GENERIC) eqn:Hnat.
  { destruct (Z.ltb_spec outlen 4); [lia |]. cbn [fst snd].
    split; [discriminate |].
    rewrite !length_insert, !drop_insert_lt by lia. auto. }
  apply orb_false_elim in Hnat as [_ Hgeneric].
  set (local1 := if ((year d <=? 1900) || (10000 <=? year d)) && (tzoffset =? -1)
                 then false else local).
  set (base' := detect_base d local1 (Some base)).
  set (local2 := if unit_code base' <? unit_code NPY_FR_h then false else local1).
  assert (Hbase' : base' <> NPY_FR_W /\ base' <> NPY_FR_GENERIC /\
                   fields_strlen base' = fields_strlen base /\
                   (unit_code NPY_FR_h <=? unit_code base') =
                   (unit_code NPY_FR_h <=? unit_code base)).
  { unfold base'. destruct base; try discriminate; cbn; repeat split; discriminate. }
  destruct Hbase' as (HW & HG & Hfields & Hzone).
  assert (Hlocal2 : local2 = true -> local = true).
  { unfold local2, local1.
    destruct (unit_code base' <? unit_code NPY_FR_h); [discriminate |].
    destruct (((year d <=? 1900) || (10000 <=? year d)) && (tzoffset =? -1));
      [discriminate | auto]. }
  assert (Hroom : fields_strlen base' +
                  (if unit_code NPY_FR_h <=? unit_code base'
                   then (if local2 then 5 else 1) else 0) + 1 <= outlen).
  { rewrite Hfields, Hzone. unfold outlen, get_datetime_iso_8601_strlen.
    clearbody local2 base'.
    destruct local2; [rewrite (Hlocal2 eq_refl) | destruct local];
      (destruct base; try discriminate; destruct (unit_code NPY_FR_h <=? _); lia). }
  clearbody local2 base'.
  assert (Hstart : within outlen outstr (mk_writer outstr 0 (to_char outlen))).
  { unfold within. cbn [at_ room buf]. rewrite to_char_id by lia.
    repeat split; lia. }
  assert (Hwrite : forall d' timezone_offset, int64_range (year d') ->
            let final :=
              match write_fields d' base' (mk_writer outstr 0 (to_char outlen)) with
              | goto_add_time_zone w' | Continue w' =>
                  add_time_zone local2 timezone_offset w'
              | other => other
              end in
            let r := match final with
                     | return_0 w' => (Formatted, buf w')
                     | goto_string_too_short w' | Continue w' | goto_add_time_zone w' =>
                         string_too_short outlen (buf w')
                     end in
            fst r <> StringTooShort /\
            drop (Z.to_nat outlen) (snd r) = drop (Z.to_nat outlen) outstr /\
            length (snd r) = length outstr).
  { intros d' timezone_offset Hy'. cbv zeta.
    destruct (fields_and_zone_fit outlen outstr d' base' local2 timezone_offset _
                Hstart Hy' HW HG) as (w' & Hw' & ->).
    { rewrite to_char_id by lia. exact Hroom. }
    destruct Hw' as (_ & _ & _ & Hdrop & Hlen). cbn [fst snd].
    split; [discriminate | auto]. }
  destruct (local2 && (tzoffset =? -1)).
  - destruct (localtime_r host _) as [tm_ |] eqn:Hclock.
    + apply Hwrite. cbn [year]. exact (Hlocaltime _ _ Hclock).
    + cbn [fst snd]. split; [discriminate | auto].
  - destruct local2.
    + apply Hwrite. apply Hadd. exact Hy.
    + apply Hwrite. exact Hy.
Qed.

Lemma required_length_suffices_witness :
  fst (make_iso_8601_datetime example_host (mk_dts 2016 1 2 12 30 45 0 0 0)
         (List.repeat 120 45) 42 true (Some NPY_FR_s) 0) <> StringTooShort /\
  drop 42 (snd (make_iso_8601_datetime example_host (mk_dts 2016 1 2 12 30 45 0 0 0)
                  (List.repeat 120 45) 42 true (Some NPY_FR_s) 0)) =
    drop 42 (List.repeat 120 45) /\
  length (snd (make_iso_8601_datetime example_host (mk_dts 2016 1 2 12 30 45 0 0 0)
                 (List.repeat 120 45) 42 true (Some NPY_FR_s) 0)) =
    length (List.repeat 120 45).
Proof.
  apply (required_length_suffices example_host (mk_dts 2016 1 2 12 30 45 0 0 0)
           (List.repeat 120 45) true NPY_FR_s 0).
  - unfold int64_range. simpl. lia.
  - split.
    + intros d minutes Hd. exact Hd.
    + intros t tm_ Htm. injection Htm as <-. unfold int64_range. simpl. lia.
Defined.

(** What the formatter writes into a buffer of the computed length. *)
Example format_seconds_with_offset :
  get_datetime_iso_8601_strlen true (Some NPY_FR_s) = 42 /\
  let r := make_iso_8601_datetime example_host (mk_dts 2016 1 2 12 30 45 0 0 0)
             (List.repeat 120 45) 42 true (Some NPY_FR_s) 0 in
  fst r = Formatted /\ c_string (snd r) = cstr "2016-01-02T12:30:45+0000".
Proof. vm_compute. auto. Qed.

(** ** Inputs longer than the counter *)

(** C3, as the code has it.  [sublen] is a [char], so of the length of a
    long input only the low eight bits count.  A time with four digits
    behind the decimal point and a 'Z', padded with spaces to 279 bytes, is
    scanned for 279 - 256 = 23 bytes: the scan ends inside the fraction
    after three digits, reports milliseconds and not microseconds, loses the
    fourth digit, and never reaches the 'Z', so the time counts as local.
    The same time without the padding parses as the rule of C3 says. *)
Theorem long_input_is_cut_by_the_counter (host : Host) (casting : NPY_CASTING) :
  length (cstr "1800-01-01T12:30:45.1234Z" ++ List.repeat c_space 254) = 279%nat /\
  parse_iso_8601_datetime host None casting
      (cstr "1800-01-01T12:30:45.1234Z" ++ List.repeat c_space 254) =
    Parsed (mk_parsed (mk_dts 1800 1 1 12 30 45 123000 0 0)
                      (Some true) NPY_FR_ms false) /\
  parse_text host None casting "1800-01-01T12:30:45.1234Z" =
    Parsed (mk_parsed (mk_dts 1800 1 1 12 30 45 123400 0 0)
                      (Some false) NPY_FR_us false).
Proof. repeat split; vm_compute; reflexivity. Qed.

(** ** The special words *)

Lemma is_word_true (w str : list Z) :
  is_word w str = true -> map tolower str = w.
Proof.
  unfold is_word. intros H. apply andb_prop in H as [Hlen Hall].
  apply Z.eqb_eq in Hlen. apply Nat2Z.inj in Hlen.
  rewrite forallb_forall in Hall.
  apply (nth_ext _ _ 0 0); [rewrite length_map; exact Hlen |].
  intros k Hk. rewrite length_map in Hk.
  assert (Hin : In k (seq 0 (length w))) by (apply in_seq; lia).
  apply Hall, Z.eqb_eq in Hin. rewrite <- Hin.
  change 0 with (tolower 0) at 1. apply map_nth.
Qed.

Lemma is_word_false (w str : list Z) :
  map tolower str <> w -> is_word w str = false.
Proof.
  intros H. destruct (is_word w str) eqn:Hw; [| reflexivity].
  exfalso. exact (H (is_word_true _ _ Hw)).
Qed.

(** X1. With generic units requested, every input other than the empty string
    and the case variants of "NaT" is refused with the generic-units error,
    whatever the casting rule and before the clock is read or the text is
    scanned. *)
Theorem generic_unit_admits_only_nat (host : Host) (casting : NPY_CASTING)
    (str : list Z) :
  str <> [] -> map tolower str <> cstr "nat" ->
  parse_iso_8601_datetime host (Some NPY_FR_GENERIC) casting str = Failed GenericUnits.
Proof.
  intros Hne Hnat. unfold parse_iso_8601_datetime.
  rewrite (is_word_false [c_n; c_a; c_t] str Hnat).
  destruct str as [| c str]; [contradiction |].
  reflexivity.
Qed.

Lemma generic_unit_admits_only_nat_witness :
  parse_text example_host (Some NPY_FR_GENERIC) NPY_UNSAFE_CASTING "2011-03-12" =
    Failed GenericUnits.
Proof.
  apply (generic_unit_admits_only_nat example_host NPY_UNSAFE_CASTING (cstr "2011-03-12")).
  - discriminate.
  - discriminate.
Defined.

(** X2. A case variant of "now" parses exactly when the requested unit, if one
    is given, is not generic and seconds can be cast to it under the casting
    rule, and the conversion of the host's clock reading to a struct succeeds.
    The result is then that struct, with seconds as its unit, not local and
    marked as a special value. *)
Theorem parse_now_outcome (host : Host) (unit : option NPY_DATETIMEUNIT)
    (casting : NPY_CASTING) (str : list Z) (p : parsed) :
  map tolower str = cstr "now" ->
  (parse_iso_8601_datetime host unit casting str = Parsed p <->
   (forall u, unit = Some u ->
      u <> NPY_FR_GENERIC /\ can_cast_datetime64_units host NPY_FR_s u casting = true) /\
   exists d,
     convert_datetime_to_datetimestruct host NPY_FR_s 1 (time host)
       (mk_dts 0 1 1 0 0 0 0 0 0) = Some d /\
     p = mk_parsed d (Some false) NPY_FR_s true).
Proof.
  intros Hword.
  assert (Hlen : length str = 3%nat).
  { rewrite <- (length_map tolower), Hword. reflexivity. }
  unfold parse_iso_8601_datetime.
  rewrite (is_word_false [c_n; c_a; c_t]) by (rewrite Hword; discriminate).
  rewrite (is_word_length [c_t; c_o; c_d; c_a; c_y]) by (rewrite Hlen; discriminate).
  rewrite (is_word_lower [c_n; c_o; c_w] str Hword).
  replace (Z.of_nat (length str) <=? 0) with false by (rewrite Hlen; reflexivity).
  cbn [orb]. unfold cannot_cast. change initial_dts with (mk_dts 0 1 1 0 0 0 0 0 0).
  destruct unit as [u |].
  - destruct (unit_eqb u NPY_FR_GENERIC) eqn:Hgen.
    { split; [discriminate |]. intros [Hu _]. destruct (Hu u eq_refl) as [Hne _].
      destruct u; try discriminate. contradiction. }
    destruct (can_cast_datetime64_units host NPY_FR_s u casting) eqn:Hcast.
    + destruct (convert_datetime_to_datetimestruct host NPY_FR_s 1 (time host) _)
        as [d |] eqn:Hconv.
      * split.
        -- intros H. injection H as <-. split; [| eauto].
           intros u' Hu. injection Hu as <-. split; [| exact Hcast].
           intros ->. discriminate.
        -- intros [_ (d' & Hd & ->)]. congruence.
      * split; [discriminate |]. intros [_ (d' & Hd & _)]. discriminate.
    + split; [discriminate |]. intros [Hu _]. destruct (Hu u eq_refl). congruence.
  - destruct (convert_datetime_to_datetimestruct host NPY_FR_s 1 (time host) _)
      as [d |] eqn:Hconv.
    + split.
      * intros H. injection H as <-. split; [discriminate | eauto].
      * intros [_ (d' & Hd & ->)]. congruence.
    + split; [discriminate |]. intros [_ (d' & Hd & _)]. discriminate.
Qed.

Lemma parse_now_outcome_witness :
  parse_text example_host (Some NPY_FR_ms) NPY_SAFE_CASTING "NOW" =
    Parsed (mk_parsed (mk_dts 0 1 1 0 0 0 0 0 0) (Some false) NPY_FR_s true).
Proof.
  apply (parse_now_outcome example_host (Some NPY_FR_ms) NPY_SAFE_CASTING (cstr "NOW")
           (mk_parsed (mk_dts 0 1 1 0 0 0 0 0 0) (Some false) NPY_FR_s true) eq_refl).
  split.
  - intros u Hu. injection Hu as <-. split; [discriminate | reflexivity].
  - exists (mk_dts 0 1 1 0 0 0 0 0 0). split; reflexivity.
Defined.

(** The casting check. *)
Lemma leave_parsed (host : Host) (unit : option NPY_DATETIMEUNIT)
    (casting : NPY_CASTING) (f : flow) (p : parsed) :
  leave host unit casting f = Parsed p ->
  exists s b, f = goto_finish s b /\ cannot_cast host unit casting b = None /\
              p = mk_parsed (dts s) (local s) b false.
Proof.
  destruct f as [s | s b | s b | s | e]; cbn [leave]; try discriminate.
  unfold finish, check_casting. intros H.
  destruct (cannot_cast host unit casting b) eqn:Hc; [discriminate |].
  injection H as <-. eauto.
Qed.

(** X3. No successful return goes round the casting check: when a text parses
    for a requested unit to a result whose unit is not generic, the requested
    unit is not generic and the casting rule allows the cast from the result's
    unit to the requested one. *)
Theorem parsed_unit_passed_the_casting_check (host : Host) (u : NPY_DATETIMEUNIT)
    (casting : NPY_CASTING) (str : list Z) (p : parsed) :
  parse_iso_8601_datetime host (Some u) casting str = Parsed p ->
  out_bestunit p <> NPY_FR_GENERIC ->
  u <> NPY_FR_GENERIC /\
  can_cast_datetime64_units host (out_bestunit p) u casting = true.
Proof.
  unfold parse_iso_8601_datetime. intros H Hyear.
  destruct ((Z.of_nat (length str) <=? 0) || is_word [c_n; c_a; c_t] str).
  { injection H as <-. contradiction Hyear. reflexivity. }
  destruct (unit_eqb u NPY_FR_GENERIC) eqn:Hgen; [discriminate |].
  split; [intros ->; discriminate |].
  assert (Hgate : forall b, cannot_cast host (Some u) casting b = None ->
                            can_cast_datetime64_units host b u casting = true).
  { intros b. unfold cannot_cast.
    destruct (can_cast_datetime64_units host b u casting); [reflexivity | discriminate]. }
  destruct (is_word [c_t; c_o; c_d; c_a; c_y] str).
  { destruct (unit_code NPY_FR_D <? unit_code u); [discriminate |].
    destruct (localtime_r host (time host)); [| discriminate].
    unfold check_casting in H.
    destruct (cannot_cast host (Some u) casting NPY_FR_D) eqn:Hc; [discriminate |].
    injection H as <-. exact (Hgate _ Hc). }
  destruct (is_word [c_n; c_o; c_w] str).
  { destruct (cannot_cast host (Some u) casting NPY_FR_s) eqn:Hc; [discriminate |].
    destruct (convert_datetime_to_datetimestruct host NPY_FR_s 1 (time host) initial_dts);
      [| discriminate].
    injection H as <-. exact (Hgate _ Hc). }
  unfold parse_general in H.
  apply leave_parsed in H as (s & b & _ & Hc & ->). exact (Hgate _ Hc).
Qed.

Lemma parsed_unit_passed_the_casting_check_witness :
  NPY_FR_s <> NPY_FR_GENERIC /\
  can_cast_datetime64_units example_host NPY_FR_D NPY_FR_s NPY_SAFE_CASTING = true.
Proof.
  apply (parsed_unit_passed_the_casting_check example_host NPY_FR_s NPY_SAFE_CASTING
           (cstr "2011-03-12")
           (mk_parsed (mk_dts 2011 3 12 0 0 0 0 0 0) (Some false) NPY_FR_D false)).
  - reflexivity.
  - discriminate.
Defined.

(** ** The formatter stays inside its buffer *)

Lemma within_framed (n : Z) (buf0 : list Z) (w : writer) :
  within n buf0 w -> framed n buf0 (buf w).
Proof. intros (_ & _ & _ & Hdrop & Hlen). split; assumption. Qed.

Lemma framed_le (n m : Z) (buf0 buf : list Z) :
  0 <= n <= m -> framed n buf0 buf -> framed m buf0 buf.
Proof.
  intros Hnm [Hdrop Hlen]. split; [| exact Hlen].
  replace (Z.to_nat m) with (Z.to_nat n + (Z.to_nat m - Z.to_nat n))%nat by lia.
  rewrite <- !drop_drop, Hdrop. reflexivity.
Qed.

Lemma emit_from_safe (n : Z) (buf0 : list Z) (cs : list Z) (k : nat) (w : writer) :
  within n buf0 w -> Z.of_nat k < room w -> safe_flow n buf0 (emit_from k cs w).
Proof.
  revert k w. induction cs as [| c cs IH]; intros k w Hw Hk; cbn [emit_from].
  - exact (proj1 (within_forward n buf0 k w Hw Hk)).
  - pose proof (within_poke n buf0 k c w Hw Hk) as Hw1.
    change (room (poke k c w)) with (room w).
    destruct (Z.leb_spec (room w) (Z.of_nat k + 1)).
    + exact (within_framed _ _ _ Hw1).
    + apply IH; [exact Hw1 |]. change (room (poke k c w)) with (room w). lia.
Qed.

Lemma then_write_safe (n : Z) (buf0 : list Z) (f g : writer -> wflow) (w : writer) :
  safe_flow n buf0 (f w) ->
  (forall w', within n buf0 w' -> safe_flow n buf0 (g w')) ->
  safe_flow n buf0 ((f >-> g) w).
Proof.
  intros Hf Hg. unfold then_write.
  destruct (f w) as [w1 | w1 | w1 | w1]; try exact Hf.
  apply Hg. exact Hf.
Qed.

Section Safety.

Variable host : Host.
Variable n : Z.
Variable buf0 : list Z.
Hypothesis buffer_holds_n : n <= Z.of_nat (length buf0).

Lemma terminate_safe (w : writer) :
  within n buf0 w -> safe_flow n buf0 (terminate w).
Proof.
  intros Hw. unfold terminate. cbn [safe_flow].
  assert (Hroom : Z.of_nat 0 < room w) by (destruct Hw as (_ & ? & _); cbn; lia).
  split; [exact (within_poke n buf0 0 0 w Hw Hroom) |].
  destruct Hw as (Hsum & Hr & _ & _ & Hlen).
  unfold poke. cbn [buf at_]. rewrite Nat.add_0_r.
  apply list_lookup_insert_eq. lia.
Qed.

Lemma emit_safe (cs : list Z) (w : writer) :
  within n buf0 w -> safe_flow n buf0 (emit cs w).
Proof.
  intros Hw. apply emit_from_safe; [exact Hw |].
  destruct Hw as (_ & ? & _). cbn. lia.
Qed.

Lemma write_date_field_safe (cs : list Z) (stop : bool) (w : writer) :
  within n buf0 w -> safe_flow n buf0 (write_date_field cs stop w).
Proof.
  intros Hw. unfold write_date_field.
  apply then_write_safe; [exact (emit_safe cs w Hw) |].
  intros w' Hw'. destruct stop; [exact (terminate_safe w' Hw') | exact Hw'].
Qed.

Lemma write_time_field_safe (cs : list Z) (stop : bool) (w : writer) :
  within n buf0 w -> safe_flow n buf0 (write_time_field cs stop w).
Proof.
  intros Hw. unfold write_time_field.
  apply then_write_safe; [exact (emit_safe cs w Hw) |].
  intros w' Hw'. destruct stop; exact Hw'.
Qed.

Lemma snprintf_within (text : list Z) (w : writer) :
  within n buf0 w -> within n buf0 (snprintf text w).
Proof.
  intros (Hsum & Hr & Hn & Hdrop & Hlen).
  unfold within, snprintf. cbn [at_ room buf].
  destruct (Z.ltb_spec (room w) 0); [lia |].
  destruct (Z.eqb_spec (room w) 0); [lia |].
  destruct (store_at_frame (take (Z.to_nat (room w) - 1) text ++ [0]) (at_ w)
              (Z.to_nat n) (buf w)) as [-> ->].
  { rewrite length_app, length_take. cbn [length]. lia. }
  auto.
Qed.

Lemma write_year_safe (d : npy_datetimestruct) (base : NPY_DATETIMEUNIT) (w : writer) :
  within n buf0 w -> safe_flow n buf0 (write_year d base w).
Proof.
  intros Hw. unfold write_year. cbv zeta.
  set (text := printf_04d (year d)).
  pose proof (snprintf_within text w Hw) as Hw1.
  change (room (snprintf text w)) with (room w).
  destruct ((Z.of_nat (length text) <? 0) || (room w <=? Z.of_nat (length text))) eqn:Hfit.
  - exact (within_framed _ _ _ Hw1).
  - apply orb_false_elim in Hfit as [_ Hfit]. apply Z.leb_gt in Hfit.
    destruct (within_forward n buf0 (length text) (snprintf text w) Hw1 Hfit) as [Hw2 _].
    destruct (unit_eqb base NPY_FR_Y); [exact (terminate_safe _ Hw2) | exact Hw2].
Qed.

Lemma write_fields_safe (d : npy_datetimestruct) (base : NPY_DATETIMEUNIT) (w : writer) :
  within n buf0 w -> safe_flow n buf0 (write_fields d base w).
Proof.
  intros Hw. unfold write_fields.
  repeat (apply then_write_safe; [| intros; apply write_time_field_safe; assumption]).
  repeat (apply then_write_safe; [| intros; apply write_date_field_safe; assumption]).
  exact (write_year_safe d base w Hw).
Qed.

Lemma add_time_zone_safe (local : bool) (timezone_offset : Z) (w : writer) :
  within n buf0 w -> safe_flow n buf0 (add_time_zone local timezone_offset w).
Proof.
  intros Hw. unfold add_time_zone.
  apply then_write_safe; [| exact terminate_safe].
  destruct local; cbv zeta.
  - apply then_write_safe; [apply emit_safe; exact Hw | intros; apply emit_safe; assumption].
  - apply emit_safe. exact Hw.
Qed.

(** The fields, the time zone and the return, from a writer inside the
    buffer. *)
Lemma fields_and_zone_safe (d : npy_datetimestruct) (base : NPY_DATETIMEUNIT)
    (local : bool) (timezone_offset : Z) (w : writer) :
  within n buf0 w ->
  safe_flow n buf0
    match write_fields d base w with
    | goto_add_time_zone w' | Continue w' => add_time_zone local timezone_offset w'
    | other => other
    end.
Proof.
  intros Hw. pose proof (write_fields_safe d base w Hw) as Hf.
  destruct (write_fields d base w) as [w1 | w1 | w1 | w1]; try exact Hf;
    apply add_time_zone_safe; exact Hf.
Qed.

End Safety.

Lemma to_char_negative (z : Z) : 0 <= z -> to_char z <= 0 -> z = 0 \/ 128 <= z.
Proof.
  intros Hz H. destruct (Z.le_gt_cases 128 z); [auto |].
  rewrite to_char_id in H by lia. lia.
Qed.

Lemma write_fields_no_room (d : npy_datetimestruct) (base : NPY_DATETIMEUNIT)
    (w : writer) :
  room w <= 0 ->
  write_fields d base w = goto_string_too_short (snprintf (printf_04d (year d)) w).
Proof.
  intros Hroom. unfold write_fields, then_write, write_year. cbv zeta.
  change (room (snprintf (printf_04d (year d)) w)) with (room w).
  destruct (Z.leb_spec (room w) (Z.of_nat (length (printf_04d (year d))))); [| lia].
  rewrite orb_true_r. reflexivity.
Qed.

Lemma framed_insert (n : Z) (buf0 buf : list Z) (k : nat) (c : Z) :
  framed n buf0 buf -> (k < Z.to_nat n)%nat -> framed n buf0 (<[k := c]> buf).
Proof.
  intros [Hdrop Hlen] Hk. split.
  - rewrite drop_insert_lt by lia. exact Hdrop.
  - rewrite length_insert. exact Hlen.
Qed.

Lemma string_too_short_left_behind (outstr : list Z) (outlen : Z) (buf' : list Z) :
  outlen <= Z.of_nat (length outstr) ->
  framed outlen outstr buf' ->
  left_behind outstr outlen (string_too_short outlen buf').
Proof.
  intros Hlen Hframed. unfold left_behind, string_too_short. cbn [fst snd].
  destruct (Z.ltb_spec 0 outlen).
  - split; [apply framed_insert; [exact Hframed | lia] |].
    split; [discriminate |]. intros _ _.
    exists (Z.to_nat (outlen - 1)). split; [lia |].
    apply list_lookup_insert_eq. destruct Hframed as [_ ->]. lia.
  - split; [exact Hframed |]. split; [discriminate |]. intros _ ?. lia.
Qed.

Lemma written_left_behind (d : npy_datetimestruct) (base : NPY_DATETIMEUNIT)
    (local : bool) (timezone_offset : Z) (outstr : list Z) (outlen : Z) :
  0 <= outlen <= Z.of_nat (length outstr) ->
  int64_range (year d) ->
  left_behind outstr outlen
    match
      match write_fields d base (mk_writer outstr 0 (to_char outlen)) with
      | goto_add_time_zone w' | Continue w' => add_time_zone local timezone_offset w'
      | other => other
      end
    with
    | return_0 w' => (Formatted, buf w')
    | goto_string_too_short w' | Continue w' | goto_add_time_zone w' =>
        string_too_short outlen (buf w')
    end.
Proof.
  intros Hlen Hy.
  destruct (Z.le_gt_cases (to_char outlen) 0) as [Hroom | Hroom].
  - (* the counter holds no room: the year is the last thing written *)
    rewrite write_fields_no_room by exact Hroom.
    apply string_too_short_left_behind; [lia |].
    unfold snprintf. cbn [buf room at_].
    pose proof (length_printf_04d (year d) Hy) as Htext.
    destruct (to_char_negative outlen ltac:(lia) Hroom) as [-> | Hbig].
    + change (to_char 0) with 0. cbn. split; reflexivity.
    + destruct (to_char outlen <? 0).
      * destruct (store_at_frame (printf_04d (year d) ++ [0]) 0 (Z.to_nat outlen) outstr)
          as [Hd Hl].
        { rewrite length_app. cbn [length]. lia. }
        split; assumption.
      * destruct (to_char outlen =? 0); [split; reflexivity |].
        destruct (store_at_frame
                    (take (Z.to_nat (to_char outlen) - 1) (printf_04d (year d)) ++ [0])
                    0 (Z.to_nat outlen) outstr) as [Hd Hl].
        { rewrite length_app, length_take. cbn [length]. lia. }
        split; assumption.
  - (* the counter starts inside the buffer and stays there *)
    pose proof (to_char_le outlen ltac:(lia)) as Hle.
    pose proof (to_char_range outlen) as Hrange.
    set (n := to_char outlen) in *.
    assert (Hstart : within n outstr (mk_writer outstr 0 n)).
    { unfold within. cbn [at_ room buf]. repeat split; lia. }
    pose proof (fields_and_zone_safe n outstr ltac:(lia) d base local timezone_offset
                  _ Hstart) as Hsafe.
    destruct (match write_fields d base (mk_writer outstr 0 n) with
              | goto_add_time_zone w' | Continue w' => add_time_zone local timezone_offset w'
              | other => other
              end) as [w' | w' | w' | w']; cbn [safe_flow] in Hsafe.
    + apply string_too_short_left_behind; [lia |].
      apply (framed_le n); [lia |]. exact (within_framed _ _ _ Hsafe).
    + apply string_too_short_left_behind; [lia |].
      apply (framed_le n); [lia |]. exact (within_framed _ _ _ Hsafe).
    + apply string_too_short_left_behind; [lia |].
      apply (framed_le n); [lia |]. exact Hsafe.
    + destruct Hsafe as [Hw Hnul]. unfold left_behind. cbn [fst snd].
      split; [apply (framed_le n); [lia |]; exact (within_framed _ _ _ Hw) |].
      split; [discriminate |]. intros _ _.
      exists (at_ w'). split; [| exact Hnul].
      destruct Hw as (Hsum & Hr & _). lia.
Qed.

Lemma make_left_behind (host : Host) (d : npy_datetimestruct)
    (outstr : list Z) (outlen : Z) (local : bool) (base : option NPY_DATETIMEUNIT)
    (tzoffset : Z) :
  0 <= outlen <= Z.of_nat (length outstr) ->
  int64_range (year d) -> host_in_range host ->
  left_behind outstr outlen
    (make_iso_8601_datetime host d outstr outlen local base tzoffset).
Proof.
  intros Hlen Hy [Hadd Hlocaltime]. unfold make_iso_8601_datetime.
  destruct ((year d =? NPY_DATETIME_NAT) || _).
  { destruct (Z.ltb_spec outlen 4).
    - apply string_too_short_left_behind; [lia | split; reflexivity].
    - unfold left_behind. cbn [fst snd]. split.
      + split; [rewrite !drop_insert_lt by lia | rewrite !length_insert]; reflexivity.
      + split; [discriminate |]. intros _ _. exists 0%nat. split; [lia |].
        apply list_lookup_insert_eq. rewrite !length_insert. lia. }
  cbv zeta.
  match goal with |- context [detect_base d ?l base] => set (local1 := l) end.
  set (base' := detect_base d local1 base).
  set (local2 := if unit_code base' <? unit_code NPY_FR_h then false else local1).
  clearbody local2 base'.
  destruct (local2 && (tzoffset =? -1)).
  - destruct (localtime_r host _) as [tm_ |] eqn:Hclock.
    + apply written_left_behind; [exact Hlen |]. cbn [year].
      exact (Hlocaltime _ _ Hclock).
    + unfold left_behind. cbn [fst snd]. split; [split; reflexivity |].
      split; [reflexivity |]. intros H. contradiction.
  - destruct local2.
    + apply written_left_behind; [exact Hlen |]. apply Hadd. exact Hy.
    + apply written_left_behind; [exact Hlen | exact Hy].
Qed.

(** X11. Whatever its outcome, the formatter changes no byte of the buffer at
    index outlen or behind it, and the buffer keeps its length (for a capacity
    that the buffer really has, a year that is an npy_int64 and host functions
    that return values of their C types). *)
Theorem formatter_writes_below_outlen (host : Host) (d : npy_datetimestruct)
    (outstr : list Z) (outlen : Z) (local : bool) (base : option NPY_DATETIMEUNIT)
    (tzoffset : Z) :
  0 <= outlen <= Z.of_nat (length outstr) ->
  int64_range (year d) -> host_in_range host ->
  let r := make_iso_8601_datetime host d outstr outlen local base tzoffset in
  drop (Z.to_nat outlen) (snd r) = drop (Z.to_nat outlen) outstr /\
  length (snd r) = length outstr.
Proof.
  intros Hlen Hy Hhost r.
  exact (proj1 (make_left_behind host d outstr outlen local base tzoffset Hlen Hy Hhost)).
Qed.

Lemma formatter_writes_below_outlen_witness :
  let r := make_iso_8601_datetime example_host (mk_dts 2016 1 2 12 30 45 0 0 0)
             (List.repeat 120 30) 12 true None 0 in
  drop (Z.to_nat 12) (snd r) = drop (Z.to_nat 12) (List.repeat 120 30) /\
  length (snd r) = length (List.repeat 120 30).
Proof.
  apply (formatter_writes_below_outlen example_host (mk_dts 2016 1 2 12 30 45 0 0 0)
           (List.repeat 120 30) 12 true None 0).
  - simpl. lia.
  - unfold int64_range. simpl. lia.
  - split.
    + intros d minutes Hd. exact Hd.
    + intros t tm_ Htm. injection Htm as <-. unfold int64_range. simpl. lia.
Defined.

(** X12. Unless localtime fails, the formatter leaves a NUL byte below index
    outlen in a buffer of positive capacity: the caller finds a terminated
    string also when the buffer was too short (for a capacity that the buffer
    really has, a year that is an npy_int64 and host functions that return
    values of their C types). *)
Theorem formatter_leaves_a_terminated_string (host : Host) (d : npy_datetimestruct)
    (outstr : list Z) (outlen : Z) (local : bool) (base : option NPY_DATETIMEUNIT)
    (tzoffset : Z) :
  0 < outlen <= Z.of_nat (length outstr) ->
  int64_range (year d) -> host_in_range host ->
  let r := make_iso_8601_datetime host d outstr outlen local base tzoffset in
  fst r <> LocaltimeFailure ->
  exists k, (k < Z.to_nat outlen)%nat /\ snd r !! k = Some 0.
Proof.
  intros Hlen Hy Hhost r Hr.
  destruct (make_left_behind host d outstr outlen local base tzoffset
              ltac:(lia) Hy Hhost) as (_ & _ & Hnul).
  apply Hnul; [exact Hr | lia].
Qed.

Lemma formatter_leaves_a_terminated_string_witness :
  exists k, (k < Z.to_nat 12)%nat /\
    snd (make_iso_8601_datetime example_host (mk_dts 2016 1 2 12 30 45 0 0 0)
           (List.repeat 120 30) 12 true None 0) !! k = Some 0.
Proof.
  apply (formatter_leaves_a_terminated_string example_host
           (mk_dts 2016 1 2 12 30 45 0 0 0) (List.repeat 120 30) 12 true None 0).
  - simpl. lia.
  - unfold int64_range. simpl. lia.
  - split.
    + intros d minutes Hd. exact Hd.
    + intros t tm_ Htm. injection Htm as <-. unfold int64_range. simpl. lia.
  - vm_compute. discriminate.
Defined.

(** X13. The formatter fails on the host's localtime only when local time was
    asked for with the offset -1 (none given) for a year from 1901 to 9999 and
    localtime_r failed on the value's time to the minute; the buffer is then
    as it was. *)
Theorem localtime_failure_only_for_local_time (host : Host) (d : npy_datetimestruct)
    (outstr : list Z) (outlen : Z) (local : bool) (base : option NPY_DATETIMEUNIT)
    (tzoffset : Z) :
  let r := make_iso_8601_datetime host d outstr outlen local base tzoffset in
  fst r = LocaltimeFailure ->
  snd r = outstr /\ local = true /\ tzoffset = -1 /\ 1900 < year d < 10000 /\
  localtime_r host (get_datetimestruct_days host d * 24 * 60 * 60
                    + hour d * 60 * 60 + min d * 60) = None.
Proof.
  cbv zeta. unfold make_iso_8601_datetime.
  destruct ((year d =? NPY_DATETIME_NAT) || _).
  { destruct (outlen <? 4); discriminate. }
  cbv zeta.
  match goal with |- context [detect_base d ?l base] => set (local1 := l) end.
  set (base' := detect_base d local1 base).
  set (local2 := if unit_code base' <? unit_code NPY_FR_h then false else local1).
  assert (Hflow : forall f : wflow,
            fst match f with
                | return_0 w' => (Formatted, buf w')
                | goto_string_too_short w' | Continue w' | goto_add_time_zone w' =>
                    string_too_short outlen (buf w')
                end <> LocaltimeFailure).
  { intros [w | w | w | w]; discriminate. }
  destruct (local2 && (tzoffset =? -1)) eqn:Hlocal.
  - destruct (localtime_r host _) as [tm_ |] eqn:Hclock.
    + intros H. exfalso. exact (Hflow _ H).
    + intros _. cbn [snd]. split; [reflexivity |].
      apply andb_prop in Hlocal as [Hl2 Htz]. apply Z.eqb_eq in Htz.
      unfold local2 in Hl2.
      destruct (unit_code base' <? unit_code NPY_FR_h); [discriminate |].
      unfold local1 in Hl2. rewrite Htz, Z.eqb_refl, andb_true_r in Hl2.
      destruct ((year d <=? 1900) || (10000 <=? year d)) eqn:Hyear; [discriminate |].
      apply orb_false_elim in Hyear as [H1 H2].
      apply Z.leb_gt in H1. apply Z.leb_gt in H2.
      repeat split; try assumption; lia.
  - destruct local2; intros H; exfalso; exact (Hflow _ H).
Qed.

Lemma localtime_failure_only_for_local_time_witness :
  let host := mk_host 0 (fun _ => None) (fun _ => None) (fun _ => 0)
                      (fun _ _ _ => true) (fun d _ => d) (fun _ => 0)
                      (fun _ _ _ d => Some d) in
  let d := mk_dts 2016 1 2 12 30 45 0 0 0 in
  let r := make_iso_8601_datetime host d [120; 120] 2 true None (-1) in
  snd r = [120; 120] /\ true = true /\ -1 = -1 /\ 1900 < year d < 10000 /\
  localtime_r host (get_datetimestruct_days host d * 24 * 60 * 60
                    + hour d * 60 * 60 + min d * 60) = None.
Proof.
  apply (localtime_failure_only_for_local_time
           (mk_host 0 (fun _ => None) (fun _ => None) (fun _ => 0)
                    (fun _ _ _ => true) (fun d _ => d) (fun _ => 0)
                    (fun _ _ _ d => Some d))
           (mk_dts 2016 1 2 12 30 45 0 0 0) [120; 120] 2 true None (-1)).
  reflexivity.
Defined.

(** X14. The room left in the buffer is counted in a char (signed and 8 bits
    wide in this model): a capacity from 128 to 256 wraps to a count that is
    not positive, so a value that is neither not-a-time nor of generic unit is
    never formatted into such a buffer. *)
Theorem capacity_of_128_to_256_is_refused (host : Host) (d : npy_datetimestruct)
    (outstr : list Z) (outlen : Z) (local : bool) (base : option NPY_DATETIMEUNIT)
    (tzoffset : Z) :
  year d <> NPY_DATETIME_NAT -> base <> Some NPY_FR_GENERIC ->
  128 <= outlen <= 256 ->
  fst (make_iso_8601_datetime host d outstr outlen local base tzoffset) <> Formatted.
Proof.
  intros Hnat Hgen Hlen. unfold make_iso_8601_datetime.
  replace (year d =? NPY_DATETIME_NAT) with false by (symmetry; apply Z.eqb_neq; exact Hnat).
  replace (match base with Some b => unit_eqb b NPY_FR_GENERIC | None => false end)
    with false.
  2:{ destruct base as [[] |]; try reflexivity. contradiction Hgen. reflexivity. }
  cbn [orb]. cbv zeta.
  assert (Hroom : to_char outlen <= 0).
  { unfold to_char.
    destruct (Z.eq_dec outlen 256) as [-> | Hne]; [vm_compute; discriminate |].
    replace ((outlen + 128) mod 256) with (outlen - 128); [lia |].
    apply Z.mod_unique with (q := 1); lia. }
  assert (Hwrite : forall d' b l tz,
            fst match
                  match write_fields d' b (mk_writer outstr 0 (to_char outlen)) with
                  | goto_add_time_zone w' | Continue w' => add_time_zone l tz w'
                  | other => other
                  end
                with
                | return_0 w' => (Formatted, buf w')
                | goto_string_too_short w' | Continue w' | goto_add_time_zone w' =>
                    string_too_short outlen (buf w')
                end <> Formatted).
  { intros d' b l tz. rewrite write_fields_no_room by exact Hroom. discriminate. }
  match goal with |- context [detect_base d ?l base] => set (local1 := l) end.
  set (base' := detect_base d local1 base).
  set (local2 := if unit_code base' <? unit_code NPY_FR_h then false else local1).
  destruct (local2 && (tzoffset =? -1)).
  - destruct (localtime_r host _); [apply Hwrite | discriminate].
  - destruct local2; apply Hwrite.
Qed.

Lemma capacity_of_128_to_256_is_refused_witness :
  fst (make_iso_8601_datetime example_host (mk_dts 2016 1 2 12 30 45 0 0 0)
         (List.repeat 120 128) 128 false (Some NPY_FR_D) 0) <> Formatted.
Proof.
  apply (capacity_of_128_to_256_is_refused example_host (mk_dts 2016 1 2 12 30 45 0 0 0)
           (List.repeat 120 128) 128 false (Some NPY_FR_D) 0).
  - discriminate.
  - discriminate.
  - lia.
Defined.

Lemma capacity_suffices (host : Host) (d : npy_datetimestruct)
    (outstr : list Z) (outlen : Z) (local : bool) (base : NPY_DATETIMEUNIT)
    (tzoffset : Z) :
  int64_range (year d) -> host_in_range host ->
  get_datetime_iso_8601_strlen local (Some base) <= outlen <= 127 ->
  fst (make_iso_8601_datetime host d outstr outlen local (Some base) tzoffset)
    <> StringTooShort.
Proof.
  intros Hy [Hadd Hlocaltime] Hlen.
  pose proof (strlen_bounds local base) as Hbounds.
  unfold make_iso_8601_datetime.
  destruct ((year d =? NPY_DATETIME_NAT) || unit_eqb base NPY_FR_GENERIC) eqn:Hnat.
  { destruct (Z.ltb_spec outlen 4); [lia | discriminate]. }
  apply orb_false_elim in Hnat as [_ Hgeneric].
  set (local1 := if ((year d <=? 1900) || (10000 <=? year d)) && (tzoffset =? -1)
                 then false else local).
  set (base' := detect_base d local1 (Some base)).
  set (local2 := if unit_code base' <? unit_code NPY_FR_h then false else local1).
  assert (Hbase' : base' <> NPY_FR_W /\ base' <> NPY_FR_GENERIC /\
                   fields_strlen base' = fields_strlen base /\
                   (unit_code NPY_FR_h <=? unit_code base') =
                   (unit_code NPY_FR_h <=? unit_code base)).
  { unfold base'. destruct base; try discriminate; cbn; repeat split; discriminate. }
  destruct Hbase' as (HW & HG & Hfields & Hzone).
  assert (Hlocal2 : local2 = true -> local = true).
  { unfold local2, local1.
    destruct (unit_code base' <? unit_code NPY_FR_h); [discriminate |].
    destruct (((year d <=? 1900) || (10000 <=? year d)) && (tzoffset =? -1));
      [discriminate | auto]. }
  assert (Hroom : fields_strlen base' +
                  (if unit_code NPY_FR_h <=? unit_code base'
                   then (if local2 then 5 else 1) else 0) + 1 <= outlen).
  { rewrite Hfields, Hzone. unfold get_datetime_iso_8601_strlen in Hlen.
    clearbody local2 base'.
    destruct local2; [rewrite (Hlocal2 eq_refl) in Hlen | destruct local];
      (destruct base; try discriminate; destruct (unit_code NPY_FR_h <=? _); lia). }
  clearbody local2 base'.
  assert (Hstart : within outlen outstr (mk_writer outstr 0 (to_char outlen))).
  { unfold within. cbn [at_ room buf]. rewrite to_char_id by lia.
    repeat split; lia. }
  assert (Hwrite : forall d' timezone_offset, int64_range (year d') ->
            fst match
                  match write_fields d' base' (mk_writer outstr 0 (to_char outlen)) with
                  | goto_add_time_zone w' | Continue w' =>
                      add_time_zone local2 timezone_offset w'
                  | other => other
                  end
                with
                | return_0 w' => (Formatted, buf w')
                | goto_string_too_short w' | Continue w' | goto_add_time_zone w' =>
                    string_too_short outlen (buf w')
                end <> StringTooShort).
  { intros d' timezone_offset Hy'.
    destruct (fields_and_zone_fit outlen outstr d' base' local2 timezone_offset _
                Hstart Hy' HW HG) as (w' & Hw' & ->).
    { rewrite to_char_id by lia. exact Hroom. }
    discriminate. }
  destruct (local2 && (tzoffset =? -1)).
  - destruct (localtime_r host _) as [tm_ |] eqn:Hclock.
    + apply Hwrite. cbn [year]. exact (Hlocaltime _ _ Hclock).
    + discriminate.
  - destruct local2.
    + apply Hwrite. apply Hadd. exact Hy.
    + apply Hwrite. exact Hy.
Qed.

(** X15. Any capacity from the length that get_datetime_iso_8601_strlen
    computes for the local flag and the unit up to 127 is enough: the
    formatter called with that flag and unit does not report a string too
    short (for a year that is an npy_int64 and host functions that return
    values of their C types). *)
Theorem longer_buffer_suffices (host : Host) (d : npy_datetimestruct)
    (outstr : list Z) (outlen : Z) (local : bool) (base : NPY_DATETIMEUNIT)
    (tzoffset : Z) :
  int64_range (year d) -> host_in_range host ->
  get_datetime_iso_8601_strlen local (Some base) <= outlen <= 127 ->
  fst (make_iso_8601_datetime host d outstr outlen local (Some base) tzoffset)
    <> StringTooShort.
Proof. exact (capacity_suffices host d outstr outlen local base tzoffset). Qed.

Lemma longer_buffer_suffices_witness :
  fst (make_iso_8601_datetime example_host (mk_dts 2016 1 2 12 30 45 0 0 0)
         (List.repeat 120 127) 127 true (Some NPY_FR_s) 0) <> StringTooShort.
Proof.
  apply (longer_buffer_suffices example_host (mk_dts 2016 1 2 12 30 45 0 0 0)
           (List.repeat 120 127) 127 true NPY_FR_s 0).
  - unfold int64_range. simpl. lia.
  - split.
    + intros d minutes Hd. exact Hd.
    + intros t tm_ Htm. injection Htm as <-. unfold int64_range. simpl. lia.
  - vm_compute. split; discriminate.
Defined.

Lemma strlen_monotone (local local' : bool) (base base' : NPY_DATETIMEUNIT) :
  unit_code base <= unit_code base' -> base' <> NPY_FR_GENERIC ->
  (local = true -> local' = true) ->
  get_datetime_iso_8601_strlen local (Some base) <=
    get_datetime_iso_8601_strlen local' (Some base').
Proof.
  intros Hunit HG Hlocal.
  destruct local; [rewrite (Hlocal eq_refl) | destruct local'];
    destruct base, base'; try contradiction; cbn in Hunit |- *; lia.
Qed.

(** X16. The computed length grows with the precision: for a unit that is not
    generic it is at least the length computed for any coarser unit, and with
    the local flag at least the length without it. So a buffer of the length
    computed for a unit is never too short for the formatter called with a
    coarser unit (for a year that is an npy_int64 and host functions that
    return values of their C types). *)
Theorem length_for_finer_unit_suffices (host : Host) (d : npy_datetimestruct)
    (outstr : list Z) (local local' : bool) (base base' : NPY_DATETIMEUNIT)
    (tzoffset : Z) :
  int64_range (year d) -> host_in_range host ->
  unit_code base <= unit_code base' -> base' <> NPY_FR_GENERIC ->
  (local = true -> local' = true) ->
  get_datetime_iso_8601_strlen local (Some base) <=
    get_datetime_iso_8601_strlen local' (Some base') /\
  fst (make_iso_8601_datetime host d outstr
         (get_datetime_iso_8601_strlen local' (Some base')) local (Some base) tzoffset)
    <> StringTooShort.
Proof.
  intros Hy Hhost Hunit HG Hlocal.
  pose proof (strlen_monotone local local' base base' Hunit HG Hlocal) as Hmono.
  split; [exact Hmono |].
  apply capacity_suffices; [exact Hy | exact Hhost |].
  pose proof (strlen_bounds local' base'). lia.
Qed.

Lemma length_for_finer_unit_suffices_witness :
  get_datetime_iso_8601_strlen false (Some NPY_FR_D) <=
    get_datetime_iso_8601_strlen true (Some NPY_FR_ms) /\
  fst (make_iso_8601_datetime example_host (mk_dts 2016 1 2 12 30 45 0 0 0)
         (List.repeat 120 60) (get_datetime_iso_8601_strlen true (Some NPY_FR_ms))
         false (Some NPY_FR_D) 0) <> StringTooShort.
Proof.
  apply (length_for_finer_unit_suffices example_host (mk_dts 2016 1 2 12 30 45 0 0 0)
           (List.repeat 120 60) false true NPY_FR_D NPY_FR_ms 0).
  - unfold int64_range. simpl. lia.
  - split.
    + intros d minutes Hd. exact Hd.
    + intros t tm_ Htm. injection Htm as <-. unfold int64_range. simpl. lia.
  - simpl. lia.
  - discriminate.
  - discriminate.
Defined.

(** X17. Printed dates have no time zone: for a unit of years, months, weeks
    or days the outcome and the buffer of the formatter depend neither on the
    local flag nor on the offset given, and the host's clock functions have no
    part in them. *)
Theorem dates_are_written_without_zone (host host' : Host) (d : npy_datetimestruct)
    (outstr : list Z) (outlen : Z) (local local' : bool) (base : NPY_DATETIMEUNIT)
    (tzoffset tzoffset' : Z) :
  unit_code base < unit_code NPY_FR_h ->
  make_iso_8601_datetime host d outstr outlen local (Some base) tzoffset =
  make_iso_8601_datetime host' d outstr outlen local' (Some base) tzoffset'.
Proof.
  intros Hbase. unfold make_iso_8601_datetime.
  destruct ((year d =? NPY_DATETIME_NAT) || unit_eqb base NPY_FR_GENERIC);
    [reflexivity |].
  destruct base; cbn in Hbase; try lia; reflexivity.
Qed.

Lemma dates_are_written_without_zone_witness :
  make_iso_8601_datetime example_host (mk_dts 2016 1 2 12 30 45 0 0 0)
    (List.repeat 120 30) 30 true (Some NPY_FR_D) (-1) =
  make_iso_8601_datetime example_host (mk_dts 2016 1 2 12 30 45 0 0 0)
    (List.repeat 120 30) 30 false (Some NPY_FR_D) 0.
Proof.
  apply (dates_are_written_without_zone example_host example_host
           (mk_dts 2016 1 2 12 30 45 0 0 0) (List.repeat 120 30) 30 true false
           NPY_FR_D (-1) 0).
  simpl. lia.
Defined.

(** ** The position of a parse error *)

Section Tracking.

Variable str : list Z.

Lemma tracks_start : Z.of_nat (length str) <= 127 -> tracks str (start str).
Proof.
  intros Hlen. split; [exact (steady_start str Hlen) |].
  cbn [start offset substr]. split; [lia | reflexivity].
Qed.

Lemma tracks_advance (k : nat) (s : scanner) :
  tracks str s -> (k <= length (substr s))%nat -> tracks str (advance k s).
Proof.
  intros (Hst & Hoff & Hsub) Hk.
  split; [exact (steady_advance k s Hst Hk) |].
  cbn [advance offset substr].
  rewrite Hsub, length_drop in Hk.
  split; [lia |].
  rewrite Hsub, drop_drop. f_equal. lia.
Qed.

Lemma tracks_set_dts (d : npy_datetimestruct) (s : scanner) :
  tracks str s -> tracks str (set_dts d s).
Proof. exact id. Qed.

Lemma tracks_set_local (b : bool) (s : scanner) :
  tracks str s -> tracks str (set_local b s).
Proof. exact id. Qed.

Lemma tracks_set_year_leap (b : bool) (s : scanner) :
  tracks str s -> tracks str (set_year_leap b s).
Proof. exact id. Qed.

Lemma tracks_positive (s : scanner) :
  tracks str s -> (0 <? sublen s) = true -> (1 <= length (substr s))%nat.
Proof. intros ((Hlen & _) & _) H. apply Z.ltb_lt in H. lia. Qed.

Lemma tracks_nonzero (s : scanner) :
  tracks str s -> (sublen s =? 0) = false -> (1 <= length (substr s))%nat.
Proof. intros ((Hlen & _) & _) H. apply Z.eqb_neq in H. lia. Qed.

Lemma tracks_two_digits (s : scanner) :
  tracks str s -> two_digits s = true -> (2 <= length (substr s))%nat.
Proof.
  intros ((Hlen & _) & _) H. unfold two_digits in H.
  apply andb_prop in H as [H _]. apply andb_prop in H as [H _].
  apply Z.leb_le in H. lia.
Qed.

Lemma peek_nonempty (s : scanner) (c : Z) :
  (peek s 0 =? c) = true -> c <> 0 -> (1 <= length (substr s))%nat.
Proof.
  unfold peek. intros H Hc. apply Z.eqb_eq in H.
  destruct (substr s); cbn in *; [congruence | lia].
Qed.

Lemma keeps_and_then (f g : scanner -> flow) :
  keeps str f -> keeps str g -> keeps str (f >>> g).
Proof.
  intros Hf Hg s Hs. specialize (Hf s Hs). unfold and_then.
  destruct (f s) as [s1 | s1 b | s1 b | s1 | e]; try exact Hf.
  exact (Hg s1 Hf).
Qed.

Lemma tracks_skip_whitespace_loop (n : nat) (s : scanner) :
  tracks str s -> tracks str (skip_whitespace_loop n s).
Proof.
  revert s. induction n as [| n IH]; intros s Hs; cbn [skip_whitespace_loop];
    [exact Hs |].
  destruct ((0 <? sublen s) && isspace (peek s 0)) eqn:Hguard; [| exact Hs].
  apply andb_prop in Hguard as [Hpos _].
  apply IH, tracks_advance; [exact Hs | exact (tracks_positive s Hs Hpos)].
Qed.

Lemma tracks_year_loop (n : nat) (s : scanner) :
  tracks str s -> tracks str (year_loop n s).
Proof.
  revert s. induction n as [| n IH]; intros s Hs; cbn [year_loop]; [exact Hs |].
  destruct ((0 <? sublen s) && isdigit (peek s 0)) eqn:Hguard; [| exact Hs].
  apply andb_prop in Hguard as [Hpos _].
  apply IH, tracks_advance; [exact Hs | exact (tracks_positive s Hs Hpos)].
Qed.

Lemma tracks_digit_group
    (get : npy_datetimestruct -> Z)
    (set : npy_datetimestruct -> Z -> npy_datetimestruct)
    (i : nat) (numdigits : Z) (s : scanner) :
  tracks str s -> tracks str (fst (digit_group get set i numdigits s)).
Proof.
  revert numdigits s. induction i as [| i IH]; intros numdigits s Hs;
    cbn [digit_group]; [exact Hs |].
  cbv zeta.
  change (sublen (set_dts (set (dts s) (get (dts s) * 10)) s)) with (sublen s).
  change (peek (set_dts (set (dts s) (get (dts s) * 10)) s) 0) with (peek s 0).
  destruct ((0 <? sublen s) && isdigit (peek s 0)) eqn:Hguard.
  - apply andb_prop in Hguard as [Hpos _].
    apply IH, tracks_advance; [exact Hs | exact (tracks_positive s Hs Hpos)].
  - apply IH. exact Hs.
Qed.

Lemma keeps_parse_sign : keeps str parse_sign.
Proof.
  intros s Hs. unfold parse_sign. cbv zeta.
  pose proof (tracks_skip_whitespace_loop (length (substr s)) s Hs) as Hs1.
  fold (skip_whitespace s) in Hs1. set (s1 := skip_whitespace s) in *.
  destruct (peek s1 0 =? c_dash) eqn:Hdash.
  - assert (Hs2 : tracks str (advance 1 s1)).
    { apply tracks_advance; [exact Hs1 |]. apply (peek_nonempty s1 c_dash Hdash). lia. }
    destruct (sublen (advance 1 s1) =? 0); exact Hs2.
  - destruct (sublen s1 =? 0); exact Hs1.
Qed.

Lemma keeps_date_separator (u : NPY_DATETIMEUNIT) : keeps str (date_separator u).
Proof.
  intros s Hs. unfold date_separator.
  destruct (sublen s =? 0); [exact Hs |].
  destruct (peek s 0 =? c_dash) eqn:Hdash; [| exact Hs].
  assert (Hs2 : tracks str (advance 1 s)).
  { apply tracks_advance; [exact Hs |]. apply (peek_nonempty s c_dash Hdash). lia. }
  cbv zeta. destruct (sublen (advance 1 s) =? 0); exact Hs2.
Qed.

Lemma keeps_parse_year (str0 : Z) : keeps str (parse_year str0).
Proof.
  intros s Hs. unfold parse_year. cbv zeta.
  match goal with |- context [year_loop ?n ?s0] =>
    pose proof (tracks_year_loop n s0 Hs) as Hs1; set (s1 := year_loop n s0) in *
  end.
  match goal with |- context [set_year_leap ?b ?s0] =>
    assert (Hs2 : tracks str (set_year_leap b s0)) by (destruct (str0 =? c_dash); exact Hs1);
    set (s2 := set_year_leap b s0) in *
  end.
  exact (keeps_date_separator NPY_FR_Y s2 Hs2).
Qed.

Lemma keeps_two_digit_field update bad e follow :
  (forall position, e <> ParseErrorAt position) ->
  keeps str follow -> keeps str (two_digit_field update bad e follow).
Proof.
  intros He Hfollow s Hs. unfold two_digit_field.
  destruct (two_digits s) eqn:Htwo; [| exact Hs].
  cbv zeta. destruct (bad _); [exact He |].
  apply Hfollow.
  apply (tracks_advance 2 (set_dts _ s)); [exact Hs |].
  exact (tracks_two_digits s Hs Htwo).
Qed.

Lemma keeps_after_day : keeps str after_day.
Proof.
  intros s Hs. unfold after_day.
  destruct (sublen s =? 0) eqn:Hend; [exact Hs |].
  destruct (negb (peek s 0 =? c_T) && negb (peek s 0 =? c_space)); [exact Hs |].
  apply tracks_advance; [exact Hs | exact (tracks_nonzero s Hs Hend)].
Qed.

Lemma keeps_time_separator (u : NPY_DATETIMEUNIT) : keeps str (time_separator u).
Proof.
  intros s Hs. unfold time_separator.
  destruct ((0 <? sublen s) && (peek s 0 =? c_colon)) eqn:Hguard; [| exact Hs].
  apply andb_prop in Hguard as [Hpos _].
  assert (Hs2 : tracks str (advance 1 s)).
  { apply tracks_advance; [exact Hs | exact (tracks_positive s Hs Hpos)]. }
  cbv zeta. destruct (sublen (advance 1 s) =? 0); exact Hs2.
Qed.

Lemma keeps_after_second : keeps str after_second.
Proof.
  intros s Hs. unfold after_second.
  destruct ((0 <? sublen s) && (peek s 0 =? c_dot)) eqn:Hguard; [| exact Hs].
  apply andb_prop in Hguard as [Hpos _].
  apply tracks_advance; [exact Hs | exact (tracks_positive s Hs Hpos)].
Qed.

Lemma keeps_parse_month : keeps str parse_month.
Proof.
  intros s. rewrite parse_month_shape. revert s.
  apply keeps_two_digit_field; [discriminate | apply keeps_date_separator].
Qed.

Lemma keeps_parse_day : keeps str parse_day.
Proof.
  intros s. rewrite parse_day_shape. revert s.
  apply keeps_two_digit_field; [discriminate | apply keeps_after_day].
Qed.

Lemma keeps_parse_hour : keeps str parse_hour.
Proof.
  intros s. rewrite parse_hour_shape. revert s.
  apply keeps_two_digit_field; [discriminate | apply keeps_time_separator].
Qed.

Lemma keeps_parse_minute : keeps str parse_minute.
Proof.
  intros s. rewrite parse_minute_shape. revert s.
  apply keeps_two_digit_field; [discriminate | apply keeps_time_separator].
Qed.

Lemma keeps_parse_second : keeps str parse_second.
Proof.
  intros s. rewrite parse_second_shape. revert s.
  apply keeps_two_digit_field; [discriminate | apply keeps_after_second].
Qed.

Lemma keeps_parse_microseconds : keeps str parse_microseconds.
Proof.
  intros s Hs. unfold parse_microseconds.
  pose proof (tracks_digit_group us with_us 6 0 s Hs) as H.
  destruct (digit_group us with_us 6 0 s) as [s1 numdigits]. cbn [fst] in H.
  destruct (group_ends s1); exact H.
Qed.

Lemma keeps_parse_picoseconds : keeps str parse_picoseconds.
Proof.
  intros s Hs. unfold parse_picoseconds.
  pose proof (tracks_digit_group ps with_ps 6 0 s Hs) as H.
  destruct (digit_group ps with_ps 6 0 s) as [s1 numdigits]. cbn [fst] in H.
  destruct (group_ends s1); exact H.
Qed.

Lemma keeps_parse_attoseconds : keeps str parse_attoseconds.
Proof.
  intros s Hs. unfold parse_attoseconds.
  pose proof (tracks_digit_group as_ with_as 6 0 s Hs) as H.
  destruct (digit_group as_ with_as 6 0 s) as [s1 numdigits]. cbn [fst] in H.
  exact H.
Qed.

Lemma keeps_scan_fields (str0 : Z) : keeps str (scan_fields str0).
Proof.
  unfold scan_fields.
  apply keeps_and_then; [| exact keeps_parse_attoseconds].
  apply keeps_and_then; [| exact keeps_parse_picoseconds].
  apply keeps_and_then; [| exact keeps_parse_microseconds].
  apply keeps_and_then; [| exact keeps_parse_second].
  apply keeps_and_then; [| exact keeps_parse_minute].
  apply keeps_and_then; [| exact keeps_parse_hour].
  apply keeps_and_then; [| exact keeps_parse_day].
  apply keeps_and_then; [| exact keeps_parse_month].
  apply keeps_and_then; [exact keeps_parse_sign | exact (keeps_parse_year str0)].
Qed.

Lemma keeps_parse_timezone (host : Host) (bestunit : NPY_DATETIMEUNIT) :
  keeps str (parse_timezone host bestunit).
Proof.
  intros s Hs. unfold parse_timezone.
  destruct (sublen s =? 0) eqn:Hend.
  { destruct ((1900 <? year (dts s)) && (year (dts s) <? 10000)); [| exact Hs].
    cbv zeta. destruct (mktime host _ =? -1); [discriminate |].
    destruct (gmtime_r host _); [exact Hs | discriminate]. }
  pose proof (tracks_nonzero s Hs Hend) as Hone.
  destruct (peek s 0 =? c_Z).
  { cbv zeta. change (sublen (set_local false s)) with (sublen s).
    destruct (sublen s =? 1); [exact Hs |].
    apply (tracks_advance 1 (set_local false s)); [exact Hs | exact Hone]. }
  destruct ((peek s 0 =? c_dash) || (peek s 0 =? c_plus)); [| exact Hs].
  cbv zeta.
  assert (Hs1 : tracks str (advance 1 (set_local false s))).
  { apply (tracks_advance 1 (set_local false s)); [exact Hs | exact Hone]. }
  set (s1 := advance 1 (set_local false s)) in *.
  destruct (two_digits s1) eqn:Htwo; [| exact Hs1].
  assert (Hs2 : tracks str (advance 2 s1)).
  { apply tracks_advance; [exact Hs1 | exact (tracks_two_digits s1 Hs1 Htwo)]. }
  set (s2 := advance 2 s1) in *.
  destruct (24 <=? two_digit_value s1); [discriminate |].
  destruct (0 <? sublen s2) eqn:Hmore; [| exact Hs2].
  assert (Hs3 : tracks str (if peek s2 0 =? c_colon then advance 1 s2 else s2)).
  { destruct (peek s2 0 =? c_colon); [| exact Hs2].
    apply tracks_advance; [exact Hs2 | exact (tracks_positive s2 Hs2 Hmore)]. }
  set (s3 := if peek s2 0 =? c_colon then advance 1 s2 else s2) in *.
  destruct (two_digits s3) eqn:Htwo3; [| exact Hs3].
  destruct (60 <=? two_digit_value s3); [discriminate |].
  apply (tracks_set_dts _ (advance 2 s3)).
  apply tracks_advance; [exact Hs3 | exact (tracks_two_digits s3 Hs3 Htwo3)].
Qed.

Lemma keeps_skip_trailing_whitespace (bestunit : NPY_DATETIMEUNIT) :
  keeps str (skip_trailing_whitespace bestunit).
Proof.
  intros s Hs. unfold skip_trailing_whitespace. cbv zeta.
  pose proof (tracks_skip_whitespace_loop (length (substr s)) s Hs) as Hs1.
  fold (skip_whitespace s) in Hs1.
  destruct (sublen (skip_whitespace s) =? 0); exact Hs1.
Qed.

Lemma keeps_at_label (host : Host) (f : flow) :
  match f with
  | Next s' | goto_finish s' _ | goto_parse_timezone s' _ | goto_parse_error s' =>
      tracks str s'
  | goto_error e => forall position, e <> ParseErrorAt position
  end ->
  match at_label host f with
  | Next s' | goto_finish s' _ | goto_parse_timezone s' _ | goto_parse_error s' =>
      tracks str s'
  | goto_error e => forall position, e <> ParseErrorAt position
  end.
Proof.
  destruct f as [s | s b | s b | s | e]; cbn [at_label]; try exact id.
  intros Hs.
  exact (keeps_and_then _ _ (keeps_parse_timezone host b)
           (keeps_skip_trailing_whitespace b) s Hs).
Qed.

End Tracking.

(** X4. For an input of at most 127 bytes the position reported with a parse
    error is a position of the input: an index of one of its bytes or, where
    the text ends too early, its length. *)
Theorem parse_error_position_is_inside (host : Host) (unit : option NPY_DATETIMEUNIT)
    (casting : NPY_CASTING) (str : list Z) (position : Z) :
  Z.of_nat (length str) <= 127 ->
  parse_iso_8601_datetime host unit casting str = Failed (ParseErrorAt position) ->
  0 <= position <= Z.of_nat (length str).
Proof.
  intros Hlen. unfold parse_iso_8601_datetime.
  destruct ((Z.of_nat (length str) <=? 0) || is_word [c_n; c_a; c_t] str);
    [discriminate |].
  destruct (match unit with Some u => unit_eqb u NPY_FR_GENERIC | None => false end);
    [discriminate |].
  assert (Hcast : forall b p, check_casting host unit casting b p
                              <> Failed (ParseErrorAt position)).
  { intros b p. unfold check_casting, cannot_cast.
    destruct unit as [u |]; [| discriminate].
    destruct (can_cast_datetime64_units host b u casting); discriminate. }
  destruct (is_word [c_t; c_o; c_d; c_a; c_y] str).
  { destruct (match unit with Some u => unit_code NPY_FR_D <? unit_code u | None => false end);
      [discriminate |].
    destruct (localtime_r host (time host)); [| discriminate].
    intros H. contradiction (Hcast _ _ H). }
  destruct (is_word [c_n; c_o; c_w] str).
  { destruct (cannot_cast host unit casting NPY_FR_s) eqn:Hc.
    - unfold cannot_cast in Hc. destruct unit as [u |]; [| discriminate].
      destruct (can_cast_datetime64_units host NPY_FR_s u casting); [discriminate |].
      injection Hc as <-. discriminate.
    - destruct (convert_datetime_to_datetimestruct host NPY_FR_s 1 (time host) initial_dts);
        discriminate. }
  unfold parse_general.
  pose proof (keeps_at_label str host _
                (keeps_scan_fields str (nth 0%nat str 0) (start str)
                   (tracks_start str Hlen))) as Hend.
  destruct (at_label host (scan_fields (nth 0%nat str 0) (start str)))
    as [s | s b | s b | s | e]; cbn [leave].
  - intros H. injection H as <-. destruct Hend as (_ & Hoff & _). exact Hoff.
  - intros H. contradiction (Hcast _ _ H).
  - intros H. injection H as <-. destruct Hend as (_ & Hoff & _). exact Hoff.
  - intros H. injection H as <-. destruct Hend as (_ & Hoff & _). exact Hoff.
  - intros H. injection H as ->. contradiction (Hend position). reflexivity.
Qed.

Lemma parse_error_position_is_inside_witness :
  0 <= 8 <= Z.of_nat (length (cstr "2011-03-")).
Proof.
  apply (parse_error_position_is_inside example_host None NPY_SAFE_CASTING
           (cstr "2011-03-") 8).
  - vm_compute. discriminate.
  - reflexivity.
Defined.

(** ** The text the formatter writes *)

Lemma store_at_spec (cs : list Z) (i : nat) (l : list Z) :
  (i + length cs <= length l)%nat ->
  store_at i cs l = take i l ++ cs ++ drop (i + length cs) l.
Proof.
  revert i l. induction cs as [| c cs IH]; intros i l Hlen; cbn [store_at length app] in *.
  - rewrite Nat.add_0_r, take_drop. reflexivity.
  - rewrite IH by (rewrite length_insert; lia).
    rewrite drop_insert_lt by lia.
    rewrite (take_S_r (<[i:=c]> l) i c) by (apply list_lookup_insert_eq; lia).
    rewrite take_insert_ge by lia.
    rewrite <- app_assoc. cbn [app]. do 3 f_equal. f_equal. lia.
Qed.

Lemma emit_from_store (cs : list Z) (k : nat) (w : writer) :
  Z.of_nat (k + length cs) < room w -> room w <= 127 ->
  emit_from k cs w =
    Continue (mk_writer (store_at (at_ w + k) (map to_byte cs) (buf w))
                        (at_ w + (k + length cs))
                        (room w - Z.of_nat (k + length cs))).
Proof.
  revert k w. induction cs as [| c cs IH]; intros k w Hfit Hmax;
    cbn [emit_from length map store_at] in *.
  - unfold forward. rewrite Nat.add_0_r, to_char_id by lia.
    destruct w; reflexivity.
  - change (room (poke k c w)) with (room w).
    destruct (Z.leb_spec (room w) (Z.of_nat k + 1)); [lia |].
    rewrite IH by (change (room (poke k c w)) with (room w); lia).
    unfold poke. cbn [at_ buf room].
    replace (at_ w + S k)%nat with (S (at_ w + k)) by lia.
    replace (S k + length cs)%nat with (k + S (length cs))%nat by lia.
    reflexivity.
Qed.

Lemma to_byte_id (cs : list Z) :
  Forall (fun c => 0 < c < 256) cs -> map to_byte cs = cs.
Proof.
  induction 1 as [| c cs Hc _ IH]; [reflexivity |].
  cbn [map]. rewrite IH. unfold to_byte. rewrite Z.mod_small by lia. reflexivity.
Qed.

Lemma offset_chars (v : Z) :
  0 <= v < 6000 ->
  [digit_char v (10 * 60); digit_char v 60;
   Z.rem (Z.quot (Z.rem v 60) 10) 10 + c_0; Z.rem (Z.rem v 60) 10 + c_0] =
    two_digit_text (v / 60) ++ two_digit_text (v mod 60) /\
  Forall (fun c => 0 < c < 256) (two_digit_text (v / 60) ++ two_digit_text (v mod 60)).
Proof.
  intros Hv. unfold digit_char, two_digit_text. cbn [app].
  change (10 * 60) with 600.
  rewrite (Z.quot_div_nonneg v 600), (Z.quot_div_nonneg v 60) by lia.
  rewrite (Z.rem_mod_nonneg v 60) by lia.
  assert (H60 : 0 <= v mod 60 < 60) by (apply Z.mod_pos_bound; lia).
  assert (H600 : 0 <= v / 600 < 10) by (Z.div_mod_to_equations; lia).
  assert (Hh : 0 <= v / 60 < 100) by (Z.div_mod_to_equations; lia).
  rewrite (Z.quot_div_nonneg (v mod 60) 10) by lia.
  assert (H6 : 0 <= v mod 60 / 10 < 6) by (Z.div_mod_to_equations; lia).
  rewrite !Z.rem_mod_nonneg by lia.
  replace (v / 600) with (v / 60 / 10) by (rewrite Z.div_div by lia; reflexivity).
  rewrite (Z.mod_small (v / 60 / 10)) by (Z.div_mod_to_equations; lia).
  rewrite (Z.mod_small (v mod 60 / 10)) by lia.
  split.
  - repeat (f_equal; [lia |]). f_equal. lia.
  - repeat constructor; Z.div_mod_to_equations; lia.
Qed.

Section Text.

Variable outstr : list Z.
Variable n : Z.
Hypothesis capacity_is_small : n <= 127.
Hypothesis buffer_holds_n : n <= Z.of_nat (length outstr).

Lemma holds_start : holds outstr n [] (mk_writer outstr 0 n).
Proof. unfold holds. cbn [at_ buf room length]. rewrite take_0. repeat split; lia. Qed.

Lemma emit_holds (t cs : list Z) (w : writer) :
  holds outstr n t w ->
  Forall (fun c => 0 < c < 256) cs ->
  Z.of_nat (length cs) < room w ->
  exists w', emit cs w = Continue w' /\ holds outstr n (t ++ cs) w'.
Proof.
  intros (Hat & Htake & Hdrop & Hlen & Hsum) Hbytes Hfit.
  unfold emit. rewrite emit_from_store by (cbn [Nat.add]; lia).
  eexists. split; [reflexivity |].
  rewrite (to_byte_id cs Hbytes), Nat.add_0_r, Hat. cbn [Nat.add].
  rewrite store_at_spec by lia. rewrite Htake.
  unfold holds. cbn [at_ buf room]. rewrite !length_app, length_drop.
  repeat split.
  - rewrite app_assoc, <- length_app. apply take_app_length.
  - rewrite app_assoc, <- (length_app t cs), <- Nat.add_1_r.
    rewrite <- drop_drop, drop_app_length, drop_drop, length_app.
    replace (length t + length cs + (0 + 1))%nat
      with (length t + 1 + length cs)%nat by lia.
    rewrite <- (drop_drop (buf w) (length cs) (length t + 1)).
    rewrite <- (drop_drop outstr (length cs) (length t + 1)).
    rewrite Hdrop. reflexivity.
  - lia.
  - lia.
Qed.

Lemma terminate_holds (t : list Z) (w : writer) :
  holds outstr n t w -> 1 <= room w ->
  buf (poke 0 0 w) = t ++ 0 :: drop (length t + 1) outstr.
Proof.
  intros (Hat & Htake & Hdrop & Hlen & Hsum) Hroom.
  unfold poke. cbn [buf]. rewrite Hat, Nat.add_0_r.
  rewrite <- (take_drop (length t) (buf w)) at 1. rewrite Htake.
  assert (Hcell : exists x, drop (length t) (buf w) = x :: drop (length t + 1) (buf w)).
  { destruct (drop (length t) (buf w)) as [| x rest] eqn:Hd.
    - apply (f_equal length) in Hd. rewrite length_drop in Hd. cbn in Hd. lia.
    - exists x. f_equal. rewrite <- drop_drop, Hd. reflexivity. }
  destruct Hcell as [x ->]. rewrite Hdrop.
  replace (length t) with (length t + 0)%nat at 1 by lia.
  rewrite insert_app_r. reflexivity.
Qed.

Lemma write_year_holds (d : npy_datetimestruct) (base : NPY_DATETIMEUNIT) (w : writer) :
  holds outstr n [] w ->
  Forall (fun c => 0 < c < 256) (printf_04d (year d)) ->
  Z.of_nat (length (printf_04d (year d))) < room w ->
  exists w', holds outstr n (printf_04d (year d)) w' /\
    room w' = room w - Z.of_nat (length (printf_04d (year d))) /\
    write_year d base w =
      if unit_eqb base NPY_FR_Y then return_0 (poke 0 0 w') else Continue w'.
Proof.
  intros (Hat & _ & Hdrop & Hlen & Hsum) Hbytes Hfit. cbn [length] in *.
  unfold write_year. cbv zeta. set (text := printf_04d (year d)) in *.
  change (room (snprintf text w)) with (room w).
  replace (Z.of_nat (length text) <? 0) with false by (symmetry; apply Z.ltb_ge; lia).
  destruct (Z.leb_spec (room w) (Z.of_nat (length text))); [lia |]. cbn [orb].
  exists (forward (length text) (snprintf text w)).
  split; [| split; [| reflexivity]].
  2:{ unfold forward, snprintf. cbn [room]. apply to_char_id. lia. }
  unfold holds, forward, snprintf. cbn [at_ buf room].
  destruct (Z.ltb_spec (room w) 0); [lia |].
  destruct (Z.eqb_spec (room w) 0); [lia |].
  rewrite (take_ge text) by lia. rewrite Hat, to_char_id by lia.
  rewrite store_at_spec by (rewrite length_app; cbn [length]; lia).
  rewrite take_0. cbn [app Nat.add]. rewrite length_app. cbn [length].
  rewrite <- app_assoc. cbn [app].
  repeat split.
  - apply take_app_length.
  - rewrite <- (drop_drop _ 1 (length text)), drop_app_length.
    cbn [drop]. rewrite drop_0.
    replace (length text + 1)%nat with (0 + 1 + length text)%nat by lia.
    rewrite <- (drop_drop (buf w) (length text) (0 + 1)).
    rewrite <- (drop_drop outstr (length text) (0 + 1)).
    rewrite Hdrop. reflexivity.
  - rewrite length_app. cbn [length]. rewrite length_drop. lia.
  - lia.
Qed.

Lemma write_date_field_holds (t cs cs' : list Z) (stop : bool) (w : writer) :
  holds outstr n t w -> cs = cs' ->
  Forall (fun c => 0 < c < 256) cs' ->
  Z.of_nat (length cs') < room w ->
  exists w', holds outstr n (t ++ cs') w' /\
    room w' = room w - Z.of_nat (length cs') /\
    write_date_field cs stop w = if stop then return_0 (poke 0 0 w') else Continue w'.
Proof.
  intros Hw -> Hbytes Hfit.
  destruct (emit_holds t cs' w Hw Hbytes Hfit) as (w' & He & Hw').
  exists w'. split; [exact Hw' |].
  split.
  { destruct Hw as (_ & _ & _ & _ & Hs). destruct Hw' as (_ & _ & _ & _ & Hs').
    rewrite length_app in Hs'. lia. }
  unfold write_date_field, then_write. rewrite He. reflexivity.
Qed.

Lemma write_time_field_holds (t cs cs' : list Z) (stop : bool) (w : writer) :
  holds outstr n t w -> cs = cs' ->
  Forall (fun c => 0 < c < 256) cs' ->
  Z.of_nat (length cs') < room w ->
  exists w', holds outstr n (t ++ cs') w' /\
    room w' = room w - Z.of_nat (length cs') /\
    write_time_field cs stop w = if stop then goto_add_time_zone w' else Continue w'.
Proof.
  intros Hw -> Hbytes Hfit.
  destruct (emit_holds t cs' w Hw Hbytes Hfit) as (w' & He & Hw').
  exists w'. split; [exact Hw' |].
  split.
  { destruct Hw as (_ & _ & _ & _ & Hs). destruct Hw' as (_ & _ & _ & _ & Hs').
    rewrite length_app in Hs'. lia. }
  unfold write_time_field, then_write. rewrite He. reflexivity.
Qed.

Lemma add_zulu_holds (t : list Z) (timezone_offset : Z) (w : writer) :
  holds outstr n t w -> 1 < room w ->
  add_time_zone false timezone_offset w =
    return_0 (mk_writer ((t ++ [c_Z]) ++ 0 :: drop (length (t ++ [c_Z]) + 1) outstr)
                        (length (t ++ [c_Z])) (room w - 1)).
Proof.
  intros Hw Hfit.
  destruct (emit_holds t [c_Z] w Hw) as (w' & He & Hw');
    [repeat constructor; lia | cbn [length]; lia |].
  unfold add_time_zone, then_write, terminate. rewrite He.
  assert (Hroom : room w' = room w - 1).
  { destruct Hw as (_ & _ & _ & _ & Hs). destruct Hw' as (_ & _ & _ & _ & Hs').
    rewrite length_app in Hs'. cbn [length] in Hs'. lia. }
  pose proof (terminate_holds _ w' Hw' ltac:(lia)) as Hbuf.
  destruct Hw' as (Hat & _).
  unfold poke in *. cbn [buf at_ room] in *. rewrite Hbuf, Hat, Hroom. reflexivity.
Qed.

Lemma add_offset_holds (t : list Z) (timezone_offset : Z) (w : writer) :
  holds outstr n t w -> -6000 < timezone_offset < 6000 ->
  Z.of_nat (length (offset_text timezone_offset)) < room w ->
  exists w', add_time_zone true timezone_offset w = return_0 w' /\
    buf w' = (t ++ offset_text timezone_offset)
             ++ 0 :: drop (length (t ++ offset_text timezone_offset) + 1) outstr.
Proof.
  intros Hw Htz Hfit. unfold offset_text in *. cbn [length app] in Hfit.
  unfold add_time_zone. cbv zeta.
  assert (Hv : (if timezone_offset <? 0 then to_int (- timezone_offset)
                else timezone_offset) = Z.abs timezone_offset).
  { destruct (Z.ltb_spec timezone_offset 0).
    - unfold to_int. rewrite Z.mod_small by lia. lia.
    - lia. }
  rewrite Hv. clear Hv.
  assert (Hrange : 0 <= Z.abs timezone_offset < 6000) by lia.
  destruct (offset_chars _ Hrange) as [-> Hvisible].
  set (sign := if timezone_offset <? 0 then c_dash else c_plus) in *.
  assert (Hsign : Forall (fun c => 0 < c < 256) [sign]).
  { subst sign. destruct (timezone_offset <? 0); repeat constructor; lia. }
  set (digits := two_digit_text (Z.abs timezone_offset / 60)
                 ++ two_digit_text (Z.abs timezone_offset mod 60)) in *.
  assert (Hlen : length digits = 4%nat) by reflexivity.
  clearbody digits sign.
  destruct (emit_holds t [sign] w Hw Hsign) as (w1 & He1 & Hw1);
    [cbn [length]; lia |].
  assert (Hroom1 : room w1 = room w - 1).
  { destruct Hw as (_ & _ & _ & _ & Hs). destruct Hw1 as (_ & _ & _ & _ & Hs1).
    rewrite length_app in Hs1. cbn [length] in Hs1. lia. }
  destruct (emit_holds (t ++ [sign]) digits w1 Hw1 Hvisible) as (w2 & He2 & Hw2);
    [lia |].
  assert (Hroom2 : room w2 = room w1 - 4).
  { destruct Hw1 as (_ & _ & _ & _ & Hs1). destruct Hw2 as (_ & _ & _ & _ & Hs2).
    rewrite !length_app in Hs1. rewrite !length_app in Hs2.
    cbn [length] in Hs1, Hs2. lia. }
  unfold then_write, terminate. rewrite He1, He2.
  exists (poke 0 c_NUL w2). split; [reflexivity |].
  rewrite (terminate_holds _ w2 Hw2) by lia.
  replace ((t ++ [sign]) ++ digits) with (t ++ sign :: digits)
    by (rewrite <- app_assoc; reflexivity).
  reflexivity.
Qed.

End Text.

Lemma two_digit_chars (v : Z) :
  0 <= v <= 99 ->
  Z.quot v 10 + c_0 = c_0 + v / 10 /\ Z.rem v 10 + c_0 = c_0 + v mod 10 /\
  48 <= c_0 + v / 10 <= 57 /\ 48 <= c_0 + v mod 10 <= 57 /\
  10 * (v / 10) + v mod 10 = v.
Proof.
  intros Hv. rewrite Z.quot_div_nonneg, Z.rem_mod_nonneg by lia.
  Z.div_mod_to_equations. lia.
Qed.

Lemma three_digit_range (v : Z) :
  0 <= v < 1000 ->
  48 <= c_0 + v / 100 <= 57 /\ 48 <= c_0 + (v / 10) mod 10 <= 57 /\
  48 <= c_0 + v mod 10 <= 57 /\
  100 * (v / 100) + 10 * ((v / 10) mod 10) + v mod 10 = v.
Proof. intros Hv. Z.div_mod_to_equations. lia. Qed.

Lemma coarse_chars (v : Z) :
  0 <= v < 1000000 ->
  [digit_char v 100000; digit_char v 10000; digit_char v 1000] =
    three_digit_text (v / 1000) /\
  0 <= v / 1000 < 1000.
Proof.
  intros Hv. unfold digit_char, three_digit_text.
  rewrite !Z.quot_div_nonneg by lia.
  rewrite !Z.rem_mod_nonneg by (try apply Z.div_pos; lia).
  split; [| Z.div_mod_to_equations; lia].
  f_equal; [| f_equal; [| f_equal]]; Z.div_mod_to_equations; lia.
Qed.

Lemma fine_chars (v : Z) :
  0 <= v < 1000000 ->
  [digit_char v 100; digit_char v 10; Z.rem v 10 + c_0] =
    three_digit_text (v mod 1000) /\
  0 <= v mod 1000 < 1000.
Proof.
  intros Hv. unfold digit_char, three_digit_text.
  rewrite !Z.quot_div_nonneg by lia.
  rewrite !Z.rem_mod_nonneg by (try apply Z.div_pos; lia).
  split; [| Z.div_mod_to_equations; lia].
  f_equal; [| f_equal; [| f_equal]]; Z.div_mod_to_equations; lia.
Qed.

Lemma numeral_value_zeros (k : nat) (l : list Z) :
  numeral_value (replicate k c_0 ++ l) = numeral_value l.
Proof.
  unfold numeral_value. induction k as [| k IH]; [reflexivity |].
  cbn [replicate app fold_left]. exact IH.
Qed.

Lemma printf_04d_shape (y : Z) :
  int64_range y ->
  exists ds,
    printf_04d y = (if y <? 0 then [c_dash] else []) ++ ds /\
    Forall (fun c => isdigit c = true) ds /\
    numeral_value ds = Z.abs y /\ (1 <= length ds)%nat.
Proof.
  intros Hy. unfold printf_04d.
  destruct (decimal_sound (Z.abs y) ltac:(lia)) as [Hdigits Hvalue].
  pose proof (length_decimal_digits (Z.to_nat (Z.log2 (Z.abs y))) 19 (Z.abs y)
                ltac:(lia)) as Hlen.
  fold (decimal (Z.abs y)) in Hlen.
  eexists. split; [reflexivity |]. split; [| split].
  - apply Forall_app. split; [| exact Hdigits].
    apply Forall_forall. intros c Hc. apply elem_of_replicate in Hc as [-> _]. reflexivity.
  - rewrite numeral_value_zeros. exact Hvalue.
  - rewrite length_app.
    assert (0 <= Z.abs y < 10 ^ Z.of_nat 19).
    { unfold int64_range in Hy. change (10 ^ Z.of_nat 19) with 10000000000000000000.
      change (2 ^ 63) with 9223372036854775808 in Hy. lia. }
    lia.
Qed.

Lemma digits_visible (cs : list Z) :
  Forall (fun c => isdigit c = true) cs -> Forall (fun c => 0 < c < 256) cs.
Proof.
  intros H. eapply Forall_impl; [exact H |].
  intros c Hc. apply isdigit_cases in Hc. lia.
Qed.

Lemma printf_04d_visible (y : Z) :
  int64_range y -> Forall (fun c => 0 < c < 256) (printf_04d y).
Proof.
  intros Hy. destruct (printf_04d_shape y Hy) as (ds & -> & Hds & _).
  apply Forall_app. split; [| exact (digits_visible ds Hds)].
  destruct (y <? 0); repeat constructor; lia.
Qed.

Lemma two_digit_visible (c v : Z) :
  0 < c < 256 -> 0 <= v <= 99 -> Forall (fun c => 0 < c < 256) (c :: two_digit_text v).
Proof.
  intros Hc Hv. pose proof (two_digit_chars v Hv) as (_ & _ & ? & ? & _).
  unfold two_digit_text. repeat constructor; lia.
Qed.

Lemma three_digit_visible (v : Z) :
  0 <= v < 1000 -> Forall (fun c => 0 < c < 256) (three_digit_text v).
Proof.
  intros Hv. pose proof (three_digit_range v Hv) as (? & ? & ? & _).
  unfold three_digit_text. repeat constructor; lia.
Qed.

Lemma date_field_chars (c v : Z) :
  0 <= v <= 99 ->
  [c; Z.quot v 10 + c_0; Z.rem v 10 + c_0] = c :: two_digit_text v.
Proof.
  intros Hv. pose proof (two_digit_chars v Hv) as (-> & -> & _). reflexivity.
Qed.

Lemma consistent_ranges (d : npy_datetimestruct) :
  consistent d ->
  0 <= month d <= 99 /\ 0 <= day d <= 99 /\ 0 <= hour d <= 99 /\
  0 <= min d <= 99 /\ 0 <= sec d <= 99.
Proof.
  intros (Hm & Hd & Hh & Hmin & Hs).
  assert (_days_per_month_table (is_leapyear (year d)) (month d - 1) <= 31).
  { assert (Hcases : month d = 1 \/ month d = 2 \/ month d = 3 \/ month d = 4 \/
                     month d = 5 \/ month d = 6 \/ month d = 7 \/ month d = 8 \/
                     month d = 9 \/ month d = 10 \/ month d = 11 \/ month d = 12) by lia.
    destruct (is_leapyear (year d));
      repeat (destruct Hcases as [-> | Hcases]; [vm_compute; discriminate |]);
      rewrite Hcases; vm_compute; discriminate. }
  lia.
Qed.

Section Written.

Variable outstr : list Z.
Variable n : Z.
Hypothesis capacity_is_small : n <= 127.
Hypothesis buffer_holds_n : n <= Z.of_nat (length outstr).

Ltac stage_done :=
  cbv [unit_eqb unit_code Z.eqb Pos.eqb]; cbv beta iota.

Ltac date_field_holds chars visible :=
  lazymatch goal with
  | Hw : holds outstr n ?t ?w |- context [write_date_field ?cs ?stop ?w] =>
      let w' := fresh "w" in
      let Hw' := fresh "Hw" in
      let Hr := fresh "Hr" in
      destruct (write_date_field_holds outstr n capacity_is_small buffer_holds_n
                  t cs _ stop w Hw chars visible)
        as (w' & Hw' & Hr & ->);
      [unfold two_digit_text, three_digit_text; cbn [length]; lia
      | unfold two_digit_text, three_digit_text in Hr; cbn [length] in Hr;
        clear Hw; stage_done]
  end.

Ltac time_field_holds chars visible :=
  lazymatch goal with
  | Hw : holds outstr n ?t ?w |- context [write_time_field ?cs ?stop ?w] =>
      let w' := fresh "w" in
      let Hw' := fresh "Hw" in
      let Hr := fresh "Hr" in
      destruct (write_time_field_holds outstr n capacity_is_small buffer_holds_n
                  t cs _ stop w Hw chars visible)
        as (w' & Hw' & Hr & ->);
      [unfold two_digit_text, three_digit_text; cbn [length]; lia
      | unfold two_digit_text, three_digit_text in Hr; cbn [length] in Hr;
        clear Hw; stage_done]
  end.

Ltac fields_through_day d Hmonth Hday :=
  date_field_holds (date_field_chars c_dash (month d) Hmonth)
                   (two_digit_visible c_dash (month d) ltac:(lia) Hmonth);
  date_field_holds (date_field_chars c_dash (day d) Hday)
                   (two_digit_visible c_dash (day d) ltac:(lia) Hday).

Ltac fields_through_second d Hmonth Hday Hhour Hmin Hsec :=
  fields_through_day d Hmonth Hday;
  time_field_holds (date_field_chars c_T (hour d) Hhour)
                   (two_digit_visible c_T (hour d) ltac:(lia) Hhour);
  time_field_holds (date_field_chars c_colon (min d) Hmin)
                   (two_digit_visible c_colon (min d) ltac:(lia) Hmin);
  time_field_holds (date_field_chars c_colon (sec d) Hsec)
                   (two_digit_visible c_colon (sec d) ltac:(lia) Hsec).

Ltac text_eq :=
  unfold stamp_text;
  cbv [unit_code Z.leb Z.compare Pos.compare Pos.compare_cont];
  cbv beta iota zeta;
  rewrite <- ?app_assoc; cbn [app]; rewrite ?app_nil_r; reflexivity.

Ltac zulu Hzulu :=
  lazymatch goal with
  | Hw : holds outstr n ?t ?w |- _ =>
      apply (Hzulu t w Hw); [lia | text_eq]
  end.

Lemma fields_write_stamp (d : npy_datetimestruct) (base : NPY_DATETIMEUNIT)
    (zone : list Z) (tail : writer -> wflow) :
  printable d -> base <> NPY_FR_W -> base <> NPY_FR_GENERIC ->
  (forall t w, holds outstr n t w -> Z.of_nat (length zone) < room w ->
     exists w', tail w = return_0 w' /\
       buf w' = (t ++ zone) ++ 0 :: drop (length (t ++ zone) + 1) outstr) ->
  Z.of_nat (length (stamp_text d base zone)) < n ->
  exists w',
    match write_fields d base (mk_writer outstr 0 n) with
    | goto_add_time_zone w' | Continue w' => tail w'
    | other => other
    end = return_0 w' /\
    buf w' = stamp_text d base zone
             ++ 0 :: drop (length (stamp_text d base zone) + 1) outstr.
Proof.
  intros (Hcal & Hus & Hps & Has & Hy & _) HW HG Htail Hfit.
  destruct (consistent_ranges d Hcal) as (Hmonth & Hday & Hhour & Hmin & Hsec).
  destruct (coarse_chars (us d) Hus) as [Hus1 Hus1r].
  destruct (fine_chars (us d) Hus) as [Hus2 Hus2r].
  destruct (coarse_chars (ps d) Hps) as [Hps1 Hps1r].
  destruct (fine_chars (ps d) Hps) as [Hps2 Hps2r].
  destruct (coarse_chars (as_ d) Has) as [Has1 Has1r].
  destruct (fine_chars (as_ d) Has) as [Has2 Has2r].
  unfold write_fields, then_write.
  destruct (write_year_holds outstr n capacity_is_small buffer_holds_n d base _
              (holds_start outstr n) (printf_04d_visible _ Hy))
    as (w1 & Hw1 & Hr1 & ->).
  { cbn [room]. revert Hfit. unfold stamp_text. cbv zeta. rewrite length_app. lia. }
  cbn [room] in Hr1.
  set (ytext := printf_04d (year d)) in *.
  assert (Hdone : forall t w, holds outstr n t w -> 1 <= room w ->
            t = stamp_text d base zone ->
            exists w', return_0 (poke 0 0 w) = return_0 w' /\
              buf w' = stamp_text d base zone
                       ++ 0 :: drop (length (stamp_text d base zone) + 1) outstr).
  { intros t w Hw Hroom <-. exists (poke 0 0 w). split; [reflexivity |].
    exact (terminate_holds outstr n buffer_holds_n t w Hw Hroom). }
  assert (Hzulu : forall t w, holds outstr n t w -> Z.of_nat (length zone) < room w ->
            t ++ zone = stamp_text d base zone ->
            exists w', tail w = return_0 w' /\
              buf w' = stamp_text d base zone
                       ++ 0 :: drop (length (stamp_text d base zone) + 1) outstr).
  { intros t w Hw Hroom <-. exact (Htail t w Hw Hroom). }
  assert (Hdot : forall v, 0 <= v < 1000 ->
            Forall (fun c => 0 < c < 256) (c_dot :: three_digit_text v)).
  { intros v Hv. constructor; [lia | exact (three_digit_visible v Hv)]. }
  destruct base; try contradiction;
    unfold stamp_text in Hfit;
    cbv [unit_code Z.leb Z.compare Pos.compare Pos.compare_cont] in Hfit;
    cbv beta iota zeta in Hfit;
    fold ytext in Hfit;
    rewrite ?length_app in Hfit;
    cbn [length two_digit_text three_digit_text app] in Hfit;
    stage_done.
  - (* years *)
    apply (Hdone _ _ Hw1); [lia | text_eq].
  - (* months *)
    date_field_holds (date_field_chars c_dash (month d) Hmonth)
                     (two_digit_visible c_dash (month d) ltac:(lia) Hmonth).
    apply (Hdone _ _ Hw); [lia | text_eq].
  - (* days *)
    date_field_holds (date_field_chars c_dash (month d) Hmonth)
                     (two_digit_visible c_dash (month d) ltac:(lia) Hmonth).
    date_field_holds (date_field_chars c_dash (day d) Hday)
                     (two_digit_visible c_dash (day d) ltac:(lia) Hday).
    apply (Hdone _ _ Hw0); [lia | text_eq].
  - (* hours *)
    fields_through_day d Hmonth Hday.
    time_field_holds (date_field_chars c_T (hour d) Hhour)
                     (two_digit_visible c_T (hour d) ltac:(lia) Hhour).
    zulu Hzulu.
  - (* minutes *)
    fields_through_day d Hmonth Hday.
    time_field_holds (date_field_chars c_T (hour d) Hhour)
                     (two_digit_visible c_T (hour d) ltac:(lia) Hhour).
    time_field_holds (date_field_chars c_colon (min d) Hmin)
                     (two_digit_visible c_colon (min d) ltac:(lia) Hmin).
    zulu Hzulu.
  - (* seconds *)
    fields_through_second d Hmonth Hday Hhour Hmin Hsec.
    zulu Hzulu.
  - (* milliseconds *)
    fields_through_second d Hmonth Hday Hhour Hmin Hsec.
    time_field_holds (f_equal (cons c_dot) Hus1) (Hdot _ Hus1r).
    zulu Hzulu.
  - (* microseconds *)
    fields_through_second d Hmonth Hday Hhour Hmin Hsec.
    time_field_holds (f_equal (cons c_dot) Hus1) (Hdot _ Hus1r).
    time_field_holds Hus2 (three_digit_visible _ Hus2r).
    zulu Hzulu.
  - (* nanoseconds *)
    fields_through_second d Hmonth Hday Hhour Hmin Hsec.
    time_field_holds (f_equal (cons c_dot) Hus1) (Hdot _ Hus1r).
    time_field_holds Hus2 (three_digit_visible _ Hus2r).
    time_field_holds Hps1 (three_digit_visible _ Hps1r).
    zulu Hzulu.
  - (* picoseconds *)
    fields_through_second d Hmonth Hday Hhour Hmin Hsec.
    time_field_holds (f_equal (cons c_dot) Hus1) (Hdot _ Hus1r).
    time_field_holds Hus2 (three_digit_visible _ Hus2r).
    time_field_holds Hps1 (three_digit_visible _ Hps1r).
    time_field_holds Hps2 (three_digit_visible _ Hps2r).
    zulu Hzulu.
  - (* femtoseconds *)
    fields_through_second d Hmonth Hday Hhour Hmin Hsec.
    time_field_holds (f_equal (cons c_dot) Hus1) (Hdot _ Hus1r).
    time_field_holds Hus2 (three_digit_visible _ Hus2r).
    time_field_holds Hps1 (three_digit_visible _ Hps1r).
    time_field_holds Hps2 (three_digit_visible _ Hps2r).
    time_field_holds Has1 (three_digit_visible _ Has1r).
    zulu Hzulu.
  - (* attoseconds *)
    fields_through_second d Hmonth Hday Hhour Hmin Hsec.
    time_field_holds (f_equal (cons c_dot) Hus1) (Hdot _ Hus1r).
    time_field_holds Hus2 (three_digit_visible _ Hus2r).
    time_field_holds Hps1 (three_digit_visible _ Hps1r).
    time_field_holds Hps2 (three_digit_visible _ Hps2r).
    time_field_holds Has1 (three_digit_visible _ Has1r).
    time_field_holds Has2 (three_digit_visible _ Has2r).
    zulu Hzulu.
Qed.

Lemma fields_write_text (d : npy_datetimestruct) (base : NPY_DATETIMEUNIT)
    (timezone_offset : Z) :
  printable d -> base <> NPY_FR_W -> base <> NPY_FR_GENERIC ->
  Z.of_nat (length (iso_text d base)) < n ->
  exists w',
    match write_fields d base (mk_writer outstr 0 n) with
    | goto_add_time_zone w' | Continue w' => add_time_zone false timezone_offset w'
    | other => other
    end = return_0 w' /\
    buf w' = iso_text d base ++ 0 :: drop (length (iso_text d base) + 1) outstr.
Proof.
  intros Hd HW HG Hfit.
  change (iso_text d base) with (stamp_text d base [c_Z]) in *.
  apply fields_write_stamp; try assumption.
  intros t w Hw Hroom. cbn [length] in Hroom.
  rewrite (add_zulu_holds outstr n capacity_is_small buffer_holds_n t timezone_offset w
             Hw ltac:(lia)).
  eexists. split; reflexivity.
Qed.

Lemma fields_write_offset_text (d : npy_datetimestruct) (base : NPY_DATETIMEUNIT)
    (timezone_offset : Z) :
  printable d -> base <> NPY_FR_W -> base <> NPY_FR_GENERIC ->
  -6000 < timezone_offset < 6000 ->
  Z.of_nat (length (stamp_text d base (offset_text timezone_offset))) < n ->
  exists w',
    match write_fields d base (mk_writer outstr 0 n) with
    | goto_add_time_zone w' | Continue w' => add_time_zone true timezone_offset w'
    | other => other
    end = return_0 w' /\
    buf w' = stamp_text d base (offset_text timezone_offset)
             ++ 0 :: drop (length (stamp_text d base (offset_text timezone_offset)) + 1)
                          outstr.
Proof.
  intros Hd HW HG Htz Hfit.
  apply fields_write_stamp; try assumption.
  intros t w Hw Hroom.
  exact (add_offset_holds outstr n capacity_is_small buffer_holds_n t timezone_offset w
           Hw Htz Hroom).
Qed.

End Written.

Lemma c_string_app (t rest : list Z) :
  Forall (fun c => 0 < c < 256) t -> c_string (t ++ 0 :: rest) = t.
Proof.
  induction 1 as [| c t Hc _ IH]; cbn [app c_string]; [reflexivity |].
  destruct (Z.eqb_spec c 0); [lia |]. rewrite IH. reflexivity.
Qed.

Lemma stamp_text_visible (d : npy_datetimestruct) (base : NPY_DATETIMEUNIT)
    (zone : list Z) :
  printable d -> Forall (fun c => 0 < c < 256) zone ->
  Forall (fun c => 0 < c < 256) (stamp_text d base zone).
Proof.
  intros (Hcal & Hus & Hps & Has & Hy & _) Hzone.
  destruct (consistent_ranges d Hcal) as (Hmonth & Hday & Hhour & Hmin & Hsec).
  assert (Hdiv : forall v, 0 <= v < 1000000 -> 0 <= v / 1000 < 1000)
    by (intros; Z.div_mod_to_equations; lia).
  assert (Hmod : forall v, 0 <= v < 1000000 -> 0 <= v mod 1000 < 1000)
    by (intros; Z.div_mod_to_equations; lia).
  pose proof (printf_04d_visible _ Hy) as Hyear.
  unfold stamp_text. cbv zeta.
  set (ytext := printf_04d (year d)) in *. clearbody ytext.
  repeat (apply Forall_app; split);
    try (destruct (unit_code _ <=? unit_code base); [| constructor]).
  - exact Hyear.
  - apply two_digit_visible; lia.
  - apply two_digit_visible; lia.
  - apply two_digit_visible; lia.
  - apply two_digit_visible; lia.
  - apply two_digit_visible; lia.
  - constructor; [lia | apply three_digit_visible; auto].
  - apply three_digit_visible; auto.
  - apply three_digit_visible; auto.
  - apply three_digit_visible; auto.
  - apply three_digit_visible; auto.
  - apply three_digit_visible; auto.
  - exact Hzone.
Qed.

Lemma iso_text_visible (d : npy_datetimestruct) (base : NPY_DATETIMEUNIT) :
  printable d -> Forall (fun c => 0 < c < 256) (iso_text d base).
Proof.
  intros Hd. apply (stamp_text_visible d base [c_Z] Hd). repeat constructor; lia.
Qed.

Lemma offset_text_visible (timezone_offset : Z) :
  -6000 < timezone_offset < 6000 ->
  Forall (fun c => 0 < c < 256) (offset_text timezone_offset).
Proof.
  intros Htz. unfold offset_text. constructor.
  - destruct (timezone_offset <? 0); lia.
  - assert (Hrange : 0 <= Z.abs timezone_offset < 6000) by lia.
    exact (proj2 (offset_chars _ Hrange)).
Qed.

Lemma make_writes_text (host : Host) (d : npy_datetimestruct)
    (outstr : list Z) (outlen : Z) (base : NPY_DATETIMEUNIT) (tzoffset : Z) :
  printable d -> base <> NPY_FR_W -> base <> NPY_FR_GENERIC ->
  Z.of_nat (length (iso_text d base)) < outlen <= 127 ->
  outlen <= Z.of_nat (length outstr) ->
  make_iso_8601_datetime host d outstr outlen false (Some base) tzoffset =
    (Formatted,
     iso_text d base ++ 0 :: drop (length (iso_text d base) + 1) outstr).
Proof.
  intros Hd HW HG Hfit Hbuf. unfold make_iso_8601_datetime.
  assert (Hnat : (year d =? NPY_DATETIME_NAT) = false).
  { apply Z.eqb_neq. destruct Hd as (_ & _ & _ & _ & _ & H). exact H. }
  rewrite Hnat.
  replace (unit_eqb base NPY_FR_GENERIC) with false
    by (destruct base; try reflexivity; contradiction).
  cbn [orb]. cbv zeta.
  replace (if ((year d <=? 1900) || (10000 <=? year d)) && (tzoffset =? -1)
           then false else false) with false
    by (destruct (((year d <=? 1900) || (10000 <=? year d)) && (tzoffset =? -1));
        reflexivity).
  replace (detect_base d false (Some base)) with base
    by (destruct base; try reflexivity; contradiction).
  replace (if unit_code base <? unit_code NPY_FR_h then false else false) with false
    by (destruct (unit_code base <? unit_code NPY_FR_h); reflexivity).
  cbn [andb]. rewrite to_char_id by lia.
  destruct (fields_write_text outstr outlen ltac:(lia) Hbuf d base 0 Hd HW HG ltac:(lia))
    as (w' & -> & ->).
  reflexivity.
Qed.

(** X18. For a value with its fields in range, formatted as UTC with a unit
    other than weeks and generic into a buffer with more room than the text
    needs (127 at most), the formatter succeeds and leaves as a C string the
    year in at least four columns, each finer field down to the unit with its
    separator ("-", "-", "T", ":", ":", ".", the fraction in groups of three
    digits), and "Z" behind a time of day. The bytes behind the terminator are
    untouched. *)
Theorem formatter_writes_iso_text (host : Host) (d : npy_datetimestruct)
    (outstr : list Z) (outlen : Z) (base : NPY_DATETIMEUNIT) (tzoffset : Z) :
  printable d -> base <> NPY_FR_W -> base <> NPY_FR_GENERIC ->
  Z.of_nat (length (iso_text d base)) < outlen <= 127 ->
  outlen <= Z.of_nat (length outstr) ->
  let r := make_iso_8601_datetime host d outstr outlen false (Some base) tzoffset in
  fst r = Formatted /\ c_string (snd r) = iso_text d base /\
  drop (length (iso_text d base) + 1) (snd r) =
    drop (length (iso_text d base) + 1) outstr.
Proof.
  intros Hd HW HG Hfit Hbuf r. subst r.
  rewrite (make_writes_text host d outstr outlen base tzoffset Hd HW HG Hfit Hbuf).
  cbn [fst snd]. split; [reflexivity |]. split.
  - apply c_string_app. exact (iso_text_visible d base Hd).
  - set (t := iso_text d base).
    replace (t ++ 0 :: drop (length t + 1) outstr)
      with ((t ++ [0]) ++ drop (length t + 1) outstr)
      by (rewrite <- app_assoc; reflexivity).
    apply drop_app_length'. rewrite length_app. reflexivity.
Qed.

(** ** The text of a local time *)

Lemma make_writes_offset_text (host : Host) (d : npy_datetimestruct)
    (outstr : list Z) (outlen : Z) (base : NPY_DATETIMEUNIT) (tzoffset : Z) :
  let d' := add_minutes_to_datetimestruct host d tzoffset in
  let text := stamp_text d' base (offset_text tzoffset) in
  year d <> NPY_DATETIME_NAT -> printable d' ->
  unit_code NPY_FR_h <= unit_code base -> base <> NPY_FR_GENERIC ->
  tzoffset <> -1 -> -6000 < tzoffset < 6000 ->
  Z.of_nat (length text) < outlen <= 127 ->
  outlen <= Z.of_nat (length outstr) ->
  make_iso_8601_datetime host d outstr outlen true (Some base) tzoffset =
    (Formatted, text ++ 0 :: drop (length text + 1) outstr).
Proof.
  intros d' text Hnat Hd Htime HG Hgiven Htz Hfit Hbuf. subst text.
  unfold make_iso_8601_datetime.
  replace (year d =? NPY_DATETIME_NAT) with false by (symmetry; apply Z.eqb_neq; exact Hnat).
  replace (unit_eqb base NPY_FR_GENERIC) with false
    by (destruct base; try reflexivity; contradiction).
  cbn [orb]. cbv zeta.
  replace (tzoffset =? -1) with false by (symmetry; apply Z.eqb_neq; exact Hgiven).
  rewrite !andb_false_r.
  replace (detect_base d true (Some base)) with base
    by (destruct base; try reflexivity; cbn in Htime; lia).
  replace (unit_code base <? unit_code NPY_FR_h) with false
    by (symmetry; apply Z.ltb_ge; exact Htime).
  cbn [andb]. rewrite to_char_id by lia. fold d'.
  assert (HW : base <> NPY_FR_W) by (intros ->; cbn in Htime; lia).
  destruct (fields_write_offset_text outstr outlen ltac:(lia) Hbuf d' base tzoffset
              Hd HW HG Htz ltac:(lia)) as (w' & -> & ->).
  reflexivity.
Qed.

(** X19. Formatted as local time with a given offset (other than -1, less than
    100 hours either way) and a unit of the time of day, a value is first
    moved by the offset through the calendar helper; where the moved value has
    its fields in range and the buffer more room than the text needs (127 at
    most), the formatter succeeds and the text is the fields of the moved
    value down to the unit followed by the sign of the offset, two digits of
    its hours and two of its minutes. *)
Theorem formatter_writes_offset_text (host : Host) (d : npy_datetimestruct)
    (outstr : list Z) (outlen : Z) (base : NPY_DATETIMEUNIT) (tzoffset : Z) :
  let d' := add_minutes_to_datetimestruct host d tzoffset in
  let text := stamp_text d' base (offset_text tzoffset) in
  year d <> NPY_DATETIME_NAT -> printable d' ->
  unit_code NPY_FR_h <= unit_code base -> base <> NPY_FR_GENERIC ->
  tzoffset <> -1 -> -6000 < tzoffset < 6000 ->
  Z.of_nat (length text) < outlen <= 127 ->
  outlen <= Z.of_nat (length outstr) ->
  let r := make_iso_8601_datetime host d outstr outlen true (Some base) tzoffset in
  fst r = Formatted /\ c_string (snd r) = text /\
  drop (length text + 1) (snd r) = drop (length text + 1) outstr.
Proof.
  intros d' text Hnat Hd Htime HG Hgiven Htz Hfit Hbuf r. subst r.
  rewrite (make_writes_offset_text host d outstr outlen base tzoffset
             Hnat Hd Htime HG Hgiven Htz Hfit Hbuf).
  fold d'. fold text. cbn [fst snd]. split; [reflexivity |]. split.
  - apply c_string_app.
    exact (stamp_text_visible d' base _ Hd (offset_text_visible tzoffset Htz)).
  - replace (text ++ 0 :: drop (length text + 1) outstr)
      with ((text ++ [0]) ++ drop (length text + 1) outstr)
      by (rewrite <- app_assoc; reflexivity).
    apply drop_app_length'. rewrite length_app. reflexivity.
Qed.

(** ** Reading a text back *)

Lemma advance_on_text (d : npy_datetimestruct) (l : option bool) (leap : bool)
    (pre rest : list Z) (off : Z) :
  Z.of_nat (length (pre ++ rest)) <= 127 ->
  advance (length pre) (on_text d l leap (pre ++ rest) off) =
    on_text d l leap rest (off + Z.of_nat (length pre)).
Proof.
  intros Hlen. unfold advance, on_text. cbn [dts local year_leap substr sublen offset].
  rewrite drop_app_length. rewrite length_app in *.
  rewrite to_char_id by lia. f_equal. lia.
Qed.

Lemma advance_1_on_text d l leap (c : Z) (rest : list Z) (off : Z) :
  Z.of_nat (length (c :: rest)) <= 127 ->
  advance 1 (on_text d l leap (c :: rest) off) = on_text d l leap rest (off + 1).
Proof. intros H. exact (advance_on_text d l leap [c] rest off H). Qed.

Lemma advance_2_on_text d l leap (a b : Z) (rest : list Z) (off : Z) :
  Z.of_nat (length (a :: b :: rest)) <= 127 ->
  advance 2 (on_text d l leap (a :: b :: rest) off) = on_text d l leap rest (off + 2).
Proof. intros H. exact (advance_on_text d l leap [a; b] rest off H). Qed.

Lemma start_on_text (str : list Z) :
  Z.of_nat (length str) <= 127 -> start str = on_text initial_dts None false str 0.
Proof. intros H. unfold start, on_text. rewrite to_char_id by lia. reflexivity. Qed.

Lemma parse_sign_reads d l leap (c : Z) (rest : list Z) (off : Z) :
  isspace c = false -> c <> c_dash ->
  parse_sign (on_text d l leap (c :: rest) off) = Next (on_text d l leap (c :: rest) off).
Proof.
  intros Hspace Hdash. unfold parse_sign, skip_whitespace. cbv zeta.
  cbn [substr on_text length skip_whitespace_loop peek nth sublen].
  rewrite Hspace, andb_false_r.
  cbn [substr on_text peek nth sublen].
  destruct (Z.eqb_spec c c_dash); [contradiction |].
  destruct (Z.eqb_spec (Z.of_nat (S (length rest))) 0); [lia | reflexivity].
Qed.

Lemma parse_sign_reads_dash d l leap (c : Z) (rest : list Z) (off : Z) :
  Z.of_nat (length (c_dash :: c :: rest)) <= 127 ->
  parse_sign (on_text d l leap (c_dash :: c :: rest) off) =
    Next (on_text d l leap (c :: rest) (off + 1)).
Proof.
  intros Hlen. unfold parse_sign, skip_whitespace. cbv zeta.
  cbn [substr on_text length skip_whitespace_loop peek nth sublen].
  change (isspace c_dash) with false. rewrite andb_false_r.
  change (peek (mk_scanner d l leap (c_dash :: c :: rest)
                  (Z.of_nat (S (S (length rest)))) off) 0 =? c_dash) with true.
  cbv iota.
  change (mk_scanner d l leap (c_dash :: c :: rest) (Z.of_nat (S (S (length rest)))) off)
    with (on_text d l leap (c_dash :: c :: rest) off).
  rewrite advance_1_on_text by exact Hlen.
  cbn [on_text sublen length].
  destruct (Z.eqb_spec (Z.of_nat (S (length rest))) 0); [lia | reflexivity].
Qed.

Lemma numeral_from_grows (ds : list Z) (acc : Z) :
  Forall (fun c => isdigit c = true) ds -> 0 <= acc ->
  acc <= fold_left (fun acc c => 10 * acc + (c - c_0)) ds acc.
Proof.
  intros Hds. revert acc. induction Hds as [| c ds Hc _ IH]; intros acc Hacc;
    cbn [fold_left]; [lia |].
  apply isdigit_cases in Hc.
  specialize (IH (10 * acc + (c - 48)) ltac:(lia)). lia.
Qed.

Lemma with_year_year (d : npy_datetimestruct) : with_year d (year d) = d.
Proof. destruct d; reflexivity. Qed.

Lemma peek_on_text d l leap rest off k :
  peek (on_text d l leap rest off) k = nth k rest 0.
Proof. reflexivity. Qed.

Lemma sublen_on_text d l leap rest off :
  sublen (on_text d l leap rest off) = Z.of_nat (length rest).
Proof. reflexivity. Qed.

Lemma dts_on_text d l leap rest off : dts (on_text d l leap rest off) = d.
Proof. reflexivity. Qed.

Lemma set_dts_on_text d' d l leap rest off :
  set_dts d' (on_text d l leap rest off) = on_text d' l leap rest off.
Proof. reflexivity. Qed.

Lemma set_local_on_text b d l leap rest off :
  set_local b (on_text d l leap rest off) = on_text d (Some b) leap rest off.
Proof. reflexivity. Qed.

Lemma set_year_leap_on_text b d l leap rest off :
  set_year_leap b (on_text d l leap rest off) = on_text d l b rest off.
Proof. reflexivity. Qed.

Lemma year_loop_reads (ds rest : list Z) :
  Forall (fun c => isdigit c = true) ds ->
  isdigit (nth 0%nat rest 0) = false ->
  forall d l leap off m,
    Z.of_nat (length (ds ++ rest)) <= 127 ->
    0 <= year d ->
    fold_left (fun acc c => 10 * acc + (c - c_0)) ds (year d) < 2 ^ 63 ->
    year_loop (length ds + m) (on_text d l leap (ds ++ rest) off) =
      on_text (with_year d (fold_left (fun acc c => 10 * acc + (c - c_0)) ds (year d)))
              l leap rest (off + Z.of_nat (length ds)).
Proof.
  intros Hds Hrest. induction Hds as [| c ds Hc Hds IH]; intros d l leap off m Hlen Hy Hmax.
  - cbn [length app fold_left Nat.add]. rewrite with_year_year, Z.add_0_r.
    destruct m as [| m]; [reflexivity |]. cbn [year_loop].
    rewrite peek_on_text, Hrest, andb_false_r. reflexivity.
  - cbn [length app fold_left Nat.add year_loop] in *.
    rewrite peek_on_text, sublen_on_text, dts_on_text, set_dts_on_text.
    cbn [nth length]. rewrite Hc.
    destruct (Z.ltb_spec 0 (Z.of_nat (S (length (ds ++ rest))))); [| lia].
    cbn [andb].
    pose proof (numeral_from_grows ds (10 * year d + (c - 48)) Hds) as Hgrow.
    apply isdigit_cases in Hc.
    specialize (Hgrow ltac:(lia)).
    assert (Hwrap : to_int64 (10 * year d + (c - 48)) = 10 * year d + (c - 48)).
    { unfold to_int64. rewrite Z.mod_small; lia. }
    rewrite Hwrap.
    rewrite advance_1_on_text by (cbn [length]; lia).
    rewrite IH; [| lia | cbn [with_year year]; lia | cbn [with_year year]; exact Hmax].
    cbn [with_year year month day hour min sec us ps as_].
    f_equal. lia.
Qed.

Lemma parse_year_reads (str0 : Z) (ds rest : list Z) d l leap off :
  Forall (fun c => isdigit c = true) ds ->
  isdigit (nth 0%nat rest 0) = false ->
  Z.of_nat (length (ds ++ rest)) <= 127 ->
  numeral_value ds < 2 ^ 63 ->
  let y := if str0 =? c_dash then - numeral_value ds else numeral_value ds in
  parse_year str0 (on_text d l leap (ds ++ rest) off) =
    date_separator NPY_FR_Y
      (on_text (with_year d y) l (is_leapyear y) rest (off + Z.of_nat (length ds))).
Proof.
  intros Hds Hrest Hlen Hmax y. unfold parse_year. cbv zeta.
  rewrite dts_on_text, set_dts_on_text.
  change (substr (on_text (with_year d 0) l leap (ds ++ rest) off)) with (ds ++ rest).
  rewrite length_app.
  rewrite (year_loop_reads ds rest Hds Hrest (with_year d 0) l leap off (length rest) Hlen)
    by (cbn [with_year year]; first [lia | exact Hmax]).
  change (year (with_year d 0)) with 0. fold (numeral_value ds).
  pose proof (numeral_from_grows ds 0 Hds ltac:(lia)) as Hpos. fold (numeral_value ds) in Hpos.
  assert (Hy : (if str0 =? c_dash
                then set_dts (with_year (with_year (with_year d 0) (numeral_value ds))
                                (to_int64 (- numeral_value ds)))
                       (on_text (with_year (with_year d 0) (numeral_value ds)) l leap rest
                          (off + Z.of_nat (length ds)))
                else on_text (with_year (with_year d 0) (numeral_value ds)) l leap rest
                       (off + Z.of_nat (length ds)))
               = on_text (with_year d y) l leap rest (off + Z.of_nat (length ds))).
  { unfold y. destruct (str0 =? c_dash); [| reflexivity].
    rewrite set_dts_on_text. f_equal. cbn [with_year year month day hour min sec us ps as_].
    f_equal. unfold to_int64. rewrite Z.mod_small; lia. }
  rewrite !dts_on_text. cbn [with_year year] in Hy |- *.
  cbn [with_year year month day hour min sec us ps as_] in Hy.
  rewrite Hy. reflexivity.
Qed.

Lemma two_digit_field_reads update bad e follow d l leap (v : Z) (rest : list Z) off :
  0 <= v <= 99 ->
  Z.of_nat (length (two_digit_text v ++ rest)) <= 127 ->
  bad (on_text (update d v) l leap (two_digit_text v ++ rest) off) = false ->
  two_digit_field update bad e follow (on_text d l leap (two_digit_text v ++ rest) off) =
    follow (on_text (update d v) l leap rest (off + 2)).
Proof.
  intros Hv Hlen Hbad. pose proof (two_digit_chars v Hv) as (_ & _ & Ha & Hb & Hvalue).
  unfold two_digit_field, two_digits, two_digit_value.
  rewrite !peek_on_text, sublen_on_text, dts_on_text, set_dts_on_text.
  unfold two_digit_text in *. cbn [app nth length] in *.
  replace (isdigit (48 + v / 10)) with true by (symmetry; unfold isdigit; lia).
  replace (isdigit (48 + v mod 10)) with true by (symmetry; unfold isdigit; lia).
  destruct (Z.leb_spec 2 (Z.of_nat (S (S (length rest))))); [| lia].
  cbn [andb].
  replace (10 * (48 + v / 10 - 48) + (48 + v mod 10 - 48)) with v by lia.
  rewrite Hbad. rewrite advance_2_on_text by (cbn [length]; lia). reflexivity.
Qed.

Lemma date_separator_ends (u : NPY_DATETIMEUNIT) d l leap off :
  date_separator u (on_text d l leap [] off) =
    goto_finish (on_text d (Some false) leap [] off) u.
Proof. reflexivity. Qed.

Lemma date_separator_reads (u : NPY_DATETIMEUNIT) d l leap (rest : list Z) off :
  (1 <= length rest)%nat -> Z.of_nat (length rest) + 1 <= 127 ->
  date_separator u (on_text d l leap (c_dash :: rest) off) =
    Next (on_text d l leap rest (off + 1)).
Proof.
  intros Hone Hlen. unfold date_separator.
  rewrite sublen_on_text, peek_on_text. cbn [nth length].
  destruct (Z.eqb_spec (Z.of_nat (S (length rest))) 0); [lia |].
  change (c_dash =? c_dash) with true. cbv iota zeta.
  rewrite advance_1_on_text by (cbn [length]; lia). rewrite sublen_on_text.
  destruct (Z.eqb_spec (Z.of_nat (length rest)) 0); [lia | reflexivity].
Qed.

Lemma after_day_ends d l leap off :
  after_day (on_text d l leap [] off) = goto_finish (on_text d (Some false) leap [] off) NPY_FR_D.
Proof. reflexivity. Qed.

Lemma after_day_reads d l leap (rest : list Z) off :
  Z.of_nat (length (c_T :: rest)) <= 127 ->
  after_day (on_text d l leap (c_T :: rest) off) = Next (on_text d l leap rest (off + 1)).
Proof.
  intros Hlen. unfold after_day.
  rewrite sublen_on_text, peek_on_text. cbn [nth length].
  destruct (Z.eqb_spec (Z.of_nat (S (length rest))) 0); [lia |].
  change (negb (c_T =? c_T) && negb (c_T =? c_space)) with false. cbv iota.
  rewrite advance_1_on_text by exact Hlen. reflexivity.
Qed.

Lemma time_separator_reads (u : NPY_DATETIMEUNIT) d l leap (rest : list Z) off :
  (1 <= length rest)%nat -> Z.of_nat (length rest) + 1 <= 127 ->
  time_separator u (on_text d l leap (c_colon :: rest) off) =
    Next (on_text d l leap rest (off + 1)).
Proof.
  intros Hone Hlen. unfold time_separator.
  rewrite sublen_on_text, peek_on_text. cbn [nth length].
  destruct (Z.ltb_spec 0 (Z.of_nat (S (length rest)))); [| lia].
  change (c_colon =? c_colon) with true. cbv iota zeta. cbn [andb].
  rewrite advance_1_on_text by (cbn [length]; lia). rewrite sublen_on_text.
  destruct (Z.eqb_spec (Z.of_nat (length rest)) 0); [lia | reflexivity].
Qed.

Lemma time_separator_zone (u : NPY_DATETIMEUNIT) d l leap (rest : list Z) off :
  time_separator u (on_text d l leap (c_Z :: rest) off) =
    goto_parse_timezone (on_text d l leap (c_Z :: rest) off) u.
Proof.
  unfold time_separator. rewrite peek_on_text. cbn [nth].
  change (c_Z =? c_colon) with false. rewrite andb_false_r. reflexivity.
Qed.

Lemma after_second_reads d l leap (rest : list Z) off :
  Z.of_nat (length (c_dot :: rest)) <= 127 ->
  after_second (on_text d l leap (c_dot :: rest) off) =
    Next (on_text d l leap rest (off + 1)).
Proof.
  intros Hlen. unfold after_second.
  rewrite sublen_on_text, peek_on_text. cbn [nth length].
  destruct (Z.ltb_spec 0 (Z.of_nat (S (length rest)))); [| lia].
  change (c_dot =? c_dot) with true. cbn [andb].
  rewrite advance_1_on_text by exact Hlen. reflexivity.
Qed.

Lemma after_second_zone d l leap (rest : list Z) off :
  after_second (on_text d l leap (c_Z :: rest) off) =
    goto_parse_timezone (on_text d l leap (c_Z :: rest) off) NPY_FR_s.
Proof.
  unfold after_second. rewrite peek_on_text. cbn [nth].
  change (c_Z =? c_dot) with false. rewrite andb_false_r. reflexivity.
Qed.

(** A group of the fraction: the digits present are its leading digits,
    the missing ones count as zeros. *)
Lemma digit_group_reads_value
    (get : npy_datetimestruct -> Z)
    (set : npy_datetimestruct -> Z -> npy_datetimestruct) :
  (forall d v, get (set d v) = v) ->
  (forall d a b, set (set d a) b = set d b) ->
  (forall d, set d (get d) = d) ->
  forall (i : nat) (ds rest : list Z) d l leap off numdigits,
    Forall (fun c => isdigit c = true) ds ->
    (length ds <= i)%nat ->
    (length ds = i \/ isdigit (nth 0%nat rest 0) = false) ->
    Z.of_nat (length (ds ++ rest)) <= 127 ->
    digit_group get set i numdigits (on_text d l leap (ds ++ rest) off) =
      (on_text (set d (fold_left (fun acc c => 10 * acc + (c - c_0)) ds (get d)
                       * 10 ^ Z.of_nat (i - length ds)))
               l leap rest (off + Z.of_nat (length ds)),
       numdigits + Z.of_nat (length ds)).
Proof.
  intros Hget Hset Hid. induction i as [| i IH];
    intros ds rest d l leap off numdigits Hds Hi Hstop Hlen.
  - destruct ds as [| c ds]; [| cbn [length] in Hi; lia].
    cbn [digit_group app length fold_left Nat.sub].
    change (10 ^ Z.of_nat 0) with 1. rewrite Z.mul_1_r, !Z.add_0_r, Hid. reflexivity.
  - cbn [digit_group]. cbv zeta.
    repeat (rewrite dts_on_text || rewrite set_dts_on_text).
    rewrite sublen_on_text, !peek_on_text, Hget, Hset.
    destruct ds as [| c ds].
    + destruct Hstop as [Hstop | Hstop]; [cbn [length] in Hstop; lia |].
      cbn [app] in *. rewrite Hstop, andb_false_r.
      rewrite (IH [] rest _ l leap off numdigits (Forall_nil_2 _)
                 ltac:(cbn [length]; lia) (or_intror Hstop) Hlen).
      cbn [length fold_left Nat.sub]. rewrite Hget, Hset, Nat.sub_0_r.
      do 3 f_equal. rewrite Nat2Z.inj_succ, Z.pow_succ_r by lia. lia.
    + apply Forall_cons_1 in Hds as [Hc Hds]. cbn [app nth length] in *.
      rewrite Hc.
      destruct (Z.ltb_spec 0 (Z.of_nat (S (length (ds ++ rest))))); [| lia].
      cbn [andb].
      rewrite advance_1_on_text by (cbn [length]; lia).
      assert (Hstop' : length ds = i \/ isdigit (nth 0%nat rest 0) = false).
      { destruct Hstop as [Hstop | Hstop]; [left; lia | right].
        destruct ds; [exact Hstop |]. cbn [length] in Hi. exact Hstop. }
      rewrite (IH ds rest _ l leap (off + 1) (numdigits + 1) Hds ltac:(lia) Hstop'
                 ltac:(lia)).
      rewrite Hget, Hset. cbn [fold_left Nat.sub].
      replace (10 * get d + (c - 48)) with (get d * 10 + (c - 48)) by lia.
      f_equal; [f_equal |]; lia.
Qed.

Lemma parse_month_reads d l leap (v : Z) (rest : list Z) off :
  1 <= v <= 12 -> Z.of_nat (length rest) + 2 <= 127 ->
  parse_month (on_text d l leap (two_digit_text v ++ rest) off) =
    date_separator NPY_FR_M (on_text (with_month d v) l leap rest (off + 2)).
Proof.
  intros Hv Hlen. rewrite parse_month_shape.
  apply two_digit_field_reads; [lia | unfold two_digit_text; cbn [app length]; lia |].
  rewrite dts_on_text. destruct d as [y0 mo0 da0 h0 mi0 se0 u0 p0 a0]. cbn [with_month month].
  apply orb_false_intro; apply Z.ltb_ge; lia.
Qed.

Lemma parse_day_reads d l leap (v : Z) (rest : list Z) off :
  1 <= v <= _days_per_month_table leap (month d - 1) -> v <= 99 ->
  Z.of_nat (length rest) + 2 <= 127 ->
  parse_day (on_text d l leap (two_digit_text v ++ rest) off) =
    after_day (on_text (with_day d v) l leap rest (off + 2)).
Proof.
  intros Hv Hmax Hlen. rewrite parse_day_shape.
  apply two_digit_field_reads; [lia | unfold two_digit_text; cbn [app length]; lia |].
  rewrite dts_on_text. destruct d as [y0 mo0 da0 h0 mi0 se0 u0 p0 a0]. cbn [with_day day month year_leap on_text] in *.
  apply orb_false_intro; apply Z.ltb_ge; lia.
Qed.

Lemma parse_hour_reads d l leap (v : Z) (rest : list Z) off :
  0 <= v <= 23 -> Z.of_nat (length rest) + 2 <= 127 ->
  parse_hour (on_text d l leap (two_digit_text v ++ rest) off) =
    time_separator NPY_FR_h (on_text (with_hour d v) l leap rest (off + 2)).
Proof.
  intros Hv Hlen. rewrite parse_hour_shape.
  apply two_digit_field_reads; [lia | unfold two_digit_text; cbn [app length]; lia |].
  rewrite dts_on_text. destruct d as [y0 mo0 da0 h0 mi0 se0 u0 p0 a0]. cbn [with_hour hour].
  apply orb_false_intro; [apply Z.ltb_ge | apply Z.leb_gt]; lia.
Qed.

Lemma parse_minute_reads d l leap (v : Z) (rest : list Z) off :
  0 <= v <= 59 -> 0 <= hour d -> Z.of_nat (length rest) + 2 <= 127 ->
  parse_minute (on_text d l leap (two_digit_text v ++ rest) off) =
    time_separator NPY_FR_m (on_text (with_min d v) l leap rest (off + 2)).
Proof.
  intros Hv Hhour Hlen. rewrite parse_minute_shape.
  apply two_digit_field_reads; [lia | unfold two_digit_text; cbn [app length]; lia |].
  rewrite dts_on_text. destruct d as [y0 mo0 da0 h0 mi0 se0 u0 p0 a0]. cbn [with_min min hour] in *.
  apply orb_false_intro; [apply Z.ltb_ge | apply Z.leb_gt]; lia.
Qed.

Lemma parse_second_reads d l leap (v : Z) (rest : list Z) off :
  0 <= v <= 59 -> Z.of_nat (length rest) + 2 <= 127 ->
  parse_second (on_text d l leap (two_digit_text v ++ rest) off) =
    after_second (on_text (with_sec d v) l leap rest (off + 2)).
Proof.
  intros Hv Hlen. rewrite parse_second_shape.
  apply two_digit_field_reads; [lia | unfold two_digit_text; cbn [app length]; lia |].
  rewrite dts_on_text. destruct d as [y0 mo0 da0 h0 mi0 se0 u0 p0 a0]. cbn [with_sec sec].
  apply orb_false_intro; [apply Z.ltb_ge | apply Z.leb_gt]; lia.
Qed.

Lemma three_digit_digits (v : Z) :
  0 <= v < 1000 ->
  Forall (fun c => isdigit c = true) (three_digit_text v) /\
  numeral_value (three_digit_text v) = v.
Proof.
  intros Hv. pose proof (three_digit_range v Hv) as (? & ? & ? & Hvalue).
  split.
  - unfold three_digit_text. repeat constructor; unfold isdigit; lia.
  - unfold numeral_value, three_digit_text. cbn [fold_left]. lia.
Qed.

Lemma group_of_three
    (get : npy_datetimestruct -> Z)
    (set : npy_datetimestruct -> Z -> npy_datetimestruct) :
  (forall d v, get (set d v) = v) ->
  (forall d a b, set (set d a) b = set d b) ->
  (forall d, set d (get d) = d) ->
  forall (a : Z) (rest : list Z) d l leap off,
    0 <= a < 1000 -> get d = 0 ->
    isdigit (nth 0%nat rest 0) = false ->
    Z.of_nat (length rest) + 3 <= 127 ->
    digit_group get set 6 0 (on_text d l leap (three_digit_text a ++ rest) off) =
      (on_text (set d (a * 1000)) l leap rest (off + 3), 3).
Proof.
  intros Hget Hset Hid a rest d l leap off Ha Hzero Hrest Hlen.
  destruct (three_digit_digits a Ha) as [Hds Hvalue].
  rewrite (digit_group_reads_value get set Hget Hset Hid 6 (three_digit_text a) rest
             d l leap off 0 Hds);
    [| cbn [length three_digit_text]; lia | right; exact Hrest
     | rewrite length_app; cbn [length three_digit_text]; lia].
  rewrite Hzero. fold (numeral_value (three_digit_text a)). rewrite Hvalue.
  reflexivity.
Qed.

Lemma group_of_six
    (get : npy_datetimestruct -> Z)
    (set : npy_datetimestruct -> Z -> npy_datetimestruct) :
  (forall d v, get (set d v) = v) ->
  (forall d a b, set (set d a) b = set d b) ->
  (forall d, set d (get d) = d) ->
  forall (a b : Z) (rest : list Z) d l leap off,
    0 <= a < 1000 -> 0 <= b < 1000 -> get d = 0 ->
    Z.of_nat (length rest) + 6 <= 127 ->
    digit_group get set 6 0
        (on_text d l leap (three_digit_text a ++ three_digit_text b ++ rest) off) =
      (on_text (set d (a * 1000 + b)) l leap rest (off + 6), 6).
Proof.
  intros Hget Hset Hid a b rest d l leap off Ha Hb Hzero Hlen.
  destruct (three_digit_digits a Ha) as [Hda Hva].
  destruct (three_digit_digits b Hb) as [Hdb Hvb].
  rewrite app_assoc.
  rewrite (digit_group_reads_value get set Hget Hset Hid 6
             (three_digit_text a ++ three_digit_text b) rest d l leap off 0);
    [| apply Forall_app; auto | cbn [length three_digit_text app]; lia
     | left; reflexivity
     | rewrite length_app; cbn [length three_digit_text app]; lia].
  rewrite Hzero. rewrite fold_left_app.
  fold (numeral_value (three_digit_text a)). rewrite Hva.
  revert Hvb. unfold numeral_value, three_digit_text. cbn [fold_left length app Nat.sub].
  intros Hvb.
  match goal with |- (on_text (set d ?x) _ _ _ _, _) = _ =>
    replace x with (a * 1000 + b) by (change (10 ^ Z.of_nat 0) with 1; lia)
  end.
  reflexivity.
Qed.

Lemma with_us_laws :
  (forall d v, us (with_us d v) = v) /\
  (forall d a b, with_us (with_us d a) b = with_us d b) /\
  (forall d, with_us d (us d) = d).
Proof. repeat split; intros []; reflexivity. Qed.

Lemma with_ps_laws :
  (forall d v, ps (with_ps d v) = v) /\
  (forall d a b, with_ps (with_ps d a) b = with_ps d b) /\
  (forall d, with_ps d (ps d) = d).
Proof. repeat split; intros []; reflexivity. Qed.

Lemma with_as_laws :
  (forall d v, as_ (with_as d v) = v) /\
  (forall d a b, with_as (with_as d a) b = with_as d b) /\
  (forall d, with_as d (as_ d) = d).
Proof. repeat split; intros []; reflexivity. Qed.

Lemma group_ends_zone d l leap (rest : list Z) off :
  group_ends (on_text d l leap (c_Z :: rest) off) = true.
Proof. unfold group_ends. rewrite peek_on_text. cbn [nth]. apply orb_true_r. Qed.

Lemma group_ends_digits d l leap (a : Z) (rest : list Z) off :
  0 <= a < 1000 ->
  group_ends (on_text d l leap (three_digit_text a ++ rest) off) = false.
Proof.
  intros Ha. pose proof (three_digit_range a Ha) as (H1 & _).
  unfold group_ends. rewrite peek_on_text, sublen_on_text.
  unfold three_digit_text. cbn [app nth length].
  replace (isdigit (48 + a / 100)) with true by (symmetry; unfold isdigit; lia).
  destruct (Z.eqb_spec (Z.of_nat (S (S (S (length rest))))) 0); [lia | reflexivity].
Qed.

Section Fraction.

Variable (d : npy_datetimestruct) (l : option bool) (leap : bool) (off : Z).
Variable (a b : Z) (rest : list Z).
Hypothesis a_range : 0 <= a < 1000.
Hypothesis b_range : 0 <= b < 1000.
Hypothesis rest_fits : Z.of_nat (length rest) + 9 <= 127.

Lemma parse_microseconds_ms :
  us d = 0 ->
  parse_microseconds (on_text d l leap (three_digit_text a ++ c_Z :: rest) off) =
    goto_parse_timezone (on_text (with_us d (a * 1000)) l leap (c_Z :: rest) (off + 3))
                        NPY_FR_ms.
Proof.
  intros Hzero. destruct with_us_laws as (Hget & Hset & Hid).
  unfold parse_microseconds.
  rewrite (group_of_three us with_us Hget Hset Hid a (c_Z :: rest) d l leap off
             a_range Hzero eq_refl) by (cbn [length]; lia).
  rewrite group_ends_zone. reflexivity.
Qed.

Lemma parse_microseconds_us :
  us d = 0 ->
  parse_microseconds
      (on_text d l leap (three_digit_text a ++ three_digit_text b ++ c_Z :: rest) off) =
    goto_parse_timezone
      (on_text (with_us d (a * 1000 + b)) l leap (c_Z :: rest) (off + 6)) NPY_FR_us.
Proof.
  intros Hzero. destruct with_us_laws as (Hget & Hset & Hid).
  unfold parse_microseconds.
  rewrite (group_of_six us with_us Hget Hset Hid a b (c_Z :: rest) d l leap off
             a_range b_range Hzero) by (cbn [length]; lia).
  rewrite group_ends_zone. reflexivity.
Qed.

Lemma parse_microseconds_next (c : Z) :
  us d = 0 -> 0 <= c < 1000 ->
  parse_microseconds
      (on_text d l leap
         (three_digit_text a ++ three_digit_text b ++ three_digit_text c ++ rest) off) =
    Next (on_text (with_us d (a * 1000 + b)) l leap (three_digit_text c ++ rest) (off + 6)).
Proof.
  intros Hzero Hc. destruct with_us_laws as (Hget & Hset & Hid).
  unfold parse_microseconds.
  rewrite (group_of_six us with_us Hget Hset Hid a b (three_digit_text c ++ rest)
             d l leap off a_range b_range Hzero)
    by (rewrite length_app; cbn [length three_digit_text]; lia).
  rewrite group_ends_digits by exact Hc. reflexivity.
Qed.

Lemma parse_picoseconds_ns :
  ps d = 0 ->
  parse_picoseconds (on_text d l leap (three_digit_text a ++ c_Z :: rest) off) =
    goto_parse_timezone (on_text (with_ps d (a * 1000)) l leap (c_Z :: rest) (off + 3))
                        NPY_FR_ns.
Proof.
  intros Hzero. destruct with_ps_laws as (Hget & Hset & Hid).
  unfold parse_picoseconds.
  rewrite (group_of_three ps with_ps Hget Hset Hid a (c_Z :: rest) d l leap off
             a_range Hzero eq_refl) by (cbn [length]; lia).
  rewrite group_ends_zone. reflexivity.
Qed.

Lemma parse_picoseconds_ps :
  ps d = 0 ->
  parse_picoseconds
      (on_text d l leap (three_digit_text a ++ three_digit_text b ++ c_Z :: rest) off) =
    goto_parse_timezone
      (on_text (with_ps d (a * 1000 + b)) l leap (c_Z :: rest) (off + 6)) NPY_FR_ps.
Proof.
  intros Hzero. destruct with_ps_laws as (Hget & Hset & Hid).
  unfold parse_picoseconds.
  rewrite (group_of_six ps with_ps Hget Hset Hid a b (c_Z :: rest) d l leap off
             a_range b_range Hzero) by (cbn [length]; lia).
  rewrite group_ends_zone. reflexivity.
Qed.

Lemma parse_picoseconds_next (c : Z) :
  ps d = 0 -> 0 <= c < 1000 ->
  parse_picoseconds
      (on_text d l leap
         (three_digit_text a ++ three_digit_text b ++ three_digit_text c ++ rest) off) =
    Next (on_text (with_ps d (a * 1000 + b)) l leap (three_digit_text c ++ rest) (off + 6)).
Proof.
  intros Hzero Hc. destruct with_ps_laws as (Hget & Hset & Hid).
  unfold parse_picoseconds.
  rewrite (group_of_six ps with_ps Hget Hset Hid a b (three_digit_text c ++ rest)
             d l leap off a_range b_range Hzero)
    by (rewrite length_app; cbn [length three_digit_text]; lia).
  rewrite group_ends_digits by exact Hc. reflexivity.
Qed.

Lemma parse_attoseconds_fs :
  as_ d = 0 ->
  parse_attoseconds (on_text d l leap (three_digit_text a ++ c_Z :: rest) off) =
    goto_parse_timezone (on_text (with_as d (a * 1000)) l leap (c_Z :: rest) (off + 3))
                        NPY_FR_fs.
Proof.
  intros Hzero. destruct with_as_laws as (Hget & Hset & Hid).
  unfold parse_attoseconds.
  rewrite (group_of_three as_ with_as Hget Hset Hid a (c_Z :: rest) d l leap off
             a_range Hzero eq_refl) by (cbn [length]; lia).
  reflexivity.
Qed.

Lemma parse_attoseconds_as :
  as_ d = 0 ->
  parse_attoseconds
      (on_text d l leap (three_digit_text a ++ three_digit_text b ++ c_Z :: rest) off) =
    goto_parse_timezone
      (on_text (with_as d (a * 1000 + b)) l leap (c_Z :: rest) (off + 6)) NPY_FR_as.
Proof.
  intros Hzero. destruct with_as_laws as (Hget & Hset & Hid).
  unfold parse_attoseconds.
  rewrite (group_of_six as_ with_as Hget Hset Hid a b (c_Z :: rest) d l leap off
             a_range b_range Hzero) by (cbn [length]; lia).
  reflexivity.
Qed.

End Fraction.

Lemma zone_zulu (host : Host) (bestunit : NPY_DATETIMEUNIT) d l leap off :
  at_label host (goto_parse_timezone (on_text d l leap [c_Z] off) bestunit) =
    goto_finish (on_text d (Some false) leap [c_Z] off) bestunit.
Proof. reflexivity. Qed.

Section Stages.

Variable (d : npy_datetimestruct) (l : option bool) (leap : bool) (off : Z).
Variable (v : Z) (rest : list Z).
Hypothesis rest_fits : Z.of_nat (length rest) + 3 <= 127.

Lemma parse_month_ends :
  1 <= v <= 12 ->
  parse_month (on_text d l leap (two_digit_text v ++ []) off) =
    goto_finish (on_text (with_month d v) (Some false) leap [] (off + 2)) NPY_FR_M.
Proof.
  intros Hv. rewrite parse_month_reads by (cbn [length]; lia).
  apply date_separator_ends.
Qed.

Lemma parse_month_next :
  1 <= v <= 12 -> (1 <= length rest)%nat ->
  parse_month (on_text d l leap (two_digit_text v ++ c_dash :: rest) off) =
    Next (on_text (with_month d v) l leap rest (off + 2 + 1)).
Proof.
  intros Hv Hone. rewrite parse_month_reads by (cbn [length]; lia).
  apply date_separator_reads; [exact Hone | lia].
Qed.

Lemma parse_day_ends :
  1 <= v <= _days_per_month_table leap (month d - 1) -> v <= 99 ->
  parse_day (on_text d l leap (two_digit_text v ++ []) off) =
    goto_finish (on_text (with_day d v) (Some false) leap [] (off + 2)) NPY_FR_D.
Proof.
  intros Hv Hmax. rewrite parse_day_reads by (cbn [length]; lia).
  apply after_day_ends.
Qed.

Lemma parse_day_next :
  1 <= v <= _days_per_month_table leap (month d - 1) -> v <= 99 ->
  parse_day (on_text d l leap (two_digit_text v ++ c_T :: rest) off) =
    Next (on_text (with_day d v) l leap rest (off + 2 + 1)).
Proof.
  intros Hv Hmax. rewrite parse_day_reads by (cbn [length]; lia).
  apply after_day_reads. cbn [length]. lia.
Qed.

Lemma parse_hour_zone :
  0 <= v <= 23 ->
  parse_hour (on_text d l leap (two_digit_text v ++ c_Z :: rest) off) =
    goto_parse_timezone (on_text (with_hour d v) l leap (c_Z :: rest) (off + 2)) NPY_FR_h.
Proof.
  intros Hv. rewrite parse_hour_reads by (cbn [length]; lia).
  apply time_separator_zone.
Qed.

Lemma parse_hour_next :
  0 <= v <= 23 -> (1 <= length rest)%nat ->
  parse_hour (on_text d l leap (two_digit_text v ++ c_colon :: rest) off) =
    Next (on_text (with_hour d v) l leap rest (off + 2 + 1)).
Proof.
  intros Hv Hone. rewrite parse_hour_reads by (cbn [length]; lia).
  apply time_separator_reads; [exact Hone | lia].
Qed.

Lemma parse_minute_zone :
  0 <= v <= 59 -> 0 <= hour d ->
  parse_minute (on_text d l leap (two_digit_text v ++ c_Z :: rest) off) =
    goto_parse_timezone (on_text (with_min d v) l leap (c_Z :: rest) (off + 2)) NPY_FR_m.
Proof.
  intros Hv Hhour. rewrite parse_minute_reads by (cbn [length]; lia).
  apply time_separator_zone.
Qed.

Lemma parse_minute_next :
  0 <= v <= 59 -> 0 <= hour d -> (1 <= length rest)%nat ->
  parse_minute (on_text d l leap (two_digit_text v ++ c_colon :: rest) off) =
    Next (on_text (with_min d v) l leap rest (off + 2 + 1)).
Proof.
  intros Hv Hhour Hone. rewrite parse_minute_reads by (cbn [length]; lia).
  apply time_separator_reads; [exact Hone | lia].
Qed.

Lemma parse_second_zone :
  0 <= v <= 59 ->
  parse_second (on_text d l leap (two_digit_text v ++ c_Z :: rest) off) =
    goto_parse_timezone (on_text (with_sec d v) l leap (c_Z :: rest) (off + 2)) NPY_FR_s.
Proof.
  intros Hv. rewrite parse_second_reads by (cbn [length]; lia).
  apply after_second_zone.
Qed.

Lemma parse_second_next :
  0 <= v <= 59 ->
  parse_second (on_text d l leap (two_digit_text v ++ c_dot :: rest) off) =
    Next (on_text (with_sec d v) l leap rest (off + 2 + 1)).
Proof.
  intros Hv. rewrite parse_second_reads by (cbn [length]; lia).
  apply after_second_reads. cbn [length]. lia.
Qed.

End Stages.

Lemma is_word_first (c : Z) (w str : list Z) :
  tolower (nth 0%nat str 0) <> c -> is_word (c :: w) str = false.
Proof.
  intros H. unfold is_word. cbn [length seq forallb nth].
  destruct (Z.eqb_spec (tolower (nth 0%nat str 0)) c); [contradiction |].
  apply andb_false_r.
Qed.

(** The sign and the year of a printed value. *)
Lemma through_year (d : npy_datetimestruct) (rest : list Z) :
  int64_range (year d) -> year d <> NPY_DATETIME_NAT ->
  isdigit (nth 0%nat rest 0) = false ->
  Z.of_nat (length (printf_04d (year d) ++ rest)) <= 127 ->
  let text := printf_04d (year d) ++ rest in
  (tolower (nth 0%nat text 0) = c_dash \/ isdigit (tolower (nth 0%nat text 0)) = true) /\
  exists s1,
    parse_sign (start text) = Next s1 /\
    parse_year (nth 0%nat text 0) s1 =
      date_separator NPY_FR_Y
        (on_text (with_year initial_dts (year d)) None (is_leapyear (year d)) rest
           (Z.of_nat (length (printf_04d (year d))))).
Proof.
  intros Hy Hnat Hrest Hlen text. subst text.
  rewrite start_on_text by exact Hlen.
  destruct (printf_04d_shape (year d) Hy) as (ds & Htext & Hds & Hvalue & Hone).
  rewrite Htext in *. clear Htext.
  assert (Hmax : numeral_value ds < 2 ^ 63).
  { rewrite Hvalue. unfold int64_range in Hy.
    unfold NPY_DATETIME_NAT, NPY_MIN_INT64 in Hnat. lia. }
  destruct ds as [| c ds]; [cbn [length] in Hone; lia |].
  pose proof (Forall_inv Hds) as Hc. apply isdigit_cases in Hc.
  revert Hlen. destruct (Z.ltb_spec (year d) 0) as [Hneg | Hpos]; intros Hlen.
  - cbn [app nth]. split; [left; reflexivity |].
    eexists. split.
    + apply parse_sign_reads_dash. exact Hlen.
    + change (c :: ds ++ rest) with ((c :: ds) ++ rest).
      rewrite (parse_year_reads 45 (c :: ds) rest) by
        (first [exact Hds | exact Hrest | exact Hmax
               | cbn [length app] in Hlen |- *; lia]).
      cbv zeta. change (45 =? 45) with true. cbv iota.
      rewrite Hvalue. replace (- Z.abs (year d)) with (year d) by lia.
      do 2 f_equal. cbn [length]. lia.
  - cbn [app nth]. split.
    { right. unfold tolower.
      destruct ((65 <=? c) && (c <=? 90)) eqn:Hupper; [lia |].
      exact (Forall_inv Hds). }
    eexists. split.
    + apply parse_sign_reads; [unfold isspace; lia | lia].
    + change (c :: ds ++ rest) with ((c :: ds) ++ rest).
      rewrite (parse_year_reads c (c :: ds) rest) by
        (first [exact Hds | exact Hrest | exact Hmax
               | cbn [length app] in Hlen |- *; lia]).
      cbv zeta. destruct (Z.eqb_spec c 45); [lia |].
      rewrite Hvalue. replace (Z.abs (year d)) with (year d) by lia.
      reflexivity.
Qed.

Ltac fields :=
  unfold with_year, with_month, with_day, with_hour, with_min, with_sec, with_us,
    with_ps, with_as;
  cbn [year month day hour min sec us ps as_].

Ltac side :=
  first
    [ lia
    | unfold two_digit_text, three_digit_text; cbn [length app]; lia
    | fields; first [eassumption | lia | reflexivity]
    | match goal with
      | Hdiv : forall v, _ -> 0 <= v / 1000 < 1000 |- 0 <= _ / 1000 < 1000 =>
          apply Hdiv; eassumption
      | Hmod : forall v, _ -> 0 <= v mod 1000 < 1000 |- 0 <= _ mod 1000 < 1000 =>
          apply Hmod; eassumption
      end ].

Ltac same_value :=
  rewrite zone_zulu; cbn [leave]; unfold finish, check_casting, cannot_cast;
  rewrite dts_on_text; cbn [local on_text];
  unfold truncate_to;
  cbv [unit_code Z.leb Z.compare Pos.compare Pos.compare_cont];
  f_equal; f_equal; f_equal; Z.div_mod_to_equations; lia.

Ltac run_stage lemma :=
  unfold and_then at 1; rewrite lemma by side; cbv iota; fields.

Lemma parse_iso_text (host : Host) (casting : NPY_CASTING)
    (d : npy_datetimestruct) (base : NPY_DATETIMEUNIT) :
  printable d -> base <> NPY_FR_W -> base <> NPY_FR_GENERIC ->
  parse_iso_8601_datetime host None casting (iso_text d base) =
    Parsed (mk_parsed (truncate_to base d) (Some false) base false).
Proof.
  intros (Hcal & Hus & Hps & Has & Hy & Hnat) HW HG.
  pose proof Hcal as (Hmonth & Hday & Hhour & Hmin & Hsec).
  destruct (consistent_ranges d Hcal) as (_ & Hday99 & _).
  pose proof (length_printf_04d (year d) Hy) as Hylen.
  assert (Hdiv : forall v, 0 <= v < 1000000 -> 0 <= v / 1000 < 1000)
    by (intros; Z.div_mod_to_equations; lia).
  assert (Hmod : forall v, 0 <= v < 1000000 -> 0 <= v mod 1000 < 1000)
    by (intros; Z.div_mod_to_equations; lia).
  assert (Hrest : exists rest, iso_text d base = printf_04d (year d) ++ rest /\
            isdigit (nth 0%nat rest 0) = false /\ Z.of_nat (length rest) <= 40).
  { unfold iso_text. cbv zeta. eexists. split; [reflexivity |].
    destruct base; try contradiction;
      cbv [unit_code Z.leb Z.compare Pos.compare Pos.compare_cont]; cbv beta iota;
      cbn [app nth length two_digit_text three_digit_text];
      (split; [reflexivity | rewrite ?length_app; cbn [length]; lia]). }
  destruct Hrest as (rest & Htext & Hstop & Hrlen).
  assert (Hlen : Z.of_nat (length (printf_04d (year d) ++ rest)) <= 127)
    by (rewrite length_app; lia).
  destruct (through_year d rest Hy Hnat Hstop Hlen) as (Hfirst & s1 & Hsign & Hyear).
  unfold parse_iso_8601_datetime. rewrite Htext.
  replace (Z.of_nat (length (printf_04d (year d) ++ rest)) <=? 0) with false
    by (symmetry; apply Z.leb_gt; rewrite length_app; lia).
  rewrite !is_word_first by (destruct Hfirst as [-> | Hd];
                             [discriminate | intros E; rewrite E in Hd; discriminate]).
  cbn [orb]. unfold parse_general.
  rewrite scan_fields_nested.
  rewrite (and_then_Next _ _ _ _ Hsign).
  unfold and_then at 1. rewrite Hyear. clear Hsign Hyear Hfirst s1.
  revert Htext Hlen. unfold iso_text. cbv zeta.
  set (ytext := printf_04d (year d)) in *. intros Htext Hlen.
  apply app_inv_head in Htext. subst rest. clear Hstop.
  unfold after_year, initial_dts. fields. clear Hlen Hrlen.
  assert (Hyfits : Z.of_nat (length ytext) <= 20) by lia.
  destruct base; try contradiction;
    cbv [unit_code Z.leb Z.compare Pos.compare Pos.compare_cont] ; cbv beta iota; cbn [app].
  - (* years *)
    rewrite date_separator_ends. cbv iota. cbn [at_label leave].
    reflexivity.
  - (* months *)
    rewrite date_separator_reads by side. cbv iota.
    run_stage parse_month_ends. cbn [at_label leave].
    reflexivity.
  - (* days *)
    rewrite date_separator_reads by side. cbv iota.
    run_stage parse_month_next. run_stage parse_day_ends. cbn [at_label leave].
    reflexivity.
  - (* hours *)
    rewrite date_separator_reads by side. cbv iota.
    run_stage parse_month_next. run_stage parse_day_next.
    run_stage parse_hour_zone.
    rewrite zone_zulu. cbn [leave]. reflexivity.
  - (* minutes *)
    rewrite date_separator_reads by side. cbv iota.
    run_stage parse_month_next. run_stage parse_day_next. run_stage parse_hour_next.
    run_stage parse_minute_zone.
    rewrite zone_zulu. cbn [leave]. reflexivity.
  - (* seconds *)
    rewrite date_separator_reads by side. cbv iota.
    run_stage parse_month_next. run_stage parse_day_next. run_stage parse_hour_next.
    run_stage parse_minute_next. run_stage parse_second_zone.
    rewrite zone_zulu. cbn [leave]. reflexivity.
  - (* milliseconds *)
    rewrite date_separator_reads by side. cbv iota.
    run_stage parse_month_next. run_stage parse_day_next. run_stage parse_hour_next.
    run_stage parse_minute_next. run_stage parse_second_next.
    run_stage parse_microseconds_ms. same_value.
  - (* microseconds *)
    rewrite date_separator_reads by side. cbv iota.
    run_stage parse_month_next. run_stage parse_day_next. run_stage parse_hour_next.
    run_stage parse_minute_next. run_stage parse_second_next.
    run_stage parse_microseconds_us. same_value.
  - (* nanoseconds *)
    rewrite date_separator_reads by side. cbv iota.
    run_stage parse_month_next. run_stage parse_day_next. run_stage parse_hour_next.
    run_stage parse_minute_next. run_stage parse_second_next.
    run_stage parse_microseconds_next. run_stage parse_picoseconds_ns. same_value.
  - (* picoseconds *)
    rewrite date_separator_reads by side. cbv iota.
    run_stage parse_month_next. run_stage parse_day_next. run_stage parse_hour_next.
    run_stage parse_minute_next. run_stage parse_second_next.
    run_stage parse_microseconds_next. run_stage parse_picoseconds_ps. same_value.
  - (* femtoseconds *)
    rewrite date_separator_reads by side. cbv iota.
    run_stage parse_month_next. run_stage parse_day_next. run_stage parse_hour_next.
    run_stage parse_minute_next. run_stage parse_second_next.
    run_stage parse_microseconds_next. run_stage parse_picoseconds_next.
    rewrite parse_attoseconds_fs by side. fields. same_value.
  - (* attoseconds *)
    rewrite date_separator_reads by side. cbv iota.
    run_stage parse_month_next. run_stage parse_day_next. run_stage parse_hour_next.
    run_stage parse_minute_next. run_stage parse_second_next.
    run_stage parse_microseconds_next. run_stage parse_picoseconds_next.
    rewrite parse_attoseconds_as by side. fields. same_value.
Qed.

Lemma iso_text_fits (d : npy_datetimestruct) (base : NPY_DATETIMEUNIT) :
  int64_range (year d) -> base <> NPY_FR_W -> base <> NPY_FR_GENERIC ->
  Z.of_nat (length (iso_text d base)) < get_datetime_iso_8601_strlen false (Some base).
Proof.
  intros Hy HW HG. pose proof (length_printf_04d (year d) Hy) as Hylen.
  unfold iso_text. cbv zeta. set (ytext := printf_04d (year d)) in *. clearbody ytext.
  destruct base; try contradiction;
    cbv [unit_code Z.leb Z.compare Pos.compare Pos.compare_cont get_datetime_iso_8601_strlen
         fields_strlen];
    cbv beta iota zeta;
    rewrite ?length_app; cbn [length two_digit_text three_digit_text app]; lia.
Qed.

(** X20. Round trip: a value with its fields in range, formatted as UTC with a
    unit other than weeks and generic into a buffer of the computed length, is
    parsed back from the text (no unit requested) to the value cut off at that
    unit, with that unit as the best unit, not local and not special. *)
Theorem formatted_text_parses_back (host : Host) (casting : NPY_CASTING)
    (d : npy_datetimestruct) (outstr : list Z) (base : NPY_DATETIMEUNIT) (tzoffset : Z) :
  printable d -> base <> NPY_FR_W -> base <> NPY_FR_GENERIC ->
  get_datetime_iso_8601_strlen false (Some base) <= Z.of_nat (length outstr) ->
  let outlen := get_datetime_iso_8601_strlen false (Some base) in
  let r := make_iso_8601_datetime host d outstr outlen false (Some base) tzoffset in
  fst r = Formatted /\
  parse_iso_8601_datetime host None casting (c_string (snd r)) =
    Parsed (mk_parsed (truncate_to base d) (Some false) base false).
Proof.
  intros Hd HW HG Hbuf outlen r. subst r.
  pose proof Hd as (_ & _ & _ & _ & Hy & _).
  pose proof (iso_text_fits d base Hy HW HG) as Hfit. fold outlen in Hfit.
  pose proof (strlen_bounds false base) as Hbounds. fold outlen in Hbounds.
  rewrite (make_writes_text host d outstr outlen base tzoffset Hd HW HG) by lia.
  cbn [fst snd]. split; [reflexivity |].
  rewrite c_string_app by exact (iso_text_visible d base Hd).
  exact (parse_iso_text host casting d base Hd HW HG).
Qed.

Lemma detect_base_loses_nothing (d : npy_datetimestruct) :
  printable d ->
  let base := detect_base d false None in
  truncate_to base d = d /\ base <> NPY_FR_W /\ base <> NPY_FR_GENERIC /\
  detect_base d false (Some base) = base /\
  unit_code base <= unit_code NPY_FR_as.
Proof.
  intros (Hcal & Hus & Hps & Has & _). cbv zeta. unfold detect_base.
  destruct d as [y mo da h mi se u p a].
  cbn [year month day hour min sec us ps as_] in *.
  rewrite !Z.rem_mod_nonneg by lia.
  repeat match goal with
         | |- context [negb (?x =? 0)] => destruct (Z.eqb_spec x 0); cbn [negb orb]
         end;
    (split; [| repeat split; first [discriminate | cbn; lia]]);
    unfold truncate_to;
    cbv [unit_code Z.leb Z.compare Pos.compare Pos.compare_cont];
    cbn [year month day hour min sec us ps as_];
    f_equal; Z.div_mod_to_equations; lia.
Qed.

(** X21. With the unit left to the formatter (base -1) nothing is lost: the
    text of a value with its fields in range, formatted as UTC, parses back to
    the value itself, and the parser's best unit is the unit the formatter
    detected. *)
Theorem auto_formatted_text_parses_back (host : Host) (casting : NPY_CASTING)
    (d : npy_datetimestruct) (outstr : list Z) (outlen : Z) (tzoffset : Z) :
  printable d ->
  get_datetime_iso_8601_strlen false (Some NPY_FR_as) <= outlen <= 127 ->
  outlen <= Z.of_nat (length outstr) ->
  let r := make_iso_8601_datetime host d outstr outlen false None tzoffset in
  fst r = Formatted /\
  parse_iso_8601_datetime host None casting (c_string (snd r)) =
    Parsed (mk_parsed d (Some false) (detect_base d false None) false).
Proof.
  intros Hd Hlen Hbuf r. subst r.
  destruct (detect_base_loses_nothing d Hd) as (Hsame & HW & HG & Hdetect & Hfine).
  set (base := detect_base d false None) in *.
  pose proof Hd as (_ & _ & _ & _ & Hy & Hnat).
  assert (Hmake : make_iso_8601_datetime host d outstr outlen false None tzoffset =
                  make_iso_8601_datetime host d outstr outlen false (Some base) tzoffset).
  { unfold make_iso_8601_datetime.
    replace (unit_eqb base NPY_FR_GENERIC) with false
      by (clearbody base; destruct base; try reflexivity; contradiction).
    cbv zeta.
    replace (if ((year d <=? 1900) || (10000 <=? year d)) && (tzoffset =? -1)
             then false else false) with false
      by (destruct (((year d <=? 1900) || (10000 <=? year d)) && (tzoffset =? -1));
          reflexivity).
    fold base. rewrite Hdetect. reflexivity. }
  rewrite Hmake.
  pose proof (iso_text_fits d base Hy HW HG) as Hfit.
  assert (Hmono : get_datetime_iso_8601_strlen false (Some base) <=
                  get_datetime_iso_8601_strlen false (Some NPY_FR_as)).
  { clearbody base. destruct base; try contradiction; vm_compute; discriminate. }
  rewrite (make_writes_text host d outstr outlen base tzoffset Hd HW HG) by lia.
  cbn [fst snd]. split; [reflexivity |].
  rewrite c_string_app by exact (iso_text_visible d base Hd).
  rewrite (parse_iso_text host casting d base Hd HW HG), Hsame. reflexivity.
Qed.

Lemma formatter_writes_iso_text_witness :
  let r := make_iso_8601_datetime example_host (mk_dts 2016 2 29 12 30 45 123456 0 0)
             (List.repeat 120 40) 40 false (Some NPY_FR_ms) 0 in
  fst r = Formatted /\
  c_string (snd r) = iso_text (mk_dts 2016 2 29 12 30 45 123456 0 0) NPY_FR_ms /\
  drop (length (iso_text (mk_dts 2016 2 29 12 30 45 123456 0 0) NPY_FR_ms) + 1) (snd r) =
    drop (length (iso_text (mk_dts 2016 2 29 12 30 45 123456 0 0) NPY_FR_ms) + 1)
         (List.repeat 120 40).
Proof.
  apply (formatter_writes_iso_text example_host (mk_dts 2016 2 29 12 30 45 123456 0 0)
           (List.repeat 120 40) 40 NPY_FR_ms 0).
  - vm_compute. repeat split; discriminate.
  - discriminate.
  - discriminate.
  - vm_compute. split; [reflexivity | discriminate].
  - vm_compute. discriminate.
Defined.

Example iso_text_of_milliseconds :
  iso_text (mk_dts 2016 2 29 12 30 45 123456 0 0) NPY_FR_ms =
    cstr "2016-02-29T12:30:45.123Z".
Proof. reflexivity. Qed.

Lemma formatted_text_parses_back_witness :
  let outlen := get_datetime_iso_8601_strlen false (Some NPY_FR_ms) in
  let r := make_iso_8601_datetime example_host (mk_dts 2016 2 29 12 30 45 123456 0 0)
             (List.repeat 120 50) outlen false (Some NPY_FR_ms) 0 in
  fst r = Formatted /\
  parse_iso_8601_datetime example_host None NPY_SAFE_CASTING (c_string (snd r)) =
    Parsed (mk_parsed (truncate_to NPY_FR_ms (mk_dts 2016 2 29 12 30 45 123456 0 0))
                      (Some false) NPY_FR_ms false).
Proof.
  apply (formatted_text_parses_back example_host NPY_SAFE_CASTING
           (mk_dts 2016 2 29 12 30 45 123456 0 0) (List.repeat 120 50) NPY_FR_ms 0).
  - vm_compute. repeat split; discriminate.
  - discriminate.
  - discriminate.
  - vm_compute. discriminate.
Defined.

Lemma auto_formatted_text_parses_back_witness :
  let r := make_iso_8601_datetime example_host (mk_dts (-44) 3 15 12 30 0 0 0 0)
             (List.repeat 120 60) 60 false None 0 in
  fst r = Formatted /\
  parse_iso_8601_datetime example_host None NPY_SAFE_CASTING (c_string (snd r)) =
    Parsed (mk_parsed (mk_dts (-44) 3 15 12 30 0 0 0 0) (Some false)
                      (detect_base (mk_dts (-44) 3 15 12 30 0 0 0 0) false None) false).
Proof.
  apply (auto_formatted_text_parses_back example_host NPY_SAFE_CASTING
           (mk_dts (-44) 3 15 12 30 0 0 0 0) (List.repeat 120 60) 60 0).
  - vm_compute. repeat split; discriminate.
  - vm_compute. split; discriminate.
  - vm_compute. discriminate.
Defined.

Example negative_year_round_trip :
  let r := make_iso_8601_datetime example_host (mk_dts (-44) 3 15 12 30 0 0 0 0)
             (List.repeat 120 60) 60 false None 0 in
  c_string (snd r) = cstr "-044-03-15T12:30Z" /\
  parse_iso_8601_datetime example_host None NPY_SAFE_CASTING (c_string (snd r)) =
    Parsed (mk_parsed (mk_dts (-44) 3 15 12 30 0 0 0 0) (Some false) NPY_FR_m false).
Proof. vm_compute. split; reflexivity. Qed.

Lemma numeral_bound (ds : list Z) (acc : Z) :
  Forall (fun c => isdigit c = true) ds -> 0 <= acc ->
  fold_left (fun acc c => 10 * acc + (c - c_0)) ds acc
    < (acc + 1) * 10 ^ Z.of_nat (length ds).
Proof.
  intros Hds. revert acc. induction Hds as [| c ds Hc _ IH]; intros acc Hacc;
    cbn [fold_left length].
  - change (10 ^ Z.of_nat 0) with 1. lia.
  - apply isdigit_cases in Hc.
    specialize (IH (10 * acc + (c - 48)) ltac:(lia)).
    rewrite Nat2Z.inj_succ, Z.pow_succ_r by lia.
    assert (0 < 10 ^ Z.of_nat (length ds)) by (apply Z.pow_pos_nonneg; lia).
    nia.
Qed.

(** A text that starts like a printed year is no special word. *)
Lemma printed_is_general (host : Host) (casting : NPY_CASTING) (str : list Z) :
  tolower (nth 0%nat str 0) = c_dash \/ isdigit (tolower (nth 0%nat str 0)) = true ->
  parse_iso_8601_datetime host None casting str = parse_general host None casting str.
Proof.
  intros Hfirst. unfold parse_iso_8601_datetime.
  assert (Hne : (Z.of_nat (length str) <=? 0) = false).
  { destruct str; [| apply Z.leb_gt; cbn [length]; lia].
    destruct Hfirst as [H | H]; discriminate H. }
  rewrite Hne.
  rewrite !is_word_first by (destruct Hfirst as [-> | Hd];
                             [discriminate | intros E; rewrite E in Hd; discriminate]).
  reflexivity.
Qed.

(** X7. A text of one to eighteen decimal digits and nothing else parses as a
    year: the number the digits denote, with month and day 1 and no time of
    day, years as unit, not local. This is the source's own example,
    "20100312" is parsed as the year 20100312. *)
Theorem digits_parse_as_a_year (host : Host) (casting : NPY_CASTING) (str : list Z) :
  str <> [] -> Forall (fun c => isdigit c = true) str ->
  (length str <= 18)%nat ->
  parse_iso_8601_datetime host None casting str =
    Parsed (mk_parsed (mk_dts (numeral_value str) 1 1 0 0 0 0 0 0)
                      (Some false) NPY_FR_Y false).
Proof.
  intros Hne Hds Hlen.
  destruct str as [| c str]; [contradiction |].
  pose proof (Forall_inv Hds) as Hc. pose proof Hc as Hc'. apply isdigit_cases in Hc'.
  assert (Hlower : tolower c = c).
  { unfold tolower. destruct ((65 <=? c) && (c <=? 90)) eqn:E; [lia | reflexivity]. }
  rewrite printed_is_general by (right; cbn [nth]; rewrite Hlower; exact Hc).
  unfold parse_general. cbn [nth].
  rewrite start_on_text by (cbn [length] in *; lia).
  rewrite scan_fields_nested.
  unfold and_then at 1. rewrite parse_sign_reads by (unfold isspace; lia).
  cbv iota. unfold and_then at 1.
  pose proof (numeral_bound (c :: str) 0 Hds ltac:(lia)) as Hbound.
  fold (numeral_value (c :: str)) in Hbound.
  assert (Hpow : 10 ^ Z.of_nat (length (c :: str)) <= 10 ^ 18)
    by (apply Z.pow_le_mono_r; cbn [length] in *; lia).
  replace (on_text initial_dts None false (c :: str) 0)
    with (on_text initial_dts None false ((c :: str) ++ []) 0)
    by (rewrite app_nil_r; reflexivity).
  rewrite (parse_year_reads c (c :: str) []);
    [| exact Hds | reflexivity | rewrite app_nil_r; cbn [length] in *; lia
     | change (2 ^ 63) with 9223372036854775808;
       change (10 ^ 18) with 1000000000000000000 in Hpow; lia].
  cbv zeta. destruct (Z.eqb_spec c 45); [lia |].
  rewrite date_separator_ends. cbv iota. cbn [at_label leave].
  reflexivity.
Qed.

Lemma digits_parse_as_a_year_witness :
  parse_text example_host None NPY_SAFE_CASTING "20100312" =
    Parsed (mk_parsed (mk_dts 20100312 1 1 0 0 0 0 0 0) (Some false) NPY_FR_Y false).
Proof.
  apply (digits_parse_as_a_year example_host NPY_SAFE_CASTING (cstr "20100312")).
  - discriminate.
  - vm_compute. repeat constructor.
  - vm_compute. lia.
Defined.

(** The scan of a printed date and time, up to what follows the
    seconds. *)
Lemma clock_text_scans (host : Host) (casting : NPY_CASTING)
    (d : npy_datetimestruct) (rest : list Z) :
  printable d -> Z.of_nat (length rest) <= 40 ->
  parse_iso_8601_datetime host None casting (clock_text d ++ rest) =
    leave host None casting
      (at_label host
         match
           after_second
             (on_text (truncate_to NPY_FR_s d) None (is_leapyear (year d)) rest
                (Z.of_nat (length (clock_text d))))
         with
         | Next s' =>
             (parse_microseconds >>> (parse_picoseconds >>> parse_attoseconds)) s'
         | other => other
         end).
Proof.
  intros (Hcal & Hus & Hps & Has & Hy & Hnat) Hrlen.
  pose proof Hcal as (Hmonth & Hday & Hhour & Hmin & Hsec).
  destruct (consistent_ranges d Hcal) as (_ & Hday99 & _).
  pose proof (length_printf_04d (year d) Hy) as Hylen.
  unfold clock_text. rewrite <- app_assoc. cbn [app].
  repeat (rewrite <- app_assoc; cbn [app]).
  match goal with |- context [printf_04d (year d) ++ ?r] => set (tail := r) end.
  assert (Htail : Z.of_nat (length tail) <= 60).
  { unfold tail. rewrite ?length_app; cbn [length two_digit_text app].
    rewrite ?length_app; cbn [length two_digit_text app]. lia. }
  assert (Hlen : Z.of_nat (length (printf_04d (year d) ++ tail)) <= 127)
    by (rewrite length_app; lia).
  destruct (through_year d tail Hy Hnat eq_refl Hlen) as (Hfirst & s1 & Hsign & Hyear).
  rewrite printed_is_general by exact Hfirst.
  unfold parse_general.
  rewrite scan_fields_nested.
  rewrite (and_then_Next _ _ _ _ Hsign).
  unfold and_then at 1. rewrite Hyear. clear Hsign Hyear Hfirst s1 Hlen Htail.
  subst tail.
  set (ytext := printf_04d (year d)) in *.
  assert (Hyfits : Z.of_nat (length ytext) <= 20) by lia.
  unfold after_year, initial_dts. fields.
  rewrite date_separator_reads by side. cbv iota.
  run_stage parse_month_next. run_stage parse_day_next. run_stage parse_hour_next.
  run_stage parse_minute_next.
  unfold and_then at 1. rewrite parse_second_reads by side. fields.
  unfold truncate_to.
  cbv [unit_code Z.leb Z.compare Pos.compare Pos.compare_cont]. cbv beta iota zeta.
  rewrite !length_app. cbn [length two_digit_text app].
  replace (Z.of_nat (length ytext) + 1 + 2 + 1 + 2 + 1 + 2 + 1 + 2 + 1 + 2)
    with (Z.of_nat (length ytext + 15)) by lia.
  reflexivity.
Qed.

(** X8. Up to six digits behind the decimal point of the seconds are the
    leading digits of the microseconds, the digits that are missing counting
    as zeros: for a valid date and time written out to the seconds, followed
    by a point, the digits and "Z", the microseconds of the result are the
    digits' number times 10 to the power of 6 minus their count. The unit is
    milliseconds for up to three digits and microseconds for four to six. *)
Theorem fraction_digits_are_left_aligned (host : Host) (casting : NPY_CASTING)
    (d : npy_datetimestruct) (ds : list Z) :
  printable d -> Forall (fun c => isdigit c = true) ds -> (length ds <= 6)%nat ->
  parse_iso_8601_datetime host None casting (clock_text d ++ c_dot :: ds ++ [c_Z]) =
    Parsed (mk_parsed
              (with_us (truncate_to NPY_FR_s d)
                       (numeral_value ds * 10 ^ Z.of_nat (6 - length ds)))
              (Some false)
              (if 3 <? Z.of_nat (length ds) then NPY_FR_us else NPY_FR_ms)
              false).
Proof.
  intros Hd Hds Hlen.
  rewrite clock_text_scans
    by (try exact Hd; cbn [length]; rewrite length_app; cbn [length]; lia).
  rewrite after_second_reads by (cbn [length]; rewrite length_app; cbn [length]; lia).
  cbv iota. unfold and_then at 1. unfold parse_microseconds.
  destruct with_us_laws as (Hget & Hset & Hid).
  rewrite (digit_group_reads_value us with_us Hget Hset Hid 6 ds [c_Z] _ None _ _ 0 Hds Hlen)
    by (first [right; reflexivity | rewrite length_app; cbn [length]; lia]).
  rewrite group_ends_zone.
  replace (us (truncate_to NPY_FR_s d)) with 0 by reflexivity.
  fold (numeral_value ds).
  rewrite zone_zulu. cbn [leave]. unfold finish, check_casting, cannot_cast.
  rewrite dts_on_text. cbn [local on_text]. rewrite Z.add_0_l. reflexivity.
Qed.

Lemma fraction_digits_are_left_aligned_witness :
  parse_iso_8601_datetime example_host None NPY_SAFE_CASTING
      (clock_text (mk_dts 2016 2 29 12 30 45 0 0 0) ++ c_dot :: cstr "5" ++ [c_Z]) =
    Parsed (mk_parsed (mk_dts 2016 2 29 12 30 45 500000 0 0) (Some false) NPY_FR_ms false).
Proof.
  apply (fraction_digits_are_left_aligned example_host NPY_SAFE_CASTING
           (mk_dts 2016 2 29 12 30 45 0 0 0) (cstr "5")).
  - vm_compute. repeat split; discriminate.
  - vm_compute. repeat constructor.
  - vm_compute. lia.
Defined.

Example half_a_second :
  clock_text (mk_dts 2016 2 29 12 30 45 0 0 0) ++ c_dot :: cstr "5" ++ [c_Z] =
    cstr "2016-02-29T12:30:45.5Z".
Proof. reflexivity. Qed.

(** ** Time zone offsets *)

Lemma two_digits_on_text d l leap (v : Z) (rest : list Z) off :
  0 <= v <= 99 ->
  two_digits (on_text d l leap (two_digit_text v ++ rest) off) = true /\
  two_digit_value (on_text d l leap (two_digit_text v ++ rest) off) = v.
Proof.
  intros Hv. pose proof (two_digit_chars v Hv) as (_ & _ & Ha & Hb & Hvalue).
  unfold two_digits, two_digit_value.
  rewrite !peek_on_text, sublen_on_text.
  unfold two_digit_text. cbn [app nth length].
  replace (isdigit (48 + v / 10)) with true by (symmetry; unfold isdigit; lia).
  replace (isdigit (48 + v mod 10)) with true by (symmetry; unfold isdigit; lia).
  destruct (Z.leb_spec 2 (Z.of_nat (S (S (length rest))))); [| lia].
  split; [reflexivity | lia].
Qed.

Lemma skip_trailing_whitespace_ends (bestunit : NPY_DATETIMEUNIT) d l leap off :
  skip_trailing_whitespace bestunit (on_text d l leap [] off) =
    goto_finish (on_text d l leap [] off) bestunit.
Proof. reflexivity. Qed.

Section Offset.

Variable host : Host.
Variable (bestunit : NPY_DATETIMEUNIT) (d : npy_datetimestruct) (l : option bool).
Variable (leap : bool) (off : Z) (sign hh mm : Z).
Hypothesis sign_is_a_sign : sign = c_plus \/ sign = c_dash.
Hypothesis hh_range : 0 <= hh <= 23.
Hypothesis mm_range : 0 <= mm <= 59.

Lemma parse_timezone_reads_offset (colon : bool) :
  parse_timezone host bestunit
      (on_text d l leap
         (sign :: two_digit_text hh ++ (if colon then [c_colon] else [])
                  ++ two_digit_text mm) off) =
    Next (on_text (add_minutes_to_datetimestruct host d
                     (if sign =? c_dash then 60 * hh + mm else - (60 * hh + mm)))
                  (Some false) leap [] (off + (if colon then 6 else 5))).
Proof.
  unfold parse_timezone.
  rewrite sublen_on_text, peek_on_text. cbn [nth length].
  destruct (Z.eqb_spec (Z.of_nat (S (length (two_digit_text hh ++ (if colon then [58] else [])
                                               ++ two_digit_text mm)))) 0); [lia |].
  replace (sign =? c_Z) with false by (destruct sign_is_a_sign as [-> | ->]; reflexivity).
  replace ((sign =? c_dash) || (sign =? c_plus)) with true
    by (destruct sign_is_a_sign as [-> | ->]; reflexivity).
  cbv zeta. rewrite set_local_on_text, peek_on_text. cbn [nth].
  rewrite advance_1_on_text
    by (unfold two_digit_text; destruct colon; cbn [length app]; lia).
  destruct (two_digits_on_text d (Some false) leap hh
              ((if colon then [58] else []) ++ two_digit_text mm) (off + 1)
              ltac:(lia)) as [-> ->].
  replace (24 <=? hh) with false by (symmetry; apply Z.leb_gt; lia).
  change (two_digit_text hh ++ (if colon then [58] else []) ++ two_digit_text mm)
    with ([c_0 + hh / 10; c_0 + hh mod 10] ++ (if colon then [58] else [])
          ++ two_digit_text mm).
  rewrite (advance_on_text d (Some false) leap [c_0 + hh / 10; c_0 + hh mod 10])
    by (unfold two_digit_text; destruct colon; cbn [length app]; lia).
  rewrite sublen_on_text, !peek_on_text.
  replace (0 <? Z.of_nat (length ((if colon then [58] else []) ++ two_digit_text mm)))
    with true by (destruct colon; reflexivity).
  assert (Hnext :
    (if nth 0%nat ((if colon then [58] else []) ++ two_digit_text mm) 0 =? c_colon
     then advance 1 (on_text d (Some false) leap
                       ((if colon then [58] else []) ++ two_digit_text mm)
                       (off + 1 + Z.of_nat (length [c_0 + hh / 10; c_0 + hh mod 10])))
     else on_text d (Some false) leap
            ((if colon then [58] else []) ++ two_digit_text mm)
            (off + 1 + Z.of_nat (length [c_0 + hh / 10; c_0 + hh mod 10])))
    = on_text d (Some false) leap (two_digit_text mm ++ [])
        (off + (if colon then 4 else 3))).
  { destruct colon; cbn [app nth length].
    - change (58 =? 58) with true. cbv iota.
      rewrite advance_1_on_text by (unfold two_digit_text; cbn [length]; lia).
      rewrite app_nil_r. f_equal. lia.
    - pose proof (two_digit_chars mm ltac:(lia)) as (_ & _ & Ha & _).
      unfold two_digit_text at 1. cbn [nth].
      destruct (Z.eqb_spec (48 + mm / 10) 58); [lia |].
      rewrite app_nil_r. f_equal. lia. }
  rewrite Hnext.
  destruct (two_digits_on_text d (Some false) leap mm [] (off + (if colon then 4 else 3))
              ltac:(lia)) as [-> ->].
  replace (60 <=? mm) with false by (symmetry; apply Z.leb_gt; lia).
  rewrite (advance_on_text d (Some false) leap (two_digit_text mm) [])
    by (unfold two_digit_text; cbn [length app]; lia).
  rewrite dts_on_text, set_dts_on_text.
  f_equal. f_equal.
  - f_equal. destruct sign_is_a_sign as [-> | ->]; cbn; lia.
  - unfold two_digit_text. cbn [length]. destruct colon; lia.
Qed.

End Offset.

Lemma parse_timezone_reads_hours (host : Host) (bestunit : NPY_DATETIMEUNIT)
    (d : npy_datetimestruct) (l : option bool) (leap : bool) (off : Z) (sign hh : Z) :
  sign = c_plus \/ sign = c_dash -> 0 <= hh <= 23 ->
  parse_timezone host bestunit (on_text d l leap (sign :: two_digit_text hh ++ []) off) =
    Next (on_text (add_minutes_to_datetimestruct host d
                     (if sign =? c_dash then 60 * hh else - (60 * hh)))
                  (Some false) leap [] (off + 3)).
Proof.
  intros Hsign Hhh. unfold parse_timezone.
  rewrite sublen_on_text, peek_on_text. cbn [nth length].
  destruct (Z.eqb_spec (Z.of_nat (S (length (two_digit_text hh ++ [])))) 0); [lia |].
  replace (sign =? c_Z) with false by (destruct Hsign as [-> | ->]; reflexivity).
  replace ((sign =? c_dash) || (sign =? c_plus)) with true
    by (destruct Hsign as [-> | ->]; reflexivity).
  cbv zeta. rewrite set_local_on_text, peek_on_text. cbn [nth].
  rewrite advance_1_on_text by (unfold two_digit_text; cbn [length app]; lia).
  destruct (two_digits_on_text d (Some false) leap hh [] (off + 1) ltac:(lia)) as [-> ->].
  replace (24 <=? hh) with false by (symmetry; apply Z.leb_gt; lia).
  rewrite (advance_on_text d (Some false) leap (two_digit_text hh) [])
    by (unfold two_digit_text; cbn [length app]; lia).
  rewrite sublen_on_text. cbn [length]. change (0 <? Z.of_nat 0) with false. cbv iota.
  rewrite dts_on_text, set_dts_on_text.
  f_equal. f_equal.
  - f_equal. destruct Hsign as [-> | ->]; cbn; lia.
  - unfold two_digit_text. cbn [length]. lia.
Qed.

Lemma after_second_sign d l leap (sign : Z) (rest : list Z) off :
  sign = c_plus \/ sign = c_dash ->
  after_second (on_text d l leap (sign :: rest) off) =
    goto_parse_timezone (on_text d l leap (sign :: rest) off) NPY_FR_s.
Proof.
  intros Hsign. unfold after_second. rewrite peek_on_text. cbn [nth].
  replace (sign =? c_dot) with false by (destruct Hsign as [-> | ->]; reflexivity).
  rewrite andb_false_r. reflexivity.
Qed.

Lemma offset_behind_clock_text (host : Host) (casting : NPY_CASTING)
    (d : npy_datetimestruct) (sign hh mm : Z) (colon : bool) :
  printable d -> sign = c_plus \/ sign = c_dash ->
  0 <= hh <= 23 -> 0 <= mm <= 59 ->
  parse_iso_8601_datetime host None casting
      (clock_text d ++ sign :: two_digit_text hh ++ (if colon then [c_colon] else [])
                                ++ two_digit_text mm) =
    Parsed (mk_parsed
              (add_minutes_to_datetimestruct host (truncate_to NPY_FR_s d)
                 (if sign =? c_dash then 60 * hh + mm else - (60 * hh + mm)))
              (Some false) NPY_FR_s false).
Proof.
  intros Hd Hsign Hhh Hmm.
  rewrite clock_text_scans
    by (try exact Hd; unfold two_digit_text; destruct colon; cbn [length app]; lia).
  rewrite after_second_sign by exact Hsign.
  cbn [at_label]. unfold and_then.
  rewrite parse_timezone_reads_offset by assumption.
  rewrite skip_trailing_whitespace_ends. cbn [leave].
  reflexivity.
Qed.

(** X9. A time zone offset behind a valid date and time written out to the
    seconds is taken off the time: for an offset of hh hours (up to 23) and mm
    minutes (up to 59) with a plus sign the calendar helper is asked to add
    -(60*hh+mm) minutes, with a minus sign to add 60*hh+mm. The colon between
    hours and minutes may be left out, and so may the minutes; the result is
    not local. *)
Theorem zone_offset_is_taken_off (host : Host) (casting : NPY_CASTING)
    (d : npy_datetimestruct) (sign hh mm : Z) (colon : bool) :
  printable d -> sign = c_plus \/ sign = c_dash ->
  0 <= hh <= 23 -> 0 <= mm <= 59 ->
  parse_iso_8601_datetime host None casting
      (clock_text d ++ sign :: two_digit_text hh ++ (if colon then [c_colon] else [])
                                ++ two_digit_text mm) =
    Parsed (mk_parsed
              (add_minutes_to_datetimestruct host (truncate_to NPY_FR_s d)
                 (if sign =? c_dash then 60 * hh + mm else - (60 * hh + mm)))
              (Some false) NPY_FR_s false) /\
  parse_iso_8601_datetime host None casting
      (clock_text d ++ sign :: two_digit_text hh) =
    Parsed (mk_parsed
              (add_minutes_to_datetimestruct host (truncate_to NPY_FR_s d)
                 (if sign =? c_dash then 60 * hh else - (60 * hh)))
              (Some false) NPY_FR_s false).
Proof.
  intros Hd Hsign Hhh Hmm. split.
  - exact (offset_behind_clock_text host casting d sign hh mm colon Hd Hsign Hhh Hmm).
  - rewrite clock_text_scans
      by (try exact Hd; unfold two_digit_text; cbn [length app]; lia).
    rewrite after_second_sign by exact Hsign.
    cbn [at_label]. unfold and_then.
    rewrite <- (app_nil_r (two_digit_text hh)).
    rewrite parse_timezone_reads_hours by assumption.
    rewrite skip_trailing_whitespace_ends. cbn [leave].
    reflexivity.
Qed.

Lemma zone_offset_is_taken_off_witness :
  parse_iso_8601_datetime example_host None NPY_SAFE_CASTING
      (clock_text (mk_dts 2016 2 29 12 30 45 0 0 0) ++ c_plus :: two_digit_text 5
         ++ [c_colon] ++ two_digit_text 30) =
    Parsed (mk_parsed
              (add_minutes_to_datetimestruct example_host
                 (truncate_to NPY_FR_s (mk_dts 2016 2 29 12 30 45 0 0 0)) (- (60 * 5 + 30)))
              (Some false) NPY_FR_s false) /\
  parse_iso_8601_datetime example_host None NPY_SAFE_CASTING
      (clock_text (mk_dts 2016 2 29 12 30 45 0 0 0) ++ c_plus :: two_digit_text 5) =
    Parsed (mk_parsed
              (add_minutes_to_datetimestruct example_host
                 (truncate_to NPY_FR_s (mk_dts 2016 2 29 12 30 45 0 0 0)) (- (60 * 5)))
              (Some false) NPY_FR_s false).
Proof.
  apply (zone_offset_is_taken_off example_host NPY_SAFE_CASTING
           (mk_dts 2016 2 29 12 30 45 0 0 0) c_plus 5 30 true).
  - vm_compute. repeat split; discriminate.
  - left. reflexivity.
  - lia.
  - lia.
Defined.

Example text_with_offset :
  clock_text (mk_dts 2016 2 29 12 30 45 0 0 0) ++ c_plus :: two_digit_text 5
    ++ [c_colon] ++ two_digit_text 30 = cstr "2016-02-29T12:30:45+05:30".
Proof. reflexivity. Qed.

(** ** A local time written and read back *)

Lemma formatter_writes_offset_text_witness :
  let d' := add_minutes_to_datetimestruct example_host
              (mk_dts 2016 2 29 12 30 45 0 0 0) (-330) in
  let text := stamp_text d' NPY_FR_m (offset_text (-330)) in
  let r := make_iso_8601_datetime example_host (mk_dts 2016 2 29 12 30 45 0 0 0)
             (List.repeat 120 40) 40 true (Some NPY_FR_m) (-330) in
  fst r = Formatted /\ c_string (snd r) = text /\
  drop (length text + 1) (snd r) = drop (length text + 1) (List.repeat 120 40).
Proof.
  apply (formatter_writes_offset_text example_host (mk_dts 2016 2 29 12 30 45 0 0 0)
           (List.repeat 120 40) 40 NPY_FR_m (-330)).
  - vm_compute. discriminate.
  - vm_compute. repeat split; discriminate.
  - vm_compute. discriminate.
  - discriminate.
  - lia.
  - lia.
  - vm_compute. split; [reflexivity | discriminate].
  - vm_compute. discriminate.
Defined.

Example text_behind_utc :
  stamp_text (mk_dts 2016 2 29 12 30 45 0 0 0) NPY_FR_m (offset_text (-330)) =
    cstr "2016-02-29T12:30-0530".
Proof. reflexivity. Qed.


Lemma stamp_text_seconds (d : npy_datetimestruct) (zone : list Z) :
  stamp_text d NPY_FR_s zone = clock_text d ++ zone.
Proof.
  unfold stamp_text, clock_text.
  cbv [unit_code Z.leb Z.compare Pos.compare Pos.compare_cont]. cbv beta iota zeta.
  rewrite <- ?app_assoc. cbn [app]. rewrite <- ?app_assoc. cbn [app].
  reflexivity.
Qed.

(** X23. The parser takes off the offset the formatter put on: a value
    formatted to the second as local time with a given offset (other than -1,
    less than a day either way; the value moved by the offset having its
    fields in range) is text that parses, and the result is the printed fields
    moved by the calendar helper by minus that offset, in seconds and not
    local. *)
Theorem offset_text_parses_back (host : Host) (casting : NPY_CASTING)
    (d : npy_datetimestruct) (outstr : list Z) (outlen : Z) (tzoffset : Z) :
  let d' := add_minutes_to_datetimestruct host d tzoffset in
  year d <> NPY_DATETIME_NAT -> printable d' ->
  tzoffset <> -1 -> -1440 < tzoffset < 1440 ->
  get_datetime_iso_8601_strlen true (Some NPY_FR_s) <= outlen <= 127 ->
  outlen <= Z.of_nat (length outstr) ->
  let r := make_iso_8601_datetime host d outstr outlen true (Some NPY_FR_s) tzoffset in
  fst r = Formatted /\
  parse_iso_8601_datetime host None casting (c_string (snd r)) =
    Parsed (mk_parsed
              (add_minutes_to_datetimestruct host (truncate_to NPY_FR_s d') (- tzoffset))
              (Some false) NPY_FR_s false).
Proof.
  intros d' Hnat Hd Hgiven Htz Hlen Hbuf r. subst r.
  pose proof Hd as (_ & _ & _ & _ & Hy & _).
  pose proof (length_printf_04d (year d') Hy) as Hylen.
  assert (Htime : unit_code NPY_FR_h <= unit_code NPY_FR_s) by (cbn; lia).
  assert (HG : NPY_FR_s <> NPY_FR_GENERIC) by discriminate.
  assert (Hfit : Z.of_nat (length (stamp_text d' NPY_FR_s (offset_text tzoffset)))
                 < outlen <= 127).
  { rewrite stamp_text_seconds. unfold clock_text, offset_text.
    rewrite ?length_app. cbn [length two_digit_text app].
    rewrite ?length_app. cbn [length].
    change (get_datetime_iso_8601_strlen true (Some NPY_FR_s)) with 42 in Hlen. lia. }
  rewrite (make_writes_offset_text host d outstr outlen NPY_FR_s tzoffset
             Hnat Hd Htime HG Hgiven ltac:(lia) Hfit Hbuf).
  fold d'. cbn [fst snd]. split; [reflexivity |].
  rewrite c_string_app
    by (apply (stamp_text_visible d' NPY_FR_s _ Hd), offset_text_visible; lia).
  rewrite stamp_text_seconds. unfold offset_text.
  assert (Hhh : 0 <= Z.abs tzoffset / 60 <= 23) by (Z.div_mod_to_equations; lia).
  assert (Hmm : 0 <= Z.abs tzoffset mod 60 <= 59) by (Z.div_mod_to_equations; lia).
  assert (Hsign : (if tzoffset <? 0 then c_dash else c_plus) = c_plus \/
                  (if tzoffset <? 0 then c_dash else c_plus) = c_dash)
    by (destruct (tzoffset <? 0); [right | left]; reflexivity).
  pose proof (offset_behind_clock_text host casting d' _ _ _ false Hd Hsign Hhh Hmm)
    as Hparse.
  cbn [app] in Hparse. rewrite Hparse. clear Hparse.
  do 3 f_equal.
  destruct (Z.ltb_spec tzoffset 0).
  - change (c_dash =? c_dash) with true. cbv iota. Z.div_mod_to_equations. lia.
  - change (c_plus =? c_dash) with false. cbv iota. Z.div_mod_to_equations. lia.
Qed.

Lemma offset_text_parses_back_witness :
  let r := make_iso_8601_datetime example_host (mk_dts 2016 2 29 12 30 45 0 0 0)
             (List.repeat 120 50) 50 true (Some NPY_FR_s) 330 in
  fst r = Formatted /\
  parse_iso_8601_datetime example_host None NPY_SAFE_CASTING (c_string (snd r)) =
    Parsed (mk_parsed
              (add_minutes_to_datetimestruct example_host
                 (truncate_to NPY_FR_s
                    (add_minutes_to_datetimestruct example_host
                       (mk_dts 2016 2 29 12 30 45 0 0 0) 330)) (- 330))
              (Some false) NPY_FR_s false).
Proof.
  apply (offset_text_parses_back example_host NPY_SAFE_CASTING
           (mk_dts 2016 2 29 12 30 45 0 0 0) (List.repeat 120 50) 50 330).
  - vm_compute. discriminate.
  - vm_compute. repeat split; discriminate.
  - lia.
  - lia.
  - vm_compute. split; discriminate.
  - vm_compute. discriminate.
Defined.

(** ** Times without a time zone *)

Lemma after_second_ends d l leap off :
  after_second (on_text d l leap [] off) =
    goto_parse_timezone (on_text d l leap [] off) NPY_FR_s.
Proof. reflexivity. Qed.

(** X10. A valid date and time written out to the seconds with nothing behind
    it counts as local time. In the years 1901 to 9999 its fields are handed
    to the host's mktime and the result to gmtime, whose fields come back as
    the result; in every other year the fields are returned as written and the
    host's clock functions are not asked. *)
Theorem time_without_zone_is_local (host : Host) (casting : NPY_CASTING)
    (d : npy_datetimestruct) :
  printable d ->
  (year d <= 1900 \/ 10000 <= year d ->
   parse_iso_8601_datetime host None casting (clock_text d) =
     Parsed (mk_parsed (truncate_to NPY_FR_s d) (Some true) NPY_FR_s false)) /\
  (forall tm_,
     1900 < year d < 10000 ->
     mktime host (mk_tm (sec d) (min d) (hour d) (day d) (month d - 1)
                        (year d - 1900) (-1)) <> -1 ->
     gmtime_r host (mktime host (mk_tm (sec d) (min d) (hour d) (day d) (month d - 1)
                                       (year d - 1900) (-1))) = Some tm_ ->
     parse_iso_8601_datetime host None casting (clock_text d) =
       Parsed (mk_parsed
                 (mk_dts (tm_year tm_ + 1900) (tm_mon tm_ + 1) (tm_mday tm_)
                         (tm_hour tm_) (tm_min tm_) (tm_sec tm_) 0 0 0)
                 (Some true) NPY_FR_s false)).
Proof.
  intros Hd.
  assert (Hscan : parse_iso_8601_datetime host None casting (clock_text d) =
                  leave host None casting
                    (at_label host
                       (goto_parse_timezone
                          (on_text (truncate_to NPY_FR_s d) None (is_leapyear (year d)) []
                             (Z.of_nat (length (clock_text d)))) NPY_FR_s))).
  { rewrite <- (app_nil_r (clock_text d)) at 1.
    rewrite clock_text_scans by (try exact Hd; cbn [length]; lia).
    rewrite after_second_ends. reflexivity. }
  rewrite Hscan. cbn [at_label]. unfold and_then, parse_timezone.
  rewrite sublen_on_text, dts_on_text. cbn [length]. change (Z.of_nat 0 =? 0) with true.
  cbv iota zeta.
  change (year (truncate_to NPY_FR_s d)) with (year d).
  change (month (truncate_to NPY_FR_s d)) with (month d).
  change (day (truncate_to NPY_FR_s d)) with (day d).
  change (hour (truncate_to NPY_FR_s d)) with (hour d).
  change (min (truncate_to NPY_FR_s d)) with (min d).
  change (sec (truncate_to NPY_FR_s d)) with (sec d).
  change (us (truncate_to NPY_FR_s d)) with 0.
  change (ps (truncate_to NPY_FR_s d)) with 0.
  change (as_ (truncate_to NPY_FR_s d)) with 0.
  split.
  - intros Hyear.
    replace ((1900 <? year d) && (year d <? 10000)) with false
      by (symmetry; apply andb_false_iff; destruct Hyear;
          [left; apply Z.ltb_ge | right; apply Z.ltb_ge]; lia).
    reflexivity.
  - intros tm_ Hyear Hmk Hgm.
    replace ((1900 <? year d) && (year d <? 10000)) with true
      by (symmetry; apply andb_true_iff; split; apply Z.ltb_lt; lia).
    destruct (Z.eqb_spec (mktime host (mk_tm (sec d) (min d) (hour d) (day d) (month d - 1)
                                        (year d - 1900) (-1))) (-1)); [contradiction |].
    rewrite Hgm. reflexivity.
Qed.

Lemma time_without_zone_is_local_witness :
  parse_iso_8601_datetime example_host None NPY_SAFE_CASTING
      (clock_text (mk_dts 1800 2 28 12 30 45 0 0 0)) =
    Parsed (mk_parsed (truncate_to NPY_FR_s (mk_dts 1800 2 28 12 30 45 0 0 0))
                      (Some true) NPY_FR_s false).
Proof.
  refine (proj1 (time_without_zone_is_local example_host NPY_SAFE_CASTING
                   (mk_dts 1800 2 28 12 30 45 0 0 0) _) _).
  - vm_compute. repeat split; discriminate.
  - left. simpl. lia.
Defined.

(** ** The separator of date and time *)

Lemma after_day_reads_either d l leap (sep : Z) (rest : list Z) off :
  sep = c_T \/ sep = c_space ->
  Z.of_nat (length (sep :: rest)) <= 127 ->
  after_day (on_text d l leap (sep :: rest) off) = Next (on_text d l leap rest (off + 1)).
Proof.
  intros Hsep Hlen. unfold after_day.
  rewrite sublen_on_text, peek_on_text. cbn [nth length].
  destruct (Z.eqb_spec (Z.of_nat (S (length rest))) 0); [lia |].
  replace (negb (sep =? c_T) && negb (sep =? c_space)) with false
    by (destruct Hsep as [-> | ->]; reflexivity).
  rewrite advance_1_on_text by exact Hlen. reflexivity.
Qed.

Lemma printed_is_general_for (host : Host) (unit : option NPY_DATETIMEUNIT)
    (casting : NPY_CASTING) (str : list Z) :
  tolower (nth 0%nat str 0) = c_dash \/ isdigit (tolower (nth 0%nat str 0)) = true ->
  parse_iso_8601_datetime host unit casting str =
    if match unit with Some u => unit_eqb u NPY_FR_GENERIC | None => false end
    then Failed GenericUnits
    else parse_general host unit casting str.
Proof.
  intros Hfirst. unfold parse_iso_8601_datetime.
  assert (Hne : (Z.of_nat (length str) <=? 0) = false).
  { destruct str; [| apply Z.leb_gt; cbn [length]; lia].
    destruct Hfirst as [H | H]; discriminate H. }
  rewrite Hne.
  rewrite !is_word_first by (destruct Hfirst as [-> | Hd];
                             [discriminate | intros E; rewrite E in Hd; discriminate]).
  reflexivity.
Qed.

Lemma date_text_scans (d : npy_datetimestruct) (sep : Z) (rest : list Z) :
  printable d -> sep = c_T \/ sep = c_space ->
  Z.of_nat (length rest) <= 100 ->
  let text := date_text d ++ sep :: rest in
  (tolower (nth 0%nat text 0) = c_dash \/ isdigit (tolower (nth 0%nat text 0)) = true) /\
  scan_fields (nth 0%nat text c_NUL) (start text) =
    (parse_hour >>> (parse_minute >>> (parse_second >>>
     (parse_microseconds >>> (parse_picoseconds >>> parse_attoseconds)))))
      (on_text (truncate_to NPY_FR_D d) None (is_leapyear (year d)) rest
         (Z.of_nat (length (date_text d)) + 1)).
Proof.
  intros (Hcal & Hus & Hps & Has & Hy & Hnat) Hsep Hrlen text. subst text.
  pose proof Hcal as (Hmonth & Hday & Hhour & Hmin & Hsec).
  destruct (consistent_ranges d Hcal) as (_ & Hday99 & _).
  pose proof (length_printf_04d (year d) Hy) as Hylen.
  unfold date_text. rewrite <- app_assoc. cbn [app].
  repeat (rewrite <- app_assoc; cbn [app]).
  match goal with |- context [printf_04d (year d) ++ ?r] => set (tail := r) end.
  assert (Htail : Z.of_nat (length tail) <= 107).
  { unfold tail. rewrite ?length_app; cbn [length two_digit_text app].
    rewrite ?length_app; cbn [length two_digit_text app]. lia. }
  assert (Hlen : Z.of_nat (length (printf_04d (year d) ++ tail)) <= 127)
    by (rewrite length_app; lia).
  destruct (through_year d tail Hy Hnat eq_refl Hlen) as (Hfirst & s1 & Hsign & Hyear).
  split; [exact Hfirst |].
  rewrite scan_fields_nested.
  rewrite (and_then_Next _ _ _ _ Hsign).
  unfold and_then at 1. rewrite Hyear. clear Hsign Hyear Hfirst s1 Hlen Htail.
  subst tail.
  set (ytext := printf_04d (year d)) in *.
  assert (Hyfits : Z.of_nat (length ytext) <= 20) by lia.
  unfold after_year, initial_dts. fields.
  rewrite date_separator_reads by side. cbv iota.
  run_stage parse_month_next.
  unfold and_then at 1. rewrite parse_day_reads by side.
  rewrite after_day_reads_either by (first [exact Hsep | cbn [length]; lia]).
  cbv iota. fields.
  unfold truncate_to.
  cbv [unit_code Z.leb Z.compare Pos.compare Pos.compare_cont]. cbv beta iota zeta.
  rewrite !length_app. cbn [length two_digit_text app].
  replace (Z.of_nat (length ytext) + 1 + 2 + 1 + 2 + 1)
    with (Z.of_nat (length ytext + 6) + 1) by lia.
  reflexivity.
Qed.

Lemma date_text_parses (host : Host) (unit : option NPY_DATETIMEUNIT)
    (casting : NPY_CASTING) (d : npy_datetimestruct) (sep : Z) (rest : list Z) :
  printable d -> sep = c_T \/ sep = c_space ->
  Z.of_nat (length rest) <= 100 ->
  parse_iso_8601_datetime host unit casting (date_text d ++ sep :: rest) =
    if match unit with Some u => unit_eqb u NPY_FR_GENERIC | None => false end
    then Failed GenericUnits
    else
      leave host unit casting
        (at_label host
           ((parse_hour >>> (parse_minute >>> (parse_second >>>
             (parse_microseconds >>> (parse_picoseconds >>> parse_attoseconds)))))
              (on_text (truncate_to NPY_FR_D d) None (is_leapyear (year d)) rest
                 (Z.of_nat (length (date_text d)) + 1)))).
Proof.
  intros Hd Hsep Hrlen.
  destruct (date_text_scans d sep rest Hd Hsep Hrlen) as [Hfirst Hscan].
  rewrite printed_is_general_for by exact Hfirst.
  unfold parse_general. rewrite Hscan. reflexivity.
Qed.

(** X22. A space stands for the "T" between the date and the time: behind a
    date written as the formatter writes it, a text of up to 100 bytes gives
    the same outcome, result or error, whether a space or a "T" separates the
    two, for every requested unit and casting rule. *)
Theorem space_separates_date_and_time (host : Host) (unit : option NPY_DATETIMEUNIT)
    (casting : NPY_CASTING) (d : npy_datetimestruct) (rest : list Z) :
  printable d -> Z.of_nat (length rest) <= 100 ->
  parse_iso_8601_datetime host unit casting (date_text d ++ c_space :: rest) =
  parse_iso_8601_datetime host unit casting (date_text d ++ c_T :: rest).
Proof.
  intros Hd Hrlen.
  rewrite !date_text_parses by (first [exact Hd | exact Hrlen | auto]).
  reflexivity.
Qed.

Lemma space_separates_date_and_time_witness :
  parse_iso_8601_datetime example_host None NPY_SAFE_CASTING
    (date_text (mk_dts 2016 2 29 0 0 0 0 0 0) ++ c_space :: cstr "12:30Z") =
  parse_iso_8601_datetime example_host None NPY_SAFE_CASTING
    (date_text (mk_dts 2016 2 29 0 0 0 0 0 0) ++ c_T :: cstr "12:30Z").
Proof.
  apply (space_separates_date_and_time example_host None NPY_SAFE_CASTING
           (mk_dts 2016 2 29 0 0 0 0 0 0) (cstr "12:30Z")).
  - vm_compute. repeat split; discriminate.
  - vm_compute. discriminate.
Defined.

Example date_and_time_with_a_space :
  parse_text example_host None NPY_SAFE_CASTING "2016-02-29 12:30Z" =
    Parsed (mk_parsed (mk_dts 2016 2 29 12 30 0 0 0 0) (Some false) NPY_FR_m false).
Proof. reflexivity. Qed.

(** ** Dates without a time *)

Lemma date_stage_and_then (f g : scanner -> flow) :
  date_stage f -> date_stage g -> date_stage (f >>> g).
Proof.
  intros Hf Hg s Hs. destruct (Hf s Hs) as [Hflow Hnext]. unfold and_then.
  destruct (f s) as [s1 | s1 b | s1 b | s1 | e]; try (split; [exact Hflow | exact I]).
  exact (Hg s1 Hnext).
Qed.

Lemma date_then_time (f g : scanner -> flow) :
  date_stage f -> time_stage g ->
  forall s, timeless (dts s) -> date_or_time ((f >>> g) s).
Proof.
  intros Hf Hg s Hs. destruct (Hf s Hs) as [Hflow _]. unfold and_then.
  destruct (f s) as [s1 | s1 b | s1 b | s1 | e]; try exact Hflow.
  specialize (Hg s1). destruct (g s1); cbn [date_or_time]; auto. contradiction.
Qed.

Lemma time_stage_and_then (f g : scanner -> flow) :
  time_stage f -> time_stage g -> time_stage (f >>> g).
Proof.
  intros Hf Hg s. specialize (Hf s). unfold and_then.
  destruct (f s) as [s1 | s1 b | s1 b | s1 | e]; try exact Hf.
  exact (Hg s1).
Qed.

Lemma skip_whitespace_loop_same_dts (n : nat) (s : scanner) :
  dts (skip_whitespace_loop n s) = dts s.
Proof. exact (proj1 (skip_whitespace_loop_dts n s)). Qed.

Lemma date_stage_parse_sign : date_stage parse_sign.
Proof.
  intros s Hs. unfold parse_sign, skip_whitespace. cbv zeta.
  set (s1 := skip_whitespace_loop (length (substr s)) s).
  assert (H1 : timeless (dts s1))
    by (unfold s1; rewrite skip_whitespace_loop_same_dts; exact Hs).
  destruct (peek s1 0 =? c_dash); destruct (sublen _ =? 0); split; cbn; auto.
Qed.

Lemma year_loop_timeless (n : nat) (s : scanner) :
  timeless (dts s) -> timeless (dts (year_loop n s)).
Proof.
  revert s. induction n as [| n IH]; intros s Hs; cbn [year_loop]; [exact Hs |].
  destruct ((0 <? sublen s) && isdigit (peek s 0)); [| exact Hs].
  apply IH. exact Hs.
Qed.

Lemma date_stage_date_separator (u : NPY_DATETIMEUNIT) :
  unit_code u < unit_code NPY_FR_h -> date_stage (date_separator u).
Proof.
  intros Hu s Hs. unfold date_separator.
  destruct (sublen s =? 0); [split; cbn; auto |].
  destruct (peek s 0 =? c_dash); [| split; cbn; auto].
  cbv zeta. destruct (sublen (advance 1 s) =? 0); split; cbn; auto.
Qed.

Lemma date_stage_parse_year (str0 : Z) : date_stage (parse_year str0).
Proof.
  intros s Hs. unfold parse_year. cbv zeta.
  match goal with |- context [year_loop ?n ?s0] =>
    pose proof (year_loop_timeless n s0 Hs) as H1; set (s1 := year_loop n s0) in *
  end.
  match goal with |- context [set_year_leap ?b ?s0] =>
    assert (H2 : timeless (dts (set_year_leap b s0)))
      by (destruct (str0 =? c_dash); exact H1);
    set (s2 := set_year_leap b s0) in *
  end.
  apply (date_stage_date_separator NPY_FR_Y); [cbn; lia | exact H2].
Qed.

Lemma date_stage_two_digit_field update bad e follow :
  (forall d v, timeless d -> timeless (update d v)) ->
  date_stage follow -> date_stage (two_digit_field update bad e follow).
Proof.
  intros Hupdate Hfollow s Hs. unfold two_digit_field.
  destruct (two_digits s); [| split; cbn; auto].
  cbv zeta. destruct (bad _); [split; cbn; auto |].
  apply Hfollow. cbn [advance set_dts dts]. apply Hupdate. exact Hs.
Qed.

Lemma date_stage_parse_month : date_stage parse_month.
Proof.
  intros s. rewrite parse_month_shape. revert s.
  apply date_stage_two_digit_field; [intros [] v H; exact H |].
  apply date_stage_date_separator. cbn. lia.
Qed.

Lemma date_stage_after_day : date_stage after_day.
Proof.
  intros s Hs. unfold after_day.
  destruct (sublen s =? 0).
  { split; [| exact I]. cbn [date_or_time set_local dts local].
    split; [exact Hs |]. split; [reflexivity | cbn; lia]. }
  destruct (negb _ && negb _); split; cbn; auto.
Qed.

Lemma date_stage_parse_day : date_stage parse_day.
Proof.
  intros s. rewrite parse_day_shape. revert s.
  apply date_stage_two_digit_field; [intros [] v H; exact H |].
  exact date_stage_after_day.
Qed.

Lemma time_stage_two_digit_field update bad e follow :
  time_stage follow -> time_stage (two_digit_field update bad e follow).
Proof.
  intros Hfollow s. unfold two_digit_field.
  destruct (two_digits s); [| exact I].
  cbv zeta. destruct (bad _); [exact I |]. apply Hfollow.
Qed.

Lemma time_stage_time_separator (u : NPY_DATETIMEUNIT) :
  unit_code NPY_FR_h <= unit_code u -> time_stage (time_separator u).
Proof.
  intros Hu s. unfold time_separator.
  destruct ((0 <? sublen s) && (peek s 0 =? 58)); [| exact Hu].
  cbv zeta. destruct (sublen (advance 1 s) =? 0); exact I.
Qed.

Lemma time_stage_after_second : time_stage after_second.
Proof.
  intros s. unfold after_second.
  destruct ((0 <? sublen s) && (peek s 0 =? 46)); [exact I | cbn; lia].
Qed.

Lemma time_stage_parse_hour : time_stage parse_hour.
Proof.
  intros s. rewrite parse_hour_shape. revert s.
  apply time_stage_two_digit_field, time_stage_time_separator. cbn. lia.
Qed.

Lemma time_stage_parse_minute : time_stage parse_minute.
Proof.
  intros s. rewrite parse_minute_shape. revert s.
  apply time_stage_two_digit_field, time_stage_time_separator. cbn. lia.
Qed.

Lemma time_stage_parse_second : time_stage parse_second.
Proof.
  intros s. rewrite parse_second_shape. revert s.
  apply time_stage_two_digit_field, time_stage_after_second.
Qed.

Lemma time_stage_parse_microseconds : time_stage parse_microseconds.
Proof.
  intros s. unfold parse_microseconds.
  destruct (digit_group us with_us 6 0 s) as [s1 numdigits].
  destruct (group_ends s1); [| exact I]. destruct (3 <? numdigits); cbn; lia.
Qed.

Lemma time_stage_parse_picoseconds : time_stage parse_picoseconds.
Proof.
  intros s. unfold parse_picoseconds.
  destruct (digit_group ps with_ps 6 0 s) as [s1 numdigits].
  destruct (group_ends s1); [| exact I]. destruct (3 <? numdigits); cbn; lia.
Qed.

Lemma time_stage_parse_attoseconds : time_stage parse_attoseconds.
Proof.
  intros s. unfold parse_attoseconds.
  destruct (digit_group as_ with_as 6 0 s) as [s1 numdigits].
  destruct (3 <? numdigits); cbn; lia.
Qed.

Lemma scan_fields_date_or_time (str0 : Z) (s : scanner) :
  timeless (dts s) -> date_or_time (scan_fields str0 s).
Proof.
  intros Hs. rewrite scan_fields_nested.
  assert (Htime : time_stage (parse_hour >>> (parse_minute >>> (parse_second >>>
            (parse_microseconds >>> (parse_picoseconds >>> parse_attoseconds)))))).
  { apply time_stage_and_then; [exact time_stage_parse_hour |].
    apply time_stage_and_then; [exact time_stage_parse_minute |].
    apply time_stage_and_then; [exact time_stage_parse_second |].
    apply time_stage_and_then; [exact time_stage_parse_microseconds |].
    apply time_stage_and_then; [exact time_stage_parse_picoseconds |].
    exact time_stage_parse_attoseconds. }
  destruct (date_stage_parse_sign s Hs) as [Hflow Hnext]. unfold and_then at 1.
  destruct (parse_sign s) as [s1 | s1 b | s1 b | s1 | e]; try exact Hflow.
  destruct (date_stage_parse_year str0 s1 Hnext) as [Hflow1 Hnext1]. unfold and_then at 1.
  destruct (parse_year str0 s1) as [s2 | s2 b | s2 b | s2 | e]; try exact Hflow1.
  unfold after_year.
  destruct (date_stage_parse_month s2 Hnext1) as [Hflow2 Hnext2]. unfold and_then at 1.
  destruct (parse_month s2) as [s3 | s3 b | s3 b | s3 | e]; try exact Hflow2.
  exact (date_then_time parse_day _ date_stage_parse_day Htime s3 Hnext2).
Qed.

(** X6. A text that parses, not as a special value, to a unit of years, months
    or days gives a result that is not local and whose hour, minute, second
    and fraction fields are all zero. *)
Theorem date_results_have_no_time (host : Host) (unit : option NPY_DATETIMEUNIT)
    (casting : NPY_CASTING) (str : list Z) (p : parsed) :
  parse_iso_8601_datetime host unit casting str = Parsed p ->
  out_special p = false ->
  unit_code (out_bestunit p) < unit_code NPY_FR_h ->
  out_local p = Some false /\
  hour (out p) = 0 /\ min (out p) = 0 /\ sec (out p) = 0 /\
  us (out p) = 0 /\ ps (out p) = 0 /\ as_ (out p) = 0.
Proof.
  intros Hparse Hspecial Hunit.
  destruct (general_path host unit casting str p Hparse Hspecial) as (Hgeneral & _).
  unfold parse_general in Hgeneral.
  pose proof (scan_fields_date_or_time (nth 0%nat str 0) (start str)) as Hscan.
  specialize (Hscan ltac:(repeat split; reflexivity)).
  destruct (scan_fields (nth 0%nat str 0) (start str)) as [s | s b | s b | s | e];
    cbn [at_label] in Hgeneral; try discriminate Hgeneral.
  - cbn [leave] in Hgeneral. unfold finish, check_casting in Hgeneral.
    destruct (cannot_cast host unit casting b); [discriminate |].
    injection Hgeneral as <-. cbn [out out_local].
    destruct Hscan as (Htime & Hlocal & _). split; [exact Hlocal | exact Htime].
  - pose proof (at_label_bestunit host unit casting s b p Hgeneral) as Hb.
    cbn [date_or_time] in Hscan. rewrite Hb in Hunit. lia.
Qed.

Lemma date_results_have_no_time_witness :
  Some false = Some false /\
  hour (mk_dts 2011 3 1 0 0 0 0 0 0) = 0 /\ min (mk_dts 2011 3 1 0 0 0 0 0 0) = 0 /\
  sec (mk_dts 2011 3 1 0 0 0 0 0 0) = 0 /\ us (mk_dts 2011 3 1 0 0 0 0 0 0) = 0 /\
  ps (mk_dts 2011 3 1 0 0 0 0 0 0) = 0 /\ as_ (mk_dts 2011 3 1 0 0 0 0 0 0) = 0.
Proof.
  apply (date_results_have_no_time example_host None NPY_SAFE_CASTING (cstr "2011-03")
           (mk_parsed (mk_dts 2011 3 1 0 0 0 0 0 0) (Some false) NPY_FR_M false)).
  - reflexivity.
  - reflexivity.
  - simpl. lia.
Defined.

(** ** Leading whitespace *)

Lemma moved_advance (k : Z) (n : nat) (s : scanner) :
  advance n (moved k s) = moved k (advance n s).
Proof. unfold advance, moved. cbn [dts local year_leap substr sublen offset]. f_equal. lia. Qed.

Lemma anywhere_and_then (f g : scanner -> flow) :
  anywhere f -> anywhere g -> anywhere (f >>> g).
Proof.
  intros Hf Hg k s. unfold and_then. rewrite Hf.
  destruct (f s) as [s1 | s1 b | s1 b | s1 | e]; cbn [moved_flow]; try reflexivity.
  apply Hg.
Qed.

Lemma skip_whitespace_loop_moved (n : nat) (k : Z) (s : scanner) :
  skip_whitespace_loop n (moved k s) = moved k (skip_whitespace_loop n s).
Proof.
  revert s. induction n as [| n IH]; intros s; cbn [skip_whitespace_loop]; [reflexivity |].
  change (sublen (moved k s)) with (sublen s). change (peek (moved k s) 0) with (peek s 0).
  destruct ((0 <? sublen s) && isspace (peek s 0)); [| reflexivity].
  rewrite moved_advance. apply IH.
Qed.

Lemma year_loop_moved (n : nat) (k : Z) (s : scanner) :
  year_loop n (moved k s) = moved k (year_loop n s).
Proof.
  revert s. induction n as [| n IH]; intros s; cbn [year_loop]; [reflexivity |].
  change (sublen (moved k s)) with (sublen s). change (peek (moved k s) 0) with (peek s 0).
  destruct ((0 <? sublen s) && isdigit (peek s 0)); [| reflexivity].
  change (set_dts ?d (moved k s)) with (moved k (set_dts d s)).
  rewrite moved_advance. apply IH.
Qed.

Lemma digit_group_moved
    (get : npy_datetimestruct -> Z)
    (set : npy_datetimestruct -> Z -> npy_datetimestruct)
    (i : nat) (numdigits k : Z) (s : scanner) :
  digit_group get set i numdigits (moved k s) =
    (moved k (fst (digit_group get set i numdigits s)),
     snd (digit_group get set i numdigits s)).
Proof.
  revert numdigits s. induction i as [| i IH]; intros numdigits s; cbn [digit_group];
    [reflexivity |].
  cbv zeta.
  change (dts (moved k s)) with (dts s).
  change (set_dts ?d (moved k s)) with (moved k (set_dts d s)).
  change (sublen (moved k ?x)) with (sublen x).
  change (peek (moved k ?x) 0) with (peek x 0).
  destruct ((0 <? sublen _) && isdigit (peek _ 0)).
  - change (dts (moved k ?x)) with (dts x).
    change (set_dts ?d (moved k ?x)) with (moved k (set_dts d x)).
    rewrite moved_advance. apply IH.
  - apply IH.
Qed.

Lemma anywhere_parse_sign : anywhere parse_sign.
Proof.
  intros k s. unfold parse_sign, skip_whitespace. cbv zeta.
  change (substr (moved k s)) with (substr s).
  rewrite skip_whitespace_loop_moved.
  set (s1 := skip_whitespace_loop (length (substr s)) s).
  change (peek (moved k s1) 0) with (peek s1 0).
  destruct (peek s1 0 =? c_dash).
  - rewrite moved_advance. change (sublen (moved k ?x)) with (sublen x).
    destruct (sublen (advance 1 s1) =? 0); reflexivity.
  - change (sublen (moved k ?x)) with (sublen x).
    destruct (sublen s1 =? 0); reflexivity.
Qed.

Lemma anywhere_date_separator (u : NPY_DATETIMEUNIT) : anywhere (date_separator u).
Proof.
  intros k s. unfold date_separator.
  change (sublen (moved k s)) with (sublen s). change (peek (moved k s) 0) with (peek s 0).
  destruct (sublen s =? 0); [reflexivity |].
  destruct (peek s 0 =? c_dash); [| reflexivity].
  cbv zeta. rewrite moved_advance. change (sublen (moved k ?x)) with (sublen x).
  destruct (sublen (advance 1 s) =? 0); reflexivity.
Qed.

Lemma anywhere_parse_year (str0 : Z) : anywhere (parse_year str0).
Proof.
  intros k s. unfold parse_year. cbv zeta.
  change (dts (moved k s)) with (dts s).
  change (set_dts ?d (moved k s)) with (moved k (set_dts d s)).
  change (substr (moved k ?x)) with (substr x).
  rewrite year_loop_moved.
  match goal with |- context [year_loop ?n ?s0] => set (s1 := year_loop n s0) end.
  change (dts (moved k s1)) with (dts s1).
  change (set_dts ?d (moved k s1)) with (moved k (set_dts d s1)).
  match goal with
  | |- context [set_year_leap ?b (if ?c then moved k ?x else moved k ?y)] =>
      replace (set_year_leap b (if c then moved k x else moved k y))
        with (moved k (set_year_leap b (if c then x else y)))
        by (destruct c; reflexivity)
  end.
  replace (dts (if str0 =? c_dash
                then moved k (set_dts (with_year (dts s1) (to_int64 (- year (dts s1)))) s1)
                else moved k s1))
    with (dts (if str0 =? c_dash
               then set_dts (with_year (dts s1) (to_int64 (- year (dts s1)))) s1
               else s1))
    by (destruct (str0 =? c_dash); reflexivity).
  exact (anywhere_date_separator NPY_FR_Y k _).
Qed.

Lemma anywhere_two_digit_field update bad e follow :
  (forall k s, bad (moved k s) = bad s) ->
  anywhere follow -> anywhere (two_digit_field update bad e follow).
Proof.
  intros Hbad Hfollow k s. unfold two_digit_field.
  change (two_digits (moved k s)) with (two_digits s).
  destruct (two_digits s); [| reflexivity].
  cbv zeta. change (dts (moved k s)) with (dts s).
  change (two_digit_value (moved k s)) with (two_digit_value s).
  change (set_dts ?d (moved k s)) with (moved k (set_dts d s)).
  rewrite Hbad. destruct (bad _); [reflexivity |].
  rewrite moved_advance. apply Hfollow.
Qed.

Lemma anywhere_after_day : anywhere after_day.
Proof.
  intros k s. unfold after_day.
  change (sublen (moved k s)) with (sublen s). change (peek (moved k s) 0) with (peek s 0).
  destruct (sublen s =? 0); [reflexivity |].
  destruct (negb _ && negb _); [reflexivity |].
  rewrite moved_advance. reflexivity.
Qed.

Lemma anywhere_time_separator (u : NPY_DATETIMEUNIT) : anywhere (time_separator u).
Proof.
  intros k s. unfold time_separator.
  change (sublen (moved k s)) with (sublen s). change (peek (moved k s) 0) with (peek s 0).
  destruct ((0 <? sublen s) && (peek s 0 =? c_colon)); [| reflexivity].
  cbv zeta. rewrite moved_advance. change (sublen (moved k ?x)) with (sublen x).
  destruct (sublen (advance 1 s) =? 0); reflexivity.
Qed.

Lemma anywhere_after_second : anywhere after_second.
Proof.
  intros k s. unfold after_second.
  change (sublen (moved k s)) with (sublen s). change (peek (moved k s) 0) with (peek s 0).
  destruct ((0 <? sublen s) && (peek s 0 =? 46)); [| reflexivity].
  rewrite moved_advance. reflexivity.
Qed.

Lemma anywhere_parse_month : anywhere parse_month.
Proof.
  intros k s. rewrite !parse_month_shape. revert k s.
  apply anywhere_two_digit_field; [reflexivity | apply anywhere_date_separator].
Qed.

Lemma anywhere_parse_day : anywhere parse_day.
Proof.
  intros k s. rewrite !parse_day_shape. revert k s.
  apply anywhere_two_digit_field; [reflexivity | apply anywhere_after_day].
Qed.

Lemma anywhere_parse_hour : anywhere parse_hour.
Proof.
  intros k s. rewrite !parse_hour_shape. revert k s.
  apply anywhere_two_digit_field; [reflexivity | apply anywhere_time_separator].
Qed.

Lemma anywhere_parse_minute : anywhere parse_minute.
Proof.
  intros k s. rewrite !parse_minute_shape. revert k s.
  apply anywhere_two_digit_field; [reflexivity | apply anywhere_time_separator].
Qed.

Lemma anywhere_parse_second : anywhere parse_second.
Proof.
  intros k s. rewrite !parse_second_shape. revert k s.
  apply anywhere_two_digit_field; [reflexivity | apply anywhere_after_second].
Qed.

Lemma anywhere_parse_microseconds : anywhere parse_microseconds.
Proof.
  intros k s. unfold parse_microseconds. rewrite digit_group_moved.
  destruct (digit_group us with_us 6 0 s) as [s1 numdigits]. cbn [fst snd].
  change (group_ends (moved k s1)) with (group_ends s1).
  destruct (group_ends s1); reflexivity.
Qed.

Lemma anywhere_parse_picoseconds : anywhere parse_picoseconds.
Proof.
  intros k s. unfold parse_picoseconds. rewrite digit_group_moved.
  destruct (digit_group ps with_ps 6 0 s) as [s1 numdigits]. cbn [fst snd].
  change (group_ends (moved k s1)) with (group_ends s1).
  destruct (group_ends s1); reflexivity.
Qed.

Lemma anywhere_parse_attoseconds : anywhere parse_attoseconds.
Proof.
  intros k s. unfold parse_attoseconds. rewrite digit_group_moved.
  destruct (digit_group as_ with_as 6 0 s) as [s1 numdigits]. reflexivity.
Qed.

Lemma anywhere_after_year : anywhere after_year.
Proof.
  unfold after_year.
  apply anywhere_and_then; [exact anywhere_parse_month |].
  apply anywhere_and_then; [exact anywhere_parse_day |].
  apply anywhere_and_then; [exact anywhere_parse_hour |].
  apply anywhere_and_then; [exact anywhere_parse_minute |].
  apply anywhere_and_then; [exact anywhere_parse_second |].
  apply anywhere_and_then; [exact anywhere_parse_microseconds |].
  apply anywhere_and_then; [exact anywhere_parse_picoseconds |].
  exact anywhere_parse_attoseconds.
Qed.

Ltac unmove k :=
  repeat first
    [ progress change (sublen (moved k ?x)) with (sublen x)
    | progress change (peek (moved k ?x) ?i) with (peek x i)
    | progress change (dts (moved k ?x)) with (dts x)
    | progress change (two_digits (moved k ?x)) with (two_digits x)
    | progress change (two_digit_value (moved k ?x)) with (two_digit_value x)
    | progress change (set_local ?b (moved k ?x)) with (moved k (set_local b x))
    | progress change (set_dts ?d (moved k ?x)) with (moved k (set_dts d x))
    | rewrite moved_advance ].

Lemma anywhere_parse_timezone (host : Host) (bestunit : NPY_DATETIMEUNIT) :
  anywhere (parse_timezone host bestunit).
Proof.
  intros k s. unfold parse_timezone. unmove k.
  destruct (sublen s =? 0).
  { destruct ((1900 <? year (dts s)) && (year (dts s) <? 10000)); [| reflexivity].
    cbv zeta. destruct (mktime host _ =? -1); [reflexivity |].
    destruct (gmtime_r host _); reflexivity. }
  destruct (peek s 0 =? 90).
  { cbv zeta. unmove k. destruct (sublen _ =? 1); reflexivity. }
  destruct ((peek s 0 =? c_dash) || (peek s 0 =? 43)); [| reflexivity].
  cbv zeta. unmove k.
  set (s1 := advance 1 (set_local false s)).
  destruct (two_digits s1); [| reflexivity].
  destruct (24 <=? two_digit_value s1); [reflexivity |].
  unmove k. set (s2 := advance 2 s1).
  destruct (0 <? sublen s2); [| reflexivity].
  replace (if peek s2 0 =? c_colon then moved k (advance 1 s2) else moved k s2)
    with (moved k (if peek s2 0 =? c_colon then advance 1 s2 else s2))
    by (destruct (peek s2 0 =? c_colon); reflexivity).
  set (s3 := if peek s2 0 =? c_colon then advance 1 s2 else s2).
  unmove k.
  destruct (two_digits s3); [| reflexivity].
  destruct (60 <=? two_digit_value s3); reflexivity.
Qed.

Lemma anywhere_skip_trailing_whitespace (bestunit : NPY_DATETIMEUNIT) :
  anywhere (skip_trailing_whitespace bestunit).
Proof.
  intros k s. unfold skip_trailing_whitespace, skip_whitespace. cbv zeta.
  change (substr (moved k s)) with (substr s).
  rewrite skip_whitespace_loop_moved. unmove k.
  destruct (sublen _ =? 0); reflexivity.
Qed.

Lemma at_label_moved (host : Host) (k : Z) (f : flow) :
  at_label host (moved_flow k f) = moved_flow k (at_label host f).
Proof.
  destruct f as [s | s b | s b | s | e]; cbn [at_label moved_flow]; try reflexivity.
  exact (anywhere_and_then _ _ (anywhere_parse_timezone host b)
           (anywhere_skip_trailing_whitespace b) k s).
Qed.

Lemma leave_moved (host : Host) (unit : option NPY_DATETIMEUNIT) (casting : NPY_CASTING)
    (k : Z) (f : flow) :
  (forall e position, f = goto_error e -> e <> ParseErrorAt position) ->
  leave host unit casting (moved_flow k f) = moved_result k (leave host unit casting f).
Proof.
  intros He. destruct f as [s | s b | s b | s | e]; cbn [leave moved_flow moved_result moved offset];
    try reflexivity.
  - unfold finish, check_casting. cbn [moved dts local].
    destruct (cannot_cast host unit casting b) as [e |] eqn:Hc; [| reflexivity].
    unfold cannot_cast in Hc. destruct unit as [u |]; [| discriminate].
    destruct (can_cast_datetime64_units host b u casting); [discriminate |].
    injection Hc as <-. reflexivity.
  - destruct e; try reflexivity. contradiction (He _ position eq_refl). reflexivity.
Qed.

Lemma skip_whitespace_loop_leading (ws rest : list Z) d l leap off (n : nat) :
  all_space ws -> Z.of_nat (length (ws ++ rest)) <= 127 ->
  skip_whitespace_loop (length ws + n) (on_text d l leap (ws ++ rest) off) =
    skip_whitespace_loop n (on_text d l leap rest (off + Z.of_nat (length ws))).
Proof.
  intros Hws. revert off. induction Hws as [| c ws Hc _ IH]; intros off Hlen.
  - cbn [length app Nat.add]. rewrite Z.add_0_r. reflexivity.
  - cbn [length app Nat.add skip_whitespace_loop] in *.
    rewrite sublen_on_text, peek_on_text. cbn [nth length]. rewrite Hc.
    destruct (Z.ltb_spec 0 (Z.of_nat (S (length (ws ++ rest))))); [| lia].
    cbn [andb]. rewrite advance_1_on_text by (cbn [length]; lia).
    rewrite IH by lia. do 2 f_equal. lia.
Qed.

Lemma parse_year_sign (a b : Z) (s : scanner) :
  (a =? c_dash) = (b =? c_dash) -> parse_year a s = parse_year b s.
Proof. intros H. unfold parse_year. rewrite H. reflexivity. Qed.

Lemma moved_result_0 (r : parse_result) : moved_result 0 r = r.
Proof. destruct r as [p | []]; cbn; rewrite ?Z.add_0_r; reflexivity. Qed.

(** X5. Leading whitespace is skipped: a text that is not empty, not one of
    the special words and does not start with a minus sign gives the same
    result behind any run of whitespace (127 bytes in all at most), except
    that the position of a parse error moves on by the number of bytes
    skipped. *)
Theorem leading_whitespace_is_skipped (host : Host) (unit : option NPY_DATETIMEUNIT)
    (casting : NPY_CASTING) (ws str : list Z) :
  all_space ws -> Z.of_nat (length (ws ++ str)) <= 127 ->
  str <> [] ->
  map tolower str <> cstr "nat" -> map tolower str <> cstr "today" ->
  map tolower str <> cstr "now" ->
  nth 0%nat str 0 <> c_dash ->
  parse_iso_8601_datetime host unit casting (ws ++ str) =
    moved_result (Z.of_nat (length ws)) (parse_iso_8601_datetime host unit casting str).
Proof.
  intros Hws Hlen Hne Hnat Htoday Hnow Hdash.
  destruct ws as [| c ws]; [cbn [app length]; rewrite moved_result_0; reflexivity |].
  pose proof (Forall_inv Hws) as Hc.
  assert (Hlower : tolower (nth 0%nat ((c :: ws) ++ str) 0) = c)
    by (cbn [app nth]; exact (isspace_tolower c Hc)).
  assert (Hc' : c = 32 \/ 9 <= c <= 13) by exact (isspace_cases c Hc).
  unfold parse_iso_8601_datetime.
  rewrite (is_word_false [c_n; c_a; c_t] str Hnat).
  rewrite (is_word_false [c_t; c_o; c_d; c_a; c_y] str Htoday).
  rewrite (is_word_false [c_n; c_o; c_w] str Hnow).
  rewrite !is_word_first by (rewrite Hlower; lia).
  replace (Z.of_nat (length ((c :: ws) ++ str)) <=? 0) with false
    by (symmetry; apply Z.leb_gt; cbn [app length]; lia).
  replace (Z.of_nat (length str) <=? 0) with false
    by (symmetry; apply Z.leb_gt; destruct str; [contradiction | cbn [length]; lia]).
  cbn [orb].
  destruct (match unit with Some u => unit_eqb u NPY_FR_GENERIC | None => false end);
    [reflexivity |].
  unfold parse_general.
  set (k := Z.of_nat (length (c :: ws))).
  assert (Hstr : Z.of_nat (length str) <= 127) by (rewrite length_app in Hlen; lia).
  assert (Hscan : scan_fields (nth 0%nat ((c :: ws) ++ str) 0) (start ((c :: ws) ++ str)) =
                  moved_flow k (scan_fields (nth 0%nat str 0) (start str))).
  { rewrite !scan_fields_nested.
    rewrite <- (anywhere_and_then _ _ anywhere_parse_sign
                  (anywhere_and_then _ _ (anywhere_parse_year (nth 0%nat str 0))
                     anywhere_after_year) k (start str)).
    unfold and_then at 1 3.
    assert (Hsign : parse_sign (start ((c :: ws) ++ str)) = parse_sign (moved k (start str))).
    { unfold parse_sign, skip_whitespace.
      rewrite (start_on_text _ Hlen), (start_on_text _ Hstr).
      change (moved k (on_text initial_dts None false str 0))
        with (on_text initial_dts None false str (0 + k)).
      change (substr (on_text initial_dts None false ((c :: ws) ++ str) 0))
        with ((c :: ws) ++ str).
      change (substr (on_text initial_dts None false str (0 + k))) with str.
      rewrite length_app.
      rewrite (skip_whitespace_loop_leading (c :: ws) str _ _ _ _ _ Hws Hlen).
      reflexivity. }
    rewrite Hsign.
    destruct (parse_sign (moved k (start str))) as [s1 | s1 b | s1 b | s1 | e];
      try reflexivity.
    unfold and_then.
    rewrite (parse_year_sign (nth 0%nat ((c :: ws) ++ str) 0) (nth 0%nat str 0)).
    - reflexivity.
    - cbn [app nth].
      destruct (Z.eqb_spec c c_dash); [lia |].
      destruct (Z.eqb_spec (nth 0%nat str 0) c_dash); [contradiction | reflexivity]. }
  rewrite Hscan, at_label_moved.
  apply leave_moved.
  intros e position He.
  pose proof (keeps_at_label str host _
                (keeps_scan_fields str (nth 0%nat str 0) (start str)
                   (tracks_start str Hstr))) as Hend.
  rewrite He in Hend. exact (Hend position).
Qed.

Lemma leading_whitespace_is_skipped_witness :
  parse_iso_8601_datetime example_host None NPY_SAFE_CASTING
      (cstr "  " ++ cstr "2011-03-1x") =
    moved_result (Z.of_nat (length (cstr "  ")))
      (parse_iso_8601_datetime example_host None NPY_SAFE_CASTING (cstr "2011-03-1x")).
Proof.
  apply (leading_whitespace_is_skipped example_host None NPY_SAFE_CASTING
           (cstr "  ") (cstr "2011-03-1x")).
  - repeat constructor.
  - vm_compute. discriminate.
  - discriminate.
  - discriminate.
  - discriminate.
  - discriminate.
  - vm_compute. discriminate.
Defined.

Example error_position_behind_whitespace :
  parse_text example_host None NPY_SAFE_CASTING "2011-03-1x" = Failed (ParseErrorAt 8) /\
  parse_text example_host None NPY_SAFE_CASTING "  2011-03-1x" = Failed (ParseErrorAt 10).
Proof. split; reflexivity. Qed.

(** ** The returned fields and the scanned fields *)

Lemma parse_timezone_converts (host : Host) (bestunit : NPY_DATETIMEUNIT) (s : scanner) :
  match parse_timezone host bestunit s with
  | Next s' | goto_finish s' _ => zone_converted host (dts s) (dts s')
  | goto_parse_timezone _ _ | goto_parse_error _ | goto_error _ => True
  end.
Proof.
  unfold parse_timezone.
  destruct (sublen s =? 0).
  { cbv zeta. destruct ((1900 <? year (dts s)) && (year (dts s) <? 10000)) eqn:Hyear.
    - apply andb_prop in Hyear as [Hlow Hhigh].
      apply Z.ltb_lt in Hlow, Hhigh.
      destruct (mktime host _ =? -1); [exact I |].
      destruct (gmtime_r host _) as [tm_ |] eqn:Hgm; [| exact I].
      cbn [dts set_local set_dts]. right. right. split; [lia |].
      exists tm_. split; [exact Hgm | reflexivity].
    - left. reflexivity. }
  destruct (peek s 0 =? c_Z).
  { cbv zeta. destruct (sublen (set_local false s) =? 1); left; reflexivity. }
  destruct ((peek s 0 =? c_dash) || (peek s 0 =? c_plus)); [| left; reflexivity].
  cbv zeta.
  set (s1 := advance 1 (set_local false s)).
  assert (Hdts1 : dts s1 = dts s) by reflexivity.
  destruct (two_digits s1) eqn:Hhh; [| exact I].
  pose proof (two_digit_value_range s1 Hhh) as Hh.
  destruct (Z.leb_spec 24 (two_digit_value s1)); [exact I |].
  set (s2 := advance 2 s1).
  assert (Hdts2 : dts s2 = dts s) by reflexivity.
  destruct (0 <? sublen s2).
  - set (s3 := if peek s2 0 =? c_colon then advance 1 s2 else s2).
    assert (Hdts3 : dts s3 = dts s) by (subst s3; destruct (peek s2 0 =? c_colon); reflexivity).
    destruct (two_digits s3) eqn:Hmm; [| exact I].
    pose proof (two_digit_value_range s3 Hmm) as Hm.
    destruct (Z.leb_spec 60 (two_digit_value s3)); [exact I |].
    cbn [dts set_dts advance]. right. left.
    eexists. split; [| rewrite <- Hdts3; reflexivity].
    destruct (peek (set_local false s) 0 =? c_dash); lia.
  - cbn [dts set_dts]. right. left.
    eexists. split; [| rewrite <- Hdts2; reflexivity].
    destruct (peek (set_local false s) 0 =? c_dash); lia.
Qed.

Lemma skip_trailing_whitespace_same_dts (bestunit : NPY_DATETIMEUNIT) (s s' : scanner)
    (b : NPY_DATETIMEUNIT) :
  skip_trailing_whitespace bestunit s = goto_finish s' b -> dts s' = dts s.
Proof.
  unfold skip_trailing_whitespace, skip_whitespace. cbv zeta.
  destruct (sublen _ =? 0); [| discriminate].
  intros H. injection H as <- _.
  apply skip_whitespace_loop_dts.
Qed.

Lemma at_label_converts (host : Host) (s s' : scanner) (bestunit b : NPY_DATETIMEUNIT) :
  at_label host (goto_parse_timezone s bestunit) = goto_finish s' b ->
  zone_converted host (dts s) (dts s').
Proof.
  cbn [at_label]. unfold and_then.
  pose proof (parse_timezone_converts host bestunit s) as Hzone.
  destruct (parse_timezone host bestunit s) as [s1 | s1 b1 | s1 b1 | s1 | e];
    try discriminate.
  - intros H. apply skip_trailing_whitespace_same_dts in H. rewrite H. exact Hzone.
  - intros H. injection H as <- _. exact Hzone.
Qed.

(** X24. Every successful parse that is not a special value, of an input of
    any length, returns fields that come from a consistent scanned struct
    (month 1 to 12, day within the leap-aware length of its month, hour 0 to
    23, minute and second 0 to 59): the returned struct is that struct itself,
    or that struct moved by the calendar helper by an offset of less than a
    day, or, for a local time in the years 1901 to 9999, the fields gmtime
    returns for its mktime together with its fraction. When the unit of the
    result is years, months or days the returned struct is the consistent
    struct itself. *)
Theorem parsed_fields_come_from_consistent_fields (host : Host)
    (unit : option NPY_DATETIMEUNIT) (casting : NPY_CASTING) (str : list Z) (p : parsed) :
  parse_iso_8601_datetime host unit casting str = Parsed p ->
  out_special p = false ->
  exists d,
    consistent d /\ zone_converted host d (out p) /\
    (unit_code (out_bestunit p) < unit_code NPY_FR_h -> out p = d).
Proof.
  intros Hparse Hspecial.
  destruct (general_path host unit casting str p Hparse Hspecial) as (Hgeneral & _).
  unfold parse_general in Hgeneral.
  pose proof (stage_scan_fields (nth 0%nat str 0) (start str)) as Hstage.
  specialize (Hstage ltac:(repeat split; reflexivity)).
  pose proof (scan_fields_date_or_time (nth 0%nat str 0) (start str)) as Hscan.
  specialize (Hscan ltac:(repeat split; reflexivity)).
  destruct (scan_fields (nth 0%nat str 0) (start str)) as [s | s b | s b | s | e];
    cbn [at_label] in Hgeneral; try discriminate Hgeneral.
  - exists (dts s). split; [exact Hstage |].
    cbn [leave] in Hgeneral. unfold finish, check_casting in Hgeneral.
    destruct (cannot_cast host unit casting b); [discriminate |].
    injection Hgeneral as <-. cbn [out].
    split; [left; reflexivity | intros _; reflexivity].
  - exists (dts s). split; [exact Hstage |].
    pose proof (at_label_bestunit host unit casting s b p Hgeneral) as Hb.
    apply leave_parsed in Hgeneral as (s' & b' & Hflow & _ & ->).
    cbn [out out_bestunit] in *.
    split; [exact (at_label_converts host s s' b b' Hflow) |].
    cbn [date_or_time] in Hscan. intros Hunit. rewrite Hb in Hunit. lia.
Qed.

Lemma parsed_fields_come_from_consistent_fields_witness :
  exists d,
    consistent d /\
    zone_converted example_host d (mk_dts 2000 2 29 23 59 59 0 0 0) /\
    (unit_code NPY_FR_s < unit_code NPY_FR_h -> mk_dts 2000 2 29 23 59 59 0 0 0 = d).
Proof.
  apply (parsed_fields_come_from_consistent_fields example_host None NPY_SAFE_CASTING
           (cstr "2000-02-29T23:59:59Z")
           (mk_parsed (mk_dts 2000 2 29 23 59 59 0 0 0) (Some false) NPY_FR_s false)).
  - vm_compute. reflexivity.
  - reflexivity.
Defined.

(** ** Fields out of range in the text *)

Lemma two_digit_field_refuses update bad e follow d l leap (v : Z) (rest : list Z) off :
  0 <= v <= 99 ->
  bad (on_text (update d v) l leap (two_digit_text v ++ rest) off) = true ->
  two_digit_field update bad e follow (on_text d l leap (two_digit_text v ++ rest) off) =
    goto_error e.
Proof.
  intros Hv Hbad. pose proof (two_digit_chars v Hv) as (_ & _ & Ha & Hb & Hvalue).
  unfold two_digit_field, two_digits, two_digit_value.
  rewrite !peek_on_text, sublen_on_text, dts_on_text, set_dts_on_text.
  unfold two_digit_text in *. cbn [app nth length] in *.
  replace (isdigit (48 + v / 10)) with true by (symmetry; unfold isdigit; lia).
  replace (isdigit (48 + v mod 10)) with true by (symmetry; unfold isdigit; lia).
  destruct (Z.leb_spec 2 (Z.of_nat (S (S (length rest))))); [| lia].
  cbn [andb].
  replace (10 * (48 + v / 10 - 48) + (48 + v mod 10 - 48)) with v by lia.
  rewrite Hbad. reflexivity.
Qed.

Lemma parse_month_refuses d l leap (v : Z) (rest : list Z) off :
  0 <= v <= 99 -> v < 1 \/ 12 < v ->
  parse_month (on_text d l leap (two_digit_text v ++ rest) off) =
    goto_error (OutOfRange Month).
Proof.
  intros Hv Hbad. rewrite parse_month_shape.
  apply two_digit_field_refuses; [exact Hv |].
  rewrite dts_on_text. destruct d as [y0 mo0 da0 h0 mi0 se0 u0 p0 a0].
  cbn [with_month month].
  apply orb_true_iff. destruct Hbad; [left; apply Z.ltb_lt | right; apply Z.ltb_lt]; lia.
Qed.

Lemma parse_day_refuses d l leap (v : Z) (rest : list Z) off :
  0 <= v <= 99 -> v < 1 \/ _days_per_month_table leap (month d - 1) < v ->
  parse_day (on_text d l leap (two_digit_text v ++ rest) off) =
    goto_error (OutOfRange Day).
Proof.
  intros Hv Hbad. rewrite parse_day_shape.
  apply two_digit_field_refuses; [exact Hv |].
  rewrite dts_on_text. destruct d as [y0 mo0 da0 h0 mi0 se0 u0 p0 a0].
  cbn [with_day day month year_leap on_text] in *.
  apply orb_true_iff. destruct Hbad; [left; apply Z.ltb_lt | right; apply Z.ltb_lt]; lia.
Qed.

Lemma parse_hour_refuses d l leap (v : Z) (rest : list Z) off :
  24 <= v <= 99 ->
  parse_hour (on_text d l leap (two_digit_text v ++ rest) off) =
    goto_error (OutOfRange Hours).
Proof.
  intros Hv. rewrite parse_hour_shape.
  apply two_digit_field_refuses; [lia |].
  rewrite dts_on_text. destruct d as [y0 mo0 da0 h0 mi0 se0 u0 p0 a0].
  cbn [with_hour hour].
  apply orb_true_iff. right. apply Z.leb_le. lia.
Qed.

Lemma parse_minute_refuses d l leap (v : Z) (rest : list Z) off :
  60 <= v <= 99 ->
  parse_minute (on_text d l leap (two_digit_text v ++ rest) off) =
    goto_error (OutOfRange Minutes).
Proof.
  intros Hv. rewrite parse_minute_shape.
  apply two_digit_field_refuses; [lia |].
  rewrite dts_on_text. destruct d as [y0 mo0 da0 h0 mi0 se0 u0 p0 a0].
  cbn [with_min min hour].
  apply orb_true_iff. right. apply Z.leb_le. lia.
Qed.

Lemma parse_second_refuses d l leap (v : Z) (rest : list Z) off :
  60 <= v <= 99 ->
  parse_second (on_text d l leap (two_digit_text v ++ rest) off) =
    goto_error (OutOfRange Seconds).
Proof.
  intros Hv. rewrite parse_second_shape.
  apply two_digit_field_refuses; [lia |].
  rewrite dts_on_text. destruct d as [y0 mo0 da0 h0 mi0 se0 u0 p0 a0].
  cbn [with_sec sec].
  apply orb_true_iff. right. apply Z.leb_le. lia.
Qed.

(** The scan of a printed year and what follows its ['-']. *)
Lemma year_text_scans (d : npy_datetimestruct) (rest : list Z) :
  int64_range (year d) -> year d <> NPY_DATETIME_NAT ->
  (1 <= length rest)%nat -> Z.of_nat (length rest) <= 106 ->
  let text := printf_04d (year d) ++ c_dash :: rest in
  (tolower (nth 0%nat text 0) = c_dash \/ isdigit (tolower (nth 0%nat text 0)) = true) /\
  scan_fields (nth 0%nat text c_NUL) (start text) =
    after_year
      (on_text (with_year initial_dts (year d)) None (is_leapyear (year d)) rest
         (Z.of_nat (length (printf_04d (year d))) + 1)).
Proof.
  intros Hy Hnat Hone Hrlen text. subst text.
  pose proof (length_printf_04d (year d) Hy) as Hylen.
  assert (Hlen : Z.of_nat (length (printf_04d (year d) ++ c_dash :: rest)) <= 127)
    by (rewrite length_app; cbn [length]; lia).
  destruct (through_year d (c_dash :: rest) Hy Hnat eq_refl Hlen)
    as (Hfirst & s1 & Hsign & Hyear).
  split; [exact Hfirst |].
  rewrite scan_fields_nested.
  rewrite (and_then_Next _ _ _ _ Hsign).
  unfold and_then at 1. rewrite Hyear.
  rewrite date_separator_reads by (first [exact Hone | lia]).
  reflexivity.
Qed.

Lemma failed_scan (host : Host) (unit : option NPY_DATETIMEUNIT) (casting : NPY_CASTING)
    (str : list Z) (e : parse_failure) :
  unit <> Some NPY_FR_GENERIC ->
  tolower (nth 0%nat str 0) = c_dash \/ isdigit (tolower (nth 0%nat str 0)) = true ->
  scan_fields (nth 0%nat str c_NUL) (start str) = goto_error e ->
  parse_iso_8601_datetime host unit casting str = Failed e.
Proof.
  intros Hunit Hfirst Hscan.
  rewrite printed_is_general_for by exact Hfirst.
  replace (match unit with Some u => unit_eqb u NPY_FR_GENERIC | None => false end)
    with false
    by (destruct unit as [[] |]; try reflexivity; contradiction Hunit; reflexivity).
  unfold parse_general. rewrite Hscan. reflexivity.
Qed.

(** X25. In a text the counter can hold, two digits outside the range of their
    field make the parse fail with that field's range error, whatever follows
    them (up to 90 bytes), for every requested unit other than generic and
    every casting rule: behind a printed year a month outside 1 to 12; behind
    a valid year and month a day below 1 or beyond the length of that month in
    that year; behind a valid date and a "T" or a space an hour of 24 or more;
    behind a valid hour a minute of 60 or more; behind a valid hour and minute
    a second of 60 or more. *)
Theorem field_out_of_range_is_refused (host : Host) (unit : option NPY_DATETIMEUNIT)
    (casting : NPY_CASTING) (d : npy_datetimestruct) (v : Z) (rest : list Z) :
  printable d -> unit <> Some NPY_FR_GENERIC ->
  0 <= v <= 99 -> Z.of_nat (length rest) <= 90 ->
  let parse := parse_iso_8601_datetime host unit casting in
  let year_text := printf_04d (year d) in
  (v < 1 \/ 12 < v ->
   parse (year_text ++ c_dash :: two_digit_text v ++ rest) = Failed (OutOfRange Month)) /\
  (v < 1 \/ _days_per_month_table (is_leapyear (year d)) (month d - 1) < v ->
   parse (year_text ++ c_dash :: two_digit_text (month d)
                    ++ c_dash :: two_digit_text v ++ rest) = Failed (OutOfRange Day)) /\
  (24 <= v ->
   forall sep, sep = c_T \/ sep = c_space ->
   parse (date_text d ++ sep :: two_digit_text v ++ rest) = Failed (OutOfRange Hours)) /\
  (60 <= v ->
   parse (date_text d ++ c_T :: two_digit_text (hour d)
                      ++ c_colon :: two_digit_text v ++ rest) =
     Failed (OutOfRange Minutes)) /\
  (60 <= v ->
   parse (date_text d ++ c_T :: two_digit_text (hour d)
                      ++ c_colon :: two_digit_text (min d)
                      ++ c_colon :: two_digit_text v ++ rest) =
     Failed (OutOfRange Seconds)).
Proof.
  intros Hd Hunit Hv Hrlen parse year_text. subst parse year_text.
  pose proof Hd as (Hcal & _ & _ & _ & Hy & Hnat).
  pose proof Hcal as (Hmonth & Hday & Hhour & Hmin & Hsec).
  destruct (consistent_ranges d Hcal) as (_ & Hday99 & _).
  pose proof (length_printf_04d (year d) Hy) as Hylen.
  repeat split.
  - (* month *)
    intros Hbad.
    destruct (year_text_scans d (two_digit_text v ++ rest) Hy Hnat)
      as [Hfirst Hscan];
      [rewrite length_app; cbn [length two_digit_text]; lia
      | rewrite length_app; cbn [length two_digit_text]; lia |].
    apply failed_scan; [exact Hunit | exact Hfirst |].
    rewrite Hscan. unfold after_year.
    apply and_then_error. apply parse_month_refuses; assumption.
  - (* day *)
    intros Hbad.
    destruct (year_text_scans d (two_digit_text (month d) ++ c_dash :: two_digit_text v ++ rest)
                Hy Hnat) as [Hfirst Hscan];
      [rewrite !length_app; cbn [length two_digit_text app]; lia
      | rewrite ?length_app; cbn [length two_digit_text app];
        rewrite ?length_app; cbn [length]; lia |].
    apply failed_scan; [exact Hunit | exact Hfirst |].
    rewrite Hscan. unfold after_year, initial_dts. fields.
    run_stage parse_month_next.
    apply and_then_error. apply parse_day_refuses; [exact Hv |].
    fields. exact Hbad.
  - (* hour *)
    intros Hbad sep Hsep.
    destruct (date_text_scans d sep (two_digit_text v ++ rest) Hd Hsep)
      as [Hfirst Hscan];
      [rewrite length_app; cbn [length two_digit_text]; lia |].
    apply failed_scan; [exact Hunit | exact Hfirst |].
    rewrite Hscan.
    apply and_then_error. apply parse_hour_refuses. lia.
  - (* minute *)
    intros Hbad.
    destruct (date_text_scans d c_T
                (two_digit_text (hour d) ++ c_colon :: two_digit_text v ++ rest)
                Hd ltac:(left; reflexivity)) as [Hfirst Hscan];
      [rewrite ?length_app; cbn [length two_digit_text app];
       rewrite ?length_app; cbn [length]; lia |].
    apply failed_scan; [exact Hunit | exact Hfirst |].
    rewrite Hscan. unfold truncate_to.
    cbv [unit_code Z.leb Z.compare Pos.compare Pos.compare_cont]. cbv beta iota zeta.
    run_stage parse_hour_next.
    apply and_then_error. apply parse_minute_refuses. lia.
  - (* second *)
    intros Hbad.
    destruct (date_text_scans d c_T
                (two_digit_text (hour d) ++ c_colon :: two_digit_text (min d)
                   ++ c_colon :: two_digit_text v ++ rest)
                Hd ltac:(left; reflexivity)) as [Hfirst Hscan];
      [rewrite ?length_app; cbn [length two_digit_text app];
       rewrite ?length_app; cbn [length two_digit_text app];
       rewrite ?length_app; cbn [length]; lia |].
    apply failed_scan; [exact Hunit | exact Hfirst |].
    rewrite Hscan. unfold truncate_to.
    cbv [unit_code Z.leb Z.compare Pos.compare Pos.compare_cont]. cbv beta iota zeta.
    run_stage parse_hour_next. run_stage parse_minute_next.
    apply and_then_error. apply parse_second_refuses. lia.
Qed.

Lemma field_out_of_range_is_refused_witness :
  let parse := parse_iso_8601_datetime example_host None NPY_SAFE_CASTING in
  let year_text := printf_04d (year (mk_dts 2010 2 28 12 30 45 0 0 0)) in
  (61 < 1 \/ 12 < 61 ->
   parse (year_text ++ c_dash :: two_digit_text 61 ++ []) = Failed (OutOfRange Month)) /\
  (61 < 1 \/ _days_per_month_table (is_leapyear (year (mk_dts 2010 2 28 12 30 45 0 0 0)))
                (month (mk_dts 2010 2 28 12 30 45 0 0 0) - 1) < 61 ->
   parse (year_text ++ c_dash :: two_digit_text (month (mk_dts 2010 2 28 12 30 45 0 0 0))
                    ++ c_dash :: two_digit_text 61 ++ []) = Failed (OutOfRange Day)) /\
  (24 <= 61 ->
   forall sep, sep = c_T \/ sep = c_space ->
   parse (date_text (mk_dts 2010 2 28 12 30 45 0 0 0) ++ sep :: two_digit_text 61 ++ []) =
     Failed (OutOfRange Hours)) /\
  (60 <= 61 ->
   parse (date_text (mk_dts 2010 2 28 12 30 45 0 0 0)
            ++ c_T :: two_digit_text (hour (mk_dts 2010 2 28 12 30 45 0 0 0))
            ++ c_colon :: two_digit_text 61 ++ []) =
     Failed (OutOfRange Minutes)) /\
  (60 <= 61 ->
   parse (date_text (mk_dts 2010 2 28 12 30 45 0 0 0)
            ++ c_T :: two_digit_text (hour (mk_dts 2010 2 28 12 30 45 0 0 0))
            ++ c_colon :: two_digit_text (min (mk_dts 2010 2 28 12 30 45 0 0 0))
            ++ c_colon :: two_digit_text 61 ++ []) =
     Failed (OutOfRange Seconds)).
Proof.
  apply (field_out_of_range_is_refused example_host None NPY_SAFE_CASTING
           (mk_dts 2010 2 28 12 30 45 0 0 0) 61 []).
  - vm_compute. repeat split; discriminate.
  - discriminate.
  - lia.
  - simpl. lia.
Defined.

Example minute_61_in_the_text :
  date_text (mk_dts 2010 2 28 12 30 45 0 0 0)
    ++ c_T :: two_digit_text 12 ++ c_colon :: two_digit_text 61 ++ [] =
    cstr "2010-02-28T12:61" /\
  parse_text example_host None NPY_SAFE_CASTING "2010-02-28T12:61" =
    Failed (OutOfRange Minutes).
Proof. split; reflexivity. Qed.
